(** * werm: the inbound frame decoder, the keystroke translator and the
      terminal filter

    A shallow embedding of [inbound.c] and of the [wts] logic of
    [session.c], with the properties of the specification that concern
    them.

    Conventions.  A C byte is a [Z] in [0, 256); an [unsigned] is a [Z]
    reduced modulo [2^32], a [size_t], [uint64_t] or [unsigned long]
    modulo [2^64] (LP64).  A fixed array is a list of the array's length,
    read with [rd] and written with stdpp's list insert.  A call that ends
    the process ([errx], [abort]) or that leaves the bounds of an array
    is an explicit [outcome]. *)

From Stdlib Require Import ZArith List Lia Bool String Ascii.
From stdpp Require Import base tactics option list.
Import ListNotations.
Local Open Scope Z_scope.

(** ** Bytes, arrays and outcomes *)

Definition bytes_of (s : string) : list Z :=
  map (fun c => Z.of_nat (nat_of_ascii c)) (list_ascii_of_string s).

Definition U32 : Z := 2 ^ 32.
Definition U64 : Z := 2 ^ 64.

(** [a[i]] for an index inside the array; callers check the bounds. *)
Definition rd (a : list Z) (i : Z) : Z := nth (Z.to_nat i) a 0.

(** [a[i] = x]. *)
Definition wr (a : list Z) (i : Z) (x : Z) : list Z := <[Z.to_nat i := x]> a.

(** [memmove(a + dst, a + src, n)] within one array. *)
Definition memmove (a : list Z) (dst src n : Z) : list Z :=
  take (Z.to_nat dst) a ++ take (Z.to_nat n) (drop (Z.to_nat src) a)
    ++ drop (Z.to_nat (dst + n)) a.

Fixpoint bytes_eqb (a b : list Z) : bool :=
  match a, b with
  | [], [] => true
  | x :: a', y :: b' => (x =? y) && bytes_eqb a' b'
  | _, _ => false
  end.

(** How a piece of code ends: it returns, the process exits ([errx],
    [abort]), or it accesses an array outside its bounds.  Each case
    carries the state reached. *)
Inductive outcome (A : Type) : Type :=
  | Done (a : A)
  | Exit (a : A)
  | Fault (a : A).
Arguments Done {A} a.
Arguments Exit {A} a.
Arguments Fault {A} a.

Definition bind {A} (m : outcome A) (k : A -> outcome A) : outcome A :=
  match m with
  | Done a => k a
  | Exit a => Exit a
  | Fault a => Fault a
  end.
Arguments bind {A} m k : simpl nomatch.

Definition state_of {A} (m : outcome A) : A :=
  match m with Done a | Exit a | Fault a => a end.

Definition is_done {A} (m : outcome A) : bool :=
  match m with Done _ => true | _ => false end.

(** ** The session state of [session.c] *)

Module Session.

(** What the process does to the outside: bytes written to a file
    descriptor (stdio output to stdout is a write to fd 1), a diagnostic
    on stderr, and a state dump to [/tmp/dump.<pid>.<seq>], recorded with
    the scalar values it prints. *)
Inductive event : Type :=
  | Write (fd : Z) (bytes : list Z)
  | Warn
  | Dump (seq e_escp e_linepos e_linesz e_escsz : Z) (e_alt e_app : bool).

(** [struct wts], the keyboard buffer [kbuf]/[kbufsz], the dump counter
    [dimp] of [dump], and the events so far, oldest first. *)
Record session : Type := {
  sendsigwin : bool;
  swrow : Z;
  swcol : Z;
  wsi : Z;
  winsize : list Z;
  escp : Z;
  linebuf : list Z;
  escbuf : list Z;
  linesz : Z;
  linepos : Z;
  escsz : Z;
  altscren : bool;
  appcursor : bool;
  rwout : bool;
  rwoutbuf : list Z;
  rwoutsz : Z;
  rwoutlen : Z;
  logfd : Z;
  rawlogfd : Z;
  kbufsz : Z;
  kbuf : list Z;
  dimp : Z;
  trace : list event
}.

Definition set_sendsigwin (v : bool) (s : session) : session :=
  {| sendsigwin := v; swrow := swrow s; swcol := swcol s; wsi := wsi s;
  winsize := winsize s; escp := escp s; linebuf := linebuf s; escbuf := escbuf
  s; linesz := linesz s; linepos := linepos s; escsz := escsz s; altscren :=
  altscren s; appcursor := appcursor s; rwout := rwout s; rwoutbuf := rwoutbuf
  s; rwoutsz := rwoutsz s; rwoutlen := rwoutlen s; logfd := logfd s; rawlogfd
  := rawlogfd s; kbufsz := kbufsz s; kbuf := kbuf s; dimp := dimp s; trace :=
  trace s |}.

Definition set_swrow (v : Z) (s : session) : session :=
  {| sendsigwin := sendsigwin s; swrow := v; swcol := swcol s; wsi := wsi s;
  winsize := winsize s; escp := escp s; linebuf := linebuf s; escbuf := escbuf
  s; linesz := linesz s; linepos := linepos s; escsz := escsz s; altscren :=
  altscren s; appcursor := appcursor s; rwout := rwout s; rwoutbuf := rwoutbuf
  s; rwoutsz := rwoutsz s; rwoutlen := rwoutlen s; logfd := logfd s; rawlogfd
  := rawlogfd s; kbufsz := kbufsz s; kbuf := kbuf s; dimp := dimp s; trace :=
  trace s |}.

Definition set_swcol (v : Z) (s : session) : session :=
  {| sendsigwin := sendsigwin s; swrow := swrow s; swcol := v; wsi := wsi s;
  winsize := winsize s; escp := escp s; linebuf := linebuf s; escbuf := escbuf
  s; linesz := linesz s; linepos := linepos s; escsz := escsz s; altscren :=
  altscren s; appcursor := appcursor s; rwout := rwout s; rwoutbuf := rwoutbuf
  s; rwoutsz := rwoutsz s; rwoutlen := rwoutlen s; logfd := logfd s; rawlogfd
  := rawlogfd s; kbufsz := kbufsz s; kbuf := kbuf s; dimp := dimp s; trace :=
  trace s |}.

Definition set_wsi (v : Z) (s : session) : session :=
  {| sendsigwin := sendsigwin s; swrow := swrow s; swcol := swcol s; wsi := v;
  winsize := winsize s; escp := escp s; linebuf := linebuf s; escbuf := escbuf
  s; linesz := linesz s; linepos := linepos s; escsz := escsz s; altscren :=
  altscren s; appcursor := appcursor s; rwout := rwout s; rwoutbuf := rwoutbuf
  s; rwoutsz := rwoutsz s; rwoutlen := rwoutlen s; logfd := logfd s; rawlogfd
  := rawlogfd s; kbufsz := kbufsz s; kbuf := kbuf s; dimp := dimp s; trace :=
  trace s |}.

Definition set_winsize (v : list Z) (s : session) : session :=
  {| sendsigwin := sendsigwin s; swrow := swrow s; swcol := swcol s; wsi :=
  wsi s; winsize := v; escp := escp s; linebuf := linebuf s; escbuf := escbuf
  s; linesz := linesz s; linepos := linepos s; escsz := escsz s; altscren :=
  altscren s; appcursor := appcursor s; rwout := rwout s; rwoutbuf := rwoutbuf
  s; rwoutsz := rwoutsz s; rwoutlen := rwoutlen s; logfd := logfd s; rawlogfd
  := rawlogfd s; kbufsz := kbufsz s; kbuf := kbuf s; dimp := dimp s; trace :=
  trace s |}.

Definition set_escp (v : Z) (s : session) : session :=
  {| sendsigwin := sendsigwin s; swrow := swrow s; swcol := swcol s; wsi :=
  wsi s; winsize := winsize s; escp := v; linebuf := linebuf s; escbuf :=
  escbuf s; linesz := linesz s; linepos := linepos s; escsz := escsz s;
  altscren := altscren s; appcursor := appcursor s; rwout := rwout s; rwoutbuf
  := rwoutbuf s; rwoutsz := rwoutsz s; rwoutlen := rwoutlen s; logfd := logfd
  s; rawlogfd := rawlogfd s; kbufsz := kbufsz s; kbuf := kbuf s; dimp := dimp
  s; trace := trace s |}.

Definition set_linebuf (v : list Z) (s : session) : session :=
  {| sendsigwin := sendsigwin s; swrow := swrow s; swcol := swcol s; wsi :=
  wsi s; winsize := winsize s; escp := escp s; linebuf := v; escbuf := escbuf
  s; linesz := linesz s; linepos := linepos s; escsz := escsz s; altscren :=
  altscren s; appcursor := appcursor s; rwout := rwout s; rwoutbuf := rwoutbuf
  s; rwoutsz := rwoutsz s; rwoutlen := rwoutlen s; logfd := logfd s; rawlogfd
  := rawlogfd s; kbufsz := kbufsz s; kbuf := kbuf s; dimp := dimp s; trace :=
  trace s |}.

Definition set_escbuf (v : list Z) (s : session) : session :=
  {| sendsigwin := sendsigwin s; swrow := swrow s; swcol := swcol s; wsi :=
  wsi s; winsize := winsize s; escp := escp s; linebuf := linebuf s; escbuf :=
  v; linesz := linesz s; linepos := linepos s; escsz := escsz s; altscren :=
  altscren s; appcursor := appcursor s; rwout := rwout s; rwoutbuf := rwoutbuf
  s; rwoutsz := rwoutsz s; rwoutlen := rwoutlen s; logfd := logfd s; rawlogfd
  := rawlogfd s; kbufsz := kbufsz s; kbuf := kbuf s; dimp := dimp s; trace :=
  trace s |}.

Definition set_linesz (v : Z) (s : session) : session :=
  {| sendsigwin := sendsigwin s; swrow := swrow s; swcol := swcol s; wsi :=
  wsi s; winsize := winsize s; escp := escp s; linebuf := linebuf s; escbuf :=
  escbuf s; linesz := v; linepos := linepos s; escsz := escsz s; altscren :=
  altscren s; appcursor := appcursor s; rwout := rwout s; rwoutbuf := rwoutbuf
  s; rwoutsz := rwoutsz s; rwoutlen := rwoutlen s; logfd := logfd s; rawlogfd
  := rawlogfd s; kbufsz := kbufsz s; kbuf := kbuf s; dimp := dimp s; trace :=
  trace s |}.

Definition set_linepos (v : Z) (s : session) : session :=
  {| sendsigwin := sendsigwin s; swrow := swrow s; swcol := swcol s; wsi :=
  wsi s; winsize := winsize s; escp := escp s; linebuf := linebuf s; escbuf :=
  escbuf s; linesz := linesz s; linepos := v; escsz := escsz s; altscren :=
  altscren s; appcursor := appcursor s; rwout := rwout s; rwoutbuf := rwoutbuf
  s; rwoutsz := rwoutsz s; rwoutlen := rwoutlen s; logfd := logfd s; rawlogfd
  := rawlogfd s; kbufsz := kbufsz s; kbuf := kbuf s; dimp := dimp s; trace :=
  trace s |}.

Definition set_escsz (v : Z) (s : session) : session :=
  {| sendsigwin := sendsigwin s; swrow := swrow s; swcol := swcol s; wsi :=
  wsi s; winsize := winsize s; escp := escp s; linebuf := linebuf s; escbuf :=
  escbuf s; linesz := linesz s; linepos := linepos s; escsz := v; altscren :=
  altscren s; appcursor := appcursor s; rwout := rwout s; rwoutbuf := rwoutbuf
  s; rwoutsz := rwoutsz s; rwoutlen := rwoutlen s; logfd := logfd s; rawlogfd
  := rawlogfd s; kbufsz := kbufsz s; kbuf := kbuf s; dimp := dimp s; trace :=
  trace s |}.

Definition set_altscren (v : bool) (s : session) : session :=
  {| sendsigwin := sendsigwin s; swrow := swrow s; swcol := swcol s; wsi :=
  wsi s; winsize := winsize s; escp := escp s; linebuf := linebuf s; escbuf :=
  escbuf s; linesz := linesz s; linepos := linepos s; escsz := escsz s;
  altscren := v; appcursor := appcursor s; rwout := rwout s; rwoutbuf :=
  rwoutbuf s; rwoutsz := rwoutsz s; rwoutlen := rwoutlen s; logfd := logfd s;
  rawlogfd := rawlogfd s; kbufsz := kbufsz s; kbuf := kbuf s; dimp := dimp s;
  trace := trace s |}.

Definition set_appcursor (v : bool) (s : session) : session :=
  {| sendsigwin := sendsigwin s; swrow := swrow s; swcol := swcol s; wsi :=
  wsi s; winsize := winsize s; escp := escp s; linebuf := linebuf s; escbuf :=
  escbuf s; linesz := linesz s; linepos := linepos s; escsz := escsz s;
  altscren := altscren s; appcursor := v; rwout := rwout s; rwoutbuf :=
  rwoutbuf s; rwoutsz := rwoutsz s; rwoutlen := rwoutlen s; logfd := logfd s;
  rawlogfd := rawlogfd s; kbufsz := kbufsz s; kbuf := kbuf s; dimp := dimp s;
  trace := trace s |}.

Definition set_rwout (v : bool) (s : session) : session :=
  {| sendsigwin := sendsigwin s; swrow := swrow s; swcol := swcol s; wsi :=
  wsi s; winsize := winsize s; escp := escp s; linebuf := linebuf s; escbuf :=
  escbuf s; linesz := linesz s; linepos := linepos s; escsz := escsz s;
  altscren := altscren s; appcursor := appcursor s; rwout := v; rwoutbuf :=
  rwoutbuf s; rwoutsz := rwoutsz s; rwoutlen := rwoutlen s; logfd := logfd s;
  rawlogfd := rawlogfd s; kbufsz := kbufsz s; kbuf := kbuf s; dimp := dimp s;
  trace := trace s |}.

Definition set_rwoutbuf (v : list Z) (s : session) : session :=
  {| sendsigwin := sendsigwin s; swrow := swrow s; swcol := swcol s; wsi :=
  wsi s; winsize := winsize s; escp := escp s; linebuf := linebuf s; escbuf :=
  escbuf s; linesz := linesz s; linepos := linepos s; escsz := escsz s;
  altscren := altscren s; appcursor := appcursor s; rwout := rwout s; rwoutbuf
  := v; rwoutsz := rwoutsz s; rwoutlen := rwoutlen s; logfd := logfd s;
  rawlogfd := rawlogfd s; kbufsz := kbufsz s; kbuf := kbuf s; dimp := dimp s;
  trace := trace s |}.

Definition set_rwoutsz (v : Z) (s : session) : session :=
  {| sendsigwin := sendsigwin s; swrow := swrow s; swcol := swcol s; wsi :=
  wsi s; winsize := winsize s; escp := escp s; linebuf := linebuf s; escbuf :=
  escbuf s; linesz := linesz s; linepos := linepos s; escsz := escsz s;
  altscren := altscren s; appcursor := appcursor s; rwout := rwout s; rwoutbuf
  := rwoutbuf s; rwoutsz := v; rwoutlen := rwoutlen s; logfd := logfd s;
  rawlogfd := rawlogfd s; kbufsz := kbufsz s; kbuf := kbuf s; dimp := dimp s;
  trace := trace s |}.

Definition set_rwoutlen (v : Z) (s : session) : session :=
  {| sendsigwin := sendsigwin s; swrow := swrow s; swcol := swcol s; wsi :=
  wsi s; winsize := winsize s; escp := escp s; linebuf := linebuf s; escbuf :=
  escbuf s; linesz := linesz s; linepos := linepos s; escsz := escsz s;
  altscren := altscren s; appcursor := appcursor s; rwout := rwout s; rwoutbuf
  := rwoutbuf s; rwoutsz := rwoutsz s; rwoutlen := v; logfd := logfd s;
  rawlogfd := rawlogfd s; kbufsz := kbufsz s; kbuf := kbuf s; dimp := dimp s;
  trace := trace s |}.

Definition set_logfd (v : Z) (s : session) : session :=
  {| sendsigwin := sendsigwin s; swrow := swrow s; swcol := swcol s; wsi :=
  wsi s; winsize := winsize s; escp := escp s; linebuf := linebuf s; escbuf :=
  escbuf s; linesz := linesz s; linepos := linepos s; escsz := escsz s;
  altscren := altscren s; appcursor := appcursor s; rwout := rwout s; rwoutbuf
  := rwoutbuf s; rwoutsz := rwoutsz s; rwoutlen := rwoutlen s; logfd := v;
  rawlogfd := rawlogfd s; kbufsz := kbufsz s; kbuf := kbuf s; dimp := dimp s;
  trace := trace s |}.

Definition set_rawlogfd (v : Z) (s : session) : session :=
  {| sendsigwin := sendsigwin s; swrow := swrow s; swcol := swcol s; wsi :=
  wsi s; winsize := winsize s; escp := escp s; linebuf := linebuf s; escbuf :=
  escbuf s; linesz := linesz s; linepos := linepos s; escsz := escsz s;
  altscren := altscren s; appcursor := appcursor s; rwout := rwout s; rwoutbuf
  := rwoutbuf s; rwoutsz := rwoutsz s; rwoutlen := rwoutlen s; logfd := logfd
  s; rawlogfd := v; kbufsz := kbufsz s; kbuf := kbuf s; dimp := dimp s; trace
  := trace s |}.

Definition set_kbufsz (v : Z) (s : session) : session :=
  {| sendsigwin := sendsigwin s; swrow := swrow s; swcol := swcol s; wsi :=
  wsi s; winsize := winsize s; escp := escp s; linebuf := linebuf s; escbuf :=
  escbuf s; linesz := linesz s; linepos := linepos s; escsz := escsz s;
  altscren := altscren s; appcursor := appcursor s; rwout := rwout s; rwoutbuf
  := rwoutbuf s; rwoutsz := rwoutsz s; rwoutlen := rwoutlen s; logfd := logfd
  s; rawlogfd := rawlogfd s; kbufsz := v; kbuf := kbuf s; dimp := dimp s;
  trace := trace s |}.

Definition set_kbuf (v : list Z) (s : session) : session :=
  {| sendsigwin := sendsigwin s; swrow := swrow s; swcol := swcol s; wsi :=
  wsi s; winsize := winsize s; escp := escp s; linebuf := linebuf s; escbuf :=
  escbuf s; linesz := linesz s; linepos := linepos s; escsz := escsz s;
  altscren := altscren s; appcursor := appcursor s; rwout := rwout s; rwoutbuf
  := rwoutbuf s; rwoutsz := rwoutsz s; rwoutlen := rwoutlen s; logfd := logfd
  s; rawlogfd := rawlogfd s; kbufsz := kbufsz s; kbuf := v; dimp := dimp s;
  trace := trace s |}.

Definition set_dimp (v : Z) (s : session) : session :=
  {| sendsigwin := sendsigwin s; swrow := swrow s; swcol := swcol s; wsi :=
  wsi s; winsize := winsize s; escp := escp s; linebuf := linebuf s; escbuf :=
  escbuf s; linesz := linesz s; linepos := linepos s; escsz := escsz s;
  altscren := altscren s; appcursor := appcursor s; rwout := rwout s; rwoutbuf
  := rwoutbuf s; rwoutsz := rwoutsz s; rwoutlen := rwoutlen s; logfd := logfd
  s; rawlogfd := rawlogfd s; kbufsz := kbufsz s; kbuf := kbuf s; dimp := v;
  trace := trace s |}.

Definition set_trace (v : list event) (s : session) : session :=
  {| sendsigwin := sendsigwin s; swrow := swrow s; swcol := swcol s; wsi :=
  wsi s; winsize := winsize s; escp := escp s; linebuf := linebuf s; escbuf :=
  escbuf s; linesz := linesz s; linepos := linepos s; escsz := escsz s;
  altscren := altscren s; appcursor := appcursor s; rwout := rwout s; rwoutbuf
  := rwoutbuf s; rwoutsz := rwoutsz s; rwoutlen := rwoutlen s; logfd := logfd
  s; rawlogfd := rawlogfd s; kbufsz := kbufsz s; kbuf := kbuf s; dimp := dimp
  s; trace := v |}.

Definition emit (e : event) (s : session) : session :=
  set_trace (trace s ++ [e]) s.

(** The bytes written to [fd], in order. *)
Fixpoint written (fd : Z) (t : list event) : list Z :=
  match t with
  | [] => []
  | Write fd' bs :: t' =>
      if fd' =? fd then bs ++ written fd t' else written fd t'
  | _ :: t' => written fd t'
  end.

(** [memset(&wts, 0, sizeof(wts))], as [testreset] does and as static
    storage starts. *)
Definition wts0 : session :=
  {| sendsigwin := false; swrow := 0; swcol := 0; wsi := 0;
     winsize := repeat 0 8; escp := 0;
     linebuf := repeat 0 1024; escbuf := repeat 0 1024;
     linesz := 0; linepos := 0; escsz := 0;
     altscren := false; appcursor := false; rwout := false;
     rwoutbuf := []; rwoutsz := 0; rwoutlen := 0;
     logfd := 0; rawlogfd := 0;
     kbufsz := 0; kbuf := repeat 0 8; dimp := 0; trace := [] |}.

(** [fullwrite]: the descriptor is taken to accept every byte. *)
Definition fullwrite (fd : Z) (bs : list Z) (s : session) : session :=
  emit (Write fd bs) s.

Definition dump (s : session) : session :=
  set_dimp ((dimp s + 1) mod U32)
    (emit (Dump (dimp s) (escp s) (linepos s) (linesz s) (escsz s)
             (altscren s) (appcursor s)) s).

(** *** The client-bound buffer *)

(** [verifyroutcap]; [realloc] is taken to succeed, and the bytes it adds
    are zero here (the code writes them before it reads them). *)
Definition verifyroutcap (needed : Z) (s : session) : session :=
  let minsz := (rwoutlen s + needed) mod U64 in
  if minsz <=? rwoutsz s then s
  else
    let sz := (minsz * 2) mod U64 in
    let sz := if sz <? 16 then 16 else sz in
    set_rwoutbuf (resize (Z.to_nat sz) 0 (rwoutbuf s)) (set_rwoutsz sz s).

(** [bf[wts.rwoutlen++] = c]. *)
Definition rout_push (c : Z) (s : session) : session :=
  set_rwoutlen ((rwoutlen s + 1) mod U64)
    (set_rwoutbuf (wr (rwoutbuf s) (rwoutlen s) c) s).

Definition putroutraw (str : list Z) (s : session) : session :=
  fold_left (fun s c => rout_push c s) str
    (verifyroutcap (Z.of_nat (length str)) s).

Definition hexdig (v : Z) : Z :=
  let v := Z.land v 15 in
  v + (if v <? 10 then 48 else 87).

Definition putrout (b : Z) (s : session) : session :=
  let s := verifyroutcap 3 s in
  let b := Z.land b 255 in
  if (b =? 92) || (b <? 32) || (b >? 126) then
    rout_push (hexdig b) (rout_push (hexdig (Z.shiftr b 4)) (rout_push 92 s))
  else rout_push b s.

(** The bytes the buffer holds for the client: [rwoutbuf[0..rwoutlen)]. *)
Definition rout (s : session) : list Z :=
  take (Z.to_nat (rwoutlen s)) (rwoutbuf s).

(** *** The terminal filter *)

(** [SAFEPTR(buf, start, regsz)] as an index into [buf]. *)
Definition SAFEPTR (size start regsz : Z) : Z := start mod (size - regsz + 1).

(** [CONSUMEESC(pref)] in continuation style: [yes] runs after the
    prefix was matched and dropped, [no] otherwise. *)
Definition CONSUMEESC (p : list Z) (s : session)
    (yes no : session -> outcome session) : outcome session :=
  let preflen := Z.of_nat (length p) in
  if 1024 <? preflen then Exit (emit Warn s)
  else if negb (escsz s =? preflen) then no s
  else if negb (bytes_eqb p (take (length p) (escbuf s))) then no s
  else yes (set_escsz 0 s).

Definition isspace (c : Z) : bool := (c =? 32) || ((9 <=? c) && (c <=? 13)).
Definition isdigit (c : Z) : bool := (48 <=? c) && (c <=? 57).

Fixpoint skip_space (l : list Z) (n : Z) : list Z * Z :=
  match l with
  | c :: l' => if isspace c then skip_space l' (n + 1) else (l, n)
  | [] => (l, n)
  end.

Fixpoint scan_digits (l : list Z) (acc n : Z) : Z * Z :=
  match l with
  | c :: l' =>
      if isdigit c then scan_digits l' (acc * 10 + (c - 48)) (n + 1)
      else (acc, n)
  | [] => (acc, n)
  end.

(** [strtoul(p, &endptr, 10)] of the C library on the bytes at [p]: the
    value and [endptr - p].  White space is skipped, a sign is accepted,
    a value that does not fit is [ULONG_MAX], and without a digit nothing
    is consumed. *)
Definition strtoul (l : list Z) : Z * Z :=
  let '(l1, nsp) := skip_space l 0 in
  let '(neg, l2, nsg) :=
    match l1 with
    | c :: r =>
        if c =? 45 then (true, r, 1)
        else if c =? 43 then (false, r, 1)
        else (false, l1, 0)
    | [] => (false, l1, 0)
    end in
  let '(v, nd) := scan_digits l2 0 0 in
  if nd =? 0 then (0, 0)
  else
    (if U64 <=? v then U64 - 1 else if neg then (- v) mod U64 else v,
     nsp + nsg + nd).

Definition deletechrahead (s : session) : outcome session :=
  if escsz s <? 4 then Done s
  else if 1024 <? escsz s then Fault s
  else if negb (rd (escbuf s) (escsz s - 1) =? 80)
          || negb (rd (escbuf s) 1 =? 91) then Done s
  else
    let '(cnt, used) := strtoul (drop 2 (escbuf s)) in
    if negb (2 + used =? escsz s - 1) then Done s
    else if linesz s <=? (linepos s + cnt) mod U64 then Done s
    else
      let sz := (linesz s - cnt) mod U32 in
      let n := (sz - linepos s) mod U32 in
      let s := set_linesz sz s in
      if 1024 <? linepos s + cnt + n then Fault s
      else
        Done (set_linebuf
                (memmove (linebuf s) (linepos s) (linepos s + cnt) n) s).

(** The effect of the final byte of [ESC [ <byte>] for an upper-case
    byte. *)
Definition csi_upper (b : Z) (s : session) : session :=
  if b =? 75 then set_linesz (linepos s) s
  else if b =? 65 then
    set_linepos (((linepos s - swcol s) mod U32) mod 1024) s
  else if b =? 67 then set_linepos ((linepos s + 1) mod U32) s
  else s.

(** The lower-case finals; [k] is the rest of the loop body. *)
Definition csi_lower (b : Z) (s : session)
    (k : session -> outcome session) : outcome session :=
  let h := b =? 104 in
  let alt := fun s =>
    Done (putroutraw (bytes_of (if h then "\s2" else "\s1"))
            (set_altscren h s)) in
  CONSUMEESC (27 :: bytes_of "[?1") s (fun s => Done (set_appcursor h s)) (fun s =>
  CONSUMEESC (27 :: bytes_of "[?47") s alt (fun s =>
  CONSUMEESC (27 :: bytes_of "[?1047") s alt (fun s =>
  CONSUMEESC (27 :: bytes_of "[?1049") s
    (fun s =>
       Done (putroutraw (bytes_of (if h then "\ss\s2\cl" else "\s1\rs"))
               (set_altscren h s)))
    (fun s =>
       if (1 <? escsz s) && (rd (escbuf s) 1 =? 91)
       then Done (set_escsz 0 s) else k s)))).

(** An ordinary byte goes to the line buffer; a full buffer or a newline
    writes the line to the text log. *)
Definition line_put (b : Z) (s : session) : outcome session :=
  let s := if b =? 10 then set_linepos (linesz s) s else s in
  if b =? 7 then Done s
  else
    let s := set_linebuf
               (wr (linebuf s) (SAFEPTR 1024 (linepos s) 1) b) s in
    let s := set_linepos ((linepos s + 1) mod U32) s in
    let s := if linesz s <? linepos s then set_linesz (linepos s) s
             else s in
    if negb (b =? 10) && (linesz s <? 1024) then Done s
    else if 1024 <? linesz s then Exit (emit Warn (dump s))
    else
      let s := if logfd s =? 0 then s
               else fullwrite (logfd s)
                      (take (Z.to_nat (linesz s)) (linebuf s)) s in
      Done (set_linepos 0 (set_linesz 0 s)).

(** The loop body of [process_tty_out] up to the label [eol]. *)
Definition line_model (b : Z) (s : session) : outcome session :=
  if b =? 13 then
    Done (set_linepos
            (if swcol s =? 0 then 0
             else linepos s - linepos s mod swcol s)
            (set_escsz 0 s))
  else if b =? 8 then
    Done (if linepos s =? 0 then s else set_linepos (linepos s - 1) s)
  else
    let s := if b =? 7 then set_escsz 0 s else s in
    let rest := fun s =>
      let lower := fun s =>
        if (b =? 27) || negb (escsz s =? 0) then
          let s := if b =? 27 then set_escsz 0 s else s in
          Done (set_escsz ((escsz s + 1) mod U32)
                  (set_escbuf
                     (wr (escbuf s) (SAFEPTR 1024 (escsz s) 1) b) s))
        else line_put b s in
      if (97 <=? b) && (b <=? 122) then csi_lower b s lower else lower s in
    if (65 <=? b) && (b <=? 90) then
      CONSUMEESC (27 :: bytes_of "[") s (fun s => Done (csi_upper b s)) rest
    else rest s.

(** One byte of terminal output: the loop body with [eol]. *)
Definition tty_byte (b : Z) (s : session) : outcome session :=
  bind (bind (line_model b s) deletechrahead)
    (fun s => Done (putrout b s)).

Fixpoint tty_bytes (buf : list Z) (s : session) : outcome session :=
  match buf with
  | [] => Done s
  | b :: buf' => bind (tty_byte b s) (tty_bytes buf')
  end.

Definition process_tty_out (buf : list Z) (s : session) : outcome session :=
  let s := set_rwoutlen 0 s in
  let s := if rawlogfd s =? 0 then s else fullwrite (rawlogfd s) buf s in
  bind (tty_bytes buf s) (fun s =>
    let s := putroutraw [10] s in
    Done (if rwout s then fullwrite 1 (rout s) s else s)).

(** *** The keystroke translator *)

(** [printf("\\%03o", c)] for a byte. *)
Definition octal3 (c : Z) : list Z :=
  [92; 48 + c / 64; 48 + (c / 8) mod 8; 48 + c mod 8].

(** [finishkbuf]: the pending key bytes go to [outfd]; for [outfd == 1]
    (the tests) they are printed as [kbd[...]] instead. *)
Definition finishkbuf (outfd : Z) (s : session) : session :=
  if kbufsz s =? 0 then s
  else
    let bs := take (Z.to_nat (kbufsz s)) (kbuf s) in
    set_kbufsz 0
      (if outfd =? 1 then
         emit (Write 1
                 (bytes_of "kbd["
                    ++ flat_map
                         (fun c => if (32 <=? c) && negb (c =? 92)
                                   then [c] else octal3 c) bs
                    ++ [93; 10])) s
       else fullwrite outfd bs s).

Definition addkeybyte (outfd c : Z) (s : session) : session :=
  let s := if kbufsz s =? 8 then finishkbuf outfd s else s in
  set_kbufsz (kbufsz s + 1) (set_kbuf (wr (kbuf s) (kbufsz s) (c mod 256)) s).

(** One [%4hu] of [sscanf]: white space is skipped, then at most [width]
    characters of an optionally signed decimal number are read; the
    value is stored in an [unsigned short].  [None] is a matching
    failure. *)
Fixpoint take_digits (width : nat) (l : list Z) (acc : Z) (n : nat)
    : Z * nat * list Z :=
  match width, l with
  | S w, c :: l' =>
      if isdigit c then take_digits w l' (acc * 10 + (c - 48)) (S n)
      else (acc, n, l)
  | _, _ => (acc, n, l)
  end.

Definition scan_hu (width : nat) (l : list Z) : option (Z * list Z) :=
  let l1 := fst (skip_space l 0) in
  let '(neg, l2, w) :=
    match width, l1 with
    | S w, c :: r =>
        if c =? 45 then (true, r, w)
        else if c =? 43 then (false, r, w)
        else (false, l1, width)
    | _, _ => (false, l1, width)
    end in
  let '(v, n, rest) := take_digits w l2 0 O in
  match n with
  | O => None
  | _ => Some ((if neg then - v else v) mod 65536, rest)
  end.

(** [wts.sendsigwin = (2 == sscanf(wts.winsize, "%4hu%4hu", &wts.swrow,
    &wts.swcol))]; the scan sees the eight bytes of [winsize], and the
    byte after them ([escp], still ['w']) ends a number. *)
Definition scan_winsize (s : session) : session :=
  match scan_hu 4 (winsize s) with
  | None => set_sendsigwin false s
  | Some (row, rest) =>
      let s := set_swrow row s in
      match scan_hu 4 rest with
      | None => set_sendsigwin false s
      | Some (col, _) => set_sendsigwin true (set_swcol col s)
      end
  end.

(** [case '1':] of [writetosubproccore], the byte after a backslash. *)
Definition escaped (outfd byte : Z) (s : session) : session :=
  let s := set_escp 0 s in
  let curs := fun c s =>
    addkeybyte outfd c
      (addkeybyte outfd (if appcursor s then 79 else 91)
         (addkeybyte outfd 27 s)) in
  if byte =? 110 then addkeybyte outfd 10 s
  else if byte =? 92 then addkeybyte outfd 92 s
  else if byte =? 119 then set_escp 119 (set_wsi 0 s)
  else if byte =? 100 then dump s
  else if byte =? 78 then s
  else if byte =? 94 then curs 65 s
  else if byte =? 118 then curs 66 s
  else if byte =? 62 then curs 67 s
  else if byte =? 60 then curs 68 s
  else if byte =? 101 then curs 70 s
  else if byte =? 104 then curs 72 s
  else emit Warn s.

(** The loop body of [writetosubproccore]. *)
Definition kbd_byte (outfd byte : Z) (s : session) : outcome session :=
  if byte =? 10 then Done s
  else if escp s =? 0 then
    Done (if byte =? 92 then set_escp 49 s else addkeybyte outfd byte s)
  else if escp s =? 49 then Done (escaped outfd byte s)
  else if escp s =? 119 then
    if 8 <=? wsi s then Fault s
    else
      let s := set_wsi ((wsi s + 1) mod U32)
                 (set_winsize (wr (winsize s) (wsi s) byte) s) in
      if negb (wsi s =? 8) then Done s
      else
        let s := scan_winsize s in
        let s := if sendsigwin s then s else emit Warn s in
        Done (set_escp 0 s)
  else Exit (emit Warn s).

Fixpoint kbd_bytes (outfd : Z) (buf : list Z) (s : session)
    : outcome session :=
  match buf with
  | [] => Done s
  | b :: buf' => bind (kbd_byte outfd b s) (kbd_bytes outfd buf')
  end.

Definition writetosubproccore (outfd : Z) (buf : list Z) (s : session)
    : outcome session :=
  if negb (kbufsz s =? 0) then Exit (emit Warn s)
  else
    bind (kbd_bytes outfd buf (set_sendsigwin false s))
      (fun s => Done (finishkbuf outfd s)).

(** *** Vocabulary of the properties *)

(** The client-bound buffer is allocated as [rwoutsz] says and holds
    [rwoutlen] bytes. *)
Definition rout_ok (s : session) : Prop :=
  0 <= rwoutlen s <= rwoutsz s /\
  length (rwoutbuf s) = Z.to_nat (rwoutsz s).

(** The lower-case hexadecimal digit of [d]. *)
Definition hexchar (d : Z) : Z :=
  nth (Z.to_nat d) (bytes_of "0123456789abcdef") 0.

(** The events a piece of code added to the trace of [s]. *)
Definition added (s : session) (r : outcome session) : list event :=
  drop (length (trace s)) (trace (state_of r)).

(** A state in which [writetosubproccore] can be entered: the key buffer
    is empty, the arrays have their sizes, and in the window-size mode
    the index is inside [winsize]. *)
Definition kbd_ready (s : session) : Prop :=
  kbufsz s = 0 /\ length (kbuf s) = 8%nat /\ length (winsize s) = 8%nat
  /\ (escp s = 119 -> 0 <= wsi s < 8).

(** Two states agree on what the translation reads: the parser mode, the
    application-cursor flag and, in the window-size mode, the digits
    gathered so far. *)
Definition kbd_agree (s1 s2 : session) : Prop :=
  escp s1 = escp s2 /\ appcursor s1 = appcursor s2
  /\ (escp s1 = 119 ->
      wsi s1 = wsi s2
      /\ take (Z.to_nat (wsi s1)) (winsize s1)
         = take (Z.to_nat (wsi s2)) (winsize s2)).

(** Two traces that extend [t1] and [t2] by the same writes. *)
Definition same_writes (t1 t2 : list event) (s1 s2 : session) : Prop :=
  exists n1 n2,
    trace s1 = t1 ++ n1 /\ trace s2 = t2 ++ n2
    /\ forall fd, written fd n1 = written fd n2.

(** What two runs of the translator on the same input keep equal; [obs]
    is the part that is observed. *)
Definition kbd_obs (t1 t2 : list event) (s1 s2 : session) : Prop :=
  sendsigwin s1 = sendsigwin s2 /\ same_writes t1 t2 s1 s2.

Definition kbd_inv (t1 t2 : list event) (s1 s2 : session) : Prop :=
  kbd_obs t1 t2 s1 s2
  /\ kbd_agree s1 s2
  /\ kbufsz s1 = kbufsz s2 /\ 0 <= kbufsz s1 <= 8
  /\ length (kbuf s1) = 8%nat /\ length (kbuf s2) = 8%nat
  /\ take (Z.to_nat (kbufsz s1)) (kbuf s1)
     = take (Z.to_nat (kbufsz s2)) (kbuf s2)
  /\ length (winsize s1) = 8%nat /\ length (winsize s2) = 8%nat
  /\ (escp s1 = 119 -> 0 <= wsi s1 < 8).

Definition outcomes_agree (P Q : session -> session -> Prop)
    (r1 r2 : outcome session) : Prop :=
  match r1, r2 with
  | Done a, Done b => P a b
  | Exit a, Exit b => Q a b
  | Fault a, Fault b => Q a b
  | _, _ => False
  end.

(** The terminal output ["abcdef\b\033[K\b\033[K\b\033[Kxyz\r\n"] of the
    tests. *)
Definition erase_input : list Z :=
  bytes_of "abcdef" ++ [8; 27] ++ bytes_of "[K" ++ [8; 27] ++ bytes_of "[K"
    ++ [8; 27] ++ bytes_of "[K" ++ bytes_of "xyz" ++ [13; 10].

(** [(linepos, linesz)] after the first [k] bytes of [buf]. *)
Definition cursor_after (buf : list Z) (s : session) (k : nat) : Z * Z :=
  let s' := state_of (tty_bytes (take k buf) s) in (linepos s', linesz s').

(** Cursor right ([ESC [ C]) 1025 times, then erase to the end of the
    line ([ESC [ K]). *)
Definition cursor_right_input : list Z :=
  concat (repeat (27 :: bytes_of "[C") 1025) ++ 27 :: bytes_of "[K".

(** An escape sequence that does not end: [ESC] and 1024 times ["0"]. *)
Definition long_escape_input : list Z := 27 :: repeat 48 1024.

Definition is_exit {A} (m : outcome A) : bool :=
  match m with Exit _ => true | _ => false end.

Definition is_fault {A} (m : outcome A) : bool :=
  match m with Fault _ => true | _ => false end.

(** The escape buffer has its size and, while the escape sequence fits
    in it, starts with [ESC]. *)
Definition esc_ok (s : session) : Prop :=
  length (escbuf s) = 1024%nat /\ 0 <= escsz s < 2 ^ 32
  /\ (0 < escsz s <= 1024 -> rd (escbuf s) 0 = 27).

(** [k] keeps [esc_ok]. *)
Definition esc_safe (k : session -> outcome session) : Prop :=
  forall s, esc_ok s -> esc_ok (state_of (k s)).

End Session.

(** ** The frame decoder of [inbound.c] *)

Module Inbound.

(** What the next [read(0, ...)] finds: nothing yet ([EAGAIN],
    [EWOULDBLOCK] or [EINTR]), bytes (a read takes at most what it asked
    for and leaves the rest; no byte at all is the end of the stream), or
    another error.  After the last event nothing arrives: a read would
    block. *)
Inductive rdev : Type :=
  | Again
  | Data (bs : list Z)
  | Err.

(** The static variables of [inbound.c], standard input, the sink [dest]
    and what was written to standard output (the pongs). *)
Record world : Type := {
  buf : list Z;
  mask : list Z;
  bfi : Z;
  bfsz : Z;
  datalen : Z;
  unmaskof : Z;
  state : Z;
  datpart : Z;
  src : list rdev;
  dest : list Z;
  stdout : list Z
}.

Definition set_buf (v : list Z) (s : world) : world :=
  {| buf := v; mask := mask s; bfi := bfi s; bfsz := bfsz s; datalen :=
  datalen s; unmaskof := unmaskof s; state := state s; datpart := datpart s;
  src := src s; dest := dest s; stdout := stdout s |}.

Definition set_mask (v : list Z) (s : world) : world :=
  {| buf := buf s; mask := v; bfi := bfi s; bfsz := bfsz s; datalen := datalen
  s; unmaskof := unmaskof s; state := state s; datpart := datpart s; src :=
  src s; dest := dest s; stdout := stdout s |}.

Definition set_bfi (v : Z) (s : world) : world :=
  {| buf := buf s; mask := mask s; bfi := v; bfsz := bfsz s; datalen :=
  datalen s; unmaskof := unmaskof s; state := state s; datpart := datpart s;
  src := src s; dest := dest s; stdout := stdout s |}.

Definition set_bfsz (v : Z) (s : world) : world :=
  {| buf := buf s; mask := mask s; bfi := bfi s; bfsz := v; datalen := datalen
  s; unmaskof := unmaskof s; state := state s; datpart := datpart s; src :=
  src s; dest := dest s; stdout := stdout s |}.

Definition set_datalen (v : Z) (s : world) : world :=
  {| buf := buf s; mask := mask s; bfi := bfi s; bfsz := bfsz s; datalen := v;
  unmaskof := unmaskof s; state := state s; datpart := datpart s; src := src
  s; dest := dest s; stdout := stdout s |}.

Definition set_unmaskof (v : Z) (s : world) : world :=
  {| buf := buf s; mask := mask s; bfi := bfi s; bfsz := bfsz s; datalen :=
  datalen s; unmaskof := v; state := state s; datpart := datpart s; src := src
  s; dest := dest s; stdout := stdout s |}.

Definition set_state (v : Z) (s : world) : world :=
  {| buf := buf s; mask := mask s; bfi := bfi s; bfsz := bfsz s; datalen :=
  datalen s; unmaskof := unmaskof s; state := v; datpart := datpart s; src :=
  src s; dest := dest s; stdout := stdout s |}.

Definition set_datpart (v : Z) (s : world) : world :=
  {| buf := buf s; mask := mask s; bfi := bfi s; bfsz := bfsz s; datalen :=
  datalen s; unmaskof := unmaskof s; state := state s; datpart := v; src :=
  src s; dest := dest s; stdout := stdout s |}.

Definition set_src (v : list rdev) (s : world) : world :=
  {| buf := buf s; mask := mask s; bfi := bfi s; bfsz := bfsz s; datalen :=
  datalen s; unmaskof := unmaskof s; state := state s; datpart := datpart s;
  src := v; dest := dest s; stdout := stdout s |}.

Definition set_dest (v : list Z) (s : world) : world :=
  {| buf := buf s; mask := mask s; bfi := bfi s; bfsz := bfsz s; datalen :=
  datalen s; unmaskof := unmaskof s; state := state s; datpart := datpart s;
  src := src s; dest := v; stdout := stdout s |}.

Definition set_stdout (v : list Z) (s : world) : world :=
  {| buf := buf s; mask := mask s; bfi := bfi s; bfsz := bfsz s; datalen :=
  datalen s; unmaskof := unmaskof s; state := state s; datpart := datpart s;
  src := src s; dest := dest s; stdout := v |}.

Definition pongmsg : list Z := [138; 0].

(** The state tags: ['P'], [0], ['L'], ['X'], ['Y'], ['M'], ['D']. *)
Definition sP : Z := 80.
Definition sH : Z := 0.
Definition sL : Z := 76.
Definition sX : Z := 88.
Definition sY : Z := 89.
Definition sM : Z := 77.
Definition sD : Z := 68.

Definition init (evs : list rdev) : world :=
  {| buf := repeat 0 512; mask := repeat 0 4; bfi := 0; bfsz := 0;
     datalen := 0; unmaskof := 0; state := 0; datpart := 0;
     src := evs; dest := []; stdout := [] |}.

Inductive readres : Type :=
  | RAgain
  | RFail
  | RBytes (bs : list Z).

(** [read(0, p, cap)]. *)
Definition read0 (cap : Z) (w : world) : readres * world :=
  match src w with
  | [] => (RAgain, w)
  | Again :: r => (RAgain, set_src r w)
  | Err :: r => (RFail, set_src r w)
  | Data bs :: r =>
      if Z.of_nat (length bs) <=? cap then (RBytes bs, set_src r w)
      else (RBytes (take (Z.to_nat cap) bs),
            set_src (Data (drop (Z.to_nat cap) bs) :: r) w)
  end.

(** Bytes [bs] stored at [a + at]. *)
Definition store (a : list Z) (at_ : Z) (bs : list Z) : list Z :=
  take (Z.to_nat at_) a ++ bs ++ drop (Z.to_nat at_ + length bs) a.

(** What [mkeaval] answers: the bytes are there (1), the read would
    block (0), or the process aborted. *)
Inductive avail : Type :=
  | Ready (w : world)
  | WouldBlock (w : world)
  | Aborted (w : world).

(** The [do ... while (bfsz < c)] loop of [mkeaval]; [None] when the
    fuel runs out. *)
Fixpoint refill (fuel : nat) (c : Z) (w : world) : option avail :=
  match fuel with
  | O => None
  | S fuel' =>
      match read0 (512 - bfsz w) w with
      | (RAgain, w) => Some (WouldBlock w)
      | (RFail, w) => Some (Aborted w)
      | (RBytes bs, w) =>
          if Z.of_nat (length bs) =? 0 then Some (Aborted w)
          else
            let w := set_bfsz (bfsz w + Z.of_nat (length bs))
                       (set_buf (store (buf w) (bfsz w) bs) w) in
            if bfsz w <? c then refill fuel' c w else Some (Ready w)
      end
  end.

Definition mkeaval (fuel : nat) (c : Z) (w : world) : option avail :=
  let bleft := (bfsz w - bfi w) mod U32 in
  if (c <? 0) || (512 <? c) then Some (Aborted w)
  else if c <=? bleft then Some (Ready w)
  else
    refill fuel c
      (set_bfi 0 (set_buf (memmove (buf w) 0 (bfi w) bleft)
                    (set_bfsz bleft w))).

(** How one pass through the [switch] ends: [continue] (or falling to
    the next label), [return], or [abort]. *)
Inductive stepres : Type :=
  | Next (w : world)
  | Ret (w : world)
  | Abort (w : world).

(** [if ( !(bfc = forceinby(c)) ) return;] followed by [k], which gets
    the offset of [bfc] in [buf]. *)
Definition forceinby (fuel : nat) (c : Z) (w : world)
    (k : Z -> world -> stepres) : option stepres :=
  match mkeaval fuel c w with
  | None => None
  | Some (WouldBlock w) => Some (Ret w)
  | Some (Aborted w) => Some (Abort w)
  | Some (Ready w) => Some (k (bfi w) (set_bfi ((bfi w + c) mod U32) w))
  end.

(** [ntohs]/[ntohl] of bytes copied from the buffer: the big-endian
    value. *)
Definition ntoh (bs : list Z) : Z :=
  fold_left (fun acc b => acc * 256 + b) bs 0.

(** The head of [while (datalen)]: the next slice, or [state = 0]. *)
Definition enter_data (w : world) : world :=
  if datalen w =? 0 then set_state sH w
  else set_state sD (set_datpart (Z.min 512 (datalen w)) w).

(** The [for] loop that unmasks [n] bytes from [bfc + i] on. *)
Fixpoint unmask (n : nat) (bfc i : Z) (w : world) : world :=
  match n with
  | O => w
  | S n' =>
      let w := set_buf
                 (wr (buf w) (bfc + i)
                    (Z.lxor (rd (buf w) (bfc + i))
                       (rd (mask w) (unmaskof w)))) w in
      let w := set_unmaskof (Z.land (unmaskof w + 1) 3) w in
      unmask n' bfc (i + 1) w
  end.

(** Modelled from the spec: [fdb_apnd] ([outstreams.h] is not part of the
    sources at hand) appends [len] bytes to the sink. *)
Definition fdb_apnd (bs : list Z) (w : world) : world :=
  set_dest (dest w ++ bs) w.

(** Modelled from the spec: [full_write] to standard output
    ([outstreams.h]) writes all the bytes. *)
Definition full_write (bs : list Z) (w : world) : world :=
  set_stdout (stdout w ++ bs) w.

Definition slice (a : list Z) (off n : Z) : list Z :=
  take (Z.to_nat n) (drop (Z.to_nat off) a).

(** [case 0:] *)
Definition do_header (fuel : nat) (w : world) : option stepres :=
  forceinby fuel 1 (set_state sH w) (fun bfc w =>
    let b := Z.land (rd (buf w) bfc) 127 in
    let w := set_buf (wr (buf w) bfc b) w in
    Next (set_state
            (if (b =? 0) || (b =? 1) || (b =? 2) then sL
             else if b =? 9 then sP else sH) w)).

(** One pass through [switch (state)]. *)
Definition step (fuel : nat) (w : world) : option stepres :=
  if state w =? sP then do_header fuel (full_write pongmsg w)
  else if state w =? sH then do_header fuel w
  else if state w =? sL then
    forceinby fuel 1 (set_state sL w) (fun bfc w =>
      let b := rd (buf w) bfc in
      let w := set_datalen (Z.land b 127) w in
      if Z.land b 128 =? 0 then Abort w
      else if datalen w =? 126 then Next (set_state sX w)
      else if datalen w =? 127 then Next (set_state sY w)
      else Next (set_state sM w))
  else if state w =? sX then
    forceinby fuel 2 (set_state sX w) (fun bfc w =>
      Next (set_state sM (set_datalen (ntoh (slice (buf w) bfc 2)) w)))
  else if state w =? sY then
    forceinby fuel 8 (set_state sY w) (fun bfc w =>
      let hi := (ntoh (slice (buf w) bfc 4) * 2 ^ 32) mod U64 in
      let lo := ntoh (slice (buf w) (bfc + 4) 4) in
      Next (set_state sM (set_datalen (Z.lor hi lo) w)))
  else if state w =? sM then
    forceinby fuel 4 (set_state sM w) (fun bfc w =>
      Next (enter_data
              (set_unmaskof 0 (set_mask (slice (buf w) bfc 4) w))))
  else if state w =? sD then
    forceinby fuel (datpart w) (set_state sD w) (fun bfc w =>
      let w := unmask (Z.to_nat (datpart w)) bfc 0 w in
      let w := fdb_apnd (slice (buf w) bfc (datpart w)) w in
      Next (enter_data
              (set_datalen ((datalen w - datpart w) mod U64) w)))
  else Some (Next w).

(** [for (;;) switch (state) ...]; [None] when the fuel runs out. *)
Fixpoint loop (fuel : nat) (w : world) : option (outcome world) :=
  match fuel with
  | O => None
  | S fuel' =>
      match step fuel' w with
      | None => None
      | Some (Next w) => loop fuel' w
      | Some (Ret w) => Some (Done w)
      | Some (Abort w) => Some (Exit w)
      end
  end.

Definition fwrd_inbound_frames (fuel : nat) (w : world)
    : option (outcome world) :=
  if (state w =? 0) && negb (bfi w =? bfsz w) then Some (Exit w)
  else loop fuel w.

(** The caller's loop: [calls] successive calls. *)
Fixpoint attach (calls fuel : nat) (w : world) : option (outcome world) :=
  match calls with
  | O => Some (Done w)
  | S calls' =>
      match fwrd_inbound_frames fuel w with
      | Some (Done w) => attach calls' fuel w
      | r => r
      end
  end.

(** *** Frames on the wire *)

(** A client frame as it is sent: the first byte, the form of the
    length, the masking key and the masked payload bytes. *)
Inductive lenform : Type := Len7 | Len16 | Len64.

Record frame : Type := {
  fhdr : Z;
  fform : lenform;
  fmask : list Z;
  fdata : list Z
}.

(** [n] as [k] big-endian bytes. *)
Fixpoint be (k : nat) (n : Z) : list Z :=
  match k with
  | O => []
  | S k' => be k' (n / 256) ++ [n mod 256]
  end.

Definition lenbytes (f : frame) : list Z :=
  let n := Z.of_nat (length (fdata f)) in
  match fform f with
  | Len7 => [128 + n]
  | Len16 => 254 :: be 2 n
  | Len64 => 255 :: be 8 n
  end.

Definition wire (f : frame) : list Z :=
  fhdr f :: lenbytes f ++ fmask f ++ fdata f.

Definition is_byte (b : Z) : Prop := 0 <= b < 256.

(** A masked data frame whose reserved bits are clear: the header byte
    without its FIN bit ([fhdr & 0x7f], which holds RSV1-3 and the opcode)
    is 0, 1 or 2, as the [switch] of inbound.c:83-91 tests it; a length
    that fits its form, a key of four bytes.  A data frame with a reserved
    bit set is not of this kind. *)
Definition data_frame (f : frame) : Prop :=
  is_byte (fhdr f) /\
  (Z.land (fhdr f) 127 = 0 \/ Z.land (fhdr f) 127 = 1
   \/ Z.land (fhdr f) 127 = 2) /\
  match fform f with
  | Len7 => Z.of_nat (length (fdata f)) < 126
  | Len16 => Z.of_nat (length (fdata f)) < 2 ^ 16
  | Len64 => Z.of_nat (length (fdata f)) < 2 ^ 64
  end /\
  length (fmask f) = 4%nat /\
  Forall is_byte (fmask f) /\ Forall is_byte (fdata f).

(** Unmask: payload byte [i] is XORed with [mask[i mod 4]]; [k] is the
    offset of the first byte of [bs] in the payload. *)
Fixpoint unmask_from (m : list Z) (k : Z) (bs : list Z) : list Z :=
  match bs with
  | [] => []
  | b :: bs' => Z.lxor b (rd m (k mod 4)) :: unmask_from m (k + 1) bs'
  end.

Definition payload (f : frame) : list Z := unmask_from (fmask f) 0 (fdata f).

(** The bytes the events deliver, and a split of a byte stream into
    reads: no read is empty (that is the end of the stream) and none
    fails. *)
Fixpoint data_of (evs : list rdev) : list Z :=
  match evs with
  | [] => []
  | Data bs :: r => bs ++ data_of r
  | _ :: r => data_of r
  end.

Fixpoint chunking (evs : list rdev) : Prop :=
  match evs with
  | [] => True
  | Again :: r => chunking r
  | Data bs :: r => bs <> [] /\ chunking r
  | Err :: r => False
  end.

Fixpoint agains (evs : list rdev) : nat :=
  match evs with
  | [] => O
  | Again :: r => S (agains r)
  | _ :: r => agains r
  end.

(** Bytes and events still to come: a bound on the work left. *)
Fixpoint weight (evs : list rdev) : nat :=
  match evs with
  | [] => O
  | Data bs :: r => S (length bs + weight r)
  | _ :: r => S (weight r)
  end.

(** *** Vocabulary of the properties *)

(** The bytes read and not yet consumed, [buf[bfi..bfsz)], and all the
    bytes still to be consumed. *)
Definition live (w : world) : list Z :=
  slice (buf w) (bfi w) (bfsz w - bfi w).

Definition pending (w : world) : list Z := live w ++ data_of (src w).

Definition buf_ok (w : world) : Prop :=
  length (buf w) = 512%nat /\ 0 <= bfi w <= bfsz w /\ bfsz w <= 512.

(** The events after the first would-block. *)
Fixpoint after_again (evs : list rdev) : list rdev :=
  match evs with
  | [] => []
  | Again :: r => r
  | _ :: r => after_again r
  end.

Definition wires (fs : list frame) : list Z := concat (map wire fs).
Definition payloads (fs : list frame) : list Z := concat (map payload fs).

(** The bytes the decoder waits for in its state. *)
Definition need (w : world) : Z :=
  if state w =? sX then 2
  else if state w =? sY then 8
  else if state w =? sM then 4
  else if state w =? sD then datpart w
  else 1.

(** The decoder has returned for lack of input. *)
Definition blocked (w : world) : Prop :=
  Z.of_nat (length (live w)) < need w.

(** In the state of [w], the byte stream [stream] is a stream of data
    frames from the point the decoder is at, and [out] is what remains to
    be delivered of their payloads. *)
Definition expects (w : world) (stream out : list Z) : Prop :=
  if state w =? sH then
    exists fs, Forall data_frame fs
      /\ stream = wires fs /\ out = payloads fs
  else if state w =? sL then
    exists f fs, data_frame f /\ Forall data_frame fs
      /\ stream = lenbytes f ++ fmask f ++ fdata f ++ wires fs
      /\ out = payload f ++ payloads fs
  else if state w =? sX then
    exists f fs, data_frame f /\ Forall data_frame fs
      /\ fform f = Len16
      /\ stream = be 2 (Z.of_nat (length (fdata f)))
                    ++ fmask f ++ fdata f ++ wires fs
      /\ out = payload f ++ payloads fs
  else if state w =? sY then
    exists f fs, data_frame f /\ Forall data_frame fs
      /\ fform f = Len64
      /\ stream = be 8 (Z.of_nat (length (fdata f)))
                    ++ fmask f ++ fdata f ++ wires fs
      /\ out = payload f ++ payloads fs
  else if state w =? sM then
    exists f fs, data_frame f /\ Forall data_frame fs
      /\ datalen w = Z.of_nat (length (fdata f))
      /\ stream = fmask f ++ fdata f ++ wires fs
      /\ out = payload f ++ payloads fs
  else if state w =? sD then
    exists rem fs, Forall data_frame fs
      /\ datalen w = Z.of_nat (length rem) /\ 0 < datalen w < 2 ^ 64
      /\ datpart w = Z.min 512 (datalen w)
      /\ 0 <= unmaskof w < 4
      /\ stream = rem ++ wires fs
      /\ out = unmask_from (mask w) (unmaskof w) rem ++ payloads fs
  else False.

(** The decoder is at a point of a stream of data frames that delivers
    [final] in the end. *)
Definition decoding (final : list Z) (w : world) : Prop :=
  buf_ok w /\ chunking (src w)
  /\ exists out, expects w (pending w) out /\ final = dest w ++ out.

(** A bound on the passes of the loop that are left. *)
Definition work (w : world) : nat :=
  (length (live w) + weight (src w))%nat.

(** The registers a read leaves alone. *)
Definition same_regs (w w' : world) : Prop :=
  mask w' = mask w /\ datalen w' = datalen w /\ unmaskof w' = unmaskof w
  /\ state w' = state w /\ datpart w' = datpart w /\ dest w' = dest w
  /\ stdout w' = stdout w.

(** A pass of the loop at a point of a stream of data frames: it goes on
    with less work left, or it returns for lack of input, having taken
    the input up to the first would-block. *)
Definition advances (final : list Z) (w : world) (r : option stepres)
    : Prop :=
  (exists w', r = Some (Next w') /\ decoding final w'
     /\ (work w' < work w)%nat
     /\ after_again (src w') = after_again (src w)
     /\ stdout w' = stdout w)
  \/ (exists w', r = Some (Ret w') /\ decoding final w' /\ blocked w'
        /\ src w' = after_again (src w) /\ stdout w' = stdout w
        /\ (work w' <= work w)%nat).

(** The decoder is at rest: [fwrd_inbound_frames] can be entered. *)
Definition resting (w : world) : Prop := state w = 0 -> bfi w = bfsz w.

(** The events left after [n] calls. *)
Fixpoint after_calls (n : nat) (evs : list rdev) : list rdev :=
  match n with
  | O => evs
  | S n' => after_calls n' (after_again evs)
  end.

(** The world [w] with more input behind its own: a would-block, then
    the events [t]. *)
Definition more (t : list rdev) (w : world) : world :=
  set_src (src w ++ Again :: t) w.

(** A continuation of [forceinby] that does not look at the input. *)
Definition tail_blind (k : Z -> world -> stepres) : Prop :=
  forall t bfc w,
    match k bfc w with
    | Next w' => k bfc (more t w) = Next (more t w') /\ src w' = src w
    | Ret _ => False
    | Abort _ => True
    end.

End Inbound.

(** ** The keyboard side of [session.c], continued *)

Module Keys.
Import Session.

(** [process_kbd]: the translation, then [ioctl(ptyfd, TIOCSWINSZ, &ws)]
    when a window size was read.  The request is returned as
    [(ws_row, ws_col)]; [ioctl_ok] tells whether the system accepts it. *)
Definition process_kbd (ioctl_ok : bool) (ptyfd : Z) (buf : list Z)
    (s : session) : outcome session * option (Z * Z) :=
  match writetosubproccore ptyfd buf s with
  | Done s' =>
      if sendsigwin s' then
        (Done (if ioctl_ok then s' else emit Warn s'),
         Some (swrow s', swcol s'))
      else (Done s', None)
  | r => (r, None)
  end.

(** *** Vocabulary of the properties *)

(** The key bytes that wait in [kbuf], and the bytes that went to [fd]
    or wait for it. *)
Definition pending_keys (s : session) : list Z :=
  take (Z.to_nat (kbufsz s)) (kbuf s).

Definition sent (fd : Z) (s : session) : list Z :=
  written fd (trace s) ++ pending_keys s.

(** The parser is in one of its modes: raw, after a backslash, or inside
    a window size. *)
Definition kbd_mode (s : session) : Prop :=
  escp s = 0 \/ escp s = 49 \/ (escp s = 119 /\ 0 <= wsi s < 8).

Definition kbd_buffers (s : session) : Prop :=
  0 <= kbufsz s <= 8 /\ length (kbuf s) = 8%nat
  /\ length (winsize s) = 8%nat.

(** The state without what is in the key buffer, the trace and
    [sendsigwin]. *)
Definition kbd_core (s : session) : session :=
  set_kbuf (repeat 0 8)
    (set_kbufsz 0 (set_trace [] (set_sendsigwin false s))).

(** Two runs of the translator of which one may have written what the
    other still holds in the key buffer. *)
Definition kbd_lag (fd : Z) (s1 s2 : session) : Prop :=
  kbd_core s1 = kbd_core s2 /\ sent fd s1 = sent fd s2
  /\ kbd_buffers s1 /\ kbd_buffers s2 /\ kbd_mode s1.

(** The part of the state that belongs to the translator, and the part
    that belongs to the terminal filter. *)
Definition kbd_part (s : session)
    : bool * Z * Z * Z * list Z * Z * Z * list Z :=
  (sendsigwin s, swrow s, swcol s, wsi s, winsize s, escp s, kbufsz s,
   kbuf s).

Definition tty_part (s : session)
    : list Z * list Z * Z * Z * Z * bool * bool
      * (bool * list Z * Z * Z * Z * Z) :=
  (linebuf s, escbuf s, linesz s, linepos s, escsz s, altscren s,
   appcursor s,
   (rwout s, rwoutbuf s, rwoutsz s, rwoutlen s, logfd s, rawlogfd s)).

(** The escaping under which a client sends a byte: a line feed as
    backslash and [n], a backslash doubled, any other byte as it is. *)
Definition kbd_escape (b : Z) : list Z :=
  if b =? 10 then [92; 110]
  else if b =? 92 then [92; 92]
  else [b].

(** The cursor keys: the byte after the backslash and the final byte of
    the sequence sent to the terminal ([^ v > <], end, home). *)
Definition cursor_keys : list (Z * Z) :=
  [(94, 65); (118, 66); (62, 67); (60, 68); (101, 70); (104, 72)].

(** The window-size sequence for four digits of rows and four of
    columns. *)
Definition winsize_seq (ds : list Z) : list Z :=
  92 :: 119 :: map (fun d => 48 + d) ds.

End Keys.

(** ** The terminal side of [session.c], continued *)

Module Tty.
Import Session.

(** [recount_state]: the screen in use, for a client that attaches. *)
Definition recount_state (fd : Z) (s : session) : session :=
  fullwrite fd (bytes_of (if altscren s then "\s2" else "\s1")) s.

(** Successive calls of [process_tty_out], one for each piece of
    output. *)
Fixpoint tty_calls (bufs : list (list Z)) (s : session) : outcome session :=
  match bufs with
  | [] => Done s
  | buf :: r => bind (process_tty_out buf s) (tty_calls r)
  end.

(** *** Vocabulary of the properties *)

(** The state without the client-bound buffer. *)
Definition no_rout (s : session) : session :=
  set_rwoutbuf [] (set_rwoutsz 0 (set_rwoutlen 0 s)).

(** The state of the filter proper: without the client-bound buffer and
    without the events so far. *)
Definition tty_core (s : session) : session := set_trace [] (no_rout s).

Definition core_of (r : outcome session) : outcome session :=
  match r with
  | Done s => Done (tty_core s)
  | Exit s => Exit (tty_core s)
  | Fault s => Fault (tty_core s)
  end.

(** Two runs of the same code, from [x] and from [y], that end alike:
    with the same verdict, the same state of the filter, and the same
    events added. *)
Definition alike (x y : session) (r1 r2 : outcome session) : Prop :=
  core_of r1 = core_of r2
  /\ exists n, trace (state_of r1) = trace x ++ n
             /\ trace (state_of r2) = trace y ++ n.

Definition core_fn (k : session -> outcome session) : Prop :=
  forall x y, tty_core x = tty_core y -> alike x y (k x) (k y).

(** What the raw log gets of the bytes [bs] of a call, seen from the
    descriptor [fd]. *)
Definition rawpart (fd : Z) (s : session) (bs : list Z) : list Z :=
  if rawlogfd s =? 0 then [] else if rawlogfd s =? fd then bs else [].

(** The modes that the filter follows: the screen in use and the cursor
    key mode. *)
Definition modes (s : session) : bool * bool := (altscren s, appcursor s).

(** The line for the text log as the state holds it, and a step that
    leaves the line, the trace and the modes as they are. *)
Definition line_part (s : session) : list Z * Z * Z :=
  (linebuf s, linesz s, linepos s).

Definition quiet (s s' : session) : Prop :=
  line_part s' = line_part s /\ trace s' = trace s /\ modes s' = modes s.

(** What the terminal filter leaves alone: the translator's part of the
    state and the descriptors; and it writes to the text log only. *)
Definition tty_frame (s s' : session) : Prop :=
  Keys.kbd_part s' = Keys.kbd_part s
  /\ logfd s' = logfd s /\ rawlogfd s' = rawlogfd s /\ rwout s' = rwout s
  /\ exists n, trace s' = trace s ++ n
       /\ forall fd, fd <> logfd s -> written fd n = [].

Definition tty_frames (k : session -> outcome session) : Prop :=
  forall s, tty_frame s (state_of (k s)).

(** The line gathered for the text log is [L], with the cursor at
    [p]. *)
Definition line_is (L : list Z) (p : Z) (s : session) : Prop :=
  length (linebuf s) = 1024%nat /\ linesz s = Z.of_nat (length L)
  /\ linepos s = p /\ take (length L) (linebuf s) = L.

(** The escape buffer holds the bytes [e] of an unfinished sequence;
    [e = []] is the case of no sequence. *)
Definition in_escape (e : list Z) (s : session) : Prop :=
  length (escbuf s) = 1024%nat /\ escsz s = Z.of_nat (length e)
  /\ take (length e) (escbuf s) = e.

(** The filter is between sequences, with the line [L] and the cursor at
    [p]; and a step that logs nothing and keeps the modes. *)
Definition at_line (L : list Z) (p : Z) (s : session) : Prop :=
  line_is L p s /\ in_escape [] s.

Definition calm (s s' : session) : Prop :=
  trace s' = trace s /\ modes s' = modes s.

Definition is_upper (b : Z) : Prop := 65 <= b <= 90.
Definition is_lower (b : Z) : Prop := 97 <= b <= 122.

(** A byte that an unfinished escape sequence [e] takes in: not one of
    carriage return, backspace, bell and [ESC], and not a letter when
    the sequence started with [ESC []. *)
Definition passive (e : list Z) (b : Z) : Prop :=
  b <> 13 /\ b <> 8 /\ b <> 7 /\ b <> 27
  /\ (nth 1 e 0 <> 91 \/ (~ is_upper b /\ ~ is_lower b)).

(** The sequences before a final [h] or [l] that set a mode: the cursor
    keys and the three forms of the alternate screen. *)
Definition mode_prefixes : list (list Z) :=
  [27 :: bytes_of "[?1"; 27 :: bytes_of "[?47"; 27 :: bytes_of "[?1047";
   27 :: bytes_of "[?1049"].


(** Escape sequences that the filter passes over: [ESC], a byte other
    than the bracket, any bytes and the bell (a window title, say); and
    [ESC []], bytes that are not letters and a lower-case letter (a
    colour, say).  The bytes inside are not carriage return, backspace,
    bell or [ESC]. *)
Definition inner (b : Z) : Prop := b <> 13 /\ b <> 8 /\ b <> 7 /\ b <> 27.

Inductive passed_over : list Z -> Prop :=
  | po_bell k body :
      inner k -> k <> 91 -> Forall inner body ->
      Z.of_nat (length body) <= 1022 ->
      passed_over (27 :: k :: body ++ [7])
  | po_csi params f :
      Forall (fun b => inner b /\ ~ is_upper b /\ ~ is_lower b) params ->
      is_lower f -> Z.of_nat (length params) <= 1022 ->
      passed_over (27 :: 91 :: params ++ [f]).

(** A byte of text for the line: printable or above, not a control
    byte. *)
Definition is_text (b : Z) : Prop := 32 <= b < 256.

(** A parameter of an escape sequence: decimal digits and the number
    they stand for; and the sequence that deletes characters ahead of
    the cursor, [ESC [ <digits> P]. *)
Definition digit (d : Z) : Prop := 0 <= d <= 9.

Definition number (ds : list Z) : Z :=
  fold_left (fun a d => a * 10 + d) ds 0.

Definition delete_seq (ds : list Z) : list Z :=
  27 :: 91 :: map (fun d => 48 + d) ds ++ [80].

(** The encoding that [putrout] gives one byte of terminal output. *)
Definition enc (b : Z) : list Z :=
  if (b =? 92) || (b <? 32) || (b >? 126)
  then [92; hexchar (b / 16); hexchar (b mod 16)] else [b].

(** Modelled from the spec: the client is not part of the sources at
    hand.  It reads the stream of a call as the format of [putrout] and
    [putroutraw] lays it out: a backslash starts a token of three bytes,
    which stands for a byte when the other two are hexadecimal digits
    and is a signal otherwise; any other byte stands for itself; a line
    feed ends the stream of the call. *)
Definition hexval (c : Z) : option Z :=
  if (48 <=? c) && (c <=? 57) then Some (c - 48)
  else if (97 <=? c) && (c <=? 102) then Some (c - 87)
  else None.

Fixpoint client_bytes (fuel : nat) (l : list Z) : list Z :=
  match fuel with
  | O => []
  | S fuel' =>
      match l with
      | [] => []
      | c :: r =>
          if c =? 10 then []
          else if c =? 92 then
            match r with
            | h :: d :: r' =>
                match hexval h, hexval d with
                | Some x, Some y => 16 * x + y :: client_bytes fuel' r'
                | _, _ => client_bytes fuel' r'
                end
            | _ => []
            end
          else c :: client_bytes fuel' r
      end
  end.

Definition client_reads (l : list Z) : list Z :=
  client_bytes (S (length l)) l.

(** The signals that [process_tty_out] puts into the stream when the
    screen changes. *)
Definition screen_signals : list (list Z) :=
  [bytes_of "\s2"; bytes_of "\s1"; bytes_of "\ss\s2\cl"; bytes_of "\s1\rs"].

(** The client-bound buffer as a whole, and the bound within which it
    is allocated. *)
Definition rtriple (s : session) : list Z * Z * Z :=
  (rwoutbuf s, rwoutsz s, rwoutlen s).

Definition rout_within (B : Z) (s : session) : Prop :=
  rout_ok s /\ rwoutsz s <= Z.max B (Z.max 16 (2 * rwoutlen s + 4)).

(** A piece of the stream that a client reads as the bytes [bs],
    whatever follows it. *)
Definition decodes_to (piece bs : list Z) : Prop :=
  forall rest, client_reads (piece ++ rest) = bs ++ client_reads rest.

(** What a step of the filter does to the client-bound buffer: nothing,
    or it appends one of the signals. *)
Definition rstep (s s1 : session) : Prop :=
  rtriple s1 = rtriple s
  \/ exists str s0, In str screen_signals /\ rtriple s0 = rtriple s
        /\ rtriple s1 = rtriple (putroutraw str s0).

Definition rframes (k : session -> outcome session) : Prop :=
  forall s, rstep s (state_of (k s)).

(** The client-bound stream for the bytes [bs], where [sigs] gives what
    is put before the encoding of each byte. *)
Fixpoint stream (sigs : list (list Z)) (bs : list Z) : list Z :=
  match sigs, bs with
  | sg :: sigs', b :: bs' => sg ++ enc b ++ stream sigs' bs'
  | _, _ => []
  end.

Definition signal_or_none (sg : list Z) : Prop :=
  sg = [] \/ In sg screen_signals.

End Tty.

(** ** The decoder of [inbound.c] on the bytes themselves *)

Module Decoder.
Import Session Inbound.

(** The registers of the decoder and its two outputs: the world without
    the buffer and without the input. *)
Definition regs (w : world) : world :=
  set_src [] (set_bfsz 0 (set_bfi 0 (set_buf [] w))).

(** One pass through [switch (state)] when the bytes are taken from the
    stream [inp] itself, the bytes still to be consumed, instead of
    [buf]: the pass goes on, waits for bytes that are not there, or
    aborts.  The pong of [case 'P'] is a pass of its own here. *)
Inductive dres : Type :=
  | DNext (a : world) (inp : list Z)
  | DWait
  | DAbort (a : world).

Definition dtake (c : Z) (inp : list Z)
    (k : list Z -> list Z -> dres) : dres :=
  if Z.of_nat (length inp) <? c then DWait
  else k (take (Z.to_nat c) inp) (drop (Z.to_nat c) inp).

Definition dstep (a : world) (inp : list Z) : dres :=
  if state a =? sP then DNext (set_state sH (full_write pongmsg a)) inp
  else if state a =? sH then
    dtake 1 inp (fun bs rest =>
      let b := Z.land (nth 0 bs 0) 127 in
      DNext (set_state
               (if (b =? 0) || (b =? 1) || (b =? 2) then sL
                else if b =? 9 then sP else sH) a) rest)
  else if state a =? sL then
    dtake 1 inp (fun bs rest =>
      let b := nth 0 bs 0 in
      let a := set_datalen (Z.land b 127) a in
      if Z.land b 128 =? 0 then DAbort a
      else if datalen a =? 126 then DNext (set_state sX a) rest
      else if datalen a =? 127 then DNext (set_state sY a) rest
      else DNext (set_state sM a) rest)
  else if state a =? sX then
    dtake 2 inp (fun bs rest =>
      DNext (set_state sM (set_datalen (ntoh bs) a)) rest)
  else if state a =? sY then
    dtake 8 inp (fun bs rest =>
      let hi := (ntoh (take 4 bs) * 2 ^ 32) mod U64 in
      let lo := ntoh (drop 4 bs) in
      DNext (set_state sM (set_datalen (Z.lor hi lo) a)) rest)
  else if state a =? sM then
    dtake 4 inp (fun bs rest =>
      DNext (enter_data (set_unmaskof 0 (set_mask bs a))) rest)
  else if state a =? sD then
    if (datpart a <? 0) || (512 <? datpart a) then DAbort a
    else
      dtake (datpart a) inp (fun bs rest =>
        let out := unmask_from (mask a) (unmaskof a) bs in
        let a := set_unmaskof ((unmaskof a + datpart a) mod 4) a in
        let a := fdb_apnd out a in
        DNext (enter_data
                 (set_datalen ((datalen a - datpart a) mod U64) a)) rest)
  else DWait.

(** Passes that go on, one after the other. *)
Inductive druns : world -> list Z -> world -> list Z -> Prop :=
  | druns_refl a inp : druns a inp a inp
  | druns_step a inp a1 inp1 a2 inp2 :
      dstep a inp = DNext a1 inp1 -> druns a1 inp1 a2 inp2 ->
      druns a inp a2 inp2.

(** How the decoder ends on the stream [inp]: it waits with the
    registers [a'], or it aborts with them. *)
Definition dends (a : world) (inp : list Z) (r : outcome world) : Prop :=
  exists a1 inp1,
    druns a inp a1 inp1 /\
    match r with
    | Done a' => a' = a1 /\ dstep a1 inp1 = DWait
    | Exit a' => dstep a1 inp1 = DAbort a'
    | Fault _ => False
    end.

(** What the registers of a decoder that started from [init] satisfy. *)
Definition dsane (a : world) : Prop :=
  0 <= unmaskof a < 4
  /\ (state a = sP \/ state a = sH \/ state a = sL \/ state a = sX
      \/ state a = sY \/ state a = sM \/ state a = sD)
  /\ (state a = sD ->
      datalen a <> 0 /\ datpart a = Z.min 512 (datalen a)).

(** The decoder between two calls. *)
Definition between_calls (w : world) : Prop :=
  buf_ok w /\ chunking (src w) /\ dsane w /\ resting w /\ state w <> sP.

(** The registers in the outcome of a call. *)
Definition regs_of (r : outcome world) : outcome world :=
  match r with
  | Done w => Done (regs w)
  | Exit w => Exit (regs w)
  | Fault w => Fault (regs w)
  end.

(** The decoder in the middle of a call. *)
Definition in_call (w : world) : Prop :=
  buf_ok w /\ chunking (src w) /\ dsane w.

(** The three ways a pass ends, measured on the stream. *)
Definition pass_ok (w : world) (r : option stepres) : Prop :=
  (exists w',
     r = Some (Next w') /\ in_call w'
     /\ druns (regs w) (pending w) (regs w') (pending w')
     /\ (work w' < work w)%nat
     /\ after_again (src w') = after_again (src w))
  \/ (exists w',
        r = Some (Ret w') /\ in_call w'
        /\ druns (regs w) (pending w) (regs w') (pending w')
        /\ blocked w' /\ state w' <> sP
        /\ src w' = after_again (src w) /\ (work w' <= work w)%nat)
  \/ (exists w' a1 inp1,
        r = Some (Abort w')
        /\ druns (regs w) (pending w) a1 inp1
        /\ dstep a1 inp1 = DAbort (regs w')).

(** The stream of a client that sends data frames and, between them,
    single bytes with another opcode. *)
Inductive item : Type :=
  | Frame (f : frame)
  | Ctl (b : Z).

Definition opcode (b : Z) : Z := Z.land b 127.

Definition item_ok (i : item) : Prop :=
  match i with
  | Frame f => data_frame f
  | Ctl b => is_byte b /\ opcode b <> 0 /\ opcode b <> 1 /\ opcode b <> 2
  end.

Definition wire_item (i : item) : list Z :=
  match i with Frame f => wire f | Ctl b => [b] end.

Definition sunk (i : item) : list Z :=
  match i with Frame f => payload f | Ctl _ => [] end.

Definition answered (i : item) : list Z :=
  match i with
  | Frame _ => []
  | Ctl b => if opcode b =? 9 then pongmsg else []
  end.

End Decoder.

(** ** The query string of [session.c] *)

Module Query.
Import Session.

Definition isxdigit (c : Z) : bool :=
  isdigit c || ((97 <=? c) && (c <=? 102)) || ((65 <=? c) && (c <=? 70)).

Definition xval (c : Z) : Z :=
  if isdigit c then c - 48 else if 97 <=? c then c - 87 else c - 55.

(** C libraries differ on a [0] followed by [x] where the field width
    ends with the [x]: the conversion fails, or it reads the [0] alone,
    or it reads both bytes as the number 0. *)
Inductive libc_0x : Type := Rejects | Reads0 | Reads0x.

(** The field of [%2x] at [s1], after [nsp] bytes of white space: at
    most two bytes, a sign among them; the number read and the bytes
    consumed so far, or nothing when there is no number. *)
Definition scan_field (lc : libc_0x) (s1 : list Z) (nsp : Z)
    : option (Z * Z) :=
  match s1 with
  | [] => None
  | c1 :: r1 =>
      if (c1 =? 45) || (c1 =? 43) then
        match r1 with
        | c2 :: _ =>
            if isxdigit c2
            then Some ((if c1 =? 45 then (- xval c2) mod U32 else xval c2),
                       nsp + 2)
            else None
        | [] => None
        end
      else if isxdigit c1 then
        match r1 with
        | c2 :: _ =>
            if isxdigit c2 then Some (16 * xval c1 + xval c2, nsp + 2)
            else if (c1 =? 48) && ((c2 =? 120) || (c2 =? 88)) then
              match lc with
              | Rejects => None
              | Reads0 => Some (0, nsp + 1)
              | Reads0x => Some (0, nsp + 2)
              end
            else Some (xval c1, nsp + 1)
        | [] => Some (xval c1, nsp + 1)
        end
      else None
  end.

(** [sscanf(s, "%2x%n", &byte, &bcnt)] of the C library on a string: the
    number stored in [byte] and the count stored in [bcnt] when the
    conversion succeeds, nothing when it fails or the string ends before
    it (neither variable is written then).  White space is skipped and
    counted. *)
Definition sscanf_2x (lc : libc_0x) (s : list Z) : option (Z * Z) :=
  let '(s1, nsp) := skip_space s 0 in scan_field lc s1 nsp.

(** [strchrnul(s, c) - s]: the offset of the first [c], or of the end of
    the string. *)
Fixpoint strchrnul (c : Z) (s : list Z) : nat :=
  match s with
  | [] => O
  | x :: r => if x =? c then O else S (strchrnul c r)
  end.

(** What [extract_query_arg] returns: [NULL], or the buffer it filled
    (the bytes before the terminator) with the string at the new [*qs];
    [Overrun] stands for [*qs] running past the end of the string. *)
Inductive qres : Type :=
  | Null
  | Val (buf qs : list Z)
  | Overrun.

(** The loop [while ( *qs != end )]: [n] is [end - *qs], [s] the string
    at [*qs]. *)
Fixpoint arg_loop (lc : libc_0x) (fuel : nat) (n : Z) (s : list Z)
    : option (list Z * list Z) :=
  match fuel with
  | O => None
  | S fuel' =>
      if n =? 0 then Some ([], s)
      else
        match s with
        | [] => None
        | c :: r =>
            let '(byte, r', n') :=
              if c =? 37 then
                match sscanf_2x lc r with
                | Some (v, cnt) =>
                    if cnt =? 2 then (v mod 256, drop 2 r, n - 3)
                    else (v mod 256, r, n - 1)
                | None => (c, r, n - 1)
                end
              else (c, r, n - 1) in
            match arg_loop lc fuel' n' r' with
            | Some (out, rest) => Some (byte :: out, rest)
            | None => None
            end
        end
  end.

Definition extract_query_arg (lc : libc_0x) (qs pref : list Z) : qres :=
  if negb (bytes_eqb pref (take (length pref) qs)) then Null
  else
    let qs := drop (length pref) qs in
    match arg_loop lc (S (length qs)) (Z.of_nat (strchrnul 38 qs)) qs with
    | Some (buf, qs') => Val buf qs'
    | None => Overrun
    end.

(** A buffer as the string functions of C see it: up to the first zero
    byte. *)
Fixpoint cstr (l : list Z) : list Z :=
  match l with
  | [] => []
  | c :: r => if c =? 0 then [] else c :: cstr r
  end.

(** The two settings that come from the query string; [None] is
    [NULL]. *)
Record query : Type := {
  termid : option (list Z);
  pream : option (list Z)
}.

(** The loop of [parse_query] on the string at [qs]; [None] when the
    fuel runs out or [extract_query_arg] overran. *)
Fixpoint parse_loop (lc : libc_0x) (fuel : nat) (qs : list Z) (q : query)
    : option query :=
  match fuel with
  | O => None
  | S fuel' =>
      let qs := match qs with
                | c :: r => if c =? 38 then r else qs
                | [] => qs
                end in
      match qs with
      | [] => Some q
      | _ :: _ =>
          match extract_query_arg lc qs (bytes_of "termid=") with
          | Overrun => None
          | Val v qs' =>
              parse_loop lc fuel' qs'
                {| termid := Some (cstr v); pream := pream q |}
          | Null =>
              match extract_query_arg lc qs (bytes_of "pream=") with
              | Overrun => None
              | Val v qs' =>
                  parse_loop lc fuel' qs'
                    {| termid := termid q; pream := Some v |}
              | Null =>
                  parse_loop lc fuel' (drop (strchrnul 38 qs) qs) q
              end
          end
      end
  end.

(** [parse_query]; [env] is what [getenv("QUERY_STRING")] returns. *)
Definition parse_query (lc : libc_0x) (env : option (list Z)) (q : query)
    : option query :=
  match env with
  | None => Some q
  | Some qs => parse_loop lc (S (length qs)) qs q
  end.

(** *** Vocabulary of the properties *)

(** An argument value as a client writes it: bytes that stand for
    themselves (any byte but zero, [%] and [&]) and bytes written as [%]
    with two hexadecimal digits. *)
Inductive qtok : Type :=
  | QLit (b : Z)
  | QPct (h l : Z).

Definition qtok_ok (t : qtok) : Prop :=
  match t with
  | QLit b => 0 < b < 256 /\ b <> 37 /\ b <> 38
  | QPct h l => isxdigit h = true /\ isxdigit l = true
  end.

Definition qtok_bytes (t : qtok) : list Z :=
  match t with QLit b => [b] | QPct h l => [37; h; l] end.

Definition qtok_val (t : qtok) : Z :=
  match t with QLit b => b | QPct h l => 16 * xval h + xval l end.

(** What may follow an argument: the end of the string, or [&]. *)
Definition arg_end (rest : list Z) : Prop :=
  rest = [] \/ exists more, rest = 38 :: more.

(** The arguments of a query string: the pieces between the [&]. *)
Definition no_amp (arg : list Z) : Prop := Forall (fun c => c <> 38) arg.

Fixpoint join_args (args : list (list Z)) : list Z :=
  match args with
  | [] => []
  | [a] => a
  | a :: r => a ++ 38 :: join_args r
  end.

(** What follows the first argument in the string of the arguments. *)
Definition rest_of (r : list (list Z)) : list Z :=
  match r with [] => [] | _ :: _ => 38 :: join_args r end.

(** What one argument does to the settings. *)
Definition apply_arg (lc : libc_0x) (q : query) (arg : list Z) : query :=
  match extract_query_arg lc arg (bytes_of "termid=") with
  | Val v _ => {| termid := Some (cstr v); pream := pream q |}
  | _ =>
      match extract_query_arg lc arg (bytes_of "pream=") with
      | Val v _ => {| termid := termid q; pream := Some v |}
      | _ => q
      end
  end.

End Query.

(** * Properties *)

Module SessionFacts.
Import Session.

(** ** The encoding for the client ([putrout]) *)

Lemma land_255 b : 0 <= b < 256 -> Z.land b 255 = b.
Proof.
  intros Hb. change 255 with (Z.ones 8).
  rewrite Z.land_ones by lia. apply Z.mod_small. lia.
Qed.

Lemma hexdig_hexchar v : 0 <= v -> hexdig v = hexchar (v mod 16).
Proof.
  intros Hv. unfold hexdig. change 15 with (Z.ones 4).
  rewrite Z.land_ones by lia. change (2 ^ 4) with 16.
  assert (Hd : 0 <= v mod 16 < 16) by (apply Z.mod_pos_bound; lia).
  set (d := v mod 16) in *. clearbody d.
  assert (Hcases : d = 0 \/ d = 1 \/ d = 2 \/ d = 3 \/ d = 4 \/ d = 5
                   \/ d = 6 \/ d = 7 \/ d = 8 \/ d = 9 \/ d = 10
                   \/ d = 11 \/ d = 12 \/ d = 13 \/ d = 14 \/ d = 15)
    by lia.
  repeat (destruct Hcases as [-> | Hcases]; [reflexivity |]).
  subst d. reflexivity.
Qed.

Lemma verifyroutcap_spec n s :
  rout_ok s -> 0 <= n -> rwoutlen s + n < 2 ^ 63 ->
  rout_ok (verifyroutcap n s)
  /\ rwoutlen (verifyroutcap n s) = rwoutlen s
  /\ rout (verifyroutcap n s) = rout s
  /\ rwoutlen s + n <= rwoutsz (verifyroutcap n s)
  /\ rwoutsz (verifyroutcap n s)
     <= Z.max (rwoutsz s) (Z.max 16 (2 * (rwoutlen s + n))).
Proof.
  intros [Hlen Hbuf] Hn Hsmall. unfold verifyroutcap, U64.
  rewrite (Z.mod_small (rwoutlen s + n)) by lia.
  destruct (Z.leb_spec (rwoutlen s + n) (rwoutsz s)) as [Hle | Hgt].
  { unfold rout_ok. repeat split; auto; lia. }
  rewrite (Z.mod_small ((rwoutlen s + n) * 2)) by lia.
  set (sz := if (rwoutlen s + n) * 2 <? 16 then 16
             else (rwoutlen s + n) * 2).
  assert (Hsz : rwoutlen s + n <= sz).
  { subst sz. destruct (Z.ltb_spec ((rwoutlen s + n) * 2) 16); lia. }
  unfold rout_ok, rout. cbn.
  rewrite length_resize.
  assert (Hmax : sz <= Z.max 16 (2 * (rwoutlen s + n))).
  { subst sz. destruct (Z.ltb_spec ((rwoutlen s + n) * 2) 16); lia. }
  repeat split; try lia.
  rewrite take_resize_le by lia.
  apply resize_le. lia.
Qed.

Lemma rout_push_spec c s :
  rout_ok s -> rwoutlen s < rwoutsz s -> rwoutsz s < 2 ^ 64 ->
  rout_ok (rout_push c s)
  /\ rwoutlen (rout_push c s) = rwoutlen s + 1
  /\ rwoutsz (rout_push c s) = rwoutsz s
  /\ rout (rout_push c s) = rout s ++ [c].
Proof.
  intros [Hlen Hbuf] Hlt Hsmall. unfold rout_push, rout_ok, rout, wr, U64.
  cbn. rewrite Z.mod_small by lia. rewrite length_insert.
  repeat split; try lia.
  replace (Z.to_nat (rwoutlen s + 1)) with (S (Z.to_nat (rwoutlen s)))
    by lia.
  rewrite (take_S_r _ _ c).
  - rewrite take_insert_ge by lia. reflexivity.
  - apply list_lookup_insert_eq. lia.
Qed.

(** The three pushes of an escaped byte, and the one push of a literal
    byte, after room was made. *)
Lemma rout_push3 a b c s :
  rout_ok s -> rwoutlen s + 3 <= rwoutsz s -> rwoutsz s < 2 ^ 64 ->
  rout (rout_push c (rout_push b (rout_push a s))) = rout s ++ [a; b; c].
Proof.
  intros Hok Hroom Hsmall.
  destruct (rout_push_spec a s) as (Hok1 & Hl1 & Hz1 & Hr1); auto; try lia.
  destruct (rout_push_spec b (rout_push a s)) as (Hok2 & Hl2 & Hz2 & Hr2);
    auto; try lia.
  destruct (rout_push_spec c (rout_push b (rout_push a s)))
    as (Hok3 & Hl3 & Hz3 & Hr3); auto; try lia.
  rewrite Hr3, Hr2, Hr1, <- !app_assoc. reflexivity.
Qed.

(** C3.  For a byte [b], [putrout] appends to the client-bound buffer the
    byte itself when [0x20 <= b <= 0x7e] and [b] is not the backslash,
    and otherwise the three bytes backslash, high hexadecimal digit, low
    hexadecimal digit, the digits in lower case. *)
Theorem putrout_encodes b s :
  0 <= b < 256 -> rout_ok s -> rwoutsz s < 2 ^ 62 ->
  (32 <= b <= 126 -> b <> 92 -> rout (putrout b s) = rout s ++ [b])
  /\ (b < 32 \/ 126 < b \/ b = 92 ->
      rout (putrout b s)
      = rout s ++ [92; hexchar (b / 16); hexchar (b mod 16)]).
Proof.
  intros Hb Hok Hsz.
  destruct Hok as [Hlen Hbuf].
  destruct (verifyroutcap_spec 3 s) as (Hok' & Hl' & Hr' & Hroom & Hcap);
    [split; assumption | lia | lia |].
  unfold putrout. rewrite (land_255 b Hb).
  set (s' := verifyroutcap 3 s) in *.
  split.
  - intros Hprint Hne.
    replace ((b =? 92) || (b <? 32) || (b >? 126)) with false by lia.
    destruct (rout_push_spec b s') as (_ & _ & _ & Hr); auto; try lia.
    rewrite Hr, Hr'. reflexivity.
  - intros Hesc.
    replace ((b =? 92) || (b <? 32) || (b >? 126)) with true by lia.
    rewrite rout_push3 by (auto; lia).
    rewrite Hr', !hexdig_hexchar by (try apply Z.shiftr_nonneg; lia).
    rewrite Z.shiftr_div_pow2 by lia. change (2 ^ 4) with 16.
    rewrite (Z.mod_small (b / 16)); [reflexivity |].
    split; [apply Z.div_pos; lia | apply Z.div_lt_upper_bound; lia].
Qed.

Lemma putrout_encodes_witness :
  rout (putrout 10 wts0) = rout wts0 ++ [92; hexchar 0; hexchar 10]
  /\ rout (putrout 65 wts0) = rout wts0 ++ [65].
Proof.
  split.
  - apply (putrout_encodes 10 wts0); [lia | split; cbn; [lia | reflexivity]
                                      | cbn; lia | lia].
  - apply (putrout_encodes 65 wts0); [lia | split; cbn; [lia | reflexivity]
                                      | cbn; lia | lia | lia].
Defined.

End SessionFacts.

Module KbdFacts.
Import Session.

(** ** The keystroke translator *)

Lemma bind_assoc {A} (m : outcome A) f g :
  bind (bind m f) g = bind m (fun a => bind (f a) g).
Proof. destruct m; reflexivity. Qed.

Lemma kbd_bytes_app outfd a b s :
  kbd_bytes outfd (a ++ b) s = bind (kbd_bytes outfd a s) (kbd_bytes outfd b).
Proof.
  revert s. induction a as [| x a IH]; intros s; cbn [kbd_bytes app].
  - reflexivity.
  - rewrite bind_assoc. destruct (kbd_byte outfd x s); cbn; auto.
Qed.

(** C10.  A newline byte in the client input is dropped in every parser
    mode: the loop body leaves the whole state as it is and writes
    nothing, whatever [escp], [wsi] and the rest hold, and an input with
    the newline gives what the input without it gives. *)
Theorem newline_dropped outfd s pre post :
  kbd_byte outfd 10 s = Done s
  /\ kbd_bytes outfd (pre ++ 10 :: post) s = kbd_bytes outfd (pre ++ post) s
  /\ writetosubproccore outfd (pre ++ 10 :: post) s
     = writetosubproccore outfd (pre ++ post) s.
Proof.
  assert (Hbytes : forall s',
    kbd_bytes outfd (pre ++ 10 :: post) s' = kbd_bytes outfd (pre ++ post) s').
  { intros s'. rewrite !kbd_bytes_app. destruct (kbd_bytes outfd pre s'); auto. }
  split; [reflexivity | split; [apply Hbytes |]].
  unfold writetosubproccore. rewrite Hbytes. reflexivity.
Qed.

(** Decide the comparisons of the goal that arithmetic settles. *)
Ltac zbool :=
  repeat match goal with
    | |- context [Z.eqb ?a ?b] =>
        first [ replace (Z.eqb a b) with true by lia
              | replace (Z.eqb a b) with false by lia ]
    | |- context [Z.leb ?a ?b] =>
        first [ replace (Z.leb a b) with true by lia
              | replace (Z.leb a b) with false by lia ]
    | |- context [Z.ltb ?a ?b] =>
        first [ replace (Z.ltb a b) with true by lia
              | replace (Z.ltb a b) with false by lia ]
    end.

Lemma scan_hu_4digits c1 c2 c3 c4 rest :
  48 <= c1 <= 57 -> 48 <= c2 <= 57 -> 48 <= c3 <= 57 -> 48 <= c4 <= 57 ->
  scan_hu 4 (c1 :: c2 :: c3 :: c4 :: rest)
  = Some ((c1 - 48) * 1000 + (c2 - 48) * 100 + (c3 - 48) * 10 + (c4 - 48),
          rest).
Proof.
  intros H1 H2 H3 H4.
  unfold scan_hu, skip_space, isspace, take_digits, isdigit.
  zbool. cbn. zbool. cbn.
  rewrite Z.mod_small by lia. f_equal. f_equal. lia.
Qed.

Lemma list8 (l : list Z) :
  length l = 8%nat ->
  exists a b c d e f g h, l = [a; b; c; d; e; f; g; h].
Proof.
  intros H.
  do 8 (destruct l as [| ? l]; [discriminate H |]).
  destruct l; [| discriminate H]. eauto 10.
Qed.

Lemma kbd_raw_backslash outfd s :
  escp s = 0 -> kbd_byte outfd 92 s = Done (set_escp 49 s).
Proof. intros H. unfold kbd_byte. rewrite H. reflexivity. Qed.

Lemma kbd_escaped_w outfd s :
  escp s = 49 ->
  kbd_byte outfd 119 s = Done (set_escp 119 (set_wsi 0 (set_escp 0 s))).
Proof. intros H. unfold kbd_byte. rewrite H. reflexivity. Qed.

Lemma kbd_winsize_more outfd b s :
  escp s = 119 -> 0 <= wsi s < 7 -> b <> 10 ->
  kbd_byte outfd b s
  = Done (set_wsi (wsi s + 1) (set_winsize (wr (winsize s) (wsi s) b) s)).
Proof.
  intros H Hi Hb. unfold kbd_byte, U32. rewrite H. cbn.
  rewrite Z.mod_small by lia. zbool. reflexivity.
Qed.

Lemma kbd_winsize_last outfd b s :
  escp s = 119 -> wsi s = 7 -> b <> 10 ->
  kbd_byte outfd b s
  = Done (set_escp 0
            (let s2 := scan_winsize
                         (set_wsi 8 (set_winsize (wr (winsize s) 7 b) s)) in
             if sendsigwin s2 then s2 else emit Warn s2)).
Proof.
  intros H Hi Hb. unfold kbd_byte, U32. rewrite H, Hi. cbn.
  zbool. reflexivity.
Qed.

(** C5.  From the raw mode, the input backslash, [w] and eight decimal
    digits completes the window-size parse: [sendsigwin] is set, [swrow]
    is the number written by the first four digits and [swcol] the number
    written by the last four, the parser is back in raw mode, and nothing
    was written (no event at all was added). *)
Theorem winsize_parse outfd s d1 d2 d3 d4 d5 d6 d7 d8 :
  escp s = 0 -> kbufsz s = 0 -> length (winsize s) = 8%nat ->
  0 <= d1 <= 9 -> 0 <= d2 <= 9 -> 0 <= d3 <= 9 -> 0 <= d4 <= 9 ->
  0 <= d5 <= 9 -> 0 <= d6 <= 9 -> 0 <= d7 <= 9 -> 0 <= d8 <= 9 ->
  exists s',
    writetosubproccore outfd
      (92 :: 119 :: map (fun d => 48 + d) [d1; d2; d3; d4; d5; d6; d7; d8]) s
    = Done s'
    /\ sendsigwin s' = true
    /\ swrow s' = 1000 * d1 + 100 * d2 + 10 * d3 + d4
    /\ swcol s' = 1000 * d5 + 100 * d6 + 10 * d7 + d8
    /\ escp s' = 0
    /\ trace s' = trace s.
Proof.
  intros Hesc Hk Hw H1 H2 H3 H4 H5 H6 H7 H8.
  destruct (list8 _ Hw) as (w1 & w2 & w3 & w4 & w5 & w6 & w7 & w8 & Hws).
  destruct s; cbn in Hesc, Hk, Hws; subst.
  unfold writetosubproccore. cbn [kbufsz Z.eqb negb map kbd_bytes].
  rewrite kbd_raw_backslash by reflexivity. cbn -[kbd_byte].
  rewrite kbd_escaped_w by reflexivity. cbn -[kbd_byte].
  do 7 (rewrite kbd_winsize_more by (cbn; lia); cbn -[kbd_byte]).
  rewrite kbd_winsize_last by (cbn; lia). cbn -[scan_hu].
  eexists. split; [reflexivity |].
  unfold scan_winsize. cbn -[scan_hu].
  match goal with
  | |- context [scan_hu 4 ?l] =>
      change l with [48 + d1; 48 + d2; 48 + d3; 48 + d4;
                     48 + d5; 48 + d6; 48 + d7; 48 + d8]
  end.
  rewrite scan_hu_4digits by lia. cbn -[scan_hu].
  rewrite scan_hu_4digits by lia. cbn.
  repeat split; lia.
Qed.

Lemma winsize_parse_witness :
  exists s',
    writetosubproccore 1 (bytes_of "\w00990011") wts0 = Done s'
    /\ sendsigwin s' = true /\ swrow s' = 99 /\ swcol s' = 11
    /\ escp s' = 0 /\ trace s' = [].
Proof.
  apply (winsize_parse 1 wts0 0 0 9 9 0 0 1 1);
    first [reflexivity | lia].
Defined.

End KbdFacts.

Module KbdFunction.
Import Session KbdFacts.

(** ** What the translation depends on *)

Lemma written_app fd a b : written fd (a ++ b) = written fd a ++ written fd b.
Proof.
  induction a as [| e a IH]; cbn; [reflexivity |].
  destruct e; auto. destruct (fd0 =? fd); rewrite IH; auto using app_assoc.
Qed.

Lemma same_writes_emit t1 t2 s1 s2 e1 e2 :
  same_writes t1 t2 s1 s2 ->
  (forall fd, written fd [e1] = written fd [e2]) ->
  same_writes t1 t2 (emit e1 s1) (emit e2 s2).
Proof.
  intros (n1 & n2 & H1 & H2 & Hw) He.
  exists (n1 ++ [e1]), (n2 ++ [e2]). unfold emit. cbn.
  rewrite H1, H2, <- !app_assoc. repeat split; auto.
  intros fd. rewrite !written_app, Hw, He. reflexivity.
Qed.

(** Setters that leave the trace alone keep [same_writes]. *)
Lemma same_writes_eq t1 t2 s1 s2 s1' s2' :
  same_writes t1 t2 s1 s2 ->
  trace s1' = trace s1 -> trace s2' = trace s2 ->
  same_writes t1 t2 s1' s2'.
Proof.
  intros (n1 & n2 & H1 & H2 & Hw) E1 E2.
  exists n1, n2. rewrite E1, E2. auto.
Qed.

Ltac inv_open H :=
  let Hs := fresh "Hsig" in let Hw := fresh "Hwr" in
  let He := fresh "Hescp" in let Ha := fresh "Happ" in
  let Hws := fresh "Hwin" in let Hk := fresh "Hksz" in
  let Hkb := fresh "Hkbound" in let Hl1 := fresh "Hlk1" in
  let Hl2 := fresh "Hlk2" in let Hkt := fresh "Hktake" in
  let Hw1 := fresh "Hlw1" in let Hw2 := fresh "Hlw2" in
  let Hwi := fresh "Hwsi" in
  destruct H as ((Hs & Hw) & (He & Ha & Hws) & Hk & Hkb & Hl1 & Hl2 & Hkt
                 & Hw1 & Hw2 & Hwi).

Lemma inv_finishkbuf t1 t2 o s1 s2 :
  kbd_inv t1 t2 s1 s2 ->
  kbd_inv t1 t2 (finishkbuf o s1) (finishkbuf o s2)
  /\ kbufsz (finishkbuf o s1) = 0.
Proof.
  intros H. pose proof H as H0. inv_open H.
  unfold finishkbuf. rewrite <- Hksz in Hktake |- *. rewrite <- Hktake.
  destruct (Z.eqb_spec (kbufsz s1) 0) as [Hz | Hnz]; [auto |].
  split; [| reflexivity].
  destruct (o =? 1);
    (split; [split; [exact Hsig | apply same_writes_emit; auto] |]);
    unfold kbd_agree; cbn; intuition (auto; lia).
Qed.

Lemma inv_addkeybyte t1 t2 o c s1 s2 :
  kbd_inv t1 t2 s1 s2 ->
  kbd_inv t1 t2 (addkeybyte o c s1) (addkeybyte o c s2).
Proof.
  intros H. unfold addkeybyte.
  assert (H' : exists a b,
    a = (if kbufsz s1 =? 8 then finishkbuf o s1 else s1)
    /\ b = (if kbufsz s2 =? 8 then finishkbuf o s2 else s2)
    /\ kbd_inv t1 t2 a b /\ kbufsz a < 8).
  { do 2 eexists. split; [reflexivity |]. split; [reflexivity |].
    pose proof H as H0. inv_open H. rewrite <- Hksz.
    destruct (Z.eqb_spec (kbufsz s1) 8) as [H8 | H8].
    - destruct (inv_finishkbuf t1 t2 o s1 s2 H0) as [Hi Hz].
      split; [exact Hi | lia].
    - split; [exact H0 | lia]. }
  destruct H' as (a & b & <- & <- & Hi & Hlt).
  inv_open Hi.
  split; [split; [exact Hsig | eapply same_writes_eq; eauto] |].
  unfold kbd_agree. cbn. rewrite <- Hksz. unfold wr.
  repeat split; auto; try lia; try (rewrite length_insert; auto);
    try (intros; apply Hwin; assumption).
  replace (Z.to_nat (kbufsz a + 1)) with (S (Z.to_nat (kbufsz a))) by lia.
  rewrite <- Hksz in Hktake.
  rewrite !(take_S_r _ _ (c mod 256))
    by (apply list_lookup_insert_eq; lia).
  rewrite !take_insert_ge by lia. rewrite Hktake. reflexivity.
Qed.

(** Close a goal [kbd_inv ...] whose states differ from those of the
    hypothesis by setters. *)
Ltac inv_close :=
  unfold kbd_inv, kbd_obs, kbd_agree; cbn;
  intuition (auto; try lia; try congruence).

Lemma inv_set_escp t1 t2 m s1 s2 :
  m <> 119 -> kbd_inv t1 t2 s1 s2 ->
  kbd_inv t1 t2 (set_escp m s1) (set_escp m s2).
Proof.
  intros Hm H. inv_open H.
  assert (same_writes t1 t2 (set_escp m s1) (set_escp m s2))
    by (eapply same_writes_eq; eauto).
  inv_close.
Qed.

Lemma inv_enter_winsize t1 t2 s1 s2 :
  kbd_inv t1 t2 s1 s2 ->
  kbd_inv t1 t2 (set_escp 119 (set_wsi 0 s1)) (set_escp 119 (set_wsi 0 s2)).
Proof.
  intros H. inv_open H.
  assert (same_writes t1 t2 (set_escp 119 (set_wsi 0 s1))
            (set_escp 119 (set_wsi 0 s2)))
    by (eapply same_writes_eq; eauto).
  inv_close.
Qed.

Lemma inv_dump t1 t2 s1 s2 :
  kbd_inv t1 t2 s1 s2 -> kbd_inv t1 t2 (dump s1) (dump s2).
Proof.
  intros H. inv_open H.
  assert (same_writes t1 t2 (dump s1) (dump s2)).
  { unfold dump.
    match goal with
    | |- same_writes _ _ (set_dimp _ ?a) (set_dimp _ ?b) =>
        apply (same_writes_eq t1 t2 a b);
          [apply same_writes_emit; [exact Hwr | reflexivity]
          | reflexivity | reflexivity]
    end. }
  unfold dump in *. inv_close.
Qed.

Lemma obs_warn t1 t2 s1 s2 :
  kbd_obs t1 t2 s1 s2 -> kbd_obs t1 t2 (emit Warn s1) (emit Warn s2).
Proof.
  intros [Hs Hw]. split; [exact Hs |].
  apply same_writes_emit; [exact Hw | reflexivity].
Qed.

Lemma inv_warn t1 t2 s1 s2 :
  kbd_inv t1 t2 s1 s2 -> kbd_inv t1 t2 (emit Warn s1) (emit Warn s2).
Proof.
  intros H. pose proof H as H0. destruct H0 as [Hobs _].
  apply obs_warn in Hobs. destruct Hobs as [_ Hw']. inv_open H.
  unfold emit in *. inv_close.
Qed.

Lemma inv_escaped t1 t2 o b s1 s2 :
  kbd_inv t1 t2 s1 s2 ->
  kbd_inv t1 t2 (escaped o b s1) (escaped o b s2).
Proof.
  intros H. apply (inv_set_escp t1 t2 0) in H; [| lia].
  assert (Happ : appcursor (set_escp 0 s1) = appcursor (set_escp 0 s2))
    by (inv_open H; assumption).
  unfold escaped. cbv zeta. rewrite <- Happ.
  repeat (match goal with
          | |- context [if b =? ?k then _ else _] => destruct (b =? k)
          end;
          [first [ do 3 apply inv_addkeybyte; exact H
                 | apply inv_addkeybyte; exact H
                 | apply inv_enter_winsize; exact H
                 | apply inv_dump; exact H
                 | exact H ] |]).
  apply inv_warn. exact H.
Qed.

Lemma scan_winsize_sig s1 s2 :
  winsize s1 = winsize s2 ->
  sendsigwin (scan_winsize s1) = sendsigwin (scan_winsize s2).
Proof.
  intros H. unfold scan_winsize. rewrite H.
  destruct (scan_hu 4 (winsize s2)) as [[row rest] |]; [| reflexivity].
  cbn. destruct (scan_hu 4 rest) as [[col ?] |]; reflexivity.
Qed.

Lemma scan_winsize_keeps s :
  trace (scan_winsize s) = trace s /\ kbufsz (scan_winsize s) = kbufsz s
  /\ kbuf (scan_winsize s) = kbuf s /\ winsize (scan_winsize s) = winsize s
  /\ appcursor (scan_winsize s) = appcursor s.
Proof.
  unfold scan_winsize.
  destruct (scan_hu 4 (winsize s)) as [[row rest] |]; [| cbn; auto].
  cbn. destruct (scan_hu 4 rest) as [[col ?] |]; cbn; auto.
Qed.

Lemma length_wr (l : list Z) i x : length (wr l i x) = length l.
Proof. apply length_insert. Qed.

Lemma take_all8 (l : list Z) : length l = 8%nat -> take 8 l = l.
Proof. intros H. apply take_ge. lia. Qed.

Lemma inv_winsize_byte t1 t2 o b s1 s2 :
  kbd_inv t1 t2 s1 s2 -> escp s1 = 119 -> b <> 10 ->
  outcomes_agree (kbd_inv t1 t2) (kbd_obs t1 t2)
    (kbd_byte o b s1) (kbd_byte o b s2).
Proof.
  intros H He Hb. inv_open H.
  destruct (Hwin He) as [Hi Ht]. specialize (Hwsi He).
  assert (Hnext : take (Z.to_nat (wsi s1 + 1)) (wr (winsize s1) (wsi s1) b)
                  = take (Z.to_nat (wsi s1 + 1)) (wr (winsize s2) (wsi s1) b)).
  { unfold wr.
    replace (Z.to_nat (wsi s1 + 1)) with (S (Z.to_nat (wsi s1))) by lia.
    rewrite !(take_S_r _ _ b) by (apply list_lookup_insert_eq; lia).
    rewrite !take_insert_ge by lia. rewrite <- Hi in Ht. rewrite Ht.
    reflexivity. }
  destruct (Z.eq_dec (wsi s1) 7) as [H7 | H7].
  - rewrite !kbd_winsize_last by congruence. cbn [outcomes_agree].
    rewrite H7 in Hnext. change (Z.to_nat (7 + 1)) with 8%nat in Hnext.
    rewrite !take_all8 in Hnext by (unfold wr; rewrite length_insert; auto).
    set (a := set_wsi 8 (set_winsize (wr (winsize s1) 7 b) s1)).
    set (c := set_wsi 8 (set_winsize (wr (winsize s2) 7 b) s2)).
    assert (Hsg : sendsigwin (scan_winsize a) = sendsigwin (scan_winsize c))
      by (apply scan_winsize_sig; exact Hnext).
    destruct (scan_winsize_keeps a) as (Ta & Ka & Ba & Wa & Aa).
    destruct (scan_winsize_keeps c) as (Tc & Kc & Bc & Wc & Ac).
    assert (Hsw : same_writes t1 t2 (scan_winsize a) (scan_winsize c))
      by (eapply same_writes_eq; eauto).
    cbv zeta. rewrite <- Hsg.
    destruct (sendsigwin (scan_winsize a)) eqn:Hs.
    + unfold kbd_inv, kbd_obs, kbd_agree. cbn.
      rewrite Ka, Kc, Ba, Bc, Wa, Wc, Aa, Ac. subst a c. cbn.
      rewrite !length_wr.
      assert (same_writes t1 t2
                (set_escp 0 (scan_winsize
                   (set_wsi 8 (set_winsize (wr (winsize s1) 7 b) s1))))
                (set_escp 0 (scan_winsize
                   (set_wsi 8 (set_winsize (wr (winsize s2) 7 b) s2)))))
        by (eapply same_writes_eq; [exact Hsw | reflexivity ..]).
      intuition (auto; try lia; try congruence).
    + assert (Hsw' : same_writes t1 t2 (emit Warn (scan_winsize a))
                       (emit Warn (scan_winsize c)))
        by (apply same_writes_emit; [exact Hsw | reflexivity]).
      unfold kbd_inv, kbd_obs, kbd_agree. cbn.
      rewrite Ka, Kc, Ba, Bc, Wa, Wc, Aa, Ac. subst a c. cbn.
      rewrite !length_wr.
      assert (same_writes t1 t2
                (set_escp 0 (emit Warn (scan_winsize
                   (set_wsi 8 (set_winsize (wr (winsize s1) 7 b) s1)))))
                (set_escp 0 (emit Warn (scan_winsize
                   (set_wsi 8 (set_winsize (wr (winsize s2) 7 b) s2))))))
        by (eapply same_writes_eq; [exact Hsw' | reflexivity ..]).
      intuition (auto; try lia; try congruence).
  - rewrite !kbd_winsize_more by (try congruence; lia).
    cbn [outcomes_agree]. rewrite <- Hi.
    assert (same_writes t1 t2
              (set_wsi (wsi s1 + 1)
                 (set_winsize (wr (winsize s1) (wsi s1) b) s1))
              (set_wsi (wsi s1 + 1)
                 (set_winsize (wr (winsize s2) (wsi s1) b) s2)))
      by (eapply same_writes_eq; eauto).
    unfold kbd_inv, kbd_obs, kbd_agree. cbn.
    rewrite !length_wr.
    intuition (auto; try lia; try congruence).
Qed.

Lemma inv_kbd_byte t1 t2 o b s1 s2 :
  kbd_inv t1 t2 s1 s2 ->
  outcomes_agree (kbd_inv t1 t2) (kbd_obs t1 t2)
    (kbd_byte o b s1) (kbd_byte o b s2).
Proof.
  intros H.
  destruct (Z.eq_dec b 10) as [-> | Hb]; [exact H |].
  destruct (Z.eq_dec (escp s1) 119) as [He | He];
    [apply inv_winsize_byte; assumption |].
  pose proof H as H0. inv_open H0.
  unfold kbd_byte. rewrite <- Hescp.
  replace (b =? 10) with false by lia.
  replace (escp s1 =? 119) with false by lia.
  destruct (escp s1 =? 0).
  { cbn. destruct (b =? 92);
      [apply inv_set_escp; [lia | exact H] | apply inv_addkeybyte; exact H]. }
  destruct (escp s1 =? 49).
  { cbn. apply inv_escaped. exact H. }
  cbn. apply obs_warn. split; assumption.
Qed.

Lemma inv_kbd_bytes t1 t2 o buf s1 s2 :
  kbd_inv t1 t2 s1 s2 ->
  outcomes_agree (kbd_inv t1 t2) (kbd_obs t1 t2)
    (kbd_bytes o buf s1) (kbd_bytes o buf s2).
Proof.
  revert s1 s2. induction buf as [| b buf IH]; intros s1 s2 H; cbn.
  - exact H.
  - pose proof (inv_kbd_byte t1 t2 o b s1 s2 H) as Hb.
    destruct (kbd_byte o b s1), (kbd_byte o b s2); cbn in Hb |- *;
      try contradiction; auto.
Qed.

Lemma added_same_writes fd t1 t2 s1 s2 (a b : outcome session) :
  trace s1 = t1 -> trace s2 = t2 ->
  same_writes t1 t2 (state_of a) (state_of b) ->
  written fd (added s1 a) = written fd (added s2 b).
Proof.
  intros <- <- (n1 & n2 & H1 & H2 & Hw). unfold added.
  rewrite H1, H2, !drop_app_length. apply Hw.
Qed.

(** C6, a counterexample.  After [\w0099001] and after [\w] the parser
    mode is the same (['w']) and so is the application-cursor flag, yet
    the input [1] completes the window size in the first state and sets
    [sendsigwin], and does not in the second. *)
Lemma translation_reads_winsize :
  let s1 := state_of (writetosubproccore 5 (bytes_of "\w0099001") wts0) in
  let s2 := state_of (writetosubproccore 5 (bytes_of "\w") wts0) in
  escp s1 = escp s2 /\ appcursor s1 = appcursor s2
  /\ sendsigwin (state_of (writetosubproccore 5 [49] s1)) = true
  /\ sendsigwin (state_of (writetosubproccore 5 [49] s2)) = false.
Proof. vm_compute. auto. Qed.

(** C6, amended.  The bytes one call writes to the terminal and the
    [sendsigwin] flag it leaves are determined by the input, the
    application-cursor flag, the parser mode and, when that mode is the
    window-size mode, the index [wsi] and the digits gathered so far:
    two states that can be entered and agree on these give the same
    bytes and the same flag. *)
Theorem translation_determined outfd buf s1 s2 :
  kbd_ready s1 -> kbd_ready s2 -> kbd_agree s1 s2 ->
  written outfd (added s1 (writetosubproccore outfd buf s1))
  = written outfd (added s2 (writetosubproccore outfd buf s2))
  /\ sendsigwin (state_of (writetosubproccore outfd buf s1))
     = sendsigwin (state_of (writetosubproccore outfd buf s2)).
Proof.
  intros (K1 & L1 & W1 & I1) (K2 & L2 & W2 & I2) (He & Ha & Hw).
  assert (Hinv : kbd_inv (trace s1) (trace s2)
                   (set_sendsigwin false s1) (set_sendsigwin false s2)).
  { assert (same_writes (trace s1) (trace s2)
              (set_sendsigwin false s1) (set_sendsigwin false s2)).
    { exists [], []. cbn. rewrite !app_nil_r. auto. }
    unfold kbd_inv, kbd_obs, kbd_agree. cbn. rewrite K1, K2.
    intuition (auto; try lia). }
  pose proof (inv_kbd_bytes _ _ outfd buf _ _ Hinv) as Hrun.
  assert (Hobs : kbd_obs (trace s1) (trace s2)
                   (state_of (writetosubproccore outfd buf s1))
                   (state_of (writetosubproccore outfd buf s2))).
  { unfold writetosubproccore. rewrite K1, K2. cbn [Z.eqb negb].
    destruct (kbd_bytes outfd buf (set_sendsigwin false s1)),
             (kbd_bytes outfd buf (set_sendsigwin false s2));
      cbn in Hrun |- *; try contradiction; auto.
    destruct (inv_finishkbuf _ _ outfd _ _ Hrun) as [[Hobs _] _].
    exact Hobs. }
  destruct Hobs as [Hs Hwr]. split; [| exact Hs].
  eapply added_same_writes; eauto.
Qed.

Lemma translation_determined_witness :
  written 5 (added wts0 (writetosubproccore 5 (bytes_of "a\<b") wts0))
  = written 5
      (added (set_swrow 24 (set_linepos 3 wts0))
         (writetosubproccore 5 (bytes_of "a\<b")
            (set_swrow 24 (set_linepos 3 wts0))))
  /\ sendsigwin (state_of (writetosubproccore 5 (bytes_of "a\<b") wts0))
     = sendsigwin
         (state_of (writetosubproccore 5 (bytes_of "a\<b")
                      (set_swrow 24 (set_linepos 3 wts0)))).
Proof.
  apply (translation_determined 5 (bytes_of "a\<b") wts0
           (set_swrow 24 (set_linepos 3 wts0)));
    unfold kbd_ready, kbd_agree; cbn; repeat split; lia.
Defined.

(** The states [writetosubproccore] is entered in: the zeroed state is
    one, and a call that returns leaves one. *)
Lemma kbd_ready_wts0 : kbd_ready wts0.
Proof. unfold kbd_ready. cbn. repeat split; lia. Qed.

Lemma kbd_ready_kept outfd buf s s' :
  kbd_ready s -> writetosubproccore outfd buf s = Done s' -> kbd_ready s'.
Proof.
  intros (K & L & W & I) Hrun.
  assert (Hinv : kbd_inv (trace s) (trace s)
                   (set_sendsigwin false s) (set_sendsigwin false s)).
  { assert (same_writes (trace s) (trace s)
              (set_sendsigwin false s) (set_sendsigwin false s)).
    { exists [], []. cbn. rewrite !app_nil_r. auto. }
    unfold kbd_inv, kbd_obs, kbd_agree. cbn. rewrite K.
    intuition (auto; try lia). }
  pose proof (inv_kbd_bytes _ _ outfd buf _ _ Hinv) as Hb.
  unfold writetosubproccore in Hrun. rewrite K in Hrun. cbn [Z.eqb negb] in Hrun.
  destruct (kbd_bytes outfd buf (set_sendsigwin false s)) as [a | a | a];
    cbn in Hrun, Hb; try discriminate.
  inversion Hrun; subst s'.
  destruct (inv_finishkbuf _ _ outfd _ _ Hb) as [Hf Hz].
  inv_open Hf. unfold kbd_ready. auto.
Qed.

End KbdFunction.

Module TtyFacts.
Import Session.

(** ** The terminal filter on the inputs of the tests *)

(** C8.  From the zeroed state with a text log on [fd], the output
    ["abcdef" BS ESC[K BS ESC[K BS ESC[K "xyz" CR LF] writes the one line
    ["abcxyz"] to the log: each backspace moves [linepos] back by one,
    each [ESC [ K] cuts [linesz] down to [linepos], and the line feed
    writes the line and empties it. *)
Theorem erase_line_logged fd :
  fd <> 0 ->
  let r := process_tty_out erase_input (set_logfd fd wts0) in
  is_done r = true
  /\ trace (state_of r) = [Write fd (bytes_of "abcxyz" ++ [10])]
  /\ written fd (trace (state_of r)) = bytes_of "abcxyz" ++ [10]
  /\ map (cursor_after erase_input (set_logfd fd wts0))
       [6; 7; 10; 11; 14; 15; 18; 21; 22; 23]%nat
     = [(6, 6); (5, 6); (5, 5); (4, 5); (4, 4); (3, 4); (3, 3); (6, 6);
        (0, 6); (0, 0)].
Proof.
  intros Hfd r.
  assert (Htrace : trace (state_of r) = [Write fd (bytes_of "abcxyz" ++ [10])]).
  { subst r. destruct fd as [| p | p]; [congruence | |];
      vm_compute; reflexivity. }
  split; [| split; [exact Htrace | split]].
  - subst r. destruct fd as [| p | p]; [congruence | |];
      vm_compute; reflexivity.
  - rewrite Htrace. cbn [written]. rewrite Z.eqb_refl, app_nil_r.
    reflexivity.
  - destruct fd as [| p | p]; [congruence | |]; vm_compute; reflexivity.
Qed.

Lemma erase_line_logged_witness :
  written 1 (trace (state_of (process_tty_out erase_input (set_logfd 1 wts0))))
  = bytes_of "abcxyz" ++ [10].
Proof.
  apply (erase_line_logged 1). lia.
Defined.

(** C2, on the code.  [linesz] passes the size of [linebuf]: cursor right
    raises [linepos] without a bound and [ESC [ K] copies it to [linesz],
    so after 1025 times [ESC [ C] and [ESC [ K] the call returns with
    [linesz = 1025]; the next ordinary byte then ends the process in the
    check for this.  [escsz] passes the size of [escbuf] as well: after
    [ESC] and 1024 more bytes of one escape sequence it is 1025, and
    [deletechrahead] reads [escbuf[1024]]. *)
Lemma buffer_sizes_exceeded :
  (let r := process_tty_out cursor_right_input wts0 in
   is_done r = true /\ linesz (state_of r) = 1025
   /\ linepos (state_of r) = 1025)
  /\ (let r := process_tty_out (cursor_right_input ++ [120]) wts0 in
      is_exit r = true /\ linesz (state_of r) = 1026)
  /\ (let r := process_tty_out long_escape_input wts0 in
      is_fault r = true /\ escsz (state_of r) = 1025)
  /\ (let r := process_tty_out (removelast long_escape_input) wts0 in
      is_done r = true /\ escsz (state_of r) = 1024).
Proof. vm_compute. auto 10. Qed.

(** The client-bound buffer is apart from the line and escape
    buffers. *)
Lemma verifyroutcap_keeps n s :
  escsz (verifyroutcap n s) = escsz s
  /\ escbuf (verifyroutcap n s) = escbuf s
  /\ linesz (verifyroutcap n s) = linesz s
  /\ linepos (verifyroutcap n s) = linepos s.
Proof.
  unfold verifyroutcap. destruct (_ <=? _); cbn; auto.
Qed.

Lemma putrout_keeps b s :
  escsz (putrout b s) = escsz s /\ escbuf (putrout b s) = escbuf s
  /\ linesz (putrout b s) = linesz s /\ linepos (putrout b s) = linepos s.
Proof.
  unfold putrout. destruct (verifyroutcap_keeps 3 s) as (H1 & H2 & H3 & H4).
  destruct (_ || _); cbn; auto.
Qed.

(** The byte [ESC] restarts the escape buffer in every state: what was
    gathered is dropped and [ESC] becomes its first byte. *)
Lemma esc_restarts s :
  length (escbuf s) = 1024%nat ->
  exists s',
    tty_byte 27 s = Done s' /\ escsz s' = 1 /\ rd (escbuf s') 0 = 27.
Proof.
  intros Hlen. unfold tty_byte, line_model. cbn [Z.eqb Pos.eqb Z.leb Z.compare
    Pos.compare Pos.compare_cont andb orb negb].
  cbv zeta. cbn [Z.eqb Pos.eqb orb escsz set_escsz escbuf set_escbuf].
  unfold SAFEPTR. change (0 mod (1024 - 1 + 1)) with 0.
  change ((0 + 1) mod U32) with 1.
  cbn [bind]. unfold deletechrahead. cbn [escsz set_escsz set_escbuf].
  change (1 <? 4) with true. cbv iota. cbn [bind].
  eexists. split; [reflexivity |].
  match goal with
  | |- escsz (putrout _ ?x) = _ /\ _ =>
      destruct (putrout_keeps 27 x) as (H1 & H2 & _)
  end.
  rewrite H1, H2. cbn [escsz set_escsz escbuf set_escbuf].
  split; [reflexivity |].
  unfold rd, wr. rewrite nth_lookup, list_lookup_insert_eq by lia.
  reflexivity.
Qed.

(** While an escape sequence fits in the buffer, it starts with [ESC]:
    this holds in every state the filter reaches, from the zeroed
    state on, whatever the input. *)
Lemma esc_ok_same s s' :
  escbuf s' = escbuf s -> escsz s' = escsz s \/ escsz s' = 0 ->
  esc_ok s -> esc_ok s'.
Proof.
  intros Hb Hz (Hl & H0 & H27). unfold esc_ok. rewrite Hb.
  destruct Hz as [-> | ->]; repeat split; auto; lia.
Qed.


Lemma rout_push_keeps c s :
  escsz (rout_push c s) = escsz s /\ escbuf (rout_push c s) = escbuf s.
Proof. split; reflexivity. Qed.

Lemma putroutraw_keeps str s :
  escsz (putroutraw str s) = escsz s /\ escbuf (putroutraw str s) = escbuf s.
Proof.
  unfold putroutraw.
  destruct (verifyroutcap_keeps (Z.of_nat (length str)) s) as (H1 & H2 & _).
  revert H1 H2. generalize (verifyroutcap (Z.of_nat (length str)) s).
  induction str as [| c str IH]; intros s0 H1 H2; cbn [fold_left]; [auto |].
  apply IH; assumption.
Qed.

Lemma CONSUMEESC_safe p s yes no :
  esc_safe yes -> esc_safe no -> esc_ok s ->
  esc_ok (state_of (CONSUMEESC p s yes no)).
Proof.
  intros Hy Hn Hs. unfold CONSUMEESC.
  destruct (1024 <? _).
  { cbn. eapply esc_ok_same; [| | exact Hs]; cbn; auto. }
  destruct (negb (escsz s =? _)); [apply Hn; exact Hs |].
  destruct (negb (bytes_eqb _ _)); [apply Hn; exact Hs |].
  apply Hy. eapply esc_ok_same; [| | exact Hs]; cbn; auto.
Qed.

Lemma line_put_safe b : esc_safe (line_put b).
Proof.
  intros s Hs. unfold line_put.
  set (s1 := if b =? 10 then set_linepos (linesz s) s else s).
  assert (H1 : esc_ok s1).
  { subst s1. destruct (b =? 10); [| exact Hs].
    eapply esc_ok_same; [| | exact Hs]; cbn; auto. }
  clearbody s1. destruct (b =? 7); [exact H1 |]. cbv zeta.
  repeat match goal with
         | |- context [if ?c then _ else _] => destruct c
         end;
    cbn [state_of]; (eapply esc_ok_same; [| | exact H1]); cbn; auto.
Qed.

Lemma esc_append_ok b s :
  esc_ok s -> b = 27 \/ escsz s <> 0 ->
  let s0 := if b =? 27 then set_escsz 0 s else s in
  esc_ok (set_escsz ((escsz s0 + 1) mod U32)
            (set_escbuf (wr (escbuf s0) (SAFEPTR 1024 (escsz s0) 1) b) s0)).
Proof.
  intros (Hl & H0 & H27) Hb s0.
  assert (Hz : 0 <= escsz s0 < 2 ^ 32)
    by (subst s0; destruct (b =? 27); cbn; lia).
  assert (Hbuf : escbuf s0 = escbuf s) by (subst s0; destruct (b =? 27); auto).
  unfold esc_ok, SAFEPTR, U32. cbn [escsz escbuf set_escsz set_escbuf].
  change (1024 - 1 + 1) with 1024. rewrite Hbuf.
  unfold wr. rewrite length_insert.
  split; [exact Hl |].
  split; [apply Z.mod_pos_bound; lia |].
  intros Hrange.
  assert (Hsmall : escsz s0 < 1024).
  { destruct (Z.lt_ge_cases (escsz s0 + 1) (2 ^ 32)) as [Hlt | Hge].
    - rewrite Z.mod_small in Hrange by lia. lia.
    - replace (escsz s0 + 1) with (2 ^ 32) in Hrange by lia.
      rewrite Z.mod_same in Hrange by lia. lia. }
  rewrite Z.mod_small by lia. unfold rd. rewrite nth_lookup.
  destruct (Z.eq_dec (escsz s0) 0) as [E0 | Hne].
  - rewrite E0. rewrite list_lookup_insert_eq by lia. cbn.
    subst s0. destruct (Z.eqb_spec b 27) as [-> | Hnb]; [reflexivity |].
    destruct Hb as [Hb | Hb]; [contradiction | cbn in E0; contradiction].
  - rewrite list_lookup_insert_ne by lia.
    assert (Hs0 : escsz s0 = escsz s).
    { subst s0. destruct (Z.eqb_spec b 27); [cbn in Hne; lia | reflexivity]. }
    rewrite Hs0 in *. rewrite <- nth_lookup. apply H27. lia.
Qed.

Lemma line_model_safe b : esc_safe (line_model b).
Proof.
  intros s Hs. unfold line_model.
  destruct (b =? 13).
  { cbn. eapply esc_ok_same; [| | exact Hs]; cbn; auto. }
  destruct (b =? 8).
  { cbn. destruct (linepos s =? 0); [exact Hs |].
    eapply esc_ok_same; [| | exact Hs]; cbn; auto. }
  set (s1 := if b =? 7 then set_escsz 0 s else s).
  assert (H1 : esc_ok s1).
  { subst s1. destruct (b =? 7); [| exact Hs].
    eapply esc_ok_same; [| | exact Hs]; cbn; auto. }
  clearbody s1. cbv zeta.
  assert (Hlower : esc_safe (fun s =>
    if (b =? 27) || negb (escsz s =? 0) then
      let s0 := if b =? 27 then set_escsz 0 s else s in
      Done (set_escsz ((escsz s0 + 1) mod U32)
              (set_escbuf (wr (escbuf s0) (SAFEPTR 1024 (escsz s0) 1) b) s0))
    else line_put b s)).
  { intros s2 H2.
    destruct ((b =? 27) || negb (escsz s2 =? 0)) eqn:E;
      [| apply line_put_safe; exact H2].
    cbn [state_of]. apply esc_append_ok; [exact H2 | lia]. }
  assert (Hrest : esc_safe (fun s =>
    if (97 <=? b) && (b <=? 122) then
      csi_lower b s (fun s =>
        if (b =? 27) || negb (escsz s =? 0) then
          let s0 := if b =? 27 then set_escsz 0 s else s in
          Done (set_escsz ((escsz s0 + 1) mod U32)
                  (set_escbuf (wr (escbuf s0) (SAFEPTR 1024 (escsz s0) 1) b)
                     s0))
        else line_put b s)
    else
      (if (b =? 27) || negb (escsz s =? 0) then
         let s0 := if b =? 27 then set_escsz 0 s else s in
         Done (set_escsz ((escsz s0 + 1) mod U32)
                 (set_escbuf (wr (escbuf s0) (SAFEPTR 1024 (escsz s0) 1) b)
                    s0))
       else line_put b s))).
  { intros s2 H2. destruct ((97 <=? b) && (b <=? 122));
      [| apply Hlower; exact H2].
    unfold csi_lower. cbv zeta.
    assert (Halt : forall str, esc_safe (fun s =>
              Done (putroutraw str (set_altscren (b =? 104) s)))).
    { intros str s3 H3. cbn [state_of].
      destruct (putroutraw_keeps str (set_altscren (b =? 104) s3)) as [E1 E2].
      eapply esc_ok_same; [| | exact H3]; [rewrite E2 | rewrite E1]; auto. }
    apply CONSUMEESC_safe; auto.
    { intros s3 H3. cbn. eapply esc_ok_same; [| | exact H3]; cbn; auto. }
    intros s3 H3. apply CONSUMEESC_safe; auto.
    intros s4 H4. apply CONSUMEESC_safe; auto.
    intros s5 H5. apply CONSUMEESC_safe; auto.
    intros s6 H6. destruct ((1 <? escsz s6) && _);
      [| apply Hlower; exact H6].
    cbn. eapply esc_ok_same; [| | exact H6]; cbn; auto. }
  destruct ((65 <=? b) && (b <=? 90)); [| apply Hrest; exact H1].
  apply CONSUMEESC_safe; auto.
  intros s2 H2. cbn [state_of]. unfold csi_upper.
  repeat match goal with
         | |- context [if ?c then _ else _] => destruct c
         end;
    try exact H2; (eapply esc_ok_same; [| | exact H2]); cbn; auto.
Qed.

Lemma deletechrahead_safe : esc_safe deletechrahead.
Proof.
  intros s Hs. unfold deletechrahead.
  repeat match goal with
         | |- context [if ?c then _ else _] => destruct c
         | |- context [let '(_, _) := ?p in _] => destruct p
         end;
    cbn [state_of]; try exact Hs;
    (eapply esc_ok_same; [| | exact Hs]); cbn; auto.
Qed.

Lemma tty_byte_safe b : esc_safe (tty_byte b).
Proof.
  intros s Hs. unfold tty_byte.
  pose proof (line_model_safe b s Hs) as H1.
  destruct (line_model b s) as [s1 | s1 | s1]; cbn [bind state_of] in *; auto.
  pose proof (deletechrahead_safe s1 H1) as H2.
  destruct (deletechrahead s1) as [s2 | s2 | s2]; cbn [bind state_of] in *;
    auto.
  destruct (putrout_keeps b s2) as (E1 & E2 & _).
  eapply esc_ok_same; [| | exact H2]; [rewrite E2 | rewrite E1]; auto.
Qed.

Lemma tty_bytes_safe buf : esc_safe (tty_bytes buf).
Proof.
  induction buf as [| b buf IH]; intros s Hs; cbn [tty_bytes]; [exact Hs |].
  pose proof (tty_byte_safe b s Hs) as H1.
  destruct (tty_byte b s) as [s1 | s1 | s1]; cbn [bind state_of] in *; auto.
Qed.

Lemma escape_start_kept buf s :
  esc_ok s -> esc_ok (state_of (process_tty_out buf s)).
Proof.
  intros Hs. unfold process_tty_out. cbv zeta.
  set (s0 := if rawlogfd _ =? 0 then _ else _).
  assert (H0 : esc_ok s0).
  { subst s0. destruct (_ =? 0);
      (eapply esc_ok_same; [| | exact Hs]); cbn; auto. }
  pose proof (tty_bytes_safe buf s0 H0) as H1.
  destruct (tty_bytes buf s0) as [s1 | s1 | s1]; cbn [bind state_of] in *; auto.
  destruct (putroutraw_keeps [10] s1) as [E1 E2].
  destruct (rwout (putroutraw [10] s1));
    (eapply esc_ok_same; [| | exact H1]); cbn; auto.
Qed.

Lemma esc_ok_wts0 : esc_ok wts0.
Proof. unfold esc_ok. cbn. repeat split; lia. Qed.

(** C9, on the code.  The byte [ESC] does start the escape buffer anew
    ([esc_restarts]), and while the sequence fits in the buffer it starts
    with [ESC] ([escape_start_kept]); but a sequence longer than the
    buffer wraps: the 1025th byte is stored at [escbuf[0]], over the
    [ESC].  After [ESC] and 1024 times ["0"], [escsz] is 1025 and
    [escbuf[0]] is ["0"]. *)
Lemma escape_start_overwritten :
  (let s := state_of (process_tty_out (removelast long_escape_input) wts0) in
   escsz s = 1024 /\ rd (escbuf s) 0 = 27)
  /\ (let s := state_of (process_tty_out long_escape_input wts0) in
      escsz s = 1025 /\ rd (escbuf s) 0 = 48).
Proof. vm_compute. auto 10. Qed.

End TtyFacts.

Module InboundFacts.
Import Session Inbound.

(** ** Lengths on the wire *)

Lemma ntoh_snoc l b : ntoh (l ++ [b]) = ntoh l * 256 + b.
Proof. unfold ntoh. rewrite fold_left_app. reflexivity. Qed.

Lemma length_be k n : length (be k n) = k.
Proof.
  revert n. induction k as [| k IH]; intros n; cbn; [reflexivity |].
  rewrite length_app, IH. cbn. lia.
Qed.

Lemma ntoh_be k n : 0 <= n -> ntoh (be k n) = n mod 256 ^ Z.of_nat k.
Proof.
  revert n. induction k as [| k IH]; intros n Hn.
  - cbn. rewrite Z.mod_1_r. reflexivity.
  - cbn [be]. rewrite ntoh_snoc, IH by (apply Z.div_pos; lia).
    rewrite Nat2Z.inj_succ, Z.pow_succ_r by lia.
    assert (0 < 256 ^ Z.of_nat k) by (apply Z.pow_pos_nonneg; lia).
    rewrite Z.rem_mul_r by lia. lia.
Qed.

Lemma be_split a b n :
  be (a + b) n = be a (n / 256 ^ Z.of_nat b) ++ be b n.
Proof.
  revert n. induction b as [| b IH]; intros n.
  - rewrite Nat.add_0_r. cbn. rewrite Z.div_1_r, app_nil_r. reflexivity.
  - replace (a + S b)%nat with (S (a + b)) by lia. cbn [be].
    rewrite IH, <- app_assoc. do 2 f_equal.
    rewrite Nat2Z.inj_succ, Z.pow_succ_r by lia.
    assert (0 < 256 ^ Z.of_nat b) by (apply Z.pow_pos_nonneg; lia).
    rewrite Z.div_div by lia. reflexivity.
Qed.

(** Two 32-bit halves put together as the code does. *)
Lemma lor_halves n :
  0 <= n < 2 ^ 64 ->
  Z.lor ((n / 2 ^ 32 * 2 ^ 32) mod U64) (n mod 2 ^ 32) = n.
Proof.
  intros Hn. unfold U64.
  assert (Hhi : 0 <= n / 2 ^ 32 < 2 ^ 32).
  { split; [apply Z.div_pos; lia | apply Z.div_lt_upper_bound; lia]. }
  rewrite (Z.mod_small (n / 2 ^ 32 * 2 ^ 32)) by lia.
  rewrite <- Z.shiftl_mul_pow2 by lia.
  rewrite <- Z.lxor_lor, <- Z.add_nocarry_lxor.
  - rewrite Z.shiftl_mul_pow2 by lia.
    rewrite (Z.div_mod n (2 ^ 32)) at 3 by lia. lia.
  - apply Z.bits_inj'. intros i Hi.
    rewrite Z.land_spec, Z.bits_0.
    destruct (Z.lt_ge_cases i 32) as [Hlt | Hge].
    + rewrite Z.shiftl_spec_low by lia. reflexivity.
    + rewrite (Z.mod_pow2_bits_high n 32 i) by lia.
      apply andb_false_r.
  - apply Z.bits_inj'. intros i Hi.
    rewrite Z.land_spec, Z.bits_0.
    destruct (Z.lt_ge_cases i 32) as [Hlt | Hge].
    + rewrite Z.shiftl_spec_low by lia. reflexivity.
    + rewrite (Z.mod_pow2_bits_high n 32 i) by lia.
      apply andb_false_r.
Qed.

(** The first length byte of a masked frame. *)
Lemma len7_bits n :
  0 <= n < 128 -> Z.land (128 + n) 127 = n /\ Z.land (128 + n) 128 = 128.
Proof.
  intros Hn. split.
  - change 127 with (Z.ones 7). rewrite Z.land_ones by lia.
    change (2 ^ 7) with 128. rewrite Z.add_mod, Z.mod_same by lia.
    rewrite Z.add_0_l, Z.mod_mod, Z.mod_small by lia. reflexivity.
  - apply Z.bits_inj'. intros i Hi. rewrite Z.land_spec.
    change 128 with (2 ^ 7) at 2 3. rewrite Z.pow2_bits_eqb by lia.
    destruct (Z.eqb_spec 7 i) as [<- | Hne];
      [| apply andb_false_r].
    rewrite andb_true_r. apply Z.testbit_true; [lia |].
    change (2 ^ 7) with 128.
    replace ((128 + n) / 128) with 1; [reflexivity |].
    apply (Z.div_unique (128 + n) 128 1 n); lia.
Qed.

(** ** Unmasking *)

Lemma unmask_from_mod m k bs :
  unmask_from m (k mod 4) bs = unmask_from m k bs.
Proof.
  revert k. induction bs as [| b bs IH]; intros k; cbn; [reflexivity |].
  rewrite Z.mod_mod by lia. f_equal.
  rewrite <- (IH (k mod 4 + 1)), <- (IH (k + 1)).
  f_equal. rewrite Z.add_mod_idemp_l by lia. reflexivity.
Qed.

Lemma unmask_from_app m k a b :
  unmask_from m k (a ++ b)
  = unmask_from m k a ++ unmask_from m (k + Z.of_nat (length a)) b.
Proof.
  revert k. induction a as [| x a IH]; intros k; cbn [app unmask_from length].
  - rewrite Z.add_0_r. reflexivity.
  - rewrite IH. cbn [app]. do 3 f_equal. lia.
Qed.

Lemma length_unmask_from m k bs : length (unmask_from m k bs) = length bs.
Proof.
  revert k. induction bs as [| b bs IH]; intros k; cbn; auto.
Qed.

(** ** Reading into the buffer *)

Lemma length_live w :
  buf_ok w -> length (live w) = Z.to_nat (bfsz w - bfi w).
Proof.
  intros (Hl & Hi & Hs). unfold live, slice.
  rewrite length_take, length_drop. lia.
Qed.

Lemma read0_data cap w bs r :
  src w = Data bs :: r -> bs <> [] -> 0 < cap ->
  exists bs' src',
    read0 cap w = (RBytes bs', set_src src' w)
    /\ bs' <> [] /\ Z.of_nat (length bs') <= cap
    /\ bs' ++ data_of src' = bs ++ data_of r
    /\ (chunking r -> chunking src')
    /\ (length bs' + weight src' <= weight (Data bs :: r))%nat
    /\ (weight src' < weight (Data bs :: r))%nat
    /\ after_again src' = after_again r.
Proof.
  intros Hsrc Hbs Hcap. unfold read0. rewrite Hsrc.
  destruct (Z.leb_spec (Z.of_nat (length bs)) cap) as [Hle | Hgt].
  - exists bs, r. cbn. repeat split; auto; lia.
  - exists (take (Z.to_nat cap) bs), (Data (drop (Z.to_nat cap) bs) :: r).
    assert (Hd : drop (Z.to_nat cap) bs <> []).
    { intros E. apply (f_equal length) in E. rewrite length_drop in E.
      cbn in E. lia. }
    assert (Ht : take (Z.to_nat cap) bs <> []).
    { intros E. apply (f_equal length) in E. rewrite length_take in E.
      cbn in E. lia. }
    cbn. rewrite length_take, length_drop.
    repeat split; auto; try lia.
    rewrite app_assoc, take_drop. reflexivity.
Qed.

Lemma live_store w bs :
  buf_ok w -> bfi w = 0 -> bfsz w + Z.of_nat (length bs) <= 512 ->
  let w' := set_bfsz (bfsz w + Z.of_nat (length bs))
              (set_buf (store (buf w) (bfsz w) bs) w) in
  buf_ok w' /\ live w' = live w ++ bs.
Proof.
  intros (Hl & Hi & Hs) H0 Hroom w'. subst w'.
  unfold buf_ok, live, slice, store. cbn. rewrite H0 in *.
  change (Z.to_nat 0) with 0%nat. rewrite !drop_0, !Z.sub_0_r.
  split.
  - rewrite !length_app, length_take, length_drop. lia.
  - replace (Z.to_nat (bfsz w + Z.of_nat (length bs)))
      with (length (take (Z.to_nat (bfsz w)) (buf w) ++ bs))
      by (rewrite length_app, length_take; lia).
    rewrite app_assoc, take_app_length. reflexivity.
Qed.

Lemma refill_spec fuel : forall c w,
  (weight (src w) < fuel)%nat ->
  buf_ok w -> bfi w = 0 -> bfsz w < c <= 512 -> chunking (src w) ->
  exists w',
    (refill fuel c w = Some (Ready w') /\ c <= bfsz w'
       /\ after_again (src w') = after_again (src w)
     \/ refill fuel c w = Some (WouldBlock w') /\ bfsz w' < c
        /\ src w' = after_again (src w))
    /\ buf_ok w' /\ bfi w' = 0 /\ chunking (src w') /\ same_regs w w'
    /\ pending w' = pending w /\ (work w' <= work w)%nat.
Proof.
  induction fuel as [| fuel IH]; intros c w Hfuel Hok Hbfi Hc Hch; [lia |].
  cbn [refill].
  destruct (src w) as [| [| bs |] r] eqn:Hsrc.
  - (* nothing more arrives *)
    exists w. unfold read0. rewrite Hsrc.
    split; [right; repeat split; auto; lia |].
    unfold same_regs. repeat split; auto; try apply Hok.
  - (* would block *)
    exists (set_src r w). unfold read0. rewrite Hsrc.
    split; [right; repeat split; auto; cbn; lia |].
    unfold same_regs, pending, work, live. cbn. rewrite Hsrc. cbn.
    repeat split; auto; try apply Hok; try lia.
  - (* bytes *)
    destruct Hch as [Hbs Hch].
    destruct (read0_data (512 - bfsz w) w bs r Hsrc Hbs)
      as (bs' & src' & Hrd & Hne & Hcap & Hdata & Hch' & Hw1 & Hw2 & Haa);
      [lia |].
    rewrite Hrd.
    assert (Hlen : Z.of_nat (length bs') <> 0).
    { destruct bs'; [congruence | cbn; lia]. }
    replace (Z.of_nat (length bs') =? 0) with false by lia.
    set (w0 := set_src src' w).
    assert (Hok0 : buf_ok w0) by exact Hok.
    destruct (live_store w0 bs' Hok0 Hbfi) as [Hok1 Hlive1]; [cbn; lia |].
    set (w1 := set_bfsz (bfsz w0 + Z.of_nat (length bs'))
                 (set_buf (store (buf w0) (bfsz w0) bs') w0)) in *.
    assert (Hpend : pending w1 = pending w).
    { unfold pending. rewrite Hlive1. cbn. rewrite Hsrc. cbn.
      rewrite <- app_assoc, Hdata. reflexivity. }
    assert (Hwork : (work w1 <= work w)%nat).
    { unfold work. rewrite Hlive1, length_app. cbn. rewrite Hsrc.
      change (live w0) with (live w). lia. }
    assert (Hregs : same_regs w w1) by (unfold same_regs; cbn; auto 10).
    destruct (Z.ltb_spec (bfsz w1) c) as [Hlt | Hge].
    + destruct (IH c w1) as (w' & Hres & Hok' & Hbfi' & Hch'' & Hregs'
                              & Hpend' & Hwork');
        [cbn; lia | exact Hok1 | exact Hbfi | lia | cbn; auto |].
      exists w'. split.
      { destruct Hres as [(E & Hb & Ha) | (E & Hb & Ha)];
          [left | right]; (split; [exact E | split; [exact Hb |]]);
          rewrite Ha; cbn; exact Haa. }
      repeat split; auto; try apply Hok'; try lia; try congruence.
      all: destruct Hregs as (? & ? & ? & ? & ? & ? & ?);
        destruct Hregs' as (? & ? & ? & ? & ? & ? & ?); congruence.
    + exists w1. split; [left; repeat split; auto; cbn; exact Haa |].
      repeat split; auto; try apply Hok1.
  - (* a read error is not part of a split of the stream *)
    destruct Hch.
Qed.

Lemma mkeaval_spec fuel c w :
  (weight (src w) < fuel)%nat ->
  buf_ok w -> 0 <= c <= 512 -> chunking (src w) ->
  exists w',
    (mkeaval fuel c w = Some (Ready w') /\ c <= bfsz w' - bfi w'
       /\ after_again (src w') = after_again (src w)
     \/ mkeaval fuel c w = Some (WouldBlock w') /\ bfsz w' - bfi w' < c
        /\ src w' = after_again (src w))
    /\ buf_ok w' /\ chunking (src w') /\ same_regs w w'
    /\ pending w' = pending w /\ (work w' <= work w)%nat.
Proof.
  intros Hfuel Hok Hc Hch. pose proof Hok as (Hl & Hi & Hs).
  unfold mkeaval, U32. rewrite (Z.mod_small (bfsz w - bfi w)) by lia.
  replace ((c <? 0) || (512 <? c)) with false by lia.
  destruct (Z.leb_spec c (bfsz w - bfi w)) as [Hle | Hgt].
  { exists w. split; [left; repeat split; auto; lia |].
    unfold same_regs. repeat split; auto; lia. }
  set (w1 := set_bfi 0
               (set_buf (memmove (buf w) 0 (bfi w) (bfsz w - bfi w))
                  (set_bfsz (bfsz w - bfi w) w))).
  assert (Hbuf1 : buf w1 = live w ++ drop (Z.to_nat (bfsz w - bfi w)) (buf w)).
  { unfold w1, memmove, live, slice. cbn. reflexivity. }
  assert (Hok1 : buf_ok w1).
  { unfold buf_ok. rewrite Hbuf1, length_app, length_live, length_drop by auto.
    cbn. lia. }
  assert (Hlive1 : live w1 = live w).
  { unfold live at 1, slice. rewrite Hbuf1. cbn.
    rewrite Z.sub_0_r. change (Z.to_nat 0) with 0%nat. rewrite drop_0.
    apply take_app_length'. rewrite length_live by auto. reflexivity. }
  destruct (refill_spec fuel c w1) as (w' & Hres & Hok' & Hbfi' & Hch' & Hregs
                                        & Hpend & Hwork);
    [exact Hfuel | exact Hok1 | reflexivity | cbn; lia | exact Hch |].
  exists w'. split.
  { rewrite Hbfi', Z.sub_0_r. exact Hres. }
  repeat split; auto; try apply Hok'; try apply Hregs.
  - rewrite Hpend. unfold pending. rewrite Hlive1. reflexivity.
  - unfold work in *. rewrite Hlive1 in Hwork. exact Hwork.
Qed.

(** Taking [c] buffered bytes, as [forceinby] does after [mkeaval]. *)
Lemma consume_spec c w :
  buf_ok w -> 0 <= c <= bfsz w - bfi w ->
  let w' := set_bfi ((bfi w + c) mod U32) w in
  buf_ok w'
  /\ slice (buf w) (bfi w) c = take (Z.to_nat c) (pending w)
  /\ live w' = drop (Z.to_nat c) (live w)
  /\ pending w' = drop (Z.to_nat c) (pending w)
  /\ (work w' + Z.to_nat c = work w)%nat
  /\ bfi w' = bfi w + c.
Proof.
  intros Hok Hc w'. pose proof Hok as (Hl & Hi & Hs).
  assert (Hbfi : bfi w' = bfi w + c).
  { unfold w', U32. cbn. apply Z.mod_small. lia. }
  assert (Hlive : live w' = drop (Z.to_nat c) (live w)).
  { unfold live, slice. rewrite Hbfi. cbn.
    replace (Z.to_nat (bfsz w - bfi w))
      with (Z.to_nat c + Z.to_nat (bfsz w - (bfi w + c)))%nat by lia.
    rewrite <- take_drop_commute, drop_drop.
    do 2 f_equal. lia. }
  assert (Hlen : length (live w) = Z.to_nat (bfsz w - bfi w))
    by (apply length_live; exact Hok).
  repeat split; auto; try (rewrite Hbfi; cbn; lia).
  - unfold pending. rewrite take_app_le by lia.
    unfold live, slice. rewrite take_take. f_equal. lia.
  - unfold pending. rewrite Hlive, drop_app_le by lia. reflexivity.
  - unfold work. rewrite Hlive, length_drop. cbn. lia.
Qed.

(** ** One pass through the switch *)

Lemma rd_slice a i n j :
  0 <= i -> (j < Z.to_nat n)%nat -> (Z.to_nat i + j < length a)%nat ->
  rd a (i + Z.of_nat j) = nth j (slice a i n) 0.
Proof.
  intros Hi Hj Hlen. unfold rd, slice.
  rewrite !nth_lookup, lookup_take_lt, lookup_drop by lia.
  do 2 f_equal. lia.
Qed.

Lemma slice_split a i n m :
  0 <= i -> 0 <= n -> 0 <= m ->
  slice a i (n + m) = slice a i n ++ slice a (i + n) m.
Proof.
  intros Hi Hn Hm. unfold slice.
  replace (Z.to_nat (n + m)) with (Z.to_nat n + Z.to_nat m)%nat by lia.
  rewrite <- take_take_drop, drop_drop.
  do 3 f_equal. lia.
Qed.

Lemma length_slice_le a i n :
  (length (slice a i n) <= Z.to_nat n)%nat.
Proof. unfold slice. rewrite length_take. lia. Qed.

Lemma live_wr_below w i x :
  buf_ok w -> 0 <= i < bfi w ->
  buf_ok (set_buf (wr (buf w) i x) w)
  /\ live (set_buf (wr (buf w) i x) w) = live w.
Proof.
  intros (Hl & Hi & Hs) Hlt. unfold buf_ok, live, slice, wr. cbn.
  rewrite length_insert, drop_insert_lt by lia. auto.
Qed.

Lemma expects_regs w w' stream out :
  same_regs w w' -> expects w stream out -> expects w' stream out.
Proof.
  intros (Hm & Hd & Hu & Hs & Hp & _ & _). unfold expects.
  rewrite Hm, Hd, Hu, Hs, Hp. auto.
Qed.

Lemma need_regs w w' : same_regs w w' -> need w' = need w.
Proof.
  intros (Hm & Hd & Hu & Hs & Hp & _ & _). unfold need.
  rewrite Hs, Hp. reflexivity.
Qed.

Lemma same_regs_trans a b c :
  same_regs a b -> same_regs b c -> same_regs a c.
Proof.
  intros (? & ? & ? & ? & ? & ? & ?) (? & ? & ? & ? & ? & ? & ?).
  unfold same_regs. repeat split; congruence.
Qed.

Lemma same_regs_state w : same_regs w (set_state (state w) w).
Proof. unfold same_regs. cbn. auto 10. Qed.

(** What [forceinby] does in a state that waits for [c] bytes: it returns
    for lack of input, or it goes on with the [c] next bytes of the
    stream taken. *)
Lemma forceinby_spec fuel c w k :
  (weight (src w) < fuel)%nat ->
  buf_ok w -> chunking (src w) -> 0 <= c <= 512 ->
  (exists w',
     forceinby fuel c w k = Some (Ret w')
     /\ buf_ok w' /\ chunking (src w') /\ same_regs w w'
     /\ pending w' = pending w /\ Z.of_nat (length (live w')) < c
     /\ src w' = after_again (src w) /\ (work w' <= work w)%nat)
  \/ (exists w',
        forceinby fuel c w k = Some (k (bfi w' - c) w')
        /\ buf_ok w' /\ chunking (src w') /\ same_regs w w'
        /\ 0 <= bfi w' - c
        /\ slice (buf w') (bfi w' - c) c = take (Z.to_nat c) (pending w)
        /\ (Z.to_nat c <= length (pending w))%nat
        /\ pending w' = drop (Z.to_nat c) (pending w)
        /\ live w' = slice (buf w') (bfi w') (bfsz w' - bfi w')
        /\ (work w' + Z.to_nat c <= work w)%nat
        /\ after_again (src w') = after_again (src w)).
Proof.
  intros Hfuel Hok Hch Hc.
  destruct (mkeaval_spec fuel c w Hfuel Hok Hc Hch)
    as (w1 & Hres & Hok1 & Hch1 & Hregs & Hpend & Hwork).
  unfold forceinby.
  destruct Hres as [(E & Hb & Ha) | (E & Hb & Ha)]; rewrite E.
  - right.
    destruct (consume_spec c w1 Hok1) as (Hok2 & Hsl & Hlive & Hp2 & Hw2 & Hbfi);
      [lia |].
    set (w2 := set_bfi ((bfi w1 + c) mod U32) w1) in *.
    exists w2.
    assert (Hlen : (Z.to_nat c <= length (live w1))%nat)
      by (rewrite length_live by auto; lia).
    replace (bfi w2 - c) with (bfi w1) by lia.
    repeat split; auto; try apply Hok2; try apply Hregs; try lia.
    { apply Hok1. }
    all: rewrite <- Hpend;
      first [exact Hsl | exact Hp2 | unfold pending; rewrite length_app; lia].
  - left. exists w1.
    repeat split; auto; try apply Hok1; try apply Hregs.
    rewrite length_live by auto. pose proof Hok1 as (? & ? & ?). lia.
Qed.

Lemma step_frame fuel c w k final :
  decoding final w -> (weight (src w) < fuel)%nat ->
  need w = c -> 0 < c <= 512 ->
  (forall w',
     buf_ok w' -> chunking (src w') -> same_regs w w' ->
     0 <= bfi w' - c ->
     slice (buf w') (bfi w' - c) c = take (Z.to_nat c) (pending w) ->
     (Z.to_nat c <= length (pending w))%nat ->
     pending w' = drop (Z.to_nat c) (pending w) ->
     exists w'',
       k (bfi w' - c) w' = Next w'' /\ decoding final w''
       /\ live w'' = live w' /\ src w'' = src w'
       /\ stdout w'' = stdout w') ->
  advances final w (forceinby fuel c (set_state (state w) w) k).
Proof.
  intros (Hok & Hch & out & Hexp & Hfin) Hfuel Hneed Hc Hk.
  pose proof (same_regs_state w) as Hst.
  destruct (forceinby_spec fuel c (set_state (state w) w) k)
    as [(w' & E & Hok' & Hch' & Hregs & Hpend & Hlen & Hsrc & Hwork)
       | (w' & E & Hok' & Hch' & Hregs & Hbfc & Hsl & Hlen & Hpend & Hlive
          & Hwork & Hsrc)];
    [exact Hfuel | exact Hok | exact Hch | lia | |].
  - right. exists w'.
    pose proof (same_regs_trans _ _ _ Hst Hregs) as Hr.
    split; [exact E |].
    split.
    { split; [exact Hok' |]. split; [exact Hch' |]. exists out.
      split.
      - apply (expects_regs w w' _ _ Hr).
        change (pending (set_state (state w) w)) with (pending w) in Hpend.
        rewrite Hpend. exact Hexp.
      - destruct Hr as (_ & _ & _ & _ & _ & Hd & _). rewrite Hd. exact Hfin. }
    split.
    { unfold blocked. rewrite (need_regs w w' Hr), Hneed. exact Hlen. }
    split; [exact Hsrc |]. split; [apply Hr | exact Hwork].
  - left.
    pose proof (same_regs_trans _ _ _ Hst Hregs) as Hr.
    destruct (Hk w' Hok' Hch' Hr Hbfc Hsl Hlen Hpend)
      as (w'' & Ek & Hdec & Hl & Hs & Hso).
    exists w''. rewrite E, Ek.
    split; [reflexivity |]. split; [exact Hdec |].
    split.
    { unfold work in *. rewrite Hl, Hs.
      change (live (set_state (state w) w)) with (live w) in Hwork.
      change (src (set_state (state w) w)) with (src w) in Hwork. lia. }
    split; [rewrite Hs; exact Hsrc |].
    rewrite Hso. apply Hr.
Qed.

(** ** The states, one by one *)

Lemma rd_first a i c x rest :
  slice a i c = take (Z.to_nat c) (x :: rest) -> 0 < c -> 0 <= i ->
  rd a i = x.
Proof.
  intros H Hc Hi. unfold rd, slice in *.
  assert (Hl : take (Z.to_nat c) (drop (Z.to_nat i) a) !! 0%nat = Some x).
  { rewrite H. rewrite lookup_take_lt by lia. reflexivity. }
  rewrite lookup_take_lt, lookup_drop, Nat.add_0_r in Hl by lia.
  rewrite nth_lookup, Hl. reflexivity.
Qed.

Lemma wires_cons f fs : wires (f :: fs) = wire f ++ wires fs.
Proof. reflexivity. Qed.

Lemma payloads_cons f fs : payloads (f :: fs) = payload f ++ payloads fs.
Proof. reflexivity. Qed.

(** The decoder at a new point of the stream: same buffer contents
    beyond [bfi], new registers. *)
Lemma decoding_intro final w stream out :
  buf_ok w -> chunking (src w) -> pending w = stream ->
  expects w stream out -> final = dest w ++ out ->
  decoding final w.
Proof.
  intros Hok Hch Hp He Hf. split; [exact Hok |]. split; [exact Hch |].
  exists out. rewrite Hp. auto.
Qed.

Lemma step_header fuel w final :
  decoding final w -> state w = sH -> (weight (src w) < fuel)%nat ->
  advances final w (step fuel w).
Proof.
  intros Hdec Hst Hfuel. unfold step, do_header. rewrite Hst.
  change (sH =? sP) with false. change (sH =? sH) with true. cbv iota.
  rewrite <- Hst at 1.
  apply step_frame; auto; [unfold need; rewrite Hst; reflexivity | lia |].
  intros w' Hok' Hch' Hr Hbfc Hsl Hlen Hpend.
  destruct Hdec as (Hok & Hch & out & Hexp & Hfin).
  unfold expects in Hexp. rewrite Hst in Hexp.
  change (sH =? sH) with true in Hexp. cbv iota in Hexp.
  destruct Hexp as (fs & Hfs & Hstream & Hout).
  destruct fs as [| f fs].
  { rewrite Hstream in Hlen. cbn in Hlen. lia. }
  rewrite wires_cons in Hstream. unfold wire in Hstream.
  rewrite Hstream in Hsl, Hpend. cbn [app] in Hsl, Hpend.
  apply rd_first in Hsl; [| lia | lia].
  change (Z.to_nat 1) with 1%nat in Hpend. cbn [drop] in Hpend.
  apply Forall_cons in Hfs as [Hf Hfs'].
  pose proof Hf as (Hb & Hop & Hform & Hml & Hmb & Hdb).
  rewrite Hsl.
  replace ((Z.land (fhdr f) 127 =? 0) || (Z.land (fhdr f) 127 =? 1)
           || (Z.land (fhdr f) 127 =? 2)) with true by lia.
  eexists. split; [reflexivity |].
  destruct (live_wr_below w' (bfi w' - 1) (Z.land (fhdr f) 127) Hok')
    as [Hok2 Hlive2]; [lia |].
  split; [| cbn; auto].
  apply decoding_intro
    with (stream := lenbytes f ++ fmask f ++ fdata f ++ wires fs)
         (out := payload f ++ payloads fs).
  - exact Hok2.
  - exact Hch'.
  - unfold pending in *. cbn [src set_state set_buf].
    change (live (set_state sL
                    (set_buf (wr (buf w') (bfi w' - 1)
                                (Z.land (fhdr f) 127)) w')))
      with (live (set_buf (wr (buf w') (bfi w' - 1)
                             (Z.land (fhdr f) 127)) w')).
    rewrite Hlive2. rewrite Hpend, <- !app_assoc. reflexivity.
  - unfold expects. cbn [state set_state].
    change (sL =? sH) with false. change (sL =? sL) with true. cbv iota.
    exists f, fs. auto.
  - cbn [dest set_state set_buf].
    destruct Hr as (_ & _ & _ & _ & _ & Hd & _). rewrite Hd.
    rewrite Hfin, Hout, payloads_cons. reflexivity.
Qed.

Ltac tags :=
  unfold sP, sH, sL, sX, sY, sM, sD in *; cbn [Z.eqb Pos.eqb] in *.

Lemma data_frame_length f :
  data_frame f -> 0 <= Z.of_nat (length (fdata f)) < 2 ^ 64.
Proof.
  intros (_ & _ & Hform & _). destruct (fform f); lia.
Qed.

Lemma step_len fuel w final :
  decoding final w -> state w = sL -> (weight (src w) < fuel)%nat ->
  advances final w (step fuel w).
Proof.
  intros Hdec Hst Hfuel. unfold step. rewrite Hst. tags.
  rewrite <- Hst at 1.
  apply step_frame; auto; [unfold need; rewrite Hst; reflexivity | lia |].
  intros w' Hok' Hch' Hr Hbfc Hsl Hlen Hpend.
  destruct Hdec as (Hok & Hch & out & Hexp & Hfin).
  unfold expects in Hexp. rewrite Hst in Hexp. tags.
  destruct Hexp as (f & fs & Hf & Hfs & Hstream & Hout).
  pose proof Hf as (Hb & Hop & Hform & Hml & Hmb & Hdb).
  pose proof Hr as (_ & _ & _ & _ & _ & Hd & _).
  set (n := Z.of_nat (length (fdata f))) in *.
  unfold lenbytes in Hstream. rewrite Hstream in Hsl.
  destruct (fform f) eqn:Hff; cbn [app] in Hsl;
    apply rd_first in Hsl; try lia; rewrite Hsl; cbn [datalen set_datalen].
  - (* seven bits *)
    fold n. destruct (len7_bits n) as [H127 H128]; [lia |].
    rewrite H127, H128.
    change (128 =? 0) with false. cbv iota.
    replace (n =? 126) with false by lia.
    replace (n =? 127) with false by lia.
    eexists. split; [reflexivity |]. split; [| cbn; auto].
    apply decoding_intro with (stream := fmask f ++ fdata f ++ wires fs)
                              (out := out); auto.
    + transitivity (pending w'); [reflexivity |].
      rewrite Hpend, Hstream. reflexivity.
    + unfold expects. cbn [state set_state]. tags.
      exists f, fs. cbn. rewrite Hout. auto.
    + cbn. rewrite Hd. exact Hfin.
  - (* sixteen bits follow *)
    change (Z.land 254 128 =? 0) with false.
    change (Z.land 254 127 =? 126) with true. cbv iota.
    eexists. split; [reflexivity |]. split; [| cbn; auto].
    apply decoding_intro
      with (stream := be 2 n ++ fmask f ++ fdata f ++ wires fs) (out := out);
      auto.
    + transitivity (pending w'); [reflexivity |].
      rewrite Hpend, Hstream. reflexivity.
    + unfold expects. cbn [state set_state]. tags.
      exists f, fs. rewrite Hout. auto.
    + cbn. rewrite Hd. exact Hfin.
  - (* sixty-four bits follow *)
    change (Z.land 255 128 =? 0) with false.
    change (Z.land 255 127 =? 126) with false.
    change (Z.land 255 127 =? 127) with true. cbv iota.
    eexists. split; [reflexivity |]. split; [| cbn; auto].
    apply decoding_intro
      with (stream := be 8 n ++ fmask f ++ fdata f ++ wires fs) (out := out);
      auto.
    + transitivity (pending w'); [reflexivity |].
      rewrite Hpend, Hstream. reflexivity.
    + unfold expects. cbn [state set_state]. tags.
      exists f, fs. rewrite Hout. auto.
    + cbn. rewrite Hd. exact Hfin.
Qed.

Lemma slice_take a i n m :
  0 <= n -> 0 <= m -> slice a i n = take (Z.to_nat n) (slice a i (n + m)).
Proof.
  intros Hn Hm. unfold slice. rewrite take_take. f_equal. lia.
Qed.

Lemma slice_drop a i n m :
  0 <= i -> 0 <= n -> 0 <= m ->
  slice a (i + n) m = drop (Z.to_nat n) (slice a i (n + m)).
Proof.
  intros Hi Hn Hm. unfold slice.
  replace (Z.to_nat (n + m)) with (Z.to_nat n + Z.to_nat m)%nat by lia.
  rewrite <- take_drop_commute, drop_drop. do 2 f_equal. lia.
Qed.

Lemma step_ext16 fuel w final :
  decoding final w -> state w = sX -> (weight (src w) < fuel)%nat ->
  advances final w (step fuel w).
Proof.
  intros Hdec Hst Hfuel. unfold step. rewrite Hst. tags.
  rewrite <- Hst at 1.
  apply step_frame; auto; [unfold need; rewrite Hst; reflexivity | lia |].
  intros w' Hok' Hch' Hr Hbfc Hsl Hlen Hpend.
  destruct Hdec as (Hok & Hch & out & Hexp & Hfin).
  unfold expects in Hexp. rewrite Hst in Hexp. tags.
  destruct Hexp as (f & fs & Hf & Hfs & Hff & Hstream & Hout).
  pose proof Hf as (Hb & Hop & Hform & Hml & Hmb & Hdb).
  pose proof Hr as (_ & _ & _ & _ & _ & Hd & _).
  rewrite Hff in Hform.
  rewrite Hstream in Hsl, Hpend.
  rewrite take_app_length' in Hsl by (rewrite length_be; reflexivity).
  rewrite drop_app_length' in Hpend by (rewrite length_be; reflexivity).
  rewrite Hsl, ntoh_be by lia.
  change (256 ^ Z.of_nat 2) with (2 ^ 16). rewrite Z.mod_small by lia.
  eexists. split; [reflexivity |]. split; [| cbn; auto].
  apply decoding_intro with (stream := fmask f ++ fdata f ++ wires fs)
                            (out := out); auto.
  - unfold expects. cbn [state set_state]. tags.
    exists f, fs. cbn. rewrite Hout. auto.
  - cbn. rewrite Hd. exact Hfin.
Qed.

Lemma step_ext64 fuel w final :
  decoding final w -> state w = sY -> (weight (src w) < fuel)%nat ->
  advances final w (step fuel w).
Proof.
  intros Hdec Hst Hfuel. unfold step. rewrite Hst. tags.
  rewrite <- Hst at 1.
  apply step_frame; auto; [unfold need; rewrite Hst; reflexivity | lia |].
  intros w' Hok' Hch' Hr Hbfc Hsl Hlen Hpend.
  destruct Hdec as (Hok & Hch & out & Hexp & Hfin).
  unfold expects in Hexp. rewrite Hst in Hexp. tags.
  destruct Hexp as (f & fs & Hf & Hfs & Hff & Hstream & Hout).
  pose proof Hf as (Hb & Hop & Hform & Hml & Hmb & Hdb).
  pose proof Hr as (_ & _ & _ & _ & _ & Hd & _).
  rewrite Hff in Hform.
  set (n := Z.of_nat (length (fdata f))) in *.
  rewrite Hstream in Hsl, Hpend.
  rewrite take_app_length' in Hsl by (rewrite length_be; reflexivity).
  rewrite drop_app_length' in Hpend by (rewrite length_be; reflexivity).
  assert (Hhi : slice (buf w') (bfi w' - 8) 4 = be 4 (n / 2 ^ 32)).
  { rewrite (slice_take _ _ 4 4) by lia. change (4 + 4) with 8.
    rewrite Hsl.
    change (be 8 n) with (be (4 + 4) n). rewrite (be_split 4 4 n).
    change (256 ^ Z.of_nat 4) with (2 ^ 32). apply take_app_length'.
    rewrite length_be. reflexivity. }
  assert (Hlo : slice (buf w') (bfi w' - 8 + 4) 4 = be 4 n).
  { rewrite (slice_drop _ _ 4 4) by lia. change (4 + 4) with 8.
    rewrite Hsl.
    change (be 8 n) with (be (4 + 4) n). rewrite (be_split 4 4 n).
    apply drop_app_length'.
    rewrite length_be. reflexivity. }
  assert (Hdiv : 0 <= n / 2 ^ 32 < 2 ^ 32).
  { split; [apply Z.div_pos; lia | apply Z.div_lt_upper_bound; lia]. }
  rewrite Hhi, Hlo, !ntoh_be by lia.
  change (256 ^ Z.of_nat 4) with (2 ^ 32).
  rewrite (Z.mod_small (n / 2 ^ 32)) by lia.
  rewrite lor_halves by lia.
  eexists. split; [reflexivity |]. split; [| cbn; auto].
  apply decoding_intro with (stream := fmask f ++ fdata f ++ wires fs)
                            (out := out); auto.
  - unfold expects. cbn [state set_state]. tags.
    exists f, fs. cbn. rewrite Hout. auto.
  - cbn. rewrite Hd. exact Hfin.
Qed.

Lemma step_mask fuel w final :
  decoding final w -> state w = sM -> (weight (src w) < fuel)%nat ->
  advances final w (step fuel w).
Proof.
  intros Hdec Hst Hfuel. unfold step. rewrite Hst. tags.
  rewrite <- Hst at 1.
  apply step_frame; auto; [unfold need; rewrite Hst; reflexivity | lia |].
  intros w' Hok' Hch' Hr Hbfc Hsl Hlen Hpend.
  destruct Hdec as (Hok & Hch & out & Hexp & Hfin).
  unfold expects in Hexp. rewrite Hst in Hexp. tags.
  destruct Hexp as (f & fs & Hf & Hfs & Hdl & Hstream & Hout).
  pose proof Hf as (Hb & Hop & Hform & Hml & Hmb & Hdb).
  pose proof (data_frame_length f Hf) as Hn.
  pose proof Hr as (_ & Hdl' & _ & _ & _ & Hd & _).
  rewrite Hstream in Hsl, Hpend.
  rewrite take_app_length' in Hsl by (rewrite Hml; reflexivity).
  rewrite drop_app_length' in Hpend by (rewrite Hml; reflexivity).
  rewrite Hsl. unfold enter_data. cbn [datalen set_unmaskof set_mask].
  rewrite Hdl', Hdl.
  destruct (Z.eqb_spec (Z.of_nat (length (fdata f))) 0) as [Hz | Hnz].
  - (* an empty payload *)
    assert (Hnil : fdata f = []) by (destruct (fdata f); [auto | cbn in Hz; lia]).
    eexists. split; [reflexivity |]. split; [| cbn; auto].
    apply decoding_intro with (stream := wires fs) (out := payloads fs); auto.
    + transitivity (pending w'); [reflexivity |].
      rewrite Hpend, Hnil. reflexivity.
    + unfold expects. cbn [state set_state]. tags. exists fs. auto.
    + cbn. rewrite Hd, Hfin, Hout. unfold payload. rewrite Hnil. reflexivity.
  - eexists. split; [reflexivity |]. split; [| cbn; auto].
    apply decoding_intro with (stream := fdata f ++ wires fs) (out := out);
      auto.
    + unfold expects. cbn [state set_state]. tags.
      exists (fdata f), fs. cbn. rewrite Hdl', Hdl, Hout.
      repeat split; auto; lia.
    + cbn. rewrite Hd. exact Hfin.
Qed.

Lemma land_3 k : 0 <= k -> Z.land k 3 = k mod 4.
Proof.
  intros Hk. change 3 with (Z.ones 2). rewrite Z.land_ones by lia.
  reflexivity.
Qed.

(** The unmasking loop rewrites [n] bytes of the buffer in place with
    the unmasked bytes and advances the rotation. *)
Lemma unmask_spec n : forall bfc i w,
  0 <= bfc -> 0 <= i ->
  (Z.to_nat (bfc + i) + n <= length (buf w))%nat ->
  0 <= unmaskof w < 4 ->
  let w' := unmask n bfc i w in
  buf w'
  = take (Z.to_nat (bfc + i)) (buf w)
      ++ unmask_from (mask w) (unmaskof w)
           (slice (buf w) (bfc + i) (Z.of_nat n))
      ++ drop (Z.to_nat (bfc + i) + n) (buf w)
  /\ unmaskof w' = (unmaskof w + Z.of_nat n) mod 4
  /\ mask w' = mask w /\ bfi w' = bfi w /\ bfsz w' = bfsz w
  /\ datalen w' = datalen w /\ state w' = state w
  /\ datpart w' = datpart w /\ src w' = src w /\ dest w' = dest w
  /\ stdout w' = stdout w.
Proof.
  induction n as [| n IH]; intros bfc i w Hbfc Hi Hlen Hk w'.
  - subst w'. cbn [unmask]. unfold slice.
    change (Z.to_nat (Z.of_nat 0)) with 0%nat. change (Z.of_nat 0) with 0.
    rewrite take_0. cbn [unmask_from app].
    rewrite Nat.add_0_r, take_drop, Z.add_0_r.
    rewrite Z.mod_small by lia. auto 12.
  - subst w'. cbn [unmask].
    set (p := Z.to_nat (bfc + i)) in *.
    set (x := Z.lxor (rd (buf w) (bfc + i)) (rd (mask w) (unmaskof w))).
    set (w1 := set_unmaskof _ (set_buf _ w)).
    assert (Hb1 : buf w1 = <[p := x]> (buf w)) by reflexivity.
    assert (Hk1 : unmaskof w1 = (unmaskof w + 1) mod 4).
    { unfold w1. cbn. apply land_3. lia. }
    destruct (IH bfc (i + 1) w1) as (Hbuf & Hun & Hrest); try lia.
    { rewrite Hb1, length_insert. lia. }
    { rewrite Hk1. apply Z.mod_pos_bound. lia. }
    replace (Z.to_nat (bfc + (i + 1))) with (S p) in Hbuf by lia.
    split; [| split; [| exact Hrest]].
    + rewrite Hbuf, Hb1.
      assert (Hy : buf w !! p = Some (rd (buf w) (bfc + i))).
      { unfold rd. fold p. rewrite nth_lookup.
        destruct (buf w !! p) eqn:E; [reflexivity |].
        apply lookup_ge_None in E. lia. }
      rewrite (take_S_r _ _ x) by (apply list_lookup_insert_eq; lia).
      rewrite take_insert_ge by lia.
      unfold slice. fold p.
      replace (Z.to_nat (bfc + (i + 1))) with (S p) by lia.
      rewrite !drop_insert_lt by lia.
      rewrite (drop_S _ _ _ Hy).
      replace (Z.to_nat (Z.of_nat (S n))) with (S n) by lia.
      replace (Z.to_nat (Z.of_nat n)) with n by lia.
      rewrite firstn_cons. cbn [unmask_from].
      rewrite (Z.mod_small (unmaskof w)) by lia. fold x.
      change (mask w1) with (mask w). rewrite Hk1, unmask_from_mod.
      rewrite <- !app_assoc. cbn [app].
      replace (S p + n)%nat with (p + S n)%nat by lia. reflexivity.
    + rewrite Hun, Hk1. rewrite Z.add_mod_idemp_l by lia.
      f_equal. lia.
Qed.

Lemma step_data fuel w final :
  decoding final w -> state w = sD -> (weight (src w) < fuel)%nat ->
  advances final w (step fuel w).
Proof.
  intros Hdec Hst Hfuel. unfold step. rewrite Hst. tags.
  rewrite <- Hst at 1.
  pose proof Hdec as (Hok & Hch & out & Hexp & Hfin).
  unfold expects in Hexp. rewrite Hst in Hexp. tags.
  destruct Hexp as (rem & fs & Hfs & Hdl & Hdlb & Hdp & Hk & Hstream & Hout).
  set (c := datpart w) in *.
  assert (Hc : 0 < c <= 512) by lia.
  assert (Hcr : (Z.to_nat c <= length rem)%nat) by lia.
  apply step_frame; auto; [unfold need; rewrite Hst; reflexivity |].
  intros w' Hok' Hch' Hr Hbfc Hsl Hlen Hpend.
  pose proof Hr as (Hm' & Hdl' & Hk' & Hst' & Hdp' & Hd' & Hso').
  pose proof Hok' as (Hl' & Hi' & Hs').
  fold c in Hdp'.
  rewrite Hstream in Hsl, Hpend.
  rewrite take_app_le in Hsl by lia.
  rewrite drop_app_le in Hpend by lia.
  cbv zeta. rewrite Hdp'.
  set (bfc := bfi w' - c) in *.
  destruct (unmask_spec (Z.to_nat c) bfc 0 w')
    as (Hbuf & Hun & Hm1 & Hbfi1 & Hbfsz1 & Hdl1 & Hst1 & Hdp1 & Hsrc1
        & Hdest1 & Hso1); try lia.
  set (w1 := unmask (Z.to_nat c) bfc 0 w') in *.
  rewrite Z.add_0_r, Z2Nat.id in Hbuf by lia. rewrite Hsl in Hbuf.
  set (U := unmask_from (mask w') (unmaskof w') (take (Z.to_nat c) rem)) in *.
  assert (HlenU : length U = Z.to_nat c).
  { unfold U. rewrite length_unmask_from, length_take. lia. }
  assert (Hslice1 : slice (buf w1) bfc c = U).
  { unfold slice. rewrite Hbuf.
    rewrite drop_app_length' by (rewrite length_take; lia).
    apply take_app_length'. auto. }
  assert (Hlive1 : live w1 = live w').
  { unfold live, slice. rewrite Hbfi1, Hbfsz1, Hbuf.
    replace (Z.to_nat (bfi w')) with (Z.to_nat bfc + Z.to_nat c)%nat
      by (unfold bfc; lia).
    rewrite app_assoc, drop_app_length'; [reflexivity |].
    rewrite length_app, length_take, HlenU. lia. }
  assert (Hok1 : buf_ok w1).
  { unfold buf_ok. rewrite Hbfi1, Hbfsz1, Hbuf.
    rewrite !length_app, length_take, length_drop, HlenU.
    split; [unfold bfc; lia | lia]. }
  rewrite Hdp1, Hdp'. unfold fdb_apnd. rewrite Hslice1.
  cbn [datalen datpart set_dest]. rewrite Hdl1, Hdp1, Hdp', Hdl', Hdl.
  unfold U64.
  rewrite (Z.mod_small (Z.of_nat (length rem) - c)) by lia.
  unfold enter_data. cbn [datalen set_datalen].
  assert (HU : out = U ++ unmask_from (mask w) (unmaskof w + c)
                           (drop (Z.to_nat c) rem) ++ payloads fs).
  { rewrite Hout, <- (take_drop (Z.to_nat c) rem) at 1.
    rewrite unmask_from_app, length_take, <- app_assoc.
    unfold U. rewrite Hm', Hk'. do 3 f_equal. lia. }
  destruct (Z.eqb_spec (Z.of_nat (length rem) - c) 0) as [Hz | Hnz].
  - (* the last slice of the frame *)
    eexists. split; [reflexivity |].
    split; [| cbn [src stdout set_state set_datalen set_dest];
              rewrite Hsrc1, Hso1; auto].
    assert (Hnil : drop (Z.to_nat c) rem = []) by (apply drop_ge; lia).
    apply decoding_intro with (stream := wires fs) (out := payloads fs).
    + exact Hok1.
    + cbn. rewrite Hsrc1. exact Hch'.
    + transitivity (pending w1); [reflexivity |].
      unfold pending. rewrite Hlive1, Hsrc1.
      fold (pending w'). rewrite Hpend, Hnil. reflexivity.
    + unfold expects. cbn [state set_state]. tags. exists fs. auto.
    + cbn. rewrite Hdest1, Hd', Hfin, HU, Hnil. cbn [unmask_from app].
      rewrite <- app_assoc. reflexivity.
  - eexists. split; [reflexivity |].
    split; [| cbn [src stdout set_state set_datalen set_dest set_datpart];
              rewrite Hsrc1, Hso1; auto].
    apply decoding_intro
      with (stream := drop (Z.to_nat c) rem ++ wires fs)
           (out := unmask_from (mask w) (unmaskof w + c)
                     (drop (Z.to_nat c) rem) ++ payloads fs).
    + exact Hok1.
    + cbn. rewrite Hsrc1. exact Hch'.
    + transitivity (pending w1); [reflexivity |].
      unfold pending. rewrite Hlive1, Hsrc1.
      fold (pending w'). rewrite Hpend. reflexivity.
    + unfold expects. cbn [state set_state]. tags.
      exists (drop (Z.to_nat c) rem), fs.
      cbn. rewrite length_drop, Hun, Hm1, Hm', Hk'.
      rewrite Z2Nat.id by lia. rewrite unmask_from_mod.
      pose proof (Z.mod_pos_bound (unmaskof w + c) 4 ltac:(lia)).
      repeat split; auto; lia.
    + cbn. rewrite Hdest1, Hd', Hfin, HU, <- app_assoc. reflexivity.
Qed.

(** ** The loop, a call, a sequence of calls *)

Lemma step_advances fuel w final :
  decoding final w -> (weight (src w) < fuel)%nat ->
  advances final w (step fuel w).
Proof.
  intros Hdec Hfuel.
  pose proof Hdec as (_ & _ & out & Hexp & _). unfold expects in Hexp.
  destruct (Z.eqb_spec (state w) sH); [apply step_header; auto |].
  destruct (Z.eqb_spec (state w) sL); [apply step_len; auto |].
  destruct (Z.eqb_spec (state w) sX); [apply step_ext16; auto |].
  destruct (Z.eqb_spec (state w) sY); [apply step_ext64; auto |].
  destruct (Z.eqb_spec (state w) sM); [apply step_mask; auto |].
  destruct (Z.eqb_spec (state w) sD); [apply step_data; auto |].
  contradiction.
Qed.

Lemma weight_le_work w : (weight (src w) <= work w)%nat.
Proof. unfold work. lia. Qed.

Lemma loop_spec final fuel : forall w,
  decoding final w -> (work w + 1 < fuel)%nat ->
  exists w',
    loop fuel w = Some (Done w') /\ decoding final w' /\ blocked w'
    /\ src w' = after_again (src w) /\ stdout w' = stdout w
    /\ (work w' <= work w)%nat.
Proof.
  induction fuel as [| fuel IH]; intros w Hdec Hfuel; [lia |].
  cbn [loop]. pose proof (weight_le_work w) as Hw.
  destruct (step_advances fuel w final Hdec)
    as [(w1 & E & Hdec1 & Hwork & Hsrc & Hso)
       | (w1 & E & Hdec1 & Hbl & Hsrc & Hso & Hwork)]; [lia | |];
    rewrite E.
  - destruct (IH w1 Hdec1) as (w' & E' & Hdec' & Hbl' & Hsrc' & Hso' & Hwork');
      [lia |].
    exists w'.
    split; [exact E' |]. split; [exact Hdec' |]. split; [exact Hbl' |].
    split; [congruence |]. split; [congruence | lia].
  - exists w1. auto 10.
Qed.

Lemma blocked_resting w : buf_ok w -> blocked w -> resting w.
Proof.
  intros Hok Hbl Hst. unfold blocked, need in Hbl. rewrite Hst in Hbl.
  tags. rewrite length_live in Hbl by auto.
  destruct Hok as (_ & ? & _). lia.
Qed.

Lemma call_spec final fuel w :
  decoding final w -> resting w -> (work w + 1 < fuel)%nat ->
  exists w',
    fwrd_inbound_frames fuel w = Some (Done w')
    /\ decoding final w' /\ blocked w' /\ resting w'
    /\ src w' = after_again (src w) /\ stdout w' = stdout w
    /\ (work w' <= work w)%nat.
Proof.
  intros Hdec Hrest Hfuel. unfold fwrd_inbound_frames.
  replace ((state w =? 0) && negb (bfi w =? bfsz w)) with false.
  2:{ destruct (Z.eqb_spec (state w) 0) as [Hz | Hnz]; [| reflexivity].
      rewrite (Hrest Hz), Z.eqb_refl. reflexivity. }
  destruct (loop_spec final fuel w Hdec Hfuel)
    as (w' & E & Hdec' & Hbl & Hsrc & Hso & Hwork).
  exists w'.
  split; [exact E |]. split; [exact Hdec' |]. split; [exact Hbl |].
  split; [apply blocked_resting; [apply Hdec' | exact Hbl] | auto].
Qed.

Lemma attach_spec final fuel calls : forall w,
  decoding final w -> resting w -> (work w + 1 < fuel)%nat ->
  exists w',
    attach calls fuel w = Some (Done w')
    /\ decoding final w' /\ resting w'
    /\ (0 < calls -> blocked w')%nat
    /\ src w' = after_calls calls (src w) /\ stdout w' = stdout w.
Proof.
  induction calls as [| calls IH]; intros w Hdec Hrest Hfuel.
  - exists w. cbn.
    split; [reflexivity |]. split; [exact Hdec |]. split; [exact Hrest |].
    split; [lia | auto].
  - cbn [attach after_calls].
    destruct (call_spec final fuel w Hdec Hrest Hfuel)
      as (w1 & E & Hdec1 & Hbl1 & Hrest1 & Hsrc1 & Hso1 & Hwork1).
    rewrite E.
    destruct (IH w1 Hdec1 Hrest1) as (w' & E' & Hdec' & Hrest' & Hbl' & Hsrc'
                                      & Hso'); [lia |].
    exists w'. rewrite <- Hsrc1.
    split; [exact E' |]. split; [exact Hdec' |]. split; [exact Hrest' |].
    split; [| split; congruence].
    intros _. destruct calls as [| calls'].
    + cbn in E'. inversion E'. subst w'. exact Hbl1.
    + apply Hbl'. lia.
Qed.

Lemma after_again_agains evs :
  agains (after_again evs) = Nat.pred (agains evs)
  /\ (agains evs = 0%nat -> after_again evs = []).
Proof.
  induction evs as [| [| bs |] evs [IH1 IH2]]; cbn; auto.
  split; [reflexivity | discriminate].
Qed.

Lemma after_calls_nil n : after_calls n [] = [].
Proof. induction n; cbn; auto. Qed.

Lemma after_calls_all calls evs :
  (agains evs < calls)%nat -> after_calls calls evs = [].
Proof.
  revert evs. induction calls as [| calls IH]; intros evs H; [lia |].
  cbn. destruct (after_again_agains evs) as [H1 H2].
  destruct (agains evs) as [| k] eqn:E.
  - rewrite H2 by reflexivity. apply after_calls_nil.
  - apply IH. rewrite H1. cbn. lia.
Qed.

Lemma wire_not_nil f : wire f <> [].
Proof. discriminate. Qed.

(** When the decoder has returned and no input is left, everything was
    delivered and the decoder waits for a header. *)
Lemma finished final w :
  decoding final w -> blocked w -> src w = [] ->
  dest w = final /\ state w = sH /\ bfi w = bfsz w.
Proof.
  intros (Hok & Hch & out & Hexp & Hfin) Hbl Hsrc.
  unfold pending in Hexp. rewrite Hsrc in Hexp. cbn [data_of] in Hexp.
  rewrite app_nil_r in Hexp. unfold blocked, need in Hbl.
  unfold expects in Hexp.
  destruct (Z.eqb_spec (state w) sH) as [HH | HH].
  { rewrite HH in Hbl. tags.
    destruct Hexp as (fs & Hfs & Hstream & Hout).
    destruct fs as [| f fs].
    - rewrite Hfin, Hout. cbn. rewrite app_nil_r.
      repeat split; auto.
      rewrite length_live in Hbl by auto. destruct Hok as (_ & ? & _). lia.
    - rewrite Hstream in Hbl. cbn in Hbl. lia. }
  destruct (Z.eqb_spec (state w) sL) as [HL | HL].
  { rewrite HL in Hbl. tags.
    destruct Hexp as (f & fs & Hf & Hfs & Hstream & Hout).
    rewrite Hstream in Hbl. unfold lenbytes in Hbl.
    destruct (fform f); cbn in Hbl; lia. }
  destruct (Z.eqb_spec (state w) sX) as [HX | HX].
  { try rewrite HX in Hbl. tags.
    destruct Hexp as (f & fs & Hf & Hfs & Hff & Hstream & Hout).
    rewrite Hstream, length_app, length_be in Hbl. lia. }
  destruct (Z.eqb_spec (state w) sY) as [HY | HY].
  { try rewrite HY in Hbl. tags.
    destruct Hexp as (f & fs & Hf & Hfs & Hff & Hstream & Hout).
    rewrite Hstream, length_app, length_be in Hbl. lia. }
  destruct (Z.eqb_spec (state w) sM) as [HM | HM].
  { try rewrite HM in Hbl. tags.
    destruct Hexp as (f & fs & Hf & Hfs & Hdl & Hstream & Hout).
    destruct Hf as (_ & _ & _ & Hml & _).
    rewrite Hstream, length_app, Hml in Hbl. lia. }
  destruct (Z.eqb_spec (state w) sD) as [HD | HD]; [| contradiction].
  try rewrite HD in Hbl. tags.
  destruct Hexp as (rem & fs & Hfs & Hdl & Hdlb & Hdp & Hk & Hstream & Hout).
  rewrite Hstream, length_app in Hbl. lia.
Qed.

(** ** The decoder on streams of data frames *)

Lemma decoding_init fs evs :
  Forall data_frame fs -> chunking evs -> data_of evs = wires fs ->
  decoding (payloads fs) (init evs) /\ resting (init evs)
  /\ work (init evs) = weight evs.
Proof.
  intros Hfs Hch Hdata. split; [| split; [intros _; reflexivity | reflexivity]].
  apply decoding_intro with (stream := wires fs) (out := payloads fs).
  - split; [reflexivity | cbn; lia].
  - exact Hch.
  - unfold pending. cbn. exact Hdata.
  - unfold expects. cbn [state init]. tags. exists fs. auto.
  - reflexivity.
Qed.

Ltac frames_ok :=
  repeat first [apply Forall_nil | apply Forall_cons; split | split];
  unfold is_byte; cbn; try lia; auto.

(** C1, amended.  For a sequence of masked data frames whose reserved
    bits are clear (each header byte without its FIN bit is 0, 1 or 2)
    and any split of its bytes into non-blocking reads, with would-blocks
    anywhere between them, the calls of [fwrd_inbound_frames] (one more
    than there are would-blocks, or more) append to the sink exactly the
    unmasked payloads of the frames, in order: the result does not depend
    on the split.  The decoder ends waiting for a header, with nothing
    buffered and nothing written to standard output. *)
Theorem frames_delivered fs evs calls fuel :
  Forall data_frame fs -> chunking evs -> data_of evs = wires fs ->
  (agains evs < calls)%nat -> (weight evs + 1 < fuel)%nat ->
  exists w',
    attach calls fuel (init evs) = Some (Done w')
    /\ dest w' = payloads fs
    /\ src w' = [] /\ state w' = sH /\ bfi w' = bfsz w' /\ stdout w' = [].
Proof.
  intros Hfs Hch Hdata Hcalls Hfuel.
  destruct (decoding_init fs evs Hfs Hch Hdata) as (Hdec & Hrest & Hwork).
  destruct (attach_spec (payloads fs) fuel calls (init evs) Hdec Hrest)
    as (w' & E & Hdec' & Hrest' & Hbl & Hsrc & Hso); [lia |].
  cbn [src init] in Hsrc. rewrite after_calls_all in Hsrc by exact Hcalls.
  destruct (finished _ w' Hdec') as (Hd & Hst & Hb); [apply Hbl; lia | auto |].
  exists w'. auto 10.
Qed.

Lemma frames_delivered_witness :
  let f1 := {| fhdr := 129; fform := Len7; fmask := [1; 2; 3; 4];
               fdata := [105; 103; 111; 104; 110] |} in
  let f2 := {| fhdr := 2; fform := Len16; fmask := [255; 0; 255; 0];
               fdata := [1; 2; 3] |} in
  let evs := [Data (take 3 (wire f1)); Again; Data (drop 3 (wire f1));
              Data (take 2 (wire f2)); Again; Again;
              Data (drop 2 (wire f2))] in
  exists w',
    attach 4 100 (init evs) = Some (Done w')
    /\ dest w' = [104; 101; 108; 108; 111; 254; 2; 252]
    /\ src w' = [] /\ state w' = sH /\ bfi w' = bfsz w' /\ stdout w' = [].
Proof.
  intros f1 f2 evs.
  apply (frames_delivered [f1; f2] evs 4 100).
  - frames_ok.
  - cbn. repeat split; discriminate.
  - reflexivity.
  - cbn. lia.
  - cbn. lia.
Defined.

(** C1, a counterexample.  The bytes [c1 85 01 02 03 04 69 67 6f 68 6e]
    are a masked text frame (FIN set, opcode 1, mask bit set, length 5,
    key [01 02 03 04]) with the payload [hello], whose header has RSV1
    set.  The decoder clears the FIN bit only, so the header [0x41]
    matches no case and is dropped; [0x85] is dropped as a header too;
    [0x01] is taken for a text header and [0x02] for a length byte with
    its mask bit clear, on which the decoder aborts: nothing reaches the
    sink, whether the frame comes in one read or byte by byte. *)
Lemma reserved_bit_frame_lost :
  let f := {| fhdr := 193; fform := Len7; fmask := [1; 2; 3; 4];
              fdata := [105; 103; 111; 104; 110] |} in
  let bytewise := [Data [193]; Again; Data [133]; Data [1]; Again;
                   Data [2]; Data [3]; Data [4]; Data [105]; Data [103];
                   Data [111]; Data [104]; Data [110]] in
  wire f = [193; 133; 1; 2; 3; 4; 105; 103; 111; 104; 110]
  /\ Z.land (fhdr f) 128 = 128 /\ Z.land (fhdr f) 64 = 64
  /\ Z.land (fhdr f) 15 = 1
  /\ payload f = [104; 101; 108; 108; 111]
  /\ data_of bytewise = wire f
  /\ (exists w',
        attach 1 40 (init [Data (wire f)]) = Some (Exit w')
        /\ dest w' = [] /\ dest w' <> payloads [f] /\ state w' = sL)
  /\ (exists w',
        attach 3 100 (init bytewise) = Some (Exit w')
        /\ dest w' = [] /\ dest w' <> payloads [f] /\ state w' = sL).
Proof.
  intros f bytewise. repeat split; try reflexivity;
    eexists; (split; [vm_compute; reflexivity |]);
    repeat split; try reflexivity; discriminate.
Qed.

(** ** The payload length *)

Lemma forceinby_ready fuel c w k :
  buf_ok w -> 0 <= c <= bfsz w - bfi w ->
  forceinby fuel c w k = Some (k (bfi w) (set_bfi (bfi w + c) w)).
Proof.
  intros (Hl & Hi & Hs) Hc. unfold forceinby, mkeaval, U32.
  rewrite (Z.mod_small (bfsz w - bfi w)) by lia.
  replace ((c <? 0) || (512 <? c)) with false by lia.
  replace (c <=? bfsz w - bfi w) with true by lia.
  rewrite (Z.mod_small (bfi w + c)) by lia. reflexivity.
Qed.

Lemma rd_live w l j :
  buf_ok w -> live w = l -> (j < length l)%nat ->
  rd (buf w) (bfi w + Z.of_nat j) = nth j l 0.
Proof.
  intros Hok <- Hj. pose proof Hok as (Hl & Hi & Hs).
  rewrite length_live in Hj by auto. unfold live.
  apply rd_slice; lia.
Qed.

Lemma live_taken w c :
  buf_ok w -> 0 <= c <= bfsz w - bfi w ->
  live (set_bfi (bfi w + c) w) = drop (Z.to_nat c) (live w)
  /\ buf_ok (set_bfi (bfi w + c) w).
Proof.
  intros Hok Hc. pose proof Hok as (Hl & Hi & Hs).
  destruct (consume_spec c w Hok Hc) as (Hok' & _ & Hlive & _).
  unfold U32 in *. rewrite (Z.mod_small (bfi w + c)) in * by lia. auto.
Qed.

Lemma slice_live w c :
  buf_ok w -> 0 <= c <= bfsz w - bfi w ->
  slice (buf w) (bfi w) c = take (Z.to_nat c) (live w).
Proof.
  intros Hok Hc. unfold live, slice. rewrite take_take. f_equal. lia.
Qed.

(** C4.  In the state that reads the length byte, with the bytes at
    hand: a seven-bit length [n < 126] is the payload length; for
    [n = 126] the payload length is the big-endian number of the next two
    bytes; for [n = 127] it is the big-endian number of the next eight
    bytes, every 64-bit value included.  The decoder is then in the state
    that reads the mask, just after the length. *)
Theorem payload_length_decoded fuel w lb rest :
  buf_ok w -> state w = sL -> live w = lb :: rest ->
  0 <= lb < 256 -> Z.land lb 128 <> 0 ->
  (Z.land lb 127 < 126 ->
     exists w1,
       step fuel w = Some (Next w1) /\ state w1 = sM
       /\ datalen w1 = Z.land lb 127 /\ live w1 = rest)
  /\ (Z.land lb 127 = 126 ->
      forall b0 b1 rest',
        rest = b0 :: b1 :: rest' ->
        exists w1 w2,
          step fuel w = Some (Next w1) /\ step fuel w1 = Some (Next w2)
          /\ state w2 = sM /\ datalen w2 = b0 * 256 + b1
          /\ live w2 = rest')
  /\ (Z.land lb 127 = 127 ->
      forall b0 b1 b2 b3 b4 b5 b6 b7 rest',
        rest = b0 :: b1 :: b2 :: b3 :: b4 :: b5 :: b6 :: b7 :: rest' ->
        Forall is_byte [b0; b1; b2; b3; b4; b5; b6; b7] ->
        exists w1 w2,
          step fuel w = Some (Next w1) /\ step fuel w1 = Some (Next w2)
          /\ state w2 = sM
          /\ datalen w2
             = b0 * 2 ^ 56 + b1 * 2 ^ 48 + b2 * 2 ^ 40 + b3 * 2 ^ 32
               + b4 * 2 ^ 24 + b5 * 2 ^ 16 + b6 * 2 ^ 8 + b7
          /\ live w2 = rest').
Proof.
  intros Hok Hst Hlive Hlb Hmask.
  pose proof Hok as (Hl & Hi & Hs).
  assert (Hlen : length (live w) = S (length rest)) by (rewrite Hlive; reflexivity).
  rewrite length_live in Hlen by auto.
  assert (Hrd : rd (buf w) (bfi w) = lb).
  { pose proof (rd_live w (lb :: rest) 0 Hok Hlive) as H.
    cbn in H. rewrite Z.add_0_r in H. apply H. lia. }
  assert (Hstep : step fuel w
                  = Some (let w0 := set_datalen (Z.land lb 127)
                                      (set_bfi (bfi w + 1) (set_state sL w)) in
                          if datalen w0 =? 126 then Next (set_state sX w0)
                          else if datalen w0 =? 127 then Next (set_state sY w0)
                          else Next (set_state sM w0))).
  { unfold step. rewrite Hst. tags.
    rewrite forceinby_ready by (auto; cbn; lia).
    cbn [buf set_bfi set_state bfi]. rewrite Hrd.
    replace (Z.land lb 128 =? 0) with false by lia. reflexivity. }
  destruct (live_taken (set_state sL w) 1) as [Hlive1 Hok1]; [exact Hok | cbn; lia |].
  change (live (set_state sL w)) with (live w) in Hlive1.
  rewrite Hlive in Hlive1. cbn [drop Z.to_nat Pos.to_nat Pos.iter_op Nat.add] in Hlive1.
  change (Z.to_nat 1) with 1%nat in Hlive1. cbn [drop] in Hlive1.
  split; [| split].
  - intros Hn. rewrite Hstep. cbv zeta. cbn [datalen set_datalen].
    replace (Z.land lb 127 =? 126) with false by lia.
    replace (Z.land lb 127 =? 127) with false by lia.
    eexists. split; [reflexivity |]. cbn [state set_state datalen].
    split; [reflexivity |]. split; [reflexivity |]. exact Hlive1.
  - intros Hn b0 b1 rest' Hrest. rewrite Hstep. cbv zeta.
    cbn [datalen set_datalen]. rewrite Hn. cbn [Z.eqb Pos.eqb].
    set (w1 := set_state sX _).
    assert (Hok2 : buf_ok w1) by exact Hok1.
    assert (Hlive2 : live w1 = b0 :: b1 :: rest')
      by (rewrite <- Hrest; exact Hlive1).
    assert (Hlen2 : length (live w1) = S (S (length rest')))
      by (rewrite Hlive2; reflexivity).
    rewrite length_live in Hlen2 by auto.
    exists w1. eexists. split; [reflexivity |].
    destruct (live_taken (set_state sX w1) 2) as [Hlive3 Hok3];
      [exact Hok2 | cbn in *; lia |].
    split.
    { unfold step. cbn [state w1 set_state]. tags.
      rewrite forceinby_ready by (auto; cbn in *; lia). reflexivity. }
    cbn [state set_state datalen set_datalen buf set_bfi bfi].
    split; [reflexivity |]. split.
    + rewrite (slice_live w1) by (auto; lia). rewrite Hlive2.
      change (take (Z.to_nat 2) (b0 :: b1 :: rest')) with [b0; b1].
      unfold ntoh. cbn [fold_left]. lia.
    + change (live (set_state sM ?x)) with (live x).
      etransitivity; [exact Hlive3 |].
      change (live (set_state sX w1)) with (live w1). rewrite Hlive2.
      reflexivity.
  - intros Hn b0 b1 b2 b3 b4 b5 b6 b7 rest' Hrest Hbytes.
    rewrite Hstep. cbv zeta.
    cbn [datalen set_datalen]. rewrite Hn. cbn [Z.eqb Pos.eqb].
    set (w1 := set_state sY _).
    assert (Hok2 : buf_ok w1) by exact Hok1.
    assert (Hlive2 : live w1
                     = b0 :: b1 :: b2 :: b3 :: b4 :: b5 :: b6 :: b7 :: rest')
      by (rewrite <- Hrest; exact Hlive1).
    assert (Hlen2 : (8 <= length (live w1))%nat)
      by (rewrite Hlive2; cbn; lia).
    rewrite length_live in Hlen2 by auto.
    exists w1. eexists. split; [reflexivity |].
    destruct (live_taken (set_state sY w1) 8) as [Hlive3 Hok3];
      [exact Hok2 | cbn in *; lia |].
    split.
    { unfold step. cbn [state w1 set_state]. tags.
      rewrite forceinby_ready by (auto; cbn in *; lia). reflexivity. }
    cbn [state set_state datalen set_datalen buf set_bfi bfi].
    split; [reflexivity |]. split.
    + pose proof (slice_live w1 8 Hok2 ltac:(lia)) as H8.
      rewrite Hlive2 in H8.
      change (take (Z.to_nat 8) (b0 :: b1 :: b2 :: b3 :: b4 :: b5 :: b6 :: b7
                                   :: rest'))
        with [b0; b1; b2; b3; b4; b5; b6; b7] in H8.
      rewrite (slice_take _ _ 4 4) by lia. change (4 + 4) with 8.
      rewrite (slice_drop _ _ 4 4) by (try apply Hok2; lia).
      change (4 + 4) with 8. rewrite H8.
      change (take (Z.to_nat 4) [b0; b1; b2; b3; b4; b5; b6; b7])
        with [b0; b1; b2; b3].
      change (drop (Z.to_nat 4) [b0; b1; b2; b3; b4; b5; b6; b7])
        with [b4; b5; b6; b7].
      unfold ntoh. cbn [fold_left]. rewrite !Z.mul_0_l, !Z.add_0_l.
      repeat match goal with
             | H : Forall _ (_ :: _) |- _ =>
                 apply Forall_cons in H; destruct H as [? H]
             end.
      unfold is_byte in *.
      set (hi := ((b0 * 256 + b1) * 256 + b2) * 256 + b3).
      set (lo := ((b4 * 256 + b5) * 256 + b6) * 256 + b7).
      pose proof (lor_halves (hi * 2 ^ 32 + lo) ltac:(unfold hi, lo; lia)) as Hlor.
      replace ((hi * 2 ^ 32 + lo) / 2 ^ 32) with hi in Hlor
        by (apply (Z.div_unique _ (2 ^ 32) hi lo); unfold hi, lo; lia).
      replace ((hi * 2 ^ 32 + lo) mod 2 ^ 32) with lo in Hlor
        by (apply (Z.mod_unique _ (2 ^ 32) hi lo); unfold hi, lo; lia).
      change (2 ^ 32) with 4294967296 in *. rewrite Hlor.
      unfold hi, lo. lia.
    + change (live (set_state sM ?x)) with (live x).
      etransitivity; [exact Hlive3 |].
      change (live (set_state sY w1)) with (live w1). rewrite Hlive2.
      reflexivity.
Qed.

Lemma payload_length_decoded_witness :
  let w := set_state sL
             (set_bfsz 3
                (set_buf (store (repeat 0 512) 0 [254; 1; 0]) (init []))) in
  exists w1 w2,
    step 1 w = Some (Next w1) /\ step 1 w1 = Some (Next w2)
    /\ state w2 = sM /\ datalen w2 = 1 * 256 + 0 /\ live w2 = [].
Proof.
  intros w.
  refine (proj1 (proj2 (payload_length_decoded 1 w 254 [1; 0] _ _ _ _ _))
            _ 1 0 [] _).
  - split; [reflexivity | cbn; lia].
  - reflexivity.
  - reflexivity.
  - lia.
  - vm_compute. discriminate.
  - reflexivity.
  - reflexivity.
Defined.

(** ** A call reads up to the first would-block and no further *)

Lemma agains_app_data bs r : agains (Data bs :: r) = agains r.
Proof. reflexivity. Qed.

Lemma read0_more t cap w :
  agains (src w) = 0%nat ->
  match read0 cap w with
  | (RAgain, w') =>
      read0 cap (more t w) = (RAgain, set_src t w') /\ src w' = []
  | (r, w') =>
      read0 cap (more t w) = (r, more t w') /\ agains (src w') = 0%nat
  end.
Proof.
  intros Hag. unfold read0, more.
  destruct (src w) as [| [| bs |] r] eqn:Hsrc; cbn [src set_src app].
  - rewrite Hsrc. auto.
  - discriminate Hag.
  - destruct (Z.of_nat (length bs) <=? cap); cbn [src set_src];
      rewrite ?Hsrc; auto.
  - cbn [src set_src]. auto.
Qed.

Lemma refill_more t fuel : forall c w,
  agains (src w) = 0%nat ->
  match refill fuel c w with
  | Some (Ready w') =>
      refill fuel c (more t w) = Some (Ready (more t w'))
      /\ agains (src w') = 0%nat
  | Some (WouldBlock w') =>
      refill fuel c (more t w) = Some (WouldBlock (set_src t w'))
      /\ src w' = []
  | _ => True
  end.
Proof.
  induction fuel as [| fuel IH]; intros c w Hag; cbn [refill]; [exact I |].
  pose proof (read0_more t (512 - bfsz w) w Hag) as Hrd.
  change (bfsz (more t w)) with (bfsz w).
  destruct (read0 (512 - bfsz w) w) as [[| | bs] w1].
  - destruct Hrd as [-> Hnil]. auto.
  - exact I.
  - destruct Hrd as [-> Hag1].
    destruct (Z.of_nat (length bs) =? 0); [exact I |].
    change (bfsz (more t w1)) with (bfsz w1).
    change (buf (more t w1)) with (buf w1).
    set (w2 := set_bfsz _ (set_buf _ w1)).
    change (set_bfsz (bfsz w1 + Z.of_nat (length bs))
              (set_buf (store (buf w1) (bfsz w1) bs) (more t w1)))
      with (more t w2).
    change (bfsz (more t w2)) with (bfsz w2).
    destruct (bfsz w2 <? c).
    + apply IH. exact Hag1.
    + split; [reflexivity | exact Hag1].
Qed.

Lemma mkeaval_more t fuel c w :
  agains (src w) = 0%nat ->
  match mkeaval fuel c w with
  | Some (Ready w') =>
      mkeaval fuel c (more t w) = Some (Ready (more t w'))
      /\ agains (src w') = 0%nat
  | Some (WouldBlock w') =>
      mkeaval fuel c (more t w) = Some (WouldBlock (set_src t w'))
      /\ src w' = []
  | _ => True
  end.
Proof.
  intros Hag. unfold mkeaval.
  change (bfsz (more t w)) with (bfsz w). change (bfi (more t w)) with (bfi w).
  change (buf (more t w)) with (buf w).
  destruct ((c <? 0) || (512 <? c)); [exact I |].
  destruct (c <=? (bfsz w - bfi w) mod U32); [auto |].
  set (w1 := set_bfi 0 (set_buf _ (set_bfsz _ w))).
  change (set_bfi 0
            (set_buf (memmove (buf w) 0 (bfi w) ((bfsz w - bfi w) mod U32))
               (set_bfsz ((bfsz w - bfi w) mod U32) (more t w))))
    with (more t w1).
  apply refill_more. exact Hag.
Qed.

Lemma forceinby_more t fuel c w k :
  tail_blind k -> agains (src w) = 0%nat ->
  match forceinby fuel c w k with
  | Some (Next w') =>
      forceinby fuel c (more t w) k = Some (Next (more t w'))
      /\ agains (src w') = 0%nat
  | Some (Ret w') =>
      forceinby fuel c (more t w) k = Some (Ret (set_src t w'))
      /\ src w' = []
  | _ => True
  end.
Proof.
  intros Hk Hag. unfold forceinby.
  pose proof (mkeaval_more t fuel c w Hag) as Hm.
  destruct (mkeaval fuel c w) as [[w1 | w1 | w1] |]; try exact I.
  - destruct Hm as [-> Hag1].
    change (bfi (more t w1)) with (bfi w1).
    change (set_bfi ((bfi w1 + c) mod U32) (more t w1))
      with (more t (set_bfi ((bfi w1 + c) mod U32) w1)).
    pose proof (Hk t (bfi w1) (set_bfi ((bfi w1 + c) mod U32) w1)) as Hkk.
    destruct (k (bfi w1) (set_bfi ((bfi w1 + c) mod U32) w1)) as [w2 | w2 | w2];
      [| contradiction | exact I].
    destruct Hkk as [-> Hsrc]. rewrite Hsrc. auto.
  - destruct Hm as [-> Hnil]. auto.
Qed.

Lemma unmask_more t n : forall bfc i w,
  unmask n bfc i (more t w) = more t (unmask n bfc i w)
  /\ src (unmask n bfc i w) = src w.
Proof.
  induction n as [| n IH]; intros bfc i w; cbn [unmask]; [auto |].
  set (w1 := set_unmaskof _ (set_buf _ w)).
  destruct (IH bfc (i + 1) w1) as [E Hs].
  split; [| rewrite Hs; reflexivity].
  rewrite <- E. reflexivity.
Qed.

Lemma enter_data_more t w :
  enter_data (more t w) = more t (enter_data w)
  /\ src (enter_data w) = src w.
Proof.
  unfold enter_data. change (datalen (more t w)) with (datalen w).
  destruct (datalen w =? 0); auto.
Qed.

Lemma step_more t fuel w :
  agains (src w) = 0%nat ->
  match step fuel w with
  | Some (Next w') =>
      step fuel (more t w) = Some (Next (more t w'))
      /\ agains (src w') = 0%nat
  | Some (Ret w') =>
      step fuel (more t w) = Some (Ret (set_src t w')) /\ src w' = []
  | _ => True
  end.
Proof.
  intros Hag. unfold step, do_header.
  change (state (more t w)) with (state w).
  change (datpart (more t w)) with (datpart w).
  assert (Hhdr : tail_blind (fun bfc w0 =>
    let b := Z.land (rd (buf w0) bfc) 127 in
    let w1 := set_buf (wr (buf w0) bfc b) w0 in
    Next (set_state
            (if (b =? 0) || (b =? 1) || (b =? 2) then sL
             else if b =? 9 then sP else sH) w1))).
  { intros t' bfc w0. cbv beta iota zeta. split; reflexivity. }
  destruct (state w =? sP).
  { change (set_state sH (full_write pongmsg (more t w)))
      with (more t (set_state sH (full_write pongmsg w))).
    apply forceinby_more; [exact Hhdr | exact Hag]. }
  destruct (state w =? sH).
  { change (set_state sH (more t w)) with (more t (set_state sH w)).
    apply forceinby_more; [exact Hhdr | exact Hag]. }
  destruct (state w =? sL).
  { change (set_state sL (more t w)) with (more t (set_state sL w)).
    apply forceinby_more; [| exact Hag].
    intros t' bfc w0. cbv zeta.
    change (buf (more t' w0)) with (buf w0).
    cbn [datalen set_datalen].
    destruct (Z.land (rd (buf w0) bfc) 128 =? 0); [exact I |].
    destruct (Z.land (rd (buf w0) bfc) 127 =? 126);
      [split; reflexivity |].
    destruct (Z.land (rd (buf w0) bfc) 127 =? 127); split; reflexivity. }
  destruct (state w =? sX).
  { change (set_state sX (more t w)) with (more t (set_state sX w)).
    apply forceinby_more; [| exact Hag].
    intros t' bfc w0. cbv beta iota. split; reflexivity. }
  destruct (state w =? sY).
  { change (set_state sY (more t w)) with (more t (set_state sY w)).
    apply forceinby_more; [| exact Hag].
    intros t' bfc w0. cbv beta iota zeta. split; reflexivity. }
  destruct (state w =? sM).
  { change (set_state sM (more t w)) with (more t (set_state sM w)).
    apply forceinby_more; [| exact Hag].
    intros t' bfc w0.
    change (buf (more t' w0)) with (buf w0).
    set (w1 := set_unmaskof 0 (set_mask (slice (buf w0) bfc 4) w0)).
    change (set_unmaskof 0 (set_mask (slice (buf w0) bfc 4) (more t' w0)))
      with (more t' w1).
    destruct (enter_data_more t' w1) as [-> Hs]. rewrite Hs.
    split; reflexivity. }
  destruct (state w =? sD); [| split; [reflexivity | exact Hag]].
  change (set_state sD (more t w)) with (more t (set_state sD w)).
  apply forceinby_more; [| exact Hag].
  intros t' bfc w0. cbv zeta.
  change (datpart (more t' w0)) with (datpart w0).
  destruct (unmask_more t' (Z.to_nat (datpart w0)) bfc 0 w0) as [-> Hs1].
  set (w1 := unmask (Z.to_nat (datpart w0)) bfc 0 w0) in *.
  change (buf (more t' w1)) with (buf w1).
  change (datpart (more t' w1)) with (datpart w1).
  set (w2 := fdb_apnd (slice (buf w1) bfc (datpart w1)) w1).
  change (fdb_apnd (slice (buf w1) bfc (datpart w1)) (more t' w1))
    with (more t' w2).
  change (datalen (more t' w2)) with (datalen w2).
  change (datpart (more t' w2)) with (datpart w2).
  set (w3 := set_datalen ((datalen w2 - datpart w2) mod U64) w2).
  change (set_datalen ((datalen w2 - datpart w2) mod U64) (more t' w2))
    with (more t' w3).
  destruct (enter_data_more t' w3) as [-> Hs3]. rewrite Hs3.
  split; [reflexivity |]. exact Hs1.
Qed.

Lemma loop_more t fuel : forall w w',
  agains (src w) = 0%nat -> loop fuel w = Some (Done w') ->
  loop fuel (more t w) = Some (Done (set_src t w')) /\ src w' = [].
Proof.
  induction fuel as [| fuel IH]; intros w w' Hag Hrun; [discriminate |].
  cbn [loop] in *. pose proof (step_more t fuel w Hag) as Hs.
  destruct (step fuel w) as [[w1 | w1 | w1] |]; try discriminate.
  - destruct Hs as [-> Hag1]. apply IH; assumption.
  - destruct Hs as [-> Hnil]. inversion Hrun; subst. auto.
Qed.

Lemma call_more t fuel w w' :
  agains (src w) = 0%nat -> fwrd_inbound_frames fuel w = Some (Done w') ->
  fwrd_inbound_frames fuel (more t w) = Some (Done (set_src t w'))
  /\ src w' = [].
Proof.
  unfold fwrd_inbound_frames.
  change (state (more t w)) with (state w).
  change (bfi (more t w)) with (bfi w). change (bfsz (more t w)) with (bfsz w).
  destruct ((state w =? 0) && negb (bfi w =? bfsz w)); [discriminate |].
  apply loop_more.
Qed.

(** ** What one call does *)

(** When the input before the first would-block completes the frames,
    the call delivers all of it and leaves what follows unread. *)
Lemma call_complete final fuel w t :
  decoding final w -> resting w -> (work w + 1 < fuel)%nat ->
  agains (src w) = 0%nat ->
  exists w',
    fwrd_inbound_frames fuel (more t w) = Some (Done w')
    /\ src w' = t /\ dest w' = final /\ state w' = sH /\ bfi w' = bfsz w'.
Proof.
  intros Hdec Hrest Hfuel Hag.
  destruct (call_spec final fuel w Hdec Hrest Hfuel)
    as (w' & E & Hdec' & Hbl & Hrest' & Hsrc & Hso & Hwork).
  destruct (call_more t fuel w w' Hag E) as [E' Hnil].
  destruct (finished _ w' Hdec' Hbl Hnil) as (Hd & Hst & Hb).
  exists (set_src t w'). auto.
Qed.



(** The case of complete frames at hand, on frames: whatever follows the
    would-block, one call delivers the payloads of all the frames that
    arrived before it. *)
Corollary available_frames_delivered fs evs t fuel :
  Forall data_frame fs -> chunking evs -> data_of evs = wires fs ->
  agains evs = 0%nat -> (weight evs + 1 < fuel)%nat ->
  exists w',
    fwrd_inbound_frames fuel (init (evs ++ Again :: t)) = Some (Done w')
    /\ src w' = t /\ dest w' = payloads fs
    /\ state w' = sH /\ bfi w' = bfsz w'.
Proof.
  intros Hfs Hch Hdata Hag Hfuel.
  destruct (decoding_init fs evs Hfs Hch Hdata) as (Hdec & Hrest & Hwork).
  apply (call_complete (payloads fs) fuel (init evs) t); auto; lia.
Qed.

End InboundFacts.

Module KeysFacts.
Import Session Keys.

(** ** The key buffer *)

Lemma written_snoc fd t e : written fd (t ++ [e]) = written fd t ++ written fd [e].
Proof.
  induction t as [| x t IH]; cbn; [reflexivity |].
  destruct x; auto. destruct (fd0 =? fd); rewrite IH; auto using app_assoc.
Qed.

Lemma finishkbuf_step fd s :
  fd <> 1 -> kbd_buffers s ->
  kbd_buffers (finishkbuf fd s) /\ kbufsz (finishkbuf fd s) = 0
  /\ sent fd (finishkbuf fd s) = sent fd s
  /\ kbd_core (finishkbuf fd s) = kbd_core s
  /\ sendsigwin (finishkbuf fd s) = sendsigwin s
  /\ exists n, trace (finishkbuf fd s) = trace s ++ n.
Proof.
  intros Hfd (Hk & Hl & Hw). unfold finishkbuf.
  destruct (Z.eqb_spec (kbufsz s) 0) as [Hz | Hnz].
  { split; [unfold kbd_buffers; auto |].
    do 4 (split; [auto |]). exists []. rewrite app_nil_r. reflexivity. }
  replace (fd =? 1) with false by lia.
  unfold kbd_buffers, sent, pending_keys, fullwrite, emit. cbn.
  rewrite written_snoc. cbn. rewrite Z.eqb_refl, app_nil_r.
  split; [split; [lia | auto] |].
  split; [reflexivity |].
  split; [rewrite !app_nil_r; reflexivity |].
  do 2 (split; [reflexivity |]). eauto.
Qed.

Lemma addkeybyte_step fd c s :
  fd <> 1 -> kbd_buffers s ->
  kbd_buffers (addkeybyte fd c s)
  /\ sent fd (addkeybyte fd c s) = sent fd s ++ [c mod 256]
  /\ kbd_core (addkeybyte fd c s) = kbd_core s
  /\ sendsigwin (addkeybyte fd c s) = sendsigwin s
  /\ exists n, trace (addkeybyte fd c s) = trace s ++ n.
Proof.
  intros Hfd Hb. unfold addkeybyte.
  set (s1 := if kbufsz s =? 8 then finishkbuf fd s else s).
  assert (H1 : kbd_buffers s1 /\ kbufsz s1 < 8 /\ sent fd s1 = sent fd s
                /\ kbd_core s1 = kbd_core s /\ sendsigwin s1 = sendsigwin s
                /\ exists n, trace s1 = trace s ++ n).
  { subst s1. destruct (Z.eqb_spec (kbufsz s) 8) as [H8 | H8].
    - destruct (finishkbuf_step fd s Hfd Hb) as (A & B & C & D & E & F).
      split; [exact A |]. split; [lia |]. auto.
    - split; [exact Hb |]. destruct Hb as (Hk & Hl & Hw).
      split; [lia |]. do 3 (split; [reflexivity |]).
      exists []. rewrite app_nil_r. auto. }
  clearbody s1. destruct H1 as ((Hk & Hl & Hw) & Hlt & Hs & Hc & Hg & n & Ht).
  unfold kbd_buffers, sent, pending_keys, wr. cbn.
  rewrite length_insert.
  split; [split; [lia | auto] |].
  split; [| split; [| split; [exact Hg |]]].
  - unfold sent, pending_keys in Hs. rewrite <- Hs, <- app_assoc. f_equal.
    replace (Z.to_nat (kbufsz s1 + 1)) with (S (Z.to_nat (kbufsz s1))) by lia.
    rewrite (take_S_r _ _ (c mod 256))
      by (apply list_lookup_insert_eq; lia).
    rewrite take_insert_ge by lia. reflexivity.
  - rewrite <- Hc. reflexivity.
  - destruct n; eauto.
Qed.

(** ** Two runs, one of which writes earlier *)

Lemma core_reads s1 s2 :
  kbd_core s1 = kbd_core s2 ->
  escp s1 = escp s2 /\ appcursor s1 = appcursor s2 /\ wsi s1 = wsi s2
  /\ winsize s1 = winsize s2.
Proof.
  intros H.
  pose proof (f_equal escp H) as H1. pose proof (f_equal appcursor H) as H2.
  pose proof (f_equal wsi H) as H3. pose proof (f_equal winsize H) as H4.
  cbn in H1, H2, H3, H4. auto.
Qed.

Lemma core_mode s1 s2 : kbd_core s1 = kbd_core s2 -> kbd_mode s1 -> kbd_mode s2.
Proof.
  intros H. destruct (core_reads _ _ H) as (E & _ & W & _).
  unfold kbd_mode. rewrite E, W. auto.
Qed.

Lemma sent_emit fd e s :
  written fd [e] = [] -> sent fd (emit e s) = sent fd s.
Proof.
  intros H. unfold sent, emit, pending_keys. cbn.
  rewrite written_snoc, H, app_nil_r. reflexivity.
Qed.

Lemma lag_intro fd s1 s2 s1' s2' out :
  kbd_lag fd s1 s2 ->
  kbd_core s1' = kbd_core s2' ->
  sent fd s1' = sent fd s1 ++ out -> sent fd s2' = sent fd s2 ++ out ->
  kbd_buffers s1' -> kbd_buffers s2' -> kbd_mode s1' ->
  kbd_lag fd s1' s2'.
Proof.
  intros (_ & Hs & _) Hc H1 H2 B1 B2 M. unfold kbd_lag.
  rewrite H1, H2, Hs. auto.
Qed.

Lemma lag_addkeybyte fd c s1 s2 :
  fd <> 1 -> kbd_lag fd s1 s2 ->
  kbd_lag fd (addkeybyte fd c s1) (addkeybyte fd c s2).
Proof.
  intros Hfd H. pose proof H as (Hc & Hs & B1 & B2 & M).
  destruct (addkeybyte_step fd c s1 Hfd B1) as (A1 & S1 & C1 & _).
  destruct (addkeybyte_step fd c s2 Hfd B2) as (A2 & S2 & C2 & _).
  apply (lag_intro fd s1 s2 _ _ [c mod 256]); auto.
  - congruence.
  - apply (core_mode s1); auto.
Qed.

(** A change of the two states that leaves the key buffer and the trace
    alone. *)
Lemma lag_quiet fd s1 s2 s1' s2' :
  kbd_lag fd s1 s2 ->
  kbd_core s1' = kbd_core s2' ->
  sent fd s1' = sent fd s1 -> sent fd s2' = sent fd s2 ->
  kbufsz s1' = kbufsz s1 -> kbufsz s2' = kbufsz s2 ->
  length (kbuf s1') = length (kbuf s1) ->
  length (kbuf s2') = length (kbuf s2) ->
  length (winsize s1') = 8%nat -> length (winsize s2') = 8%nat ->
  kbd_mode s1' ->
  kbd_lag fd s1' s2'.
Proof.
  intros H Hc S1 S2 K1 K2 L1 L2 W1 W2 M.
  pose proof H as (_ & _ & (? & ? & ?) & (? & ? & ?) & _).
  apply (lag_intro fd s1 s2 _ _ []); auto;
    rewrite ?app_nil_r; auto; unfold kbd_buffers; intuition congruence.
Qed.

Lemma lag_escaped fd b s1 s2 :
  fd <> 1 -> kbd_lag fd s1 s2 ->
  kbd_lag fd (escaped fd b s1) (escaped fd b s2).
Proof.
  intros Hfd H. pose proof H as (Hc & Hs & B1 & B2 & M).
  destruct (core_reads _ _ Hc) as (E & A & W & Wz).
  pose proof B1 as (? & ? & ?). pose proof B2 as (? & ? & ?).
  assert (Hz0 : kbd_lag fd (set_escp 0 s1) (set_escp 0 s2)).
  { apply (lag_quiet fd s1 s2); auto.
    - change (set_escp 0 (kbd_core s1) = set_escp 0 (kbd_core s2)).
      rewrite Hc. reflexivity.
    - left. reflexivity. }
  unfold escaped. cbv zeta.
  change (appcursor (set_escp 0 s1)) with (appcursor s1).
  change (appcursor (set_escp 0 s2)) with (appcursor s2).
  rewrite <- A.
  repeat match goal with
         | |- context [if b =? ?k then _ else _] => destruct (b =? k)
         end;
    try (repeat apply lag_addkeybyte; auto; fail).
  - (* the window size starts *)
    apply (lag_quiet fd s1 s2); auto.
    + change (set_escp 119 (set_wsi 0 (set_escp 0 (kbd_core s1)))
              = set_escp 119 (set_wsi 0 (set_escp 0 (kbd_core s2)))).
      rewrite Hc. reflexivity.
    + right. right. cbn. lia.
  - (* dump *)
    pose proof Hz0 as (Hc0 & _).
    apply (lag_quiet fd (set_escp 0 s1) (set_escp 0 s2)); auto.
    + change (set_dimp ((dimp (kbd_core (set_escp 0 s1)) + 1) mod U32)
                (kbd_core (set_escp 0 s1))
              = set_dimp ((dimp (kbd_core (set_escp 0 s2)) + 1) mod U32)
                  (kbd_core (set_escp 0 s2))).
      rewrite Hc0. reflexivity.
    + unfold dump. apply (sent_emit fd _ (set_escp 0 s1)). reflexivity.
    + unfold dump. apply (sent_emit fd _ (set_escp 0 s2)). reflexivity.
    + left. reflexivity.
  - (* an unknown escape *)
    pose proof Hz0 as (Hc0 & _).
    apply (lag_quiet fd (set_escp 0 s1) (set_escp 0 s2)); auto.
    + apply sent_emit. reflexivity.
    + apply sent_emit. reflexivity.
    + left. reflexivity.
Qed.

Lemma core_scan s1 s2 :
  kbd_core s1 = kbd_core s2 ->
  kbd_core (scan_winsize s1) = kbd_core (scan_winsize s2).
Proof.
  intros H. destruct (core_reads _ _ H) as (_ & _ & _ & Wz).
  unfold scan_winsize. rewrite Wz.
  destruct (scan_hu 4 (winsize s2)) as [[row rest] |]; [| exact H].
  destruct (scan_hu 4 rest) as [[col ?] |].
  - change (set_swcol col (set_swrow row (kbd_core s1))
            = set_swcol col (set_swrow row (kbd_core s2))).
    rewrite H. reflexivity.
  - change (set_swrow row (kbd_core s1) = set_swrow row (kbd_core s2)).
    rewrite H. reflexivity.
Qed.

Lemma sent_scan fd s : sent fd (scan_winsize s) = sent fd s.
Proof.
  destruct (KbdFunction.scan_winsize_keeps s) as (T & K & B & _).
  unfold sent, pending_keys. rewrite T, K, B. reflexivity.
Qed.

Lemma lag_kbd_byte fd b s1 s2 :
  fd <> 1 -> kbd_lag fd s1 s2 ->
  exists s1' s2',
    kbd_byte fd b s1 = Done s1' /\ kbd_byte fd b s2 = Done s2'
    /\ kbd_lag fd s1' s2'.
Proof.
  intros Hfd H. pose proof H as (Hc & Hs & B1 & B2 & M).
  destruct (core_reads _ _ Hc) as (E & A & W & Wz).
  pose proof B1 as (? & ? & Hw1). pose proof B2 as (? & ? & Hw2).
  unfold kbd_byte. rewrite <- E, <- W, <- Wz.
  destruct (b =? 10); [eauto |].
  destruct M as [M | [M | [M Hi]]]; rewrite M; cbn [Z.eqb Pos.eqb].
  - (* raw *)
    do 2 eexists. split; [reflexivity |]. split; [reflexivity |].
    destruct (b =? 92); [| apply lag_addkeybyte; auto].
    apply (lag_quiet fd s1 s2); auto.
    + change (set_escp 49 (kbd_core s1) = set_escp 49 (kbd_core s2)).
      rewrite Hc. reflexivity.
    + right. left. reflexivity.
  - (* after a backslash *)
    do 2 eexists. split; [reflexivity |]. split; [reflexivity |].
    apply lag_escaped; auto.
  - (* in a window size *)
    replace (8 <=? wsi s1) with false by lia. cbv zeta.
    set (a1 := set_wsi _ (set_winsize _ s1)).
    set (a2 := set_wsi _ (set_winsize _ s2)).
    assert (Hwa : wsi a1 = wsi s1 + 1)
      by (subst a1; cbn; unfold U32; rewrite Z.mod_small; lia).
    assert (Hwb : wsi a2 = wsi s1 + 1)
      by (subst a2; cbn; unfold U32; rewrite Z.mod_small; lia).
    assert (Hca : kbd_core a1 = kbd_core a2).
    { subst a1 a2.
      change (set_wsi ((wsi s1 + 1) mod U32)
                (set_winsize (wr (winsize s1) (wsi s1) b) (kbd_core s1))
              = set_wsi ((wsi s1 + 1) mod U32)
                  (set_winsize (wr (winsize s1) (wsi s1) b) (kbd_core s2))).
      rewrite Hc. reflexivity. }
    assert (Hla : length (winsize a1) = 8%nat)
      by (subst a1; cbn; unfold wr; rewrite length_insert; auto).
    assert (Hlb : length (winsize a2) = 8%nat)
      by (subst a2; cbn; unfold wr; rewrite length_insert; auto).
    rewrite Hwa, Hwb.
    destruct (Z.eqb_spec (wsi s1 + 1) 8) as [H8 | H8]; cbn [negb];
      do 2 eexists; (split; [reflexivity |]); (split; [reflexivity |]).
    + destruct (KbdFunction.scan_winsize_keeps a1) as (T1 & K1 & KB1 & WZ1 & _).
      destruct (KbdFunction.scan_winsize_keeps a2) as (T2 & K2 & KB2 & WZ2 & _).
      pose proof (core_scan _ _ Hca) as Hcs.
      rewrite (KbdFunction.scan_winsize_sig a2 a1) by (apply core_reads; auto).
      apply (lag_quiet fd s1 s2); auto.
      * destruct (sendsigwin (scan_winsize a1));
          [change (set_escp 0 (kbd_core (scan_winsize a1))
                   = set_escp 0 (kbd_core (scan_winsize a2)))
          | change (set_escp 0 (kbd_core (scan_winsize a1))
                    = set_escp 0 (kbd_core (scan_winsize a2)))];
          rewrite Hcs; reflexivity.
      * destruct (sendsigwin (scan_winsize a1)).
        -- change (sent fd (scan_winsize a1) = sent fd s1).
           rewrite sent_scan. reflexivity.
        -- change (sent fd (emit Warn (scan_winsize a1)) = sent fd s1).
           rewrite sent_emit, sent_scan by reflexivity. reflexivity.
      * destruct (sendsigwin (scan_winsize a1)).
        -- change (sent fd (scan_winsize a2) = sent fd s2).
           rewrite sent_scan. reflexivity.
        -- change (sent fd (emit Warn (scan_winsize a2)) = sent fd s2).
           rewrite sent_emit, sent_scan by reflexivity. reflexivity.
      * destruct (sendsigwin (scan_winsize a1)); cbn; rewrite K1; reflexivity.
      * destruct (sendsigwin (scan_winsize a1)); cbn; rewrite K2; reflexivity.
      * destruct (sendsigwin (scan_winsize a1)); cbn; rewrite KB1; reflexivity.
      * destruct (sendsigwin (scan_winsize a1)); cbn; rewrite KB2; reflexivity.
      * destruct (sendsigwin (scan_winsize a1)); cbn; rewrite WZ1; exact Hla.
      * destruct (sendsigwin (scan_winsize a1)); cbn; rewrite WZ2; exact Hlb.
      * left. destruct (sendsigwin (scan_winsize a1)); reflexivity.
    + apply (lag_quiet fd s1 s2); auto.
      right. right. split; [exact M | lia].
Qed.

Lemma lag_kbd_bytes fd buf : forall s1 s2,
  fd <> 1 -> kbd_lag fd s1 s2 ->
  exists s1' s2',
    kbd_bytes fd buf s1 = Done s1' /\ kbd_bytes fd buf s2 = Done s2'
    /\ kbd_lag fd s1' s2'.
Proof.
  induction buf as [| b buf IH]; intros s1 s2 Hfd H; cbn [kbd_bytes].
  - eauto.
  - destruct (lag_kbd_byte fd b s1 s2 Hfd H) as (a1 & a2 & E1 & E2 & Ha).
    rewrite E1, E2. cbn [bind]. apply IH; auto.
Qed.

Lemma lag_refl fd s : kbd_buffers s -> kbd_mode s -> kbd_lag fd s s.
Proof. intros. unfold kbd_lag. auto. Qed.

(** ** Input split between calls *)

(** X1.  The translation does not depend on how the input is cut into
    calls: for a descriptor other than the one of the tests and a state
    the translator can be entered in, one call on [a ++ b] and a call on
    [a] followed by a call on [b] all return, write the same bytes to
    the terminal, and leave the same state apart from the trace and
    [sendsigwin]. *)
Theorem translation_streams fd a b s :
  fd <> 1 -> kbd_ready s -> kbd_mode s ->
  exists s12 s1 s2,
    writetosubproccore fd (a ++ b) s = Done s12
    /\ writetosubproccore fd a s = Done s1
    /\ writetosubproccore fd b s1 = Done s2
    /\ written fd (trace s12) = written fd (trace s2)
    /\ kbd_core s12 = kbd_core s2.
Proof.
  intros Hfd (K & L & W & _) M.
  set (s0 := set_sendsigwin false s).
  assert (B0 : kbd_buffers s0) by (unfold kbd_buffers; cbn; rewrite K; auto with lia).
  assert (M0 : kbd_mode s0) by exact M.
  destruct (lag_kbd_bytes fd a s0 s0 Hfd (lag_refl fd s0 B0 M0))
    as (sa & sa' & Ea & Ea' & (_ & _ & Ba & _ & Ma)).
  destruct (finishkbuf_step fd sa Hfd Ba) as (Bf & Kf & Sf & Cf & _).
  set (s1 := finishkbuf fd sa) in *.
  assert (Hlag : kbd_lag fd sa (set_sendsigwin false s1)).
  { unfold kbd_lag. split; [symmetry; exact Cf |].
    split; [symmetry; exact Sf |]. auto. }
  destruct (lag_kbd_bytes fd b _ _ Hfd Hlag)
    as (sb1 & sb2 & E1 & E2 & (Hc & Hs & B1 & B2 & _)).
  destruct (finishkbuf_step fd sb1 Hfd B1) as (_ & K1 & S1 & C1 & _).
  destruct (finishkbuf_step fd sb2 Hfd B2) as (_ & K2 & S2 & C2 & _).
  exists (finishkbuf fd sb1), s1, (finishkbuf fd sb2).
  unfold writetosubproccore. rewrite K, Kf. cbn [Z.eqb negb].
  fold s0. rewrite KbdFacts.kbd_bytes_app, Ea, E2. cbn [bind]. rewrite E1.
  cbn [bind].
  split; [reflexivity |]. split; [reflexivity |]. split; [reflexivity |].
  split; [| congruence].
  assert (Hw : forall x, kbufsz x = 0 -> sent fd x = written fd (trace x)).
  { intros x Hx. unfold sent, pending_keys. rewrite Hx. cbn.
    rewrite take_0. apply app_nil_r. }
  rewrite <- !Hw by assumption. congruence.
Qed.

Lemma translation_streams_witness :
  exists s12 s1 s2,
    writetosubproccore 5 (bytes_of "line two\" ++ bytes_of "nline 3") wts0
    = Done s12
    /\ writetosubproccore 5 (bytes_of "line two\") wts0 = Done s1
    /\ writetosubproccore 5 (bytes_of "nline 3") s1 = Done s2
    /\ written 5 (trace s12) = written 5 (trace s2)
    /\ kbd_core s12 = kbd_core s2.
Proof.
  apply (translation_streams 5 (bytes_of "line two\") (bytes_of "nline 3") wts0).
  - lia.
  - unfold kbd_ready. cbn. repeat split; lia.
  - left. reflexivity.
Defined.

(** ** Escaped bytes *)

Lemma escape_one fd b s :
  fd <> 1 -> kbd_buffers s -> escp s = 0 -> 0 <= b < 256 ->
  exists s',
    kbd_bytes fd (kbd_escape b) s = Done s'
    /\ kbd_buffers s' /\ escp s' = 0
    /\ sent fd s' = sent fd s ++ [b]
    /\ sendsigwin s' = sendsigwin s
    /\ exists n, trace s' = trace s ++ n.
Proof.
  intros Hfd B E Hb.
  assert (Hadd : forall c x,
    kbd_buffers x -> escp x = 0 -> trace x = trace s ->
    sent fd x = sent fd s -> sendsigwin x = sendsigwin s -> 0 <= c < 256 ->
    kbd_buffers (addkeybyte fd c x) /\ escp (addkeybyte fd c x) = 0
    /\ sent fd (addkeybyte fd c x) = sent fd s ++ [c]
    /\ sendsigwin (addkeybyte fd c x) = sendsigwin s
    /\ exists n, trace (addkeybyte fd c x) = trace s ++ n).
  { intros c x Bx Ex Tx Sx Gx Hc.
    destruct (addkeybyte_step fd c x Hfd Bx) as (A1 & A2 & A3 & A4 & n & A5).
    destruct (core_reads _ _ A3) as (A6 & _).
    rewrite Z.mod_small in A2 by lia.
    split; [exact A1 |]. split; [congruence |]. split; [congruence |].
    split; [congruence |]. exists n. congruence. }
  unfold kbd_escape.
  destruct (Z.eqb_spec b 10) as [-> | H10];
    [| destruct (Z.eqb_spec b 92) as [-> | H92]].
  - cbn [kbd_bytes]. rewrite KbdFacts.kbd_raw_backslash by exact E.
    cbn [bind]. unfold kbd_byte. cbn [escp set_escp Z.eqb Pos.eqb bind].
    eexists. split; [reflexivity |].
    unfold escaped. cbn [Z.eqb Pos.eqb]. apply Hadd; auto; lia.
  - cbn [kbd_bytes]. rewrite KbdFacts.kbd_raw_backslash by exact E.
    cbn [bind]. unfold kbd_byte. cbn [escp set_escp Z.eqb Pos.eqb bind].
    eexists. split; [reflexivity |].
    unfold escaped. cbn [Z.eqb Pos.eqb]. apply Hadd; auto; lia.
  - cbn [kbd_bytes]. unfold kbd_byte. rewrite E.
    replace (b =? 10) with false by lia. replace (b =? 92) with false by lia.
    cbn [Z.eqb bind]. eexists. split; [reflexivity |]. apply Hadd; auto.
Qed.

Lemma escape_all fd v : forall s,
  fd <> 1 -> kbd_buffers s -> escp s = 0 -> Forall (fun b => 0 <= b < 256) v ->
  exists s',
    kbd_bytes fd (flat_map kbd_escape v) s = Done s'
    /\ kbd_buffers s' /\ escp s' = 0
    /\ sent fd s' = sent fd s ++ v
    /\ sendsigwin s' = sendsigwin s
    /\ exists n, trace s' = trace s ++ n.
Proof.
  induction v as [| b v IH]; intros s Hfd B E Hv; cbn [flat_map].
  - exists s. cbn. rewrite app_nil_r. repeat split; auto; try apply B.
    exists []. rewrite app_nil_r. reflexivity.
  - apply Forall_cons in Hv as [Hb Hv].
    destruct (escape_one fd b s Hfd B E Hb) as (s1 & E1 & B1 & M1 & S1 & G1 & n1 & T1).
    destruct (IH s1 Hfd B1 M1 Hv) as (s2 & E2 & B2 & M2 & S2 & G2 & n2 & T2).
    exists s2. rewrite KbdFacts.kbd_bytes_app, E1. cbn [bind].
    split; [exact E2 |]. split; [exact B2 |]. split; [exact M2 |].
    split; [rewrite S2, S1, <- app_assoc; reflexivity |].
    split; [congruence |].
    exists (n1 ++ n2). rewrite T2, T1, app_assoc. reflexivity.
Qed.

(** What a call writes, from what its loop sent. *)
Lemma call_written fd buf s s1 out :
  fd <> 1 -> kbufsz s = 0 ->
  kbd_bytes fd buf (set_sendsigwin false s) = Done s1 ->
  kbd_buffers s1 -> (exists n, trace s1 = trace s ++ n) ->
  sent fd s1 = sent fd s ++ out ->
  exists s2,
    writetosubproccore fd buf s = Done s2
    /\ written fd (added s (Done s2)) = out
    /\ kbd_core s2 = kbd_core s1 /\ sendsigwin s2 = sendsigwin s1.
Proof.
  intros Hfd K E1 B1 (n1 & T1) S1.
  destruct (finishkbuf_step fd s1 Hfd B1) as (_ & K2 & S2 & C2 & G2 & n2 & T2).
  exists (finishkbuf fd s1).
  unfold writetosubproccore. rewrite K. cbn [Z.eqb negb].
  rewrite E1. cbn [bind].
  split; [reflexivity |]. split; [| auto].
  unfold added. cbn [state_of].
  rewrite T2, T1, <- app_assoc, drop_app_length.
  assert (Hs : sent fd (finishkbuf fd s1) = sent fd s ++ out) by congruence.
  unfold sent, pending_keys in Hs. rewrite K2, T2, T1, K in Hs.
  cbn in Hs. rewrite !take_0, !app_nil_r in Hs.
  rewrite <- app_assoc, KbdFunction.written_app in Hs.
  apply app_inv_head in Hs. exact Hs.
Qed.

(** X2.  Every byte sequence can be sent to the terminal: when the client
    escapes a line feed as backslash-[n] and a backslash as two
    backslashes, the translator, entered in its raw mode, writes exactly
    the original bytes to the terminal, in order, whatever their number,
    and ends in the raw mode without a window-size request. *)
Theorem escaped_keys_delivered fd v s :
  fd <> 1 -> kbd_ready s -> escp s = 0 ->
  Forall (fun b => 0 <= b < 256) v ->
  exists s',
    writetosubproccore fd (flat_map kbd_escape v) s = Done s'
    /\ written fd (added s (Done s')) = v
    /\ escp s' = 0 /\ sendsigwin s' = false.
Proof.
  intros Hfd (K & L & W & _) E Hv.
  set (s0 := set_sendsigwin false s).
  assert (B0 : kbd_buffers s0)
    by (unfold kbd_buffers; cbn; rewrite K; auto with lia).
  destruct (escape_all fd v s0 Hfd B0 E Hv)
    as (s1 & E1 & B1 & M1 & S1 & G1 & n1 & T1).
  destruct (finishkbuf_step fd s1 Hfd B1) as (_ & K2 & S2 & C2 & G2 & n2 & T2).
  exists (finishkbuf fd s1).
  unfold writetosubproccore. rewrite K. cbn [Z.eqb negb]. fold s0.
  rewrite E1. cbn [bind].
  split; [reflexivity |].
  destruct (core_reads _ _ C2) as (E2 & _).
  split; [| split; [congruence | rewrite G2, G1; reflexivity]].
  unfold added. cbn [state_of].
  rewrite T2, T1. change (trace s0) with (trace s).
  rewrite <- app_assoc, drop_app_length.
  assert (Hs : sent fd (finishkbuf fd s1) = sent fd s0 ++ v) by congruence.
  unfold sent, pending_keys in Hs. rewrite K2, T2, T1 in Hs.
  change (trace s0) with (trace s) in Hs. change (kbufsz s0) with (kbufsz s) in Hs.
  rewrite K in Hs. cbn in Hs. rewrite !take_0, !app_nil_r in Hs.
  rewrite <- app_assoc, KbdFunction.written_app in Hs.
  apply app_inv_head in Hs. exact Hs.
Qed.

Lemma escaped_keys_delivered_witness :
  exists s',
    writetosubproccore 5 (flat_map kbd_escape [97; 10; 92; 255; 0; 98]) wts0
    = Done s'
    /\ written 5 (added wts0 (Done s')) = [97; 10; 92; 255; 0; 98]
    /\ escp s' = 0 /\ sendsigwin s' = false.
Proof.
  apply (escaped_keys_delivered 5 [97; 10; 92; 255; 0; 98] wts0).
  - lia.
  - unfold kbd_ready. cbn. repeat split; lia.
  - reflexivity.
  - repeat constructor; lia.
Defined.

(** ** The window size across calls *)

Lemma enter_core fd buf s s' :
  kbufsz s = 0 -> kbd_bytes fd buf (set_sendsigwin false s) = Done s' ->
  kbufsz s' = 0 -> writetosubproccore fd buf s = Done s'.
Proof.
  intros K E K'. unfold writetosubproccore. rewrite K, E. cbn [Z.eqb negb bind].
  unfold finishkbuf. rewrite K'. reflexivity.
Qed.

Lemma digits_gathered fd ds : forall s,
  escp s = 119 -> 0 <= wsi s -> wsi s + Z.of_nat (length ds) < 8 ->
  length (winsize s) = 8%nat -> Forall (fun c => c <> 10) ds ->
  exists s',
    kbd_bytes fd ds s = Done s' /\ escp s' = 119
    /\ wsi s' = wsi s + Z.of_nat (length ds)
    /\ take (Z.to_nat (wsi s')) (winsize s')
       = take (Z.to_nat (wsi s)) (winsize s) ++ ds
    /\ length (winsize s') = 8%nat /\ kbufsz s' = kbufsz s
    /\ trace s' = trace s /\ sendsigwin s' = sendsigwin s.
Proof.
  induction ds as [| c ds IH]; intros s He H0 Hlt Hl Hds.
  - exists s. cbn. rewrite app_nil_r, Z.add_0_r. auto 10.
  - apply Forall_cons in Hds as [Hc Hds]. cbn [length] in Hlt.
    cbn [kbd_bytes]. rewrite KbdFacts.kbd_winsize_more by (auto; lia).
    cbn [bind].
    set (s1 := set_wsi (wsi s + 1) (set_winsize (wr (winsize s) (wsi s) c) s)).
    destruct (IH s1) as (s' & E & He' & Hw' & Ht' & Hl' & Hk' & Htr' & Hg');
      try (subst s1; cbn; auto; lia).
    { subst s1. cbn. unfold wr. rewrite length_insert. exact Hl. }
    exists s'. split; [exact E |]. split; [exact He' |].
    split; [rewrite Hw'; subst s1; cbn [wsi set_wsi length]; lia |].
    split; [| auto].
    rewrite Ht'. subst s1. cbn [wsi set_wsi winsize set_winsize]. unfold wr.
    replace (Z.to_nat (wsi s + 1)) with (S (Z.to_nat (wsi s))) by lia.
    rewrite (take_S_r _ _ c) by (apply list_lookup_insert_eq; lia).
    rewrite take_insert_ge by lia. rewrite <- app_assoc. reflexivity.
Qed.

Lemma digits_complete fd ds : forall s,
  escp s = 119 -> 0 <= wsi s -> wsi s + Z.of_nat (length ds) = 8 ->
  ds <> [] -> length (winsize s) = 8%nat -> Forall (fun c => c <> 10) ds ->
  exists x,
    winsize x = take (Z.to_nat (wsi s)) (winsize s) ++ ds
    /\ trace x = trace s /\ kbufsz x = kbufsz s
    /\ kbd_bytes fd ds s
       = Done (set_escp 0
                 (let s2 := scan_winsize x in
                  if sendsigwin s2 then s2 else emit Warn s2)).
Proof.
  intros s He H0 Hlen Hne Hl Hds.
  destruct (exists_last Hne) as (init & c & ->).
  rewrite length_app in Hlen. cbn [length] in Hlen.
  apply Forall_app in Hds as [Hi Hc]. apply Forall_cons in Hc as [Hc _].
  destruct (digits_gathered fd init s) as
    (s1 & E & He1 & Hw1 & Ht1 & Hl1 & Hk1 & Htr1 & _); auto; try lia.
  rewrite KbdFacts.kbd_bytes_app, E. cbn [bind kbd_bytes].
  rewrite KbdFacts.kbd_winsize_last by (auto; lia). cbn [bind].
  exists (set_wsi 8 (set_winsize (wr (winsize s1) 7 c) s1)).
  split; [| auto].
  cbn [winsize set_wsi set_winsize]. rewrite app_assoc, <- Ht1.
  replace (wsi s1) with 7 by lia. unfold wr.
  change (Z.to_nat 7) with 7%nat.
  rewrite <- (take_insert_ge (winsize s1) 7 7 c) by lia.
  rewrite <- (take_S_r _ _ c) by (apply list_lookup_insert_eq; lia).
  rewrite firstn_all2 by (rewrite length_insert; lia). reflexivity.
Qed.

Lemma scan_digits8 x d1 d2 d3 d4 d5 d6 d7 d8 :
  winsize x = map (fun d => 48 + d) [d1; d2; d3; d4; d5; d6; d7; d8] ->
  0 <= d1 <= 9 -> 0 <= d2 <= 9 -> 0 <= d3 <= 9 -> 0 <= d4 <= 9 ->
  0 <= d5 <= 9 -> 0 <= d6 <= 9 -> 0 <= d7 <= 9 -> 0 <= d8 <= 9 ->
  sendsigwin (scan_winsize x) = true
  /\ swrow (scan_winsize x) = 1000 * d1 + 100 * d2 + 10 * d3 + d4
  /\ swcol (scan_winsize x) = 1000 * d5 + 100 * d6 + 10 * d7 + d8
  /\ trace (scan_winsize x) = trace x
  /\ kbufsz (scan_winsize x) = kbufsz x.
Proof.
  intros Hw H1 H2 H3 H4 H5 H6 H7 H8. unfold scan_winsize. rewrite Hw.
  cbn [map]. rewrite KbdFacts.scan_hu_4digits by lia.
  rewrite KbdFacts.scan_hu_4digits by lia.
  cbn [sendsigwin swrow swcol trace kbufsz set_sendsigwin set_swcol set_swrow].
  repeat split; lia.
Qed.

(** X3.  A window-size sequence (backslash, [w], eight digits) that is cut
    anywhere between two calls of [process_kbd] resizes the terminal
    once, in the second call: the first call asks for no window size, the
    second asks for the rows written by the first four digits and the
    columns written by the last four, and neither writes a byte. *)
Theorem resize_across_calls ok fd s d1 d2 d3 d4 d5 d6 d7 d8 (k : nat) :
  escp s = 0 -> kbufsz s = 0 -> length (winsize s) = 8%nat ->
  0 <= d1 <= 9 -> 0 <= d2 <= 9 -> 0 <= d3 <= 9 -> 0 <= d4 <= 9 ->
  0 <= d5 <= 9 -> 0 <= d6 <= 9 -> 0 <= d7 <= 9 -> 0 <= d8 <= 9 ->
  (k < 10)%nat ->
  let input := winsize_seq [d1; d2; d3; d4; d5; d6; d7; d8] in
  exists s1 s2,
    process_kbd ok fd (take k input) s = (Done s1, None)
    /\ process_kbd ok fd (drop k input) s1
       = (Done (if ok then s2 else emit Warn s2),
          Some (1000 * d1 + 100 * d2 + 10 * d3 + d4,
                1000 * d5 + 100 * d6 + 10 * d7 + d8))
    /\ trace s1 = trace s /\ trace s2 = trace s.
Proof.
  intros Hesc Hk Hw H1 H2 H3 H4 H5 H6 H7 H8 Hlt input.
  set (cs := map (fun d => 48 + d) [d1; d2; d3; d4; d5; d6; d7; d8]).
  assert (Hcs : Forall (fun c => c <> 10) cs)
    by (subst cs; cbn [map]; repeat constructor; lia).
  assert (Hin : input = 92 :: 119 :: cs) by reflexivity.
  (* the second call, once the state after the first is known *)
  assert (Hsecond : forall s1 rest,
    kbufsz s1 = 0 -> trace s1 = trace s ->
    (exists x,
       winsize x = cs /\ trace x = trace s /\ kbufsz x = 0
       /\ kbd_bytes fd rest (set_sendsigwin false s1)
          = Done (set_escp 0
                    (let s2 := scan_winsize x in
                     if sendsigwin s2 then s2 else emit Warn s2))) ->
    exists s2,
      process_kbd ok fd rest s1
      = (Done (if ok then s2 else emit Warn s2),
         Some (1000 * d1 + 100 * d2 + 10 * d3 + d4,
               1000 * d5 + 100 * d6 + 10 * d7 + d8))
      /\ trace s2 = trace s).
  { intros s1 rest K1 T1 (x & Wx & Tx & Kx & E).
    destruct (scan_digits8 x d1 d2 d3 d4 d5 d6 d7 d8 Wx)
      as (G & R & C & T & K); auto.
    cbv zeta in E. rewrite G in E.
    exists (set_escp 0 (scan_winsize x)).
    unfold process_kbd.
    rewrite (enter_core fd rest s1 _ K1 E) by (cbn; congruence).
    cbn [sendsigwin set_escp swrow swcol trace]. rewrite G, R, C, T.
    auto. }
  (* the first call *)
  destruct k as [| [| j]].
  - (* nothing yet *)
    exists (set_sendsigwin false s).
    assert (E1 : writetosubproccore fd [] s = Done (set_sendsigwin false s))
      by (apply enter_core; auto).
    destruct (Hsecond (set_sendsigwin false s) input) as (s2 & E2 & T2);
      auto.
    { destruct (digits_complete fd cs
                  (set_escp 119 (set_wsi 0 (set_escp 0
                     (set_escp 49 (set_sendsigwin false s))))))
        as (x & Wx & Tx & Kx & E); auto; try discriminate.
      cbn [trace kbufsz wsi winsize set_escp set_wsi set_sendsigwin]
        in Wx, Tx, Kx.
      change (Z.to_nat 0) with 0%nat in Wx. rewrite take_0 in Wx.
      exists x. rewrite Hin. cbn [kbd_bytes].
      rewrite KbdFacts.kbd_raw_backslash by exact Hesc. cbn [bind].
      rewrite KbdFacts.kbd_escaped_w by reflexivity. cbn [bind].
      split; [exact Wx |]. split; [exact Tx |].
      split; [congruence | exact E]. }
    exists s2. change (take 0 input) with (@nil Z).
    change (drop 0 input) with input. unfold process_kbd at 1. rewrite E1.
    cbn [sendsigwin set_sendsigwin]. auto.
  - (* the backslash *)
    exists (set_escp 49 (set_sendsigwin false s)).
    assert (E1 : writetosubproccore fd [92] s
                 = Done (set_escp 49 (set_sendsigwin false s))).
    { apply enter_core; auto. cbn [kbd_bytes].
      rewrite KbdFacts.kbd_raw_backslash by exact Hesc. reflexivity. }
    destruct (Hsecond (set_escp 49 (set_sendsigwin false s)) (119 :: cs))
      as (s2 & E2 & T2); auto.
    { destruct (digits_complete fd cs
                  (set_escp 119 (set_wsi 0 (set_escp 0
                     (set_sendsigwin false
                        (set_escp 49 (set_sendsigwin false s)))))))
        as (x & Wx & Tx & Kx & E); auto; try discriminate.
      cbn [trace kbufsz wsi winsize set_escp set_wsi set_sendsigwin]
        in Wx, Tx, Kx.
      change (Z.to_nat 0) with 0%nat in Wx. rewrite take_0 in Wx.
      exists x. cbn [kbd_bytes].
      rewrite KbdFacts.kbd_escaped_w by reflexivity. cbn [bind].
      split; [exact Wx |]. split; [exact Tx |].
      split; [congruence | exact E]. }
    exists s2. rewrite Hin.
    change (take 1 (92 :: 119 :: cs)) with [92].
    change (drop 1 (92 :: 119 :: cs)) with (119 :: cs).
    unfold process_kbd at 1.
    rewrite E1. cbn [sendsigwin set_sendsigwin set_escp]. auto.
  - (* the backslash, [w] and [j] digits *)
    assert (Hj : (j < 8)%nat) by lia.
    assert (Hlc : length cs = 8%nat) by reflexivity.
    destruct (digits_gathered fd (take j cs)
                (set_escp 119 (set_wsi 0 (set_escp 0
                   (set_escp 49 (set_sendsigwin false s))))))
      as (s1 & E & He1 & Hw1 & Ht1 & Hl1 & Hk1 & Htr1 & Hg1); auto;
      try (cbn; lia).
    { cbn. rewrite length_take. lia. }
    { apply Forall_take. exact Hcs. }
    cbn [wsi set_wsi set_escp] in Hw1. rewrite length_take, Hlc in Hw1.
    cbn [kbufsz set_escp set_wsi set_sendsigwin] in Hk1.
    cbn [trace set_escp set_wsi set_sendsigwin] in Htr1.
    cbn [sendsigwin set_escp set_wsi set_sendsigwin] in Hg1.
    exists s1.
    assert (E1 : writetosubproccore fd (92 :: 119 :: take j cs) s = Done s1).
    { apply enter_core; auto; [| congruence]. cbn [kbd_bytes].
      rewrite KbdFacts.kbd_raw_backslash by exact Hesc. cbn [bind].
      rewrite KbdFacts.kbd_escaped_w by reflexivity. cbn [bind]. exact E. }
    destruct (Hsecond s1 (drop j cs)) as (s2 & E2 & T2); auto;
      [congruence | |].
    { destruct (digits_complete fd (drop j cs) (set_sendsigwin false s1))
        as (x & Wx & Tx & Kx & E'); auto; try (cbn; lia).
      - change (wsi (set_sendsigwin false s1)) with (wsi s1).
        rewrite length_drop, Hlc. lia.
      - intros Hnil. apply (f_equal length) in Hnil.
        rewrite length_drop, Hlc in Hnil. cbn [length] in Hnil. lia.
      - apply Forall_drop. exact Hcs.
      - cbn [trace kbufsz set_sendsigwin] in Tx, Kx.
        exists x. split; [| split; [congruence | split; [congruence | exact E']]].
        rewrite Wx. cbn [wsi winsize set_sendsigwin]. rewrite Ht1.
        cbn [wsi set_wsi set_escp]. change (Z.to_nat 0) with 0%nat.
        rewrite take_0. cbn [app]. apply take_drop. }
    exists s2. rewrite Hin.
    change (take (S (S j)) (92 :: 119 :: cs)) with (92 :: 119 :: take j cs).
    change (drop (S (S j)) (92 :: 119 :: cs)) with (drop j cs).
    unfold process_kbd at 1.
    rewrite E1, Hg1. auto.
Qed.

Lemma resize_across_calls_witness :
  exists s1 s2,
    process_kbd true 5 (take 5 (winsize_seq [0; 0; 3; 0; 0; 1; 0; 4])) wts0
    = (Done s1, None)
    /\ process_kbd true 5 (drop 5 (winsize_seq [0; 0; 3; 0; 0; 1; 0; 4])) s1
       = (Done s2, Some (30, 104))
    /\ trace s1 = [] /\ trace s2 = [].
Proof.
  apply (resize_across_calls true 5 wts0 0 0 3 0 0 1 0 4 5);
    first [reflexivity | lia].
Defined.
End KeysFacts.

Module TtyFrame.
Import Session Keys Tty.

(** ** What the terminal filter leaves alone *)

Lemma frame_refl s : tty_frame s s.
Proof.
  unfold tty_frame. repeat split. exists []. rewrite app_nil_r. auto.
Qed.

Lemma frame_trans a b c : tty_frame a b -> tty_frame b c -> tty_frame a c.
Proof.
  intros (K1 & L1 & R1 & W1 & n1 & T1 & Q1) (K2 & L2 & R2 & W2 & n2 & T2 & Q2).
  unfold tty_frame. rewrite K2, L2, R2, W2, T2, T1.
  repeat split; auto. exists (n1 ++ n2). rewrite app_assoc.
  split; [reflexivity |]. intros fd Hfd.
  rewrite KbdFunction.written_app, Q1, Q2 by congruence. reflexivity.
Qed.

(** Close [tty_frame s s'] for a state [s'] written with setters and
    [emit] on [s]. *)
Ltac frame_leaf :=
  unfold tty_frame, fullwrite, dump, emit;
  cbn [state_of];
  cbn [kbd_part sendsigwin swrow swcol wsi winsize escp kbufsz kbuf
       logfd rawlogfd rwout trace
       set_sendsigwin set_swrow set_swcol set_wsi set_winsize set_escp
       set_linebuf set_escbuf set_linesz set_linepos set_escsz set_altscren
       set_appcursor set_rwout set_rwoutbuf set_rwoutsz set_rwoutlen
       set_logfd set_rawlogfd set_kbufsz set_kbuf set_dimp set_trace];
  rewrite <- ?app_assoc;
  (split; [reflexivity |]); (split; [reflexivity |]);
  (split; [reflexivity |]); (split; [reflexivity |]);
  first [ exists []; split; [symmetry; apply app_nil_r | reflexivity]
        | eexists; split; [reflexivity |];
          let fd := fresh "fd" in let H := fresh "H" in
          intros fd H; cbn [written app];
          repeat match goal with
                 | |- context [?a =? fd] =>
                     destruct (Z.eqb_spec a fd); [congruence |]
                 end;
          reflexivity ].

Ltac split_ifs :=
  repeat match goal with
         | |- context [if ?c then _ else _] => destruct c
         | |- context [let '(_, _) := ?p in _] => destruct p
         end.

Lemma verifyroutcap_frame n s : tty_frame s (verifyroutcap n s).
Proof. unfold verifyroutcap. cbv zeta. split_ifs; frame_leaf. Qed.

Lemma rout_push_frame c s : tty_frame s (rout_push c s).
Proof. unfold rout_push. frame_leaf. Qed.

Lemma putrout_frame b s : tty_frame s (putrout b s).
Proof.
  unfold putrout. cbv zeta.
  pose proof (verifyroutcap_frame 3 s) as H. revert H.
  generalize (verifyroutcap 3 s). intros s1 H.
  destruct (_ || _);
    repeat (eapply frame_trans; [| apply rout_push_frame]); exact H.
Qed.

Lemma putroutraw_frame str s : tty_frame s (putroutraw str s).
Proof.
  unfold putroutraw.
  pose proof (verifyroutcap_frame (Z.of_nat (length str)) s) as H. revert H.
  generalize (verifyroutcap (Z.of_nat (length str)) s).
  induction str as [| c str IH]; intros s1 H; cbn [fold_left]; [exact H |].
  apply IH. eapply frame_trans; [exact H | apply rout_push_frame].
Qed.

Lemma CONSUMEESC_frames p s yes no :
  tty_frames yes -> tty_frames no ->
  tty_frame s (state_of (CONSUMEESC p s yes no)).
Proof.
  intros Hy Hn. unfold CONSUMEESC.
  destruct (1024 <? _); [frame_leaf |].
  destruct (negb (escsz s =? _)); [apply Hn |].
  destruct (negb (bytes_eqb _ _)); [apply Hn |].
  eapply frame_trans; [| apply Hy]. frame_leaf.
Qed.

Lemma line_put_frames b : tty_frames (line_put b).
Proof.
  intros s. unfold line_put. cbv zeta. split_ifs; frame_leaf.
Qed.

Lemma deletechrahead_frames : tty_frames deletechrahead.
Proof.
  intros s. unfold deletechrahead. cbv zeta. split_ifs; frame_leaf.
Qed.

Lemma csi_lower_frames b k : tty_frames k -> tty_frames (fun s => csi_lower b s k).
Proof.
  intros Hk s. unfold csi_lower. cbv zeta.
  assert (Halt : forall str, tty_frames (fun s =>
            Done (putroutraw str (set_altscren (b =? 104) s)))).
  { intros str s1. cbn [state_of].
    eapply frame_trans; [| apply putroutraw_frame]. frame_leaf. }
  apply CONSUMEESC_frames; [intros s1; frame_leaf |].
  intros s1. apply CONSUMEESC_frames; [apply Halt |].
  intros s2. apply CONSUMEESC_frames; [apply Halt |].
  intros s3. apply CONSUMEESC_frames; [apply Halt |].
  intros s4. destruct (_ && _); [frame_leaf | apply Hk].
Qed.

Lemma line_model_frames b : tty_frames (line_model b).
Proof.
  intros s. unfold line_model.
  destruct (b =? 13); [split_ifs; frame_leaf |].
  destruct (b =? 8); [split_ifs; frame_leaf |].
  set (s1 := if b =? 7 then set_escsz 0 s else s).
  assert (H1 : tty_frame s s1) by (subst s1; split_ifs; frame_leaf).
  clearbody s1. cbv zeta.
  assert (Hlower : tty_frames (fun s =>
    if (b =? 27) || negb (escsz s =? 0) then
      let s0 := if b =? 27 then set_escsz 0 s else s in
      Done (set_escsz ((escsz s0 + 1) mod U32)
              (set_escbuf (wr (escbuf s0) (SAFEPTR 1024 (escsz s0) 1) b) s0))
    else line_put b s)).
  { intros s2. destruct (_ || _); [| apply line_put_frames].
    cbv zeta. split_ifs; frame_leaf. }
  assert (Hrest : tty_frames (fun s =>
    if (97 <=? b) && (b <=? 122) then
      csi_lower b s (fun s =>
        if (b =? 27) || negb (escsz s =? 0) then
          let s0 := if b =? 27 then set_escsz 0 s else s in
          Done (set_escsz ((escsz s0 + 1) mod U32)
                  (set_escbuf (wr (escbuf s0) (SAFEPTR 1024 (escsz s0) 1) b)
                     s0))
        else line_put b s)
    else
      (if (b =? 27) || negb (escsz s =? 0) then
         let s0 := if b =? 27 then set_escsz 0 s else s in
         Done (set_escsz ((escsz s0 + 1) mod U32)
                 (set_escbuf (wr (escbuf s0) (SAFEPTR 1024 (escsz s0) 1) b)
                    s0))
       else line_put b s))).
  { intros s2. destruct ((97 <=? b) && (b <=? 122)); [| apply Hlower].
    apply (csi_lower_frames b _ Hlower). }
  eapply frame_trans; [exact H1 |].
  destruct ((65 <=? b) && (b <=? 90)); [| apply Hrest].
  apply CONSUMEESC_frames; [| exact Hrest].
  intros s2. unfold csi_upper. split_ifs; frame_leaf.
Qed.

Lemma bind_frames (f g : session -> outcome session) :
  tty_frames f -> tty_frames g -> tty_frames (fun s => bind (f s) g).
Proof.
  intros Hf Hg s. pose proof (Hf s) as H.
  destruct (f s) as [a | a | a]; cbn [bind state_of] in *; auto.
  eapply frame_trans; [exact H | apply Hg].
Qed.

Lemma tty_byte_frames b : tty_frames (tty_byte b).
Proof.
  unfold tty_byte.
  apply (bind_frames (fun s => bind (line_model b s) deletechrahead)).
  - apply bind_frames; [apply line_model_frames | apply deletechrahead_frames].
  - intros s. apply putrout_frame.
Qed.

Lemma tty_bytes_frames buf : tty_frames (tty_bytes buf).
Proof.
  induction buf as [| b buf IH]; intros s; cbn [tty_bytes].
  - apply frame_refl.
  - apply (bind_frames (tty_byte b) (tty_bytes buf)); auto.
    apply tty_byte_frames.
Qed.

(** X4.  The raw log is an exact copy of the terminal output: when a raw
    log is open on a descriptor of its own, a call of [process_tty_out]
    writes to it the bytes it was given, all of them and nothing else,
    however the call ends. *)
Theorem raw_log_copies buf s :
  rawlogfd s <> 0 -> rawlogfd s <> logfd s -> rawlogfd s <> 1 ->
  written (rawlogfd s) (added s (process_tty_out buf s)) = buf.
Proof.
  intros H0 Hl H1. unfold process_tty_out. cbv zeta.
  change (rawlogfd (set_rwoutlen 0 s)) with (rawlogfd s).
  replace (rawlogfd s =? 0) with false by lia.
  set (s0 := fullwrite (rawlogfd s) buf (set_rwoutlen 0 s)).
  pose proof (tty_bytes_frames buf s0) as (_ & Lg & _ & _ & n & Hn & Hq).
  assert (Hq' : written (rawlogfd s) n = []) by (apply Hq; exact Hl).
  assert (Ht0 : trace s0 = trace s ++ [Write (rawlogfd s) buf]) by reflexivity.
  unfold added.
  destruct (tty_bytes buf s0) as [s1 | s1 | s1]; cbn [bind state_of] in *.
  - pose proof (putroutraw_frame [10] s1) as (_ & _ & _ & _ & m & Hm & Hqm).
    assert (Hm' : written (rawlogfd s) m = []).
    { apply Hqm. rewrite Lg. exact Hl. }
    set (s2 := putroutraw [10] s1) in *.
    destruct (rwout s2).
    + unfold fullwrite, emit. cbn [trace set_trace].
      rewrite Hm, Hn, Ht0, <- !app_assoc, drop_app_length.
      rewrite !KbdFunction.written_app, Hq', Hm'. cbn [written app].
      rewrite Z.eqb_refl.
      replace (1 =? rawlogfd s) with false by lia.
      rewrite !app_nil_r. reflexivity.
    + rewrite Hm, Hn, Ht0, <- !app_assoc, drop_app_length.
      rewrite !KbdFunction.written_app, Hq', Hm'. cbn [written app].
      rewrite Z.eqb_refl, !app_nil_r. reflexivity.
  - rewrite Hn, Ht0, <- !app_assoc, drop_app_length.
    rewrite !KbdFunction.written_app, Hq'. cbn [written app].
    rewrite Z.eqb_refl, !app_nil_r. reflexivity.
  - rewrite Hn, Ht0, <- !app_assoc, drop_app_length.
    rewrite !KbdFunction.written_app, Hq'. cbn [written app].
    rewrite Z.eqb_refl, !app_nil_r. reflexivity.
Qed.

Lemma raw_log_copies_witness :
  written 7 (added (set_rawlogfd 7 (set_logfd 6 wts0))
               (process_tty_out erase_input (set_rawlogfd 7 (set_logfd 6 wts0))))
  = erase_input.
Proof.
  apply (raw_log_copies erase_input (set_rawlogfd 7 (set_logfd 6 wts0)));
    cbn; lia.
Defined.

(** ** What the translator leaves alone *)

Lemma finishkbuf_tty fd s : tty_part (finishkbuf fd s) = tty_part s.
Proof. unfold finishkbuf. split_ifs; reflexivity. Qed.

Lemma addkeybyte_tty fd c s : tty_part (addkeybyte fd c s) = tty_part s.
Proof.
  unfold addkeybyte. cbv zeta.
  destruct (kbufsz s =? 8); [| reflexivity].
  rewrite <- (finishkbuf_tty fd s). reflexivity.
Qed.

Lemma escaped_tty fd b s : tty_part (escaped fd b s) = tty_part s.
Proof.
  unfold escaped. cbv zeta.
  split_ifs; rewrite ?addkeybyte_tty; reflexivity.
Qed.

Lemma scan_winsize_tty s : tty_part (scan_winsize s) = tty_part s.
Proof.
  unfold scan_winsize.
  destruct (scan_hu 4 (winsize s)) as [[row rest] |]; [| reflexivity].
  destruct (scan_hu 4 rest) as [[col ?] |]; reflexivity.
Qed.

Lemma kbd_byte_tty fd b s :
  tty_part (state_of (kbd_byte fd b s)) = tty_part s.
Proof.
  unfold kbd_byte.
  destruct (b =? 10); [reflexivity |].
  destruct (escp s =? 0).
  { destruct (b =? 92); cbn [state_of]; rewrite ?addkeybyte_tty; reflexivity. }
  destruct (escp s =? 49); [apply escaped_tty |].
  destruct (escp s =? 119); [| reflexivity].
  destruct (8 <=? wsi s); [reflexivity |]. cbv zeta.
  match goal with
  | |- context [scan_winsize ?x] =>
      pose proof (scan_winsize_tty x) as Hs; revert Hs;
      generalize (scan_winsize x); intros y Hs
  end.
  split_ifs; cbn [state_of]; try reflexivity;
    (transitivity (tty_part y); [reflexivity | exact Hs]).
Qed.

Lemma kbd_bytes_tty fd buf : forall s,
  tty_part (state_of (kbd_bytes fd buf s)) = tty_part s.
Proof.
  induction buf as [| b buf IH]; intros s; cbn [kbd_bytes]; [reflexivity |].
  pose proof (kbd_byte_tty fd b s) as H.
  destruct (kbd_byte fd b s) as [a | a | a]; cbn [bind state_of] in *; auto.
  rewrite IH. exact H.
Qed.

Lemma call_keeps_keys buf s :
  kbd_part (state_of (process_tty_out buf s)) = kbd_part s.
Proof.
  unfold process_tty_out. cbv zeta.
  set (s0 := if rawlogfd _ =? 0 then _ else _).
  assert (K0 : kbd_part s0 = kbd_part s) by (subst s0; split_ifs; reflexivity).
  pose proof (tty_bytes_frames buf s0) as (K1 & _).
  destruct (tty_bytes buf s0) as [s1 | s1 | s1]; cbn [bind state_of] in *;
    try congruence.
  pose proof (putroutraw_frame [10] s1) as (K2 & _).
  destruct (rwout (putroutraw [10] s1)); cbn [state_of];
    [change (kbd_part (putroutraw [10] s1) = kbd_part s) |]; congruence.
Qed.

Lemma keys_keep_filter fd buf s :
  tty_part (state_of (writetosubproccore fd buf s)) = tty_part s.
Proof.
  unfold writetosubproccore.
  destruct (negb (kbufsz s =? 0)); [reflexivity |].
  pose proof (kbd_bytes_tty fd buf (set_sendsigwin false s)) as H.
  destruct (kbd_bytes fd buf (set_sendsigwin false s)) as [a | a | a];
    cbn [bind state_of] in *; try exact H.
  rewrite finishkbuf_tty. exact H.
Qed.

(** X5.  The two directions keep to their own state.  A call of
    [process_tty_out] leaves the translator's part as it is (the parser
    mode, the window size and its digits, the key buffer), and a call of
    [writetosubproccore] leaves the filter's part as it is (the line and
    escape buffers, the screen and cursor modes, the client-bound
    buffer, the log descriptors), however the calls end.  What crosses
    is [swcol], which the filter reads, and [appcursor], which the
    translator reads. *)
Theorem directions_apart fd buf s :
  kbd_part (state_of (process_tty_out buf s)) = kbd_part s
  /\ tty_part (state_of (writetosubproccore fd buf s)) = tty_part s.
Proof.
  split; [apply call_keeps_keys | apply keys_keep_filter].
Qed.
End TtyFrame.

Module TtySteps.
Import Session Keys Tty.

(** ** The loop body, case by case *)

Lemma bytes_eqb_eq a : forall b, bytes_eqb a b = true <-> a = b.
Proof.
  induction a as [| x a IH]; intros [| y b]; cbn; split; intros H;
    try reflexivity; try discriminate.
  - apply andb_true_iff in H as [H1 H2]. apply Z.eqb_eq in H1.
    apply IH in H2. congruence.
  - injection H as -> ->. rewrite Z.eqb_refl. cbn. apply IH. reflexivity.
Qed.

Lemma consume_hit p s yes no :
  in_escape p s -> Z.of_nat (length p) <= 1024 ->
  CONSUMEESC p s yes no = yes (set_escsz 0 s).
Proof.
  intros (Hl & Hz & Ht) Hp. unfold CONSUMEESC.
  replace (1024 <? Z.of_nat (length p)) with false by lia.
  rewrite Hz, Z.eqb_refl, Ht. cbn [negb].
  replace (bytes_eqb p p) with true; [reflexivity |].
  symmetry. apply bytes_eqb_eq. reflexivity.
Qed.

Lemma consume_miss p e s yes no :
  in_escape e s -> e <> p -> Z.of_nat (length p) <= 1024 ->
  CONSUMEESC p s yes no = no s.
Proof.
  intros (Hl & Hz & Ht) Hne Hp. unfold CONSUMEESC.
  replace (1024 <? Z.of_nat (length p)) with false by lia.
  destruct (Z.eqb_spec (escsz s) (Z.of_nat (length p))) as [E | E];
    [| reflexivity].
  cbn [negb].
  assert (Hlen : length p = length e) by lia.
  rewrite Hlen, Ht.
  destruct (bytes_eqb p e) eqn:B; [| reflexivity].
  apply bytes_eqb_eq in B. congruence.
Qed.

Lemma rd_escape e s i :
  in_escape e s -> (i < length e)%nat ->
  rd (escbuf s) (Z.of_nat i) = nth i e 0.
Proof.
  intros (Hl & Hz & Ht) Hi. unfold rd. rewrite Nat2Z.id.
  rewrite <- Ht. rewrite !nth_lookup, lookup_take_lt by lia. reflexivity.
Qed.

(** The byte, when no escape sequence is open, goes to the line. *)
Lemma model_text b s :
  in_escape [] s -> b <> 13 -> b <> 8 -> b <> 7 -> b <> 27 ->
  line_model b s = line_put b s.
Proof.
  intros He H13 H8 H7 H27. pose proof He as (_ & Hz & _). cbn in Hz.
  unfold line_model.
  replace (b =? 13) with false by lia. replace (b =? 8) with false by lia.
  replace (b =? 7) with false by lia. cbv zeta.
  replace (b =? 27) with false by lia. cbn [orb].
  assert (Hlow : csi_lower b s (fun s0 =>
                   if negb (escsz s0 =? 0) then
                     Done (set_escsz ((escsz s0 + 1) mod U32)
                             (set_escbuf
                                (wr (escbuf s0) (SAFEPTR 1024 (escsz s0) 1) b)
                                s0))
                   else line_put b s0)
                 = line_put b s).
  { unfold csi_lower. cbv zeta.
    rewrite !(consume_miss _ [] s) by (auto; try discriminate; cbn; lia).
    rewrite Hz. cbn [Z.ltb Z.compare andb Z.eqb negb]. reflexivity. }
  destruct ((65 <=? b) && (b <=? 90)).
  - rewrite (consume_miss _ [] s) by (auto; try discriminate; cbn; lia).
    destruct ((97 <=? b) && (b <=? 122)); [exact Hlow |].
    rewrite Hz. reflexivity.
  - cbv beta. destruct ((97 <=? b) && (b <=? 122)); [exact Hlow |].
    rewrite Hz. reflexivity.
Qed.

(** The byte that an open escape sequence takes in. *)
Lemma model_push b e s :
  in_escape e s -> e <> [] -> Z.of_nat (length e) < 1024 -> passive e b ->
  line_model b s
  = Done (set_escsz (Z.of_nat (length e) + 1)
            (set_escbuf (wr (escbuf s) (Z.of_nat (length e)) b) s)).
Proof.
  intros He Hne Hlen (H13 & H8 & H7 & H27 & Hp).
  pose proof He as (Hl & Hz & Ht).
  assert (Hpos : 0 < Z.of_nat (length e)) by (destruct e; [congruence | cbn; lia]).
  unfold line_model.
  replace (b =? 13) with false by lia. replace (b =? 8) with false by lia.
  replace (b =? 7) with false by lia. cbv zeta.
  replace (b =? 27) with false by lia. cbn [orb].
  assert (Happend :
    (if negb (escsz s =? 0) then
       Done (set_escsz ((escsz s + 1) mod U32)
               (set_escbuf (wr (escbuf s) (SAFEPTR 1024 (escsz s) 1) b) s))
     else line_put b s)
    = Done (set_escsz (Z.of_nat (length e) + 1)
              (set_escbuf (wr (escbuf s) (Z.of_nat (length e)) b) s))).
  { rewrite Hz. replace (Z.of_nat (length e) =? 0) with false by lia.
    cbn [negb]. unfold SAFEPTR, U32.
    change (1024 - 1 + 1) with 1024. rewrite !Z.mod_small by lia.
    reflexivity. }
  assert (Hlow : (97 <=? b) && (b <=? 122) = true ->
    csi_lower b s (fun s0 =>
      if negb (escsz s0 =? 0) then
        Done (set_escsz ((escsz s0 + 1) mod U32)
                (set_escbuf (wr (escbuf s0) (SAFEPTR 1024 (escsz s0) 1) b)
                   s0))
      else line_put b s0)
    = Done (set_escsz (Z.of_nat (length e) + 1)
              (set_escbuf (wr (escbuf s) (Z.of_nat (length e)) b) s))).
  { intros Hlo.
    assert (H91 : nth 1 e 0 <> 91).
    { destruct Hp as [Hp | [_ Hp]]; [exact Hp |].
      exfalso. apply Hp. unfold is_lower. lia. }
    unfold csi_lower. cbv zeta.
    rewrite !(consume_miss _ e s)
      by (auto; try (cbn; lia); intros ->; apply H91; reflexivity).
    destruct (Z.ltb_spec 1 (escsz s)) as [H1 | H1]; cbn [andb];
      [| exact Happend].
    change 1 with (Z.of_nat 1) at 1.
    rewrite (rd_escape e s 1 He) by lia.
    replace (nth 1 e 0 =? 91) with false by lia. exact Happend. }
  destruct ((65 <=? b) && (b <=? 90)) eqn:Hup.
  - assert (H91 : nth 1 e 0 <> 91).
    { destruct Hp as [Hp | [Hp _]]; [exact Hp |].
      exfalso. apply Hp. unfold is_upper. lia. }
    rewrite (consume_miss _ e s)
      by (auto; try (cbn; lia); intros ->; apply H91; reflexivity).
    destruct ((97 <=? b) && (b <=? 122)) eqn:Hlo; [lia | exact Happend].
  - cbv beta. destruct ((97 <=? b) && (b <=? 122)) eqn:Hlo;
      [auto | exact Happend].
Qed.

(** ** The client-bound buffer is apart *)

Lemma no_rout_verifyroutcap n s : no_rout (verifyroutcap n s) = no_rout s.
Proof. unfold verifyroutcap. cbv zeta. destruct (_ <=? _); reflexivity. Qed.

Lemma no_rout_putrout b s : no_rout (putrout b s) = no_rout s.
Proof.
  unfold putrout. cbv zeta. rewrite <- (no_rout_verifyroutcap 3 s).
  destruct (_ || _); reflexivity.
Qed.

Lemma no_rout_putroutraw str s : no_rout (putroutraw str s) = no_rout s.
Proof.
  unfold putroutraw.
  rewrite <- (no_rout_verifyroutcap (Z.of_nat (length str)) s).
  generalize (verifyroutcap (Z.of_nat (length str)) s).
  induction str as [| c str IH]; intros s1; cbn [fold_left]; [reflexivity |].
  rewrite IH. reflexivity.
Qed.

Lemma via_no_rout (P : session -> Prop) s s' :
  no_rout s' = no_rout s -> P (no_rout s) -> P (no_rout s').
Proof. intros ->. auto. Qed.

(** A property of the state that does not look at the client-bound
    buffer holds after [putrout] when it held before. *)
Ltac past_rout :=
  match goal with
  | |- ?P (putrout ?b ?s) =>
      change (P (no_rout (putrout b s)));
      apply (via_no_rout P s (putrout b s) (no_rout_putrout b s))
  | |- ?P (putroutraw ?b ?s) =>
      change (P (no_rout (putroutraw b s)));
      apply (via_no_rout P s (putroutraw b s) (no_rout_putroutraw b s))
  end.

Lemma putrout_line L p b s : line_is L p s -> line_is L p (putrout b s).
Proof.
  intros H.
  apply (via_no_rout (fun x => line_is L p x) s (putrout b s)
           (no_rout_putrout b s)).
  exact H.
Qed.

Lemma putrout_escape e b s : in_escape e s -> in_escape e (putrout b s).
Proof.
  intros H.
  apply (via_no_rout (fun x => in_escape e x) s (putrout b s)
           (no_rout_putrout b s)).
  exact H.
Qed.

Lemma putrout_fields b s :
  trace (putrout b s) = trace s /\ modes (putrout b s) = modes s.
Proof.
  pose proof (no_rout_putrout b s) as H.
  split; [exact (f_equal trace H) | exact (f_equal modes H)].
Qed.

Lemma putroutraw_line L p str s : line_is L p s -> line_is L p (putroutraw str s).
Proof.
  intros H.
  apply (via_no_rout (fun x => line_is L p x) s (putroutraw str s)
           (no_rout_putroutraw str s)).
  exact H.
Qed.

Lemma putroutraw_escape e str s :
  in_escape e s -> in_escape e (putroutraw str s).
Proof.
  intros H.
  apply (via_no_rout (fun x => in_escape e x) s (putroutraw str s)
           (no_rout_putroutraw str s)).
  exact H.
Qed.

Lemma putroutraw_fields str s :
  trace (putroutraw str s) = trace s /\ modes (putroutraw str s) = modes s.
Proof.
  pose proof (no_rout_putroutraw str s) as H.
  split; [exact (f_equal trace H) | exact (f_equal modes H)].
Qed.

(** ** [deletechrahead] when there is nothing to delete *)

Lemma delete_idle s : escsz s < 4 -> deletechrahead s = Done s.
Proof.
  intros H. unfold deletechrahead. replace (escsz s <? 4) with true by lia.
  reflexivity.
Qed.

Lemma delete_pass e s :
  in_escape e s -> Z.of_nat (length e) <= 1024 ->
  nth 1 e 0 <> 91 \/ last e <> Some 80 ->
  deletechrahead s = Done s.
Proof.
  intros He Hlen Hp. pose proof He as (Hl & Hz & Ht).
  unfold deletechrahead.
  destruct (Z.ltb_spec (escsz s) 4) as [H4 | H4]; [reflexivity |].
  replace (1024 <? escsz s) with false by lia.
  replace (escsz s - 1) with (Z.of_nat (length e - 1)) by lia.
  change 1 with (Z.of_nat 1).
  rewrite !(rd_escape e s) by (auto; lia).
  destruct Hp as [Hp | Hp].
  - replace (nth 1 e 0 =? 91) with false by lia.
    rewrite orb_true_r. reflexivity.
  - replace (nth (length e - 1) e 0 =? 80) with false; [reflexivity |].
    symmetry. apply Z.eqb_neq. intros E. apply Hp.
    rewrite last_lookup.
    assert (Hs : is_Some (e !! Init.Nat.pred (length e)))
      by (apply lookup_lt_is_Some; lia).
    destruct Hs as [x Hx]. rewrite Hx. f_equal.
    apply (nth_lookup_Some _ _ 0) in Hx.
    replace (Init.Nat.pred (length e)) with (length e - 1)%nat in Hx by lia.
    congruence.
Qed.

(** ** Steps of an escape sequence *)

Lemma quiet_refl s : quiet s s.
Proof. unfold quiet. auto. Qed.

Lemma quiet_trans a b c : quiet a b -> quiet b c -> quiet a c.
Proof. unfold quiet. intros (? & ? & ?) (? & ? & ?). repeat split; congruence. Qed.

Lemma quiet_line L p s s' : quiet s s' -> line_is L p s -> line_is L p s'.
Proof.
  intros (Hp & _) (H1 & H2 & H3 & H4).
  injection Hp as E1 E2 E3. unfold line_is. rewrite E1, E2, E3. auto.
Qed.

Lemma quiet_putrout b s : quiet s (putrout b s).
Proof.
  pose proof (no_rout_putrout b s) as H. unfold quiet.
  split; [exact (f_equal line_part H) |].
  split; [exact (f_equal trace H) | exact (f_equal modes H)].
Qed.

Lemma quiet_putroutraw str s :
  line_part (putroutraw str s) = line_part s
  /\ trace (putroutraw str s) = trace s
  /\ modes (putroutraw str s) = modes s.
Proof.
  pose proof (no_rout_putroutraw str s) as H.
  split; [exact (f_equal line_part H) |].
  split; [exact (f_equal trace H) | exact (f_equal modes H)].
Qed.

Lemma tty_byte_of b s s1 :
  line_model b s = Done s1 -> deletechrahead s1 = Done s1 ->
  tty_byte b s = Done (putrout b s1).
Proof.
  intros Hm Hd. unfold tty_byte. rewrite Hm. cbn [bind]. rewrite Hd.
  reflexivity.
Qed.

Lemma step_esc s :
  length (escbuf s) = 1024%nat ->
  exists s', tty_byte 27 s = Done s' /\ in_escape [27] s' /\ quiet s s'.
Proof.
  intros Hl.
  set (s1 := set_escsz 1 (set_escbuf (wr (escbuf s) 0 27) (set_escsz 0 s))).
  assert (He : in_escape [27] s1).
  { unfold in_escape, s1, wr. cbn [escbuf escsz set_escsz set_escbuf length].
    rewrite length_insert. repeat split; auto.
    change (Z.to_nat 0) with 0%nat.
    destruct (escbuf s) as [| x l]; [discriminate Hl | reflexivity]. }
  exists (putrout 27 s1). split.
  - apply tty_byte_of; [reflexivity |]. apply delete_idle. reflexivity.
  - split; [apply putrout_escape; exact He |].
    apply (quiet_trans s s1); [| apply quiet_putrout].
    unfold quiet. auto.
Qed.

Lemma step_bel s :
  length (escbuf s) = 1024%nat ->
  exists s', tty_byte 7 s = Done s' /\ in_escape [] s' /\ quiet s s'.
Proof.
  intros Hl. exists (putrout 7 (set_escsz 0 s)). split.
  - apply tty_byte_of; [reflexivity |]. apply delete_idle. reflexivity.
  - split.
    + apply putrout_escape. unfold in_escape. cbn. auto.
    + apply (quiet_trans s (set_escsz 0 s)); [| apply quiet_putrout].
      unfold quiet. auto.
Qed.

Lemma escape_pushed e b s :
  in_escape e s -> Z.of_nat (length e) < 1024 ->
  in_escape (e ++ [b])
    (set_escsz (Z.of_nat (length e) + 1)
       (set_escbuf (wr (escbuf s) (Z.of_nat (length e)) b) s)).
Proof.
  intros (Hl & Hz & Ht) Hlen. unfold in_escape, wr.
  cbn [escbuf escsz set_escsz set_escbuf]. rewrite length_insert, length_app.
  cbn [length]. rewrite Nat2Z.id.
  split; [exact Hl |]. split; [lia |].
  replace (length e + 1)%nat with (S (length e)) by lia.
  rewrite (take_S_r _ _ b) by (apply list_lookup_insert_eq; lia).
  rewrite take_insert_ge by lia. rewrite Ht. reflexivity.
Qed.

Lemma step_push b e s :
  in_escape e s -> e <> [] -> Z.of_nat (length e) < 1024 -> passive e b ->
  exists s',
    tty_byte b s = Done s' /\ in_escape (e ++ [b]) s' /\ quiet s s'.
Proof.
  intros He Hne Hlen Hp.
  set (s1 := set_escsz (Z.of_nat (length e) + 1)
               (set_escbuf (wr (escbuf s) (Z.of_nat (length e)) b) s)).
  pose proof (escape_pushed e b s He Hlen) as He1. fold s1 in He1.
  exists (putrout b s1). split.
  - apply tty_byte_of; [apply model_push; auto |].
    destruct (Z.ltb_spec (Z.of_nat (length e) + 1) 4) as [H4 | H4];
      [apply delete_idle; exact H4 |].
    apply (delete_pass (e ++ [b])); auto.
    + rewrite length_app. cbn. lia.
    + destruct Hp as (_ & _ & _ & _ & [Hp | [Hp _]]).
      * left. rewrite app_nth1 by lia. exact Hp.
      * right. rewrite last_snoc. intros E. injection E as ->.
        apply Hp. unfold is_upper. lia.
  - split; [apply putrout_escape; exact He1 |].
    apply (quiet_trans s s1); [| apply quiet_putrout].
    unfold quiet. auto.
Qed.

Lemma passive_longer e bs b :
  (2 <= length e)%nat -> passive e b -> passive (e ++ bs) b.
Proof.
  intros Hl (H1 & H2 & H3 & H4 & H5). unfold passive.
  rewrite app_nth1 by lia. auto.
Qed.

Lemma steps_push bs : forall e s,
  in_escape e s -> (2 <= length e)%nat ->
  Z.of_nat (length e) + Z.of_nat (length bs) <= 1024 ->
  Forall (passive e) bs ->
  exists s',
    tty_bytes bs s = Done s' /\ in_escape (e ++ bs) s' /\ quiet s s'.
Proof.
  induction bs as [| b bs IH]; intros e s He Hl Hlen Hbs; cbn [tty_bytes].
  - exists s. rewrite app_nil_r. auto using quiet_refl.
  - apply Forall_cons in Hbs as [Hb Hbs]. cbn [length] in Hlen.
    destruct (step_push b e s He) as (s1 & E1 & He1 & Q1); auto; try lia.
    { destruct e; [cbn in Hl; lia | discriminate]. }
    destruct (IH (e ++ [b]) s1 He1) as (s2 & E2 & He2 & Q2).
    + rewrite length_app. cbn. lia.
    + rewrite length_app. cbn [length]. lia.
    + eapply Forall_impl; [exact Hbs |]. intros x Hx.
      apply passive_longer; auto.
    + exists s2. rewrite E1. cbn [bind]. rewrite <- app_assoc in He2.
      split; [exact E2 |]. split; [exact He2 |].
      eapply quiet_trans; eauto.
Qed.

(** The final byte of [ESC [ ... ] when it is a lower-case letter. *)
Lemma not_special_lower b :
  is_lower b ->
  (b =? 13) = false /\ (b =? 8) = false /\ (b =? 7) = false
  /\ (b =? 27) = false /\ (65 <=? b) && (b <=? 90) = false
  /\ (97 <=? b) && (b <=? 122) = true.
Proof. unfold is_lower. intros H. repeat split; lia. Qed.

Lemma model_lower b s :
  is_lower b ->
  line_model b s
  = csi_lower b s (fun s0 =>
      if negb (escsz s0 =? 0) then
        Done (set_escsz ((escsz s0 + 1) mod U32)
                (set_escbuf (wr (escbuf s0) (SAFEPTR 1024 (escsz s0) 1) b) s0))
      else line_put b s0).
Proof.
  intros Hb. destruct (not_special_lower b Hb) as (A & B & C & D & E & F).
  unfold line_model. rewrite A, B, C. cbv zeta. rewrite D, E, F.
  reflexivity.
Qed.

Lemma model_csi_end b e s :
  in_escape e s -> (2 <= length e)%nat -> Z.of_nat (length e) <= 1024 ->
  nth 1 e 0 = 91 -> is_lower b -> ~ In e mode_prefixes ->
  line_model b s = Done (set_escsz 0 s).
Proof.
  intros He Hl Hlen H91 Hb Hno. rewrite model_lower by exact Hb.
  unfold csi_lower. cbv zeta.
  rewrite !(consume_miss _ e s)
    by (auto; try (cbn; lia); intros ->; apply Hno; cbn; auto).
  pose proof He as (_ & Hz & _).
  replace (1 <? escsz s) with true by lia.
  change 1 with (Z.of_nat 1) at 1. rewrite (rd_escape e s 1 He) by lia.
  rewrite H91. reflexivity.
Qed.

Lemma model_appcursor b s :
  in_escape (27 :: bytes_of "[?1") s -> is_lower b ->
  line_model b s = Done (set_appcursor (b =? 104) (set_escsz 0 s)).
Proof.
  intros He Hb. rewrite model_lower by exact Hb.
  unfold csi_lower. cbv zeta.
  rewrite (consume_hit _ s) by (auto; cbn; lia). reflexivity.
Qed.

Lemma model_altscreen b e s :
  in_escape e s ->
  e = 27 :: bytes_of "[?47" \/ e = 27 :: bytes_of "[?1047" ->
  is_lower b ->
  line_model b s
  = Done (putroutraw (bytes_of (if b =? 104 then "\s2" else "\s1"))
            (set_altscren (b =? 104) (set_escsz 0 s))).
Proof.
  intros He [-> | ->] Hb; rewrite model_lower by exact Hb;
    unfold csi_lower; cbv zeta.
  - rewrite (consume_miss _ _ s) by (eauto; try discriminate; cbn; lia).
    rewrite (consume_hit _ s) by (auto; cbn; lia). reflexivity.
  - rewrite !(consume_miss _ _ s) by (eauto; try discriminate; cbn; lia).
    rewrite (consume_hit _ s) by (auto; cbn; lia). reflexivity.
Qed.

Lemma model_altscreen_saved b s :
  in_escape (27 :: bytes_of "[?1049") s -> is_lower b ->
  line_model b s
  = Done (putroutraw (bytes_of (if b =? 104 then "\ss\s2\cl" else "\s1\rs"))
            (set_altscren (b =? 104) (set_escsz 0 s))).
Proof.
  intros He Hb. rewrite model_lower by exact Hb.
  unfold csi_lower. cbv zeta.
  rewrite !(consume_miss _ _ s) by (eauto; try discriminate; cbn; lia).
  rewrite (consume_hit _ s) by (auto; cbn; lia). reflexivity.
Qed.

(** The final byte of [ESC [] when it is an upper-case letter. *)
Lemma model_upper b s :
  in_escape [27; 91] s -> is_upper b ->
  line_model b s = Done (csi_upper b (set_escsz 0 s)).
Proof.
  intros He Hb. unfold is_upper in Hb. unfold line_model.
  replace (b =? 13) with false by lia. replace (b =? 8) with false by lia.
  replace (b =? 7) with false by lia. cbv zeta.
  replace ((65 <=? b) && (b <=? 90)) with true by lia.
  rewrite (consume_hit _ s) by (auto; cbn; lia). reflexivity.
Qed.

(** ** Steps of the line *)

Lemma take_wr (buf L : list Z) (p : nat) b :
  take (length L) buf = L -> (p <= length L)%nat -> (p < length buf)%nat ->
  take (Nat.max (length L) (S p)) (<[p := b]> buf)
  = take p L ++ b :: drop (S p) L.
Proof.
  intros Ht Hp Hb.
  assert (HL : (length L <= length buf)%nat).
  { rewrite <- Ht. rewrite length_take. lia. }
  destruct (Nat.eq_dec p (length L)) as [-> | Hne].
  - replace (Nat.max (length L) (S (length L))) with (S (length L)) by lia.
    rewrite (take_S_r _ _ b) by (apply list_lookup_insert_eq; lia).
    rewrite take_insert_ge by lia. rewrite Ht.
    rewrite firstn_all, drop_ge by lia. reflexivity.
  - replace (Nat.max (length L) (S p)) with (length L) by lia.
    rewrite take_insert_lt by lia. rewrite Ht.
    apply insert_take_drop. lia.
Qed.

(** A byte of text is written at the cursor; the line stays below the
    size of the buffer. *)
Lemma put_text b L p s :
  line_is L p s -> is_text b -> 0 <= p <= Z.of_nat (length L) ->
  Z.of_nat (length L) < 1024 -> p + 1 < 1024 ->
  exists s1,
    line_put b s = Done s1
    /\ line_is (take (Z.to_nat p) L ++ b :: drop (S (Z.to_nat p)) L) (p + 1) s1
    /\ trace s1 = trace s /\ modes s1 = modes s
    /\ escsz s1 = escsz s /\ escbuf s1 = escbuf s.
Proof.
  intros (Hl & Hz & Hp & Ht) Hb Hr Hlen Hp1. unfold is_text in Hb.
  unfold line_put. replace (b =? 10) with false by lia.
  replace (b =? 7) with false by lia. cbv zeta.
  cbn [linepos linesz set_linebuf set_linepos].
  unfold SAFEPTR, U32. change (1024 - 1 + 1) with 1024.
  rewrite Hp, Hz. rewrite !Z.mod_small by lia.
  set (n := Nat.max (length L) (S (Z.to_nat p))).
  assert (Hn : Z.of_nat n = Z.max (Z.of_nat (length L)) (p + 1)) by lia.
  assert (Hnew : length (take (Z.to_nat p) L ++ b :: drop (S (Z.to_nat p)) L)
                 = n).
  { rewrite length_app, length_take. cbn [length]. rewrite length_drop. lia. }
  destruct (Z.ltb_spec (Z.of_nat (length L)) (p + 1)) as [Hlt | Hge];
    cbn [linesz set_linesz set_linepos set_linebuf negb andb].
  - replace (p + 1 <? 1024) with true by lia. cbn [andb].
    eexists. split; [reflexivity |].
    unfold line_is, wr. cbn. rewrite length_insert, Hnew.
    repeat split; auto; try lia.
    rewrite <- (take_wr (linebuf s) L (Z.to_nat p) b) by (auto; lia).
    reflexivity.
  - rewrite Hz. replace (Z.of_nat (length L) <? 1024) with true by lia.
    cbn [andb].
    eexists. split; [reflexivity |].
    unfold line_is, wr. cbn. rewrite length_insert, Hnew.
    repeat split; auto; try lia.
    rewrite <- (take_wr (linebuf s) L (Z.to_nat p) b) by (auto; lia).
    reflexivity.
Qed.

(** The byte that ends the line, or fills the buffer, writes the line to
    the text log. *)
Lemma put_flush b L s :
  line_is L (Z.of_nat (length L)) s -> b <> 7 ->
  Z.of_nat (length L) < 1024 ->
  b = 10 \/ Z.of_nat (length L) = 1023 ->
  line_put b s
  = Done (set_linepos 0
            (set_linesz 0
               (let s1 := set_linesz (Z.of_nat (length L) + 1)
                            (set_linepos (Z.of_nat (length L) + 1)
                               (set_linebuf
                                  (wr (linebuf s) (Z.of_nat (length L)) b) s))
                in
                if logfd s =? 0 then s1
                else fullwrite (logfd s) (L ++ [b]) s1))).
Proof.
  intros (Hl & Hz & Hp & Ht) H7 Hlen Hend. unfold line_put.
  replace (b =? 7) with false by lia. cbv zeta.
  assert (Hpos : linepos (if b =? 10 then set_linepos (linesz s) s else s)
                 = Z.of_nat (length L)).
  { destruct (b =? 10); cbn; congruence. }
  assert (Hbuf : linebuf (if b =? 10 then set_linepos (linesz s) s else s)
                 = linebuf s) by (destruct (b =? 10); reflexivity).
  assert (Hsz : linesz (if b =? 10 then set_linepos (linesz s) s else s)
                = Z.of_nat (length L)) by (destruct (b =? 10); cbn; congruence).
  assert (Hfd : logfd (if b =? 10 then set_linepos (linesz s) s else s)
                = logfd s) by (destruct (b =? 10); reflexivity).
  cbn [linepos linesz linebuf logfd set_linebuf set_linepos set_linesz].
  rewrite Hpos, Hbuf, Hsz.
  unfold SAFEPTR, U32. change (1024 - 1 + 1) with 1024.
  rewrite !Z.mod_small by lia.
  replace (Z.of_nat (length L) <? Z.of_nat (length L) + 1) with true by lia.
  cbn [linepos linesz linebuf logfd set_linebuf set_linepos set_linesz].
  replace (negb (b =? 10) && (Z.of_nat (length L) + 1 <? 1024)) with false
    by (destruct Hend as [-> | E]; [reflexivity |];
        rewrite E; symmetry; apply andb_false_r).
  replace (1024 <? Z.of_nat (length L) + 1) with false by lia.
  rewrite Hfd.
  assert (Hline : take (Z.to_nat (Z.of_nat (length L) + 1))
                    (wr (linebuf s) (Z.of_nat (length L)) b) = L ++ [b]).
  { unfold wr. rewrite Nat2Z.id.
    replace (Z.to_nat (Z.of_nat (length L) + 1)) with (S (length L)) by lia.
    rewrite (take_S_r _ _ b) by (apply list_lookup_insert_eq; lia).
    rewrite take_insert_ge by lia. rewrite Ht. reflexivity. }
  rewrite Hline.
  destruct (b =? 10); destruct (logfd s =? 0); reflexivity.
Qed.

Lemma calm_refl s : calm s s.
Proof. unfold calm. auto. Qed.

Lemma calm_trans a b c : calm a b -> calm b c -> calm a c.
Proof. unfold calm. intros (? & ?) (? & ?). split; congruence. Qed.

Lemma quiet_calm s s' : quiet s s' -> calm s s'.
Proof. intros (_ & ? & ?). split; auto. Qed.

Lemma at_line_putrout L p b s : at_line L p s -> at_line L p (putrout b s).
Proof.
  intros (H1 & H2). split; [apply putrout_line | apply putrout_escape]; auto.
Qed.

Lemma calm_putrout b s s0 : calm s0 s -> calm s0 (putrout b s).
Proof.
  intros H. apply (calm_trans _ s); [exact H |].
  apply quiet_calm, quiet_putrout.
Qed.

Lemma step_text b L p s :
  at_line L p s -> is_text b -> 0 <= p <= Z.of_nat (length L) ->
  Z.of_nat (length L) < 1024 -> p + 1 < 1024 ->
  exists s',
    tty_byte b s = Done s'
    /\ at_line (take (Z.to_nat p) L ++ b :: drop (S (Z.to_nat p)) L) (p + 1) s'
    /\ calm s s'.
Proof.
  intros (Hline & He) Hb Hp Hlen Hp1. pose proof Hb as Hb'. unfold is_text in Hb'.
  destruct (put_text b L p s Hline Hb Hp Hlen Hp1)
    as (s1 & E1 & L1 & T1 & M1 & Z1 & B1).
  pose proof He as (El & Ez & Et).
  assert (He1 : in_escape [] s1).
  { unfold in_escape. rewrite Z1, B1. auto. }
  exists (putrout b s1). split.
  - apply tty_byte_of.
    + rewrite model_text by (auto; lia). exact E1.
    + apply delete_idle. rewrite Z1, Ez. cbn. lia.
  - split; [apply at_line_putrout; split; auto |].
    apply calm_putrout. split; auto.
Qed.

Lemma steps_text text : forall L p s,
  at_line L p s -> Forall is_text text -> 0 <= p <= Z.of_nat (length L) ->
  Z.of_nat (length L) < 1024 -> p + Z.of_nat (length text) < 1024 ->
  exists s',
    tty_bytes text s = Done s'
    /\ at_line (take (Z.to_nat p) L ++ text
                  ++ drop (Z.to_nat p + length text) L)
         (p + Z.of_nat (length text)) s'
    /\ calm s s'.
Proof.
  induction text as [| b text IH]; intros L p s Hs Ht Hp Hlen Hfit;
    cbn [tty_bytes].
  - exists s. cbn [length app]. rewrite Nat.add_0_r, Z.add_0_r, take_drop.
    auto using calm_refl.
  - apply Forall_cons in Ht as [Hb Ht]. cbn [length] in Hfit.
    destruct (step_text b L p s Hs Hb Hp Hlen) as (s1 & E1 & A1 & C1);
      [lia |].
    set (L1 := take (Z.to_nat p) L ++ b :: drop (S (Z.to_nat p)) L) in *.
    assert (HL1 : length L1 = Nat.max (length L) (S (Z.to_nat p))).
    { subst L1. rewrite length_app, length_take. cbn [length].
      rewrite length_drop. lia. }
    destruct (IH L1 (p + 1) s1 A1 Ht) as (s2 & E2 & A2 & C2); try lia.
    exists s2. rewrite E1. cbn [bind]. split; [exact E2 |].
    split; [| eapply calm_trans; eauto].
    replace (p + Z.of_nat (length (b :: text)))
      with (p + 1 + Z.of_nat (length text)) by (cbn [length]; lia).
    replace (take (Z.to_nat p) L ++ (b :: text)
               ++ drop (Z.to_nat p + length (b :: text)) L)
      with (take (Z.to_nat (p + 1)) L1 ++ text
              ++ drop (Z.to_nat (p + 1) + length text) L1); [exact A2 |].
    subst L1. replace (Z.to_nat (p + 1)) with (S (Z.to_nat p)) by lia.
    assert (Hlt : length (take (Z.to_nat p) L) = Z.to_nat p)
      by (rewrite length_take; lia).
    cbn [length].
    replace (take (S (Z.to_nat p))
               (take (Z.to_nat p) L ++ b :: drop (S (Z.to_nat p)) L))
      with (take (Z.to_nat p) L ++ [b]).
    2:{ rewrite take_app_ge by lia. rewrite Hlt.
        replace (S (Z.to_nat p) - Z.to_nat p)%nat with 1%nat by lia.
        reflexivity. }
    replace (drop (S (Z.to_nat p) + length text)
               (take (Z.to_nat p) L ++ b :: drop (S (Z.to_nat p)) L))
      with (drop (Z.to_nat p + S (length text)) L).
    2:{ rewrite drop_app_ge by lia. rewrite Hlt.
        replace (S (Z.to_nat p) + length text - Z.to_nat p)%nat
          with (S (length text)) by lia.
        cbn [drop]. rewrite drop_drop. f_equal. lia. }
    rewrite <- app_assoc. reflexivity.
Qed.

Lemma empty_line s1 :
  length (linebuf s1) = 1024%nat -> escsz s1 = 0 -> length (escbuf s1) = 1024%nat ->
  at_line [] 0 (set_linepos 0 (set_linesz 0 s1)).
Proof.
  intros Hl Hz He. unfold at_line, line_is, in_escape. cbn. auto 10.
Qed.

(** The line feed writes the line to the text log and starts an empty
    one. *)
Lemma step_lf L p s :
  at_line L p s -> Z.of_nat (length L) < 1024 ->
  exists s',
    tty_byte 10 s = Done s' /\ at_line [] 0 s'
    /\ trace s' = trace s
                  ++ (if logfd s =? 0 then []
                      else [Write (logfd s) (L ++ [10])])
    /\ modes s' = modes s.
Proof.
  intros (Hline & He) Hlen. pose proof Hline as (Hl & Hz & Hp & Ht).
  pose proof He as (El & Ez & _). cbn in Ez.
  assert (Hline' : line_is L (Z.of_nat (length L)) (set_linepos (linesz s) s)).
  { unfold line_is. cbn. auto. }
  pose proof (put_flush 10 L _ Hline') as Hput.
  assert (E : line_put 10 s = line_put 10 (set_linepos (linesz s) s))
    by reflexivity.
  rewrite <- E in Hput. specialize (Hput ltac:(lia) Hlen ltac:(auto)).
  cbv zeta in Hput.
  cbn [logfd linebuf set_linepos] in Hput.
  eexists. split.
  - apply tty_byte_of.
    + rewrite model_text by (auto; lia). exact Hput.
    + apply delete_idle. destruct (logfd s =? 0); cbn; lia.
  - split.
    + apply at_line_putrout.
      destruct (logfd s =? 0); apply empty_line; cbn; unfold wr;
        rewrite ?length_insert; auto.
    + rewrite !(proj1 (putrout_fields _ _)), !(proj2 (putrout_fields _ _)).
      destruct (logfd s =? 0); cbn; rewrite ?app_nil_r; auto.
Qed.

(** The byte that fills the buffer writes the line as well. *)
Lemma step_full b L s :
  at_line L (Z.of_nat (length L)) s -> is_text b ->
  Z.of_nat (length L) = 1023 ->
  exists s',
    tty_byte b s = Done s' /\ at_line [] 0 s'
    /\ trace s' = trace s
                  ++ (if logfd s =? 0 then []
                      else [Write (logfd s) (L ++ [b])])
    /\ modes s' = modes s.
Proof.
  intros (Hline & He) Hb Hlen. pose proof Hline as (Hl & Hz & Hp & Ht).
  pose proof He as (El & Ez & _). cbn in Ez. unfold is_text in Hb.
  pose proof (put_flush b L s Hline ltac:(lia) ltac:(lia) ltac:(auto)) as Hput.
  cbv zeta in Hput.
  eexists. split.
  - apply tty_byte_of.
    + rewrite model_text by (auto; lia). exact Hput.
    + apply delete_idle. destruct (logfd s =? 0); cbn; lia.
  - split.
    + apply at_line_putrout.
      destruct (logfd s =? 0); apply empty_line; cbn; unfold wr;
        rewrite ?length_insert; auto.
    + rewrite !(proj1 (putrout_fields _ _)), !(proj2 (putrout_fields _ _)).
      destruct (logfd s =? 0); cbn; rewrite ?app_nil_r; auto.
Qed.

(** Carriage return: to the start of the row, and out of any escape
    sequence. *)
Lemma step_cr L p s :
  line_is L p s -> length (escbuf s) = 1024%nat ->
  exists s',
    tty_byte 13 s = Done s'
    /\ at_line L (if swcol s =? 0 then 0 else p - p mod swcol s) s'
    /\ calm s s'.
Proof.
  intros (Hl & Hz & Hp & Ht) El.
  eexists. split.
  - apply tty_byte_of; [reflexivity |]. apply delete_idle. reflexivity.
  - split.
    + apply at_line_putrout. unfold at_line, line_is, in_escape. cbn.
      rewrite Hp. auto 10.
    + apply calm_putrout. unfold calm. auto.
Qed.

(** Backspace: one to the left, unless at the start. *)
Lemma step_bs L p s :
  at_line L p s ->
  exists s',
    tty_byte 8 s = Done s'
    /\ at_line L (if p =? 0 then 0 else p - 1) s' /\ calm s s'.
Proof.
  intros ((Hl & Hz & Hp & Ht) & (El & Ez & Et)). cbn in Ez.
  eexists. split.
  - apply tty_byte_of; [reflexivity |]. apply delete_idle.
    destruct (linepos s =? 0); cbn; lia.
  - split.
    + apply at_line_putrout. unfold at_line, line_is, in_escape.
      rewrite <- Hp.
      destruct (Z.eqb_spec (linepos s) 0) as [E | E]; cbn; auto 10.
    + apply calm_putrout. unfold calm.
      destruct (linepos s =? 0); auto.
Qed.

Lemma passive_bracket : passive [27] 91.
Proof. unfold passive. cbn. intuition lia. Qed.

(** [ESC [] followed by an upper-case letter. *)
Lemma step_csi_upper b L p s :
  at_line L p s -> is_upper b ->
  exists s',
    tty_bytes [27; 91; b] s = Done s'
    /\ in_escape [] s'
    /\ line_part s' = line_part (csi_upper b s)
    /\ calm s s'.
Proof.
  intros (Hline & He) Hb. pose proof He as (El & _).
  destruct (step_esc s El) as (s1 & E1 & He1 & Q1).
  destruct (step_push 91 [27] s1 He1) as (s2 & E2 & He2 & Q2);
    [discriminate | cbn; lia | apply passive_bracket |].
  cbn [app] in He2. cbn [tty_bytes]. rewrite E1. cbn [bind]. rewrite E2.
  cbn [bind].
  exists (putrout b (csi_upper b (set_escsz 0 s2))). split.
  - rewrite (tty_byte_of b s2 (csi_upper b (set_escsz 0 s2))); [reflexivity | |].
    + apply model_upper; auto.
    + apply delete_idle. unfold csi_upper.
      destruct (b =? 75); [reflexivity |].
      destruct (b =? 65); [reflexivity |].
      destruct (b =? 67); reflexivity.
  - pose proof (quiet_trans _ _ _ Q1 Q2) as (Q & T & M).
    injection Q as QA QB QC.
    split.
    + apply putrout_escape. destruct He2 as (A & _).
      unfold in_escape, csi_upper.
      destruct (b =? 75); [cbn; auto |].
      destruct (b =? 65); [cbn; auto |].
      destruct (b =? 67); cbn; auto.
    + split.
      * destruct (quiet_putrout b (csi_upper b (set_escsz 0 s2))) as (A & _).
        rewrite A. unfold csi_upper, line_part.
        destruct (b =? 75); [cbn; congruence |].
        destruct (b =? 65).
        { cbn. rewrite QA, QB, QC.
          destruct (TtyFrame.tty_byte_frames 27 s) as (K1 & _).
          destruct (TtyFrame.tty_byte_frames 91 s1) as (K2 & _).
          rewrite E1 in K1. rewrite E2 in K2. cbn [state_of] in K1, K2.
          assert (Hsw : swcol s2 = swcol s).
          { pose proof (f_equal (fun k => snd (fst (fst (fst (fst (fst k))))))
                          K1) as A1.
            pose proof (f_equal (fun k => snd (fst (fst (fst (fst (fst k))))))
                          K2) as A2.
            cbn in A1, A2. congruence. }
          rewrite Hsw. reflexivity. }
        destruct (b =? 67); cbn; congruence.
      * apply calm_putrout. unfold calm, csi_upper.
        destruct (b =? 75); [cbn; split; [exact T | exact M] |].
        destruct (b =? 65); [cbn; split; [exact T | exact M] |].
        destruct (b =? 67); cbn; split; [exact T | exact M | exact T | exact M].
Qed.

(** [ESC [ K]: the line is cut at the cursor. *)
Lemma step_erase L p s :
  at_line L p s -> 0 <= p <= Z.of_nat (length L) ->
  exists s',
    tty_bytes [27; 91; 75] s = Done s'
    /\ at_line (take (Z.to_nat p) L) p s' /\ calm s s'.
Proof.
  intros Hs Hp.
  destruct (step_csi_upper 75 L p s Hs) as (s' & E & He & Hl & C);
    [unfold is_upper; lia |].
  destruct Hs as ((A1 & A2 & A3 & A4) & _).
  exists s'. split; [exact E |]. split; [| exact C].
  split; [| exact He].
  injection Hl as B1 B2 B3. cbn in B1, B2, B3.
  unfold line_is. rewrite B1, B2, B3, length_take, A3.
  repeat split; auto; try lia.
  replace (Z.to_nat p `min` length L)%nat with (Z.to_nat p) by lia.
  symmetry. rewrite <- A4 at 1. rewrite take_take. f_equal. lia.
Qed.

(** [ESC [ C]: the cursor moves right. *)
Lemma step_right L p s :
  at_line L p s -> 0 <= p < 2 ^ 32 - 1 ->
  exists s',
    tty_bytes [27; 91; 67] s = Done s' /\ at_line L (p + 1) s' /\ calm s s'.
Proof.
  intros Hs Hp.
  destruct (step_csi_upper 67 L p s Hs) as (s' & E & He & Hl & C);
    [unfold is_upper; lia |].
  destruct Hs as ((A1 & A2 & A3 & A4) & _).
  exists s'. split; [exact E |]. split; [| exact C].
  split; [| exact He].
  injection Hl as B1 B2 B3. cbn in B1, B2, B3.
  unfold line_is. rewrite B1, B2, B3, A3. unfold U32.
  rewrite Z.mod_small by lia. auto.
Qed.

Lemma tty_bytes_app a : forall b s,
  tty_bytes (a ++ b) s = bind (tty_bytes a s) (tty_bytes b).
Proof.
  induction a as [| x a IH]; intros b s; cbn [tty_bytes app]; [reflexivity |].
  destruct (tty_byte x s) as [s1 | s1 | s1]; cbn [bind]; auto.
Qed.

Lemma steps_right n : forall L p s,
  at_line L p s -> 0 <= p -> p + Z.of_nat n < 2 ^ 32 ->
  exists s',
    tty_bytes (concat (repeat [27; 91; 67] n)) s = Done s'
    /\ at_line L (p + Z.of_nat n) s' /\ calm s s'.
Proof.
  induction n as [| n IH]; intros L p s Hs Hp Hn.
  - exists s. cbn. rewrite Z.add_0_r. auto using calm_refl.
  - destruct (step_right L p s Hs) as (s1 & E1 & A1 & C1); [lia |].
    destruct (IH L (p + 1) s1 A1) as (s2 & E2 & A2 & C2); try lia.
    exists s2. cbn [repeat concat]. rewrite tty_bytes_app, E1. cbn [bind].
    split; [exact E2 |].
    replace (p + Z.of_nat (S n)) with (p + 1 + Z.of_nat n) by lia.
    split; [exact A2 | eapply calm_trans; eauto].
Qed.

(** ** From the loop to the call *)

(** The state in which the loop of [process_tty_out] starts. *)
Lemma call_start buf s :
  let s0 := if rawlogfd s =? 0 then set_rwoutlen 0 s
            else fullwrite (rawlogfd s) buf (set_rwoutlen 0 s) in
  (forall L p, at_line L p s -> at_line L p s0)
  /\ modes s0 = modes s /\ logfd s0 = logfd s /\ swcol s0 = swcol s
  /\ length (escbuf s0) = length (escbuf s)
  /\ exists n, trace s0 = trace s ++ n
       /\ forall fd, fd <> rawlogfd s -> written fd n = [].
Proof.
  cbv zeta. destruct (Z.eqb_spec (rawlogfd s) 0) as [E | E].
  - split; [intros L p H; exact H |]. repeat split.
    exists []. rewrite app_nil_r. auto.
  - split; [intros L p H; exact H |]. repeat split.
    exists [Write (rawlogfd s) buf]. split; [reflexivity |].
    intros fd Hfd. cbn. destruct (Z.eqb_spec (rawlogfd s) fd); congruence.
Qed.

Lemma call_end buf s s1 :
  tty_bytes buf
    (if rawlogfd s =? 0 then set_rwoutlen 0 s
     else fullwrite (rawlogfd s) buf (set_rwoutlen 0 s)) = Done s1 ->
  exists s',
    process_tty_out buf s = Done s'
    /\ (forall L p, at_line L p s1 -> at_line L p s')
    /\ modes s' = modes s1
    /\ exists n, trace s' = trace s1 ++ n
         /\ forall fd, fd <> 1 -> written fd n = [].
Proof.
  intros E. unfold process_tty_out. cbv zeta.
  change (rawlogfd (set_rwoutlen 0 s)) with (rawlogfd s). rewrite E.
  cbn [bind]. eexists. split; [reflexivity |].
  destruct (quiet_putroutraw [10] s1) as (A & B & C).
  assert (Hat : forall L p, at_line L p s1 -> at_line L p (putroutraw [10] s1)).
  { intros L p (H1 & H2). split;
      [apply putroutraw_line | apply putroutraw_escape]; auto. }
  destruct (rwout (putroutraw [10] s1)).
  - split; [intros L p H; apply (Hat L p H) |].
    split; [exact C |].
    exists [Write 1 (rout (putroutraw [10] s1))].
    split; [unfold fullwrite, emit; cbn [trace set_trace]; rewrite B;
            reflexivity |].
    intros fd Hfd. cbn [written].
    destruct (Z.eqb_spec 1 fd); [congruence | reflexivity].
  - split; [exact Hat |]. split; [exact C |].
    exists []. rewrite app_nil_r. auto.
Qed.

(** What a call writes to the text log is what its loop writes. *)
Lemma call_log buf s s1 n :
  let s0 := if rawlogfd s =? 0 then set_rwoutlen 0 s
            else fullwrite (rawlogfd s) buf (set_rwoutlen 0 s) in
  rawlogfd s <> logfd s -> logfd s <> 1 ->
  tty_bytes buf s0 = Done s1 -> trace s1 = trace s0 ++ n ->
  exists s',
    process_tty_out buf s = Done s'
    /\ written (logfd s) (added s (Done s')) = written (logfd s) n
    /\ (forall L p, at_line L p s1 -> at_line L p s')
    /\ modes s' = modes s1.
Proof.
  intros s0 Hr H1 E T.
  destruct (call_start buf s) as (_ & _ & _ & _ & _ & n0 & T0 & Q0).
  fold s0 in T0.
  destruct (call_end buf s s1 E) as (s' & E' & A & M & n1 & T1 & Q1).
  exists s'. split; [exact E' |]. split; [| auto].
  unfold added. cbn [state_of]. rewrite T1, T, T0, <- !app_assoc.
  rewrite drop_app_length, !KbdFunction.written_app.
  rewrite Q0, Q1 by congruence. rewrite app_nil_r. reflexivity.
Qed.
End TtySteps.

Module TtyLog.
Import Session Keys Tty TtySteps.

(** ** The text log *)

Lemma frame_logfd buf s s1 :
  tty_bytes buf s = Done s1 -> logfd s1 = logfd s /\ swcol s1 = swcol s.
Proof.
  intros E. destruct (TtyFrame.tty_bytes_frames buf s) as (K & Lg & _).
  rewrite E in K, Lg. cbn [state_of] in K, Lg. split; [exact Lg |].
  exact (f_equal (fun k => snd (fst (fst (fst (fst (fst k)))))) K).
Qed.

Lemma frame_logfd1 b s s1 :
  tty_byte b s = Done s1 -> logfd s1 = logfd s /\ swcol s1 = swcol s.
Proof.
  intros E. apply (frame_logfd [b] s s1). cbn [tty_bytes]. rewrite E.
  reflexivity.
Qed.

(** Text of any length: the line is written each time it fills the
    buffer, and its rest stays. *)
Lemma run_text text : forall L s,
  at_line L (Z.of_nat (length L)) s -> Z.of_nat (length L) < 1024 ->
  Forall is_text text -> logfd s <> 0 ->
  exists s' L' n,
    tty_bytes text s = Done s'
    /\ at_line L' (Z.of_nat (length L')) s' /\ Z.of_nat (length L') < 1024
    /\ trace s' = trace s ++ n
    /\ written (logfd s) n ++ L' = L ++ text
    /\ modes s' = modes s.
Proof.
  induction text as [| b text IH]; intros L s Hs Hlen Ht Hfd; cbn [tty_bytes].
  - exists s, L, []. rewrite !app_nil_r. auto 10.
  - apply Forall_cons in Ht as [Hb Ht].
    destruct (Z.eq_dec (Z.of_nat (length L)) 1023) as [Hfull | Hroom].
    + destruct (step_full b L s Hs Hb Hfull) as (s1 & E1 & A1 & T1 & M1).
      destruct (frame_logfd1 b s s1 E1) as (Lg & _).
      destruct (IH [] s1 A1) as (s2 & L2 & n2 & E2 & A2 & B2 & T2 & W2 & M2);
        auto; try (cbn; lia); try congruence.
      exists s2, L2, ([Write (logfd s) (L ++ [b])] ++ n2).
      rewrite E1. cbn [bind]. split; [exact E2 |].
      split; [exact A2 |]. split; [exact B2 |].
      replace (logfd s =? 0) with false in T1 by lia.
      split; [rewrite T2, T1, <- app_assoc; reflexivity |].
      split; [| congruence].
      rewrite KbdFunction.written_app. cbn [written].
      rewrite Z.eqb_refl, app_nil_r, <- app_assoc. rewrite Lg in W2.
      rewrite W2. cbn [app]. rewrite <- app_assoc. reflexivity.
    + destruct (step_text b L (Z.of_nat (length L)) s Hs Hb)
        as (s1 & E1 & A1 & T1 & M1); try lia.
      rewrite Nat2Z.id, firstn_all, drop_ge in A1 by lia.
      destruct (frame_logfd1 b s s1 E1) as (Lg & _).
      destruct (IH (L ++ [b]) s1) as (s2 & L2 & n2 & E2 & A2 & B2 & T2 & W2 & M2);
        auto; try congruence.
      { rewrite length_app. cbn [length].
        replace (Z.of_nat (length L + 1)) with (Z.of_nat (length L) + 1) by lia.
        exact A1. }
      { rewrite length_app. cbn [length]. lia. }
      exists s2, L2, n2. rewrite E1. cbn [bind]. split; [exact E2 |].
      split; [exact A2 |]. split; [exact B2 |].
      split; [congruence |]. split; [| congruence].
      rewrite Lg in W2. rewrite W2, <- app_assoc. reflexivity.
Qed.

(** The end of a line: carriage return and line feed. *)
Lemma line_ends L p s :
  at_line L p s -> Z.of_nat (length L) < 1024 -> logfd s <> 0 ->
  exists s',
    tty_bytes [13; 10] s = Done s' /\ at_line [] 0 s'
    /\ trace s' = trace s ++ [Write (logfd s) (L ++ [10])]
    /\ modes s' = modes s.
Proof.
  intros (Hl & He) Hlen Hfd.
  destruct (step_cr L p s Hl) as (s1 & E1 & A1 & T1 & M1); [apply He |].
  destruct (step_lf L _ s1 A1 Hlen) as (s2 & E2 & A2 & T2 & M2).
  destruct (frame_logfd1 13 s s1 E1) as (Lg & _).
  exists s2. cbn [tty_bytes]. rewrite E1. cbn [bind]. rewrite E2. cbn [bind].
  split; [reflexivity |]. split; [exact A2 |].
  rewrite Lg in T2. replace (logfd s =? 0) with false in T2 by lia.
  split; congruence.
Qed.

(** X6.  Text reaches the text log as it is.  From an empty line, a call
    with any number of text bytes (0x20 and above) followed by carriage
    return and line feed writes to the log exactly the text and a line
    feed; a text longer than the line buffer is written in pieces of
    1024 bytes, with nothing lost.  The line is empty again after the
    call. *)
Theorem plain_text_logged text s :
  at_line [] 0 s -> Forall is_text text ->
  logfd s <> 0 -> rawlogfd s <> logfd s -> logfd s <> 1 ->
  exists s',
    process_tty_out (text ++ [13; 10]) s = Done s'
    /\ written (logfd s) (added s (Done s')) = text ++ [10]
    /\ at_line [] 0 s'.
Proof.
  intros Hs Ht Hfd Hraw H1.
  destruct (call_start (text ++ [13; 10]) s) as (A0 & M0 & L0 & _).
  set (s0 := if rawlogfd s =? 0 then _ else _) in *.
  destruct (run_text text [] s0 (A0 _ _ Hs)) as
    (s1 & L1 & n1 & E1 & A1 & B1 & T1 & W1 & M1); auto; try (cbn; lia);
    try congruence.
  destruct (frame_logfd text s0 s1 E1) as (Lg1 & _).
  destruct (line_ends L1 _ s1 A1 B1) as (s2 & E2 & A2 & T2 & M2);
    [congruence |].
  destruct (call_log (text ++ [13; 10]) s s2
              (n1 ++ [Write (logfd s) (L1 ++ [10])]))
    as (s' & E' & W' & A' & M'); auto.
  { fold s0. rewrite tty_bytes_app, E1. cbn [bind]. exact E2. }
  { fold s0. rewrite T2, T1, <- app_assoc, Lg1, L0. reflexivity. }
  exists s'. split; [exact E' |]. split; [| apply A'; exact A2].
  rewrite W', KbdFunction.written_app. cbn [written].
  rewrite Z.eqb_refl, app_nil_r, app_assoc. rewrite L0 in W1.
  rewrite W1. reflexivity.
Qed.

Lemma plain_text_logged_witness :
  exists s',
    process_tty_out (bytes_of "hello" ++ [13; 10]) (set_logfd 6 wts0) = Done s'
    /\ written 6 (added (set_logfd 6 wts0) (Done s')) = bytes_of "hello" ++ [10]
    /\ at_line [] 0 s'.
Proof.
  apply (plain_text_logged (bytes_of "hello") (set_logfd 6 wts0)).
  - unfold at_line, line_is, in_escape. cbn. auto 10.
  - change (bytes_of "hello") with [104; 101; 108; 108; 111].
    repeat (constructor; [unfold is_text; lia |]). constructor.
  - cbn. lia.
  - cbn. lia.
  - cbn. lia.
Defined.

(** A call that ends a line left by its first bytes. *)
Lemma line_call body L p s :
  at_line [] 0 s ->
  (forall s0, at_line [] 0 s0 -> swcol s0 = swcol s ->
     exists s1, tty_bytes body s0 = Done s1 /\ at_line L p s1
                /\ trace s1 = trace s0) ->
  Z.of_nat (length L) < 1024 ->
  logfd s <> 0 -> rawlogfd s <> logfd s -> logfd s <> 1 ->
  exists s',
    process_tty_out (body ++ [13; 10]) s = Done s'
    /\ written (logfd s) (added s (Done s')) = L ++ [10]
    /\ at_line [] 0 s'.
Proof.
  intros Hs Hbody Hlen Hfd Hraw H1.
  destruct (call_start (body ++ [13; 10]) s) as (A0 & M0 & L0 & W0 & _).
  set (s0 := if rawlogfd s =? 0 then _ else _) in *.
  destruct (Hbody s0 (A0 _ _ Hs) W0) as (s1 & E1 & A1 & T1).
  destruct (frame_logfd body s0 s1 E1) as (Lg1 & _).
  destruct (line_ends L p s1 A1 Hlen) as (s2 & E2 & A2 & T2 & M2);
    [congruence |].
  destruct (call_log (body ++ [13; 10]) s s2 [Write (logfd s) (L ++ [10])])
    as (s' & E' & W' & A' & M'); auto.
  { fold s0. rewrite tty_bytes_app, E1. cbn [bind]. exact E2. }
  { fold s0. rewrite T2, T1, Lg1, L0. reflexivity. }
  exists s'. split; [exact E' |]. split; [| apply A'; exact A2].
  rewrite W'. cbn [written]. rewrite Z.eqb_refl, app_nil_r. reflexivity.
Qed.

Lemma typed text s :
  at_line [] 0 s -> Forall is_text text -> Z.of_nat (length text) < 1024 ->
  exists s',
    tty_bytes text s = Done s'
    /\ at_line text (Z.of_nat (length text)) s' /\ calm s s'.
Proof.
  intros Hs Ht Hlen.
  destruct (steps_text text [] 0 s Hs Ht) as (s1 & E1 & A1 & C1);
    try (cbn; lia).
  exists s1. split; [exact E1 |]. split; [| exact C1].
  rewrite take_nil, drop_nil, app_nil_r, Z.add_0_l in A1. exact A1.
Qed.

(** Backspace and [ESC [ K], [j] times: the last [j] bytes of the line
    go. *)
Lemma rubout j : forall L s,
  at_line L (Z.of_nat (length L)) s -> (j <= length L)%nat ->
  exists s',
    tty_bytes (concat (repeat [8; 27; 91; 75] j)) s = Done s'
    /\ at_line (take (length L - j) L) (Z.of_nat (length L - j)) s'
    /\ calm s s'.
Proof.
  induction j as [| j IH]; intros L s Hs Hj.
  - exists s. cbn [repeat concat tty_bytes]. rewrite Nat.sub_0_r, firstn_all.
    auto using calm_refl.
  - destruct (step_bs L _ s Hs) as (s1 & E1 & A1 & C1).
    replace (Z.of_nat (length L) =? 0) with false in A1 by lia.
    destruct (step_erase L _ s1 A1) as (s2 & E2 & A2 & C2); [lia |].
    replace (Z.to_nat (Z.of_nat (length L) - 1)) with (length L - 1)%nat
      in A2 by lia.
    set (L1 := take (length L - 1) L) in *.
    assert (HL1 : length L1 = (length L - 1)%nat)
      by (subst L1; rewrite length_take; lia).
    destruct (IH L1 s2) as (s3 & E3 & A3 & C3).
    { rewrite HL1. replace (Z.of_nat (length L - 1))
        with (Z.of_nat (length L) - 1) by lia. exact A2. }
    { lia. }
    exists s3. cbn [repeat concat].
    change ([8; 27; 91; 75] ++ concat (repeat [8; 27; 91; 75] j))
      with ([8] ++ [27; 91; 75] ++ concat (repeat [8; 27; 91; 75] j)).
    assert (E1' : tty_bytes [8] s = Done s1)
      by (cbn [tty_bytes]; rewrite E1; reflexivity).
    rewrite tty_bytes_app, E1'. cbn [bind].
    rewrite tty_bytes_app, E2. cbn [bind]. split; [exact E3 |].
    split; [| eauto using calm_trans].
    rewrite HL1 in A3. subst L1. rewrite take_take in A3.
    replace ((length L - 1 - j) `min` (length L - 1))%nat
      with (length L - S j)%nat in A3 by lia.
    replace (length L - 1 - j)%nat with (length L - S j)%nat in A3 by lia.
    exact A3.
Qed.

(** X7.  Backspace followed by [ESC [ K] rubs out the last byte of the
    line: text, then [j] times backspace and erase-to-end, then more
    text, then carriage return and line feed writes to the log the text
    without its last [j] bytes, followed by the second text. *)
Theorem rubbed_out_bytes_not_logged text j text' s :
  at_line [] 0 s -> Forall is_text text -> Forall is_text text' ->
  (j <= length text)%nat -> Z.of_nat (length text) < 1024 ->
  Z.of_nat (length text - j) + Z.of_nat (length text') < 1024 ->
  logfd s <> 0 -> rawlogfd s <> logfd s -> logfd s <> 1 ->
  exists s',
    process_tty_out
      ((text ++ concat (repeat [8; 27; 91; 75] j) ++ text') ++ [13; 10]) s
    = Done s'
    /\ written (logfd s) (added s (Done s'))
       = (take (length text - j) text ++ text') ++ [10]
    /\ at_line [] 0 s'.
Proof.
  intros Hs Ht Ht' Hj Hlen Hfit Hfd Hraw H1.
  apply (line_call _ (take (length text - j) text ++ text')
           (Z.of_nat (length text - j) + Z.of_nat (length text'))); auto.
  2:{ rewrite length_app, length_take. lia. }
  intros s0 H0 _.
  destruct (typed text s0 H0 Ht Hlen) as (s1 & E1 & A1 & C1).
  destruct (rubout j text s1 A1 Hj) as (s2 & E2 & A2 & C2).
  set (L := take (length text - j) text) in *.
  assert (HL : length L = (length text - j)%nat)
    by (subst L; rewrite length_take; lia).
  destruct (steps_text text' L (Z.of_nat (length text - j)) s2)
    as (s3 & E3 & A3 & C3); auto; try lia.
  exists s3. rewrite tty_bytes_app, E1. cbn [bind].
  rewrite tty_bytes_app, E2. cbn [bind].
  split; [exact E3 |].
  split; [| apply (calm_trans _ _ _ (calm_trans _ _ _ C1 C2) C3)].
  rewrite Nat2Z.id in A3. rewrite <- HL in A3 at 1 2.
  rewrite firstn_all, drop_ge, app_nil_r in A3 by lia. exact A3.
Qed.

Lemma rubbed_out_bytes_not_logged_witness :
  exists s',
    process_tty_out
      ((bytes_of "abcdef" ++ concat (repeat [8; 27; 91; 75] 3)
          ++ bytes_of "xyz") ++ [13; 10]) (set_logfd 6 wts0)
    = Done s'
    /\ written 6 (added (set_logfd 6 wts0) (Done s'))
       = (take 3 (bytes_of "abcdef") ++ bytes_of "xyz") ++ [10]
    /\ at_line [] 0 s'.
Proof.
  apply (rubbed_out_bytes_not_logged (bytes_of "abcdef") 3 (bytes_of "xyz")
           (set_logfd 6 wts0)).
  - unfold at_line, line_is, in_escape. cbn. auto 10.
  - change (bytes_of "abcdef") with [97; 98; 99; 100; 101; 102].
    repeat (constructor; [unfold is_text; lia |]). constructor.
  - change (bytes_of "xyz") with [120; 121; 122].
    repeat (constructor; [unfold is_text; lia |]). constructor.
  - cbn. lia.
  - cbn. lia.
  - cbn. lia.
  - cbn. lia.
  - cbn. lia.
  - cbn. lia.
Defined.

(** X8.  A carriage return moves the cursor to the start of the row
    (column 0 without a window width, else the last multiple of the
    width), and the text after it overwrites the line from there: the
    log gets the first text up to that column, the second text, and what
    of the first text lies beyond it. *)
Theorem carriage_return_overwrites text1 text2 s :
  at_line [] 0 s -> Forall is_text text1 -> Forall is_text text2 ->
  0 <= swcol s ->
  let n := Z.of_nat (length text1) in
  let p0 := if swcol s =? 0 then 0 else n - n mod swcol s in
  n < 1024 -> p0 + Z.of_nat (length text2) < 1024 ->
  logfd s <> 0 -> rawlogfd s <> logfd s -> logfd s <> 1 ->
  exists s',
    process_tty_out ((text1 ++ [13] ++ text2) ++ [13; 10]) s = Done s'
    /\ written (logfd s) (added s (Done s'))
       = (take (Z.to_nat p0) text1 ++ text2
            ++ drop (Z.to_nat p0 + length text2) text1) ++ [10]
    /\ at_line [] 0 s'.
Proof.
  intros Hs Ht1 Ht2 Hsw n p0 Hn Hfit Hfd Hraw H1.
  assert (Hp0 : 0 <= p0 <= n).
  { subst p0. destruct (Z.eqb_spec (swcol s) 0) as [E | E]; [lia |].
    pose proof (Z.mod_pos_bound n (swcol s) ltac:(lia)).
    pose proof (Z.mod_le n (swcol s) ltac:(lia) ltac:(lia)). lia. }
  apply (line_call _ _ (p0 + Z.of_nat (length text2))); auto.
  2:{ rewrite !length_app, length_take, length_drop. lia. }
  intros s0 H0 Hsw0.
  destruct (typed text1 s0 H0 Ht1 Hn) as (s1 & E1 & A1 & C1).
  destruct (frame_logfd text1 s0 s1 E1) as (_ & W1).
  destruct A1 as (A1 & A1e).
  destruct (step_cr text1 _ s1 A1) as (s2 & E2 & A2 & C2); [apply A1e |].
  rewrite W1, Hsw0 in A2. fold n in A2. fold p0 in A2.
  destruct (steps_text text2 text1 p0 s2 A2 Ht2) as (s3 & E3 & A3 & C3);
    try lia.
  assert (E2' : tty_bytes [13] s1 = Done s2)
    by (cbn [tty_bytes]; rewrite E2; reflexivity).
  exists s3. rewrite tty_bytes_app, E1. cbn [bind].
  rewrite tty_bytes_app, E2'.
  cbn [bind]. split; [exact E3 |]. split; [exact A3 |].
  apply (calm_trans _ _ _ (calm_trans _ _ _ C1 C2) C3).
Qed.

Lemma carriage_return_overwrites_witness :
  exists s',
    process_tty_out ((bytes_of "xyz123" ++ [13] ++ bytes_of "XYZ") ++ [13; 10])
      (set_logfd 6 wts0) = Done s'
    /\ written 6 (added (set_logfd 6 wts0) (Done s'))
       = (take 0 (bytes_of "xyz123") ++ bytes_of "XYZ"
            ++ drop 3 (bytes_of "xyz123")) ++ [10]
    /\ at_line [] 0 s'.
Proof.
  apply (carriage_return_overwrites (bytes_of "xyz123") (bytes_of "XYZ")
           (set_logfd 6 wts0)).
  - unfold at_line, line_is, in_escape. cbn. auto 10.
  - change (bytes_of "xyz123") with [120; 121; 122; 49; 50; 51].
    repeat (constructor; [unfold is_text; lia |]). constructor.
  - change (bytes_of "XYZ") with [88; 89; 90].
    repeat (constructor; [unfold is_text; lia |]). constructor.
  - cbn. lia.
  - cbn. lia.
  - cbn. lia.
  - cbn. lia.
  - cbn. lia.
  - cbn. lia.
Defined.

(** ** Escape sequences and the log *)

Lemma step_csi_final f e L p s :
  in_escape e s -> line_is L p s -> (2 <= length e)%nat ->
  Z.of_nat (length e) <= 1024 -> nth 1 e 0 = 91 -> is_lower f ->
  exists s', tty_byte f s = Done s' /\ at_line L p s' /\ trace s' = trace s.
Proof.
  intros He Hl H2 Hlen H91 Hf. pose proof He as (El & _).
  assert (Hdone : forall s3,
    line_model f s = Done s3 -> escsz s3 = 0 ->
    length (escbuf s3) = 1024%nat ->
    line_part s3 = line_part s -> trace s3 = trace s ->
    exists s', tty_byte f s = Done s' /\ at_line L p s' /\ trace s' = trace s).
  { intros s3 Hm Hz Hb Hp Ht. exists (putrout f s3). split.
    - apply tty_byte_of; [exact Hm |]. apply delete_idle. lia.
    - split.
      + apply at_line_putrout. split.
        * destruct Hl as (A1 & A2 & A3 & A4). injection Hp as B1 B2 B3.
          unfold line_is. rewrite B1, B2, B3. auto.
        * unfold in_escape. cbn. auto.
      + rewrite (proj1 (putrout_fields f s3)). exact Ht. }
  destruct (decide (e = 27 :: bytes_of "[?1")) as [-> | N1].
  { eapply Hdone; [apply model_appcursor; auto | | | |]; auto. }
  destruct (decide (e = 27 :: bytes_of "[?47")) as [-> | N2].
  { destruct (quiet_putroutraw (bytes_of (if f =? 104 then "\s2" else "\s1"))
                (set_altscren (f =? 104) (set_escsz 0 s))) as (A & B & C).
    eapply Hdone; [apply (model_altscreen f _ s He); auto | | | |]; auto.
    - apply (putroutraw_escape []). unfold in_escape. cbn. auto.
    - apply (putroutraw_escape []). unfold in_escape. cbn. auto. }
  destruct (decide (e = 27 :: bytes_of "[?1047")) as [-> | N3].
  { destruct (quiet_putroutraw (bytes_of (if f =? 104 then "\s2" else "\s1"))
                (set_altscren (f =? 104) (set_escsz 0 s))) as (A & B & C).
    eapply Hdone; [apply (model_altscreen f _ s He); auto | | | |]; auto.
    - apply (putroutraw_escape []). unfold in_escape. cbn. auto.
    - apply (putroutraw_escape []). unfold in_escape. cbn. auto. }
  destruct (decide (e = 27 :: bytes_of "[?1049")) as [-> | N4].
  { destruct (quiet_putroutraw
                (bytes_of (if f =? 104 then "\ss\s2\cl" else "\s1\rs"))
                (set_altscren (f =? 104) (set_escsz 0 s))) as (A & B & C).
    eapply Hdone; [apply (model_altscreen_saved f s He); auto | | | |]; auto.
    - apply (putroutraw_escape []). unfold in_escape. cbn. auto.
    - apply (putroutraw_escape []). unfold in_escape. cbn. auto. }
  eapply Hdone; [apply (model_csi_end f e s); auto | | | |]; auto.
  intros Hin. unfold mode_prefixes in Hin. cbn [In] in Hin.
  intuition congruence.
Qed.

Lemma pass_over seq L p s :
  passed_over seq -> at_line L p s ->
  exists s', tty_bytes seq s = Done s' /\ at_line L p s' /\ trace s' = trace s.
Proof.
  intros Hseq (Hl & He). pose proof He as (El & _).
  destruct (step_esc s El) as (s1 & E1 & He1 & Q1).
  assert (Hrun : forall k rest s2,
    tty_bytes (k :: rest) s1 = Done s2 ->
    tty_bytes (27 :: k :: rest) s = Done s2).
  { intros k rest s2 E. cbn [tty_bytes]. rewrite E1. cbn [bind]. exact E. }
  destruct Hseq as [k body Hk H91 Hbody Hlen | params f Hpar Hf Hlen].
  - (* up to the bell *)
    destruct (step_push k [27] s1 He1) as (s2 & E2 & He2 & Q2);
      [discriminate | cbn; lia | |].
    { destruct Hk as (? & ? & ? & ?). unfold passive. cbn. intuition lia. }
    cbn [app] in He2.
    destruct (steps_push body [27; k] s2 He2) as (s3 & E3 & He3 & Q3);
      [cbn; lia | cbn [length]; lia | |].
    { eapply Forall_impl; [exact Hbody |]. intros b (? & ? & ? & ?).
      unfold passive. cbn. intuition lia. }
    destruct He3 as (El3 & _).
    destruct (step_bel s3 El3) as (s4 & E4 & He4 & Q4).
    exists s4. split.
    + apply Hrun. cbn [tty_bytes]. rewrite E2. cbn [bind].
      rewrite tty_bytes_app, E3. cbn [bind tty_bytes]. rewrite E4. reflexivity.
    + pose proof (quiet_trans _ _ _ (quiet_trans _ _ _ Q1 Q2)
                    (quiet_trans _ _ _ Q3 Q4)) as Q.
      split; [split; [eapply quiet_line; eauto | exact He4] | apply Q].
  - (* up to the letter *)
    destruct (step_push 91 [27] s1 He1) as (s2 & E2 & He2 & Q2);
      [discriminate | cbn; lia | apply passive_bracket |].
    cbn [app] in He2.
    destruct (steps_push params [27; 91] s2 He2) as (s3 & E3 & He3 & Q3);
      [cbn; lia | cbn [length]; lia | |].
    { eapply Forall_impl; [exact Hpar |].
      intros b ((? & ? & ? & ?) & ? & ?). unfold passive. cbn. intuition. }
    pose proof (quiet_trans _ _ _ (quiet_trans _ _ _ Q1 Q2) Q3) as Q.
    destruct (step_csi_final f ([27; 91] ++ params) L p s3 He3)
      as (s4 & E4 & A4 & T4); auto.
    { eapply quiet_line; eauto. }
    { cbn. lia. }
    { rewrite length_app. cbn [length]. lia. }
    exists s4. split.
    + apply Hrun. cbn [tty_bytes]. rewrite E2. cbn [bind].
      rewrite tty_bytes_app, E3. cbn [bind tty_bytes]. rewrite E4. reflexivity.
    + split; [exact A4 |]. rewrite T4. apply Q.
Qed.

(** X9.  Escape sequences stay out of the text log.  A sequence from
    [ESC] to the bell (not starting with [ESC []), or from [ESC [] over
    bytes that are not letters to a lower-case letter, between two texts
    of a line leaves no byte in the log: the log gets the two texts and
    the line feed. *)
Theorem escapes_not_logged pre seq post s :
  at_line [] 0 s -> Forall is_text pre -> Forall is_text post ->
  passed_over seq ->
  Z.of_nat (length pre) + Z.of_nat (length post) < 1024 ->
  logfd s <> 0 -> rawlogfd s <> logfd s -> logfd s <> 1 ->
  exists s',
    process_tty_out ((pre ++ seq ++ post) ++ [13; 10]) s = Done s'
    /\ written (logfd s) (added s (Done s')) = (pre ++ post) ++ [10]
    /\ at_line [] 0 s'.
Proof.
  intros Hs Hpre Hpost Hseq Hfit Hfd Hraw H1.
  apply (line_call _ (pre ++ post)
           (Z.of_nat (length pre) + Z.of_nat (length post))); auto.
  2:{ rewrite length_app. lia. }
  intros s0 H0 _.
  destruct (typed pre s0 H0 Hpre) as (s1 & E1 & A1 & C1); [lia |].
  destruct (pass_over seq pre _ s1 Hseq A1) as (s2 & E2 & A2 & T2).
  destruct (steps_text post pre (Z.of_nat (length pre)) s2 A2 Hpost)
    as (s3 & E3 & A3 & C3); try lia.
  exists s3. rewrite tty_bytes_app, E1. cbn [bind].
  rewrite tty_bytes_app, E2. cbn [bind].
  split; [exact E3 |].
  rewrite Nat2Z.id, firstn_all, drop_ge, app_nil_r in A3 by lia.
  split; [exact A3 |].
  destruct C1 as (T1 & _). destruct C3 as (T3 & _).
  congruence.
Qed.

Lemma escapes_not_logged_witness :
  exists s',
    process_tty_out
      ((bytes_of "abc" ++ (27 :: 93 :: bytes_of "0;title" ++ [7])
          ++ bytes_of "xyz") ++ [13; 10]) (set_logfd 6 wts0)
    = Done s'
    /\ written 6 (added (set_logfd 6 wts0) (Done s'))
       = (bytes_of "abc" ++ bytes_of "xyz") ++ [10]
    /\ at_line [] 0 s'.
Proof.
  apply (escapes_not_logged (bytes_of "abc")
           (27 :: 93 :: bytes_of "0;title" ++ [7]) (bytes_of "xyz")
           (set_logfd 6 wts0)).
  - unfold at_line, line_is, in_escape. cbn. auto 10.
  - change (bytes_of "abc") with [97; 98; 99].
    repeat (constructor; [unfold is_text; lia |]). constructor.
  - change (bytes_of "xyz") with [120; 121; 122].
    repeat (constructor; [unfold is_text; lia |]). constructor.
  - apply po_bell.
    + unfold inner. lia.
    + lia.
    + change (bytes_of "0;title") with [48; 59; 116; 105; 116; 108; 101].
      repeat (constructor; [unfold inner; lia |]). constructor.
    + cbn. lia.
  - cbn. lia.
  - cbn. lia.
  - cbn. lia.
  - cbn. lia.
Defined.
End TtyLog.

Module TtyModes.
Import Session Keys Tty TtySteps.

(** ** The modes the filter follows *)

(** The sequence [e] of [ESC [] and bytes that are not letters is taken
    into the escape buffer, from any state. *)
Lemma csi_gathered params s :
  length (escbuf s) = 1024%nat ->
  Forall (fun b => inner b /\ ~ is_upper b /\ ~ is_lower b) params ->
  Z.of_nat (length params) <= 1022 ->
  exists s',
    tty_bytes (27 :: 91 :: params) s = Done s'
    /\ in_escape (27 :: 91 :: params) s' /\ quiet s s'.
Proof.
  intros El Hpar Hlen.
  destruct (step_esc s El) as (s1 & E1 & He1 & Q1).
  destruct (step_push 91 [27] s1 He1) as (s2 & E2 & He2 & Q2);
    [discriminate | cbn; lia | apply passive_bracket |].
  cbn [app] in He2.
  destruct (steps_push params [27; 91] s2 He2) as (s3 & E3 & He3 & Q3);
    [cbn; lia | cbn [length]; lia | |].
  { eapply Forall_impl; [exact Hpar |].
    intros b ((? & ? & ? & ?) & ? & ?). unfold passive. cbn. intuition. }
  exists s3. cbn [tty_bytes]. rewrite E1. cbn [bind]. rewrite E2. cbn [bind].
  split; [exact E3 |]. split; [exact He3 |].
  eauto using quiet_trans.
Qed.

Lemma not_letters (l : list Z) :
  forallb (fun b => negb ((b =? 13) || (b =? 8) || (b =? 7) || (b =? 27)
                          || ((65 <=? b) && (b <=? 90))
                          || ((97 <=? b) && (b <=? 122)))) l = true ->
  Forall (fun b => inner b /\ ~ is_upper b /\ ~ is_lower b) l.
Proof.
  intros H. apply Forall_forall. intros b Hb.
  rewrite forallb_forall in H. apply list_elem_of_In in Hb.
  specialize (H b Hb). unfold inner, is_upper, is_lower. lia.
Qed.

Lemma kbd_part_call buf s s' :
  process_tty_out buf s = Done s' -> kbd_part s' = kbd_part s.
Proof.
  intros E. pose proof (TtyFrame.call_keeps_keys buf s) as H.
  rewrite E in H. exact H.
Qed.

Lemma appcursor_set f s :
  length (escbuf s) = 1024%nat -> is_lower f ->
  exists s1,
    process_tty_out (27 :: bytes_of "[?1" ++ [f]) s = Done s1
    /\ appcursor s1 = (f =? 104) /\ altscren s1 = altscren s
    /\ kbd_part s1 = kbd_part s.
Proof.
  intros El Hf.
  set (buf := 27 :: bytes_of "[?1" ++ [f]).
  destruct (call_start buf s) as (_ & M0 & _ & _ & El0 & _).
  set (s0 := if rawlogfd s =? 0 then _ else _) in *.
  destruct (csi_gathered [63; 49] s0) as (s3 & E3 & He3 & Q3);
    [congruence | apply not_letters; reflexivity | cbn; lia |].
  set (s4 := set_appcursor (f =? 104) (set_escsz 0 s3)).
  assert (E4 : tty_byte f s3 = Done (putrout f s4)).
  { apply tty_byte_of; [apply model_appcursor; auto |].
    apply delete_idle. reflexivity. }
  destruct (call_end buf s (putrout f s4)) as (s1 & E1 & _ & M1 & _).
  { fold s0. subst buf.
    change (27 :: bytes_of "[?1" ++ [f]) with ((27 :: 91 :: [63; 49]) ++ [f]).
    rewrite tty_bytes_app, E3. cbn [bind tty_bytes]. rewrite E4. reflexivity. }
  exists s1. split; [exact E1 |].
  destruct Q3 as (_ & _ & M3).
  rewrite (proj2 (putrout_fields f s4)) in M1.
  injection M1 as A1 A2. injection M3 as B1 B2. injection M0 as C1 C2.
  cbn in A1, A2.
  split; [exact A2 |]. split; [congruence |].
  apply (kbd_part_call buf). exact E1.
Qed.

(** X10.  The cursor keys follow the mode the application set.  After the
    terminal output [ESC [ ? 1 h] (or [l], or another lower-case final
    byte), from any state, the translator turns the escape of a cursor
    key (up, down, right, left, end, home) into [ESC O] and the key's
    letter when the final byte was [h], and into [ESC []] and the letter
    otherwise. *)
Theorem cursor_keys_follow_mode fd f k c s :
  fd <> 1 -> kbd_ready s -> escp s = 0 -> length (escbuf s) = 1024%nat ->
  is_lower f -> In (k, c) cursor_keys ->
  exists s1 s2,
    process_tty_out (27 :: bytes_of "[?1" ++ [f]) s = Done s1
    /\ writetosubproccore fd [92; k] s1 = Done s2
    /\ written fd (added s1 (Done s2))
       = [27; if f =? 104 then 79 else 91; c].
Proof.
  intros Hfd (K & L & W & _) E El Hf Hin.
  destruct (appcursor_set f s El Hf) as (s1 & E1 & A1 & _ & P1).
  injection P1 as P1 P2 P3 P4 P5 P6 P7 P8.
  assert (K1 : kbufsz s1 = 0) by congruence.
  assert (L1 : length (kbuf s1) = 8%nat) by congruence.
  assert (W1 : length (winsize s1) = 8%nat) by congruence.
  assert (Es1 : escp s1 = 0) by congruence.
  exists s1.
  set (s0 := set_escp 0 (set_escp 49 (set_sendsigwin false s1))).
  assert (B0 : kbd_buffers s0)
    by (unfold kbd_buffers; cbn; rewrite K1; auto with lia).
  set (x := if f =? 104 then 79 else 91).
  assert (Hx : 0 <= x < 256) by (subst x; destruct (f =? 104); lia).
  assert (Hc : 0 <= c < 256 /\ 
    escaped fd k (set_escp 49 (set_sendsigwin false s1))
    = addkeybyte fd c (addkeybyte fd x (addkeybyte fd 27 s0))).
  { unfold cursor_keys in Hin. cbn [In] in Hin.
    unfold escaped. cbv zeta. fold s0.
    change (appcursor s0) with (appcursor s1). rewrite A1. fold x.
    destruct Hin as [H | [H | [H | [H | [H | [H | []]]]]]];
      injection H as <- <-; split; try lia; reflexivity. }
  destruct Hc as (Hc & Hesc).
  destruct (KeysFacts.addkeybyte_step fd 27 s0 Hfd B0) as (B1 & S1 & _ & _ & n1 & T1).
  destruct (KeysFacts.addkeybyte_step fd x _ Hfd B1) as (B2 & S2 & _ & _ & n2 & T2).
  destruct (KeysFacts.addkeybyte_step fd c _ Hfd B2) as (B3 & S3 & _ & _ & n3 & T3).
  rewrite !Z.mod_small in * by lia.
  destruct (KeysFacts.call_written fd [92; k] s1
              (addkeybyte fd c (addkeybyte fd x (addkeybyte fd 27 s0)))
              [27; x; c] Hfd K1)
    as (s2 & E2 & W2 & _).
  - cbn [kbd_bytes].
    rewrite KbdFacts.kbd_raw_backslash by (cbn; congruence). cbn [bind].
    unfold kbd_byte. cbn [escp set_escp Z.eqb Pos.eqb].
    assert (Hk : k <> 10).
    { unfold cursor_keys in Hin. cbn [In] in Hin.
      destruct Hin as [H | [H | [H | [H | [H | [H | []]]]]]];
        injection H as <- <-; lia. }
    replace (k =? 10) with false by lia. cbn [bind]. rewrite Hesc.
    reflexivity.
  - exact B3.
  - exists (n1 ++ n2 ++ n3). rewrite T3, T2, T1, <- !app_assoc. reflexivity.
  - rewrite S3, S2, S1, <- !app_assoc. reflexivity.
  - exists s2. auto.
Qed.

Lemma cursor_keys_follow_mode_witness :
  exists s1 s2,
    process_tty_out (27 :: bytes_of "[?1" ++ [104]) wts0 = Done s1
    /\ writetosubproccore 5 [92; 94] s1 = Done s2
    /\ written 5 (added s1 (Done s2)) = [27; 79; 65].
Proof.
  apply (cursor_keys_follow_mode 5 104 94 65 wts0).
  - lia.
  - unfold kbd_ready. cbn. repeat split; lia.
  - reflexivity.
  - reflexivity.
  - unfold is_lower. lia.
  - cbn. auto.
Defined.

Lemma altscreen_set params f str s :
  length (escbuf s) = 1024%nat -> is_lower f ->
  Forall (fun b => inner b /\ ~ is_upper b /\ ~ is_lower b) params ->
  Z.of_nat (length params) <= 1022 ->
  (forall s3, in_escape (27 :: 91 :: params) s3 ->
     line_model f s3
     = Done (putroutraw str (set_altscren (f =? 104) (set_escsz 0 s3)))) ->
  exists s1,
    process_tty_out ((27 :: 91 :: params) ++ [f]) s = Done s1
    /\ altscren s1 = (f =? 104) /\ appcursor s1 = appcursor s.
Proof.
  intros El Hf Hpar Hlen Hmodel.
  set (buf := (27 :: 91 :: params) ++ [f]).
  destruct (call_start buf s) as (_ & M0 & _ & _ & El0 & _).
  set (s0 := if rawlogfd s =? 0 then _ else _) in *.
  destruct (csi_gathered params s0) as (s3 & E3 & He3 & Q3); auto;
    [congruence |].
  set (s4 := putroutraw str (set_altscren (f =? 104) (set_escsz 0 s3))).
  assert (E4 : tty_byte f s3 = Done (putrout f s4)).
  { apply tty_byte_of; [apply Hmodel; exact He3 |].
    apply delete_idle. subst s4.
    assert (Hz : in_escape [] (putroutraw str
                                 (set_altscren (f =? 104) (set_escsz 0 s3)))).
    { apply putroutraw_escape. unfold in_escape. cbn.
      destruct He3 as (A & _). auto. }
    destruct Hz as (_ & Hz & _). rewrite Hz. cbn. lia. }
  destruct (call_end buf s (putrout f s4)) as (s1 & E1 & _ & M1 & _).
  { fold s0. subst buf. rewrite tty_bytes_app, E3. cbn [bind tty_bytes].
    rewrite E4. reflexivity. }
  exists s1. split; [exact E1 |].
  destruct Q3 as (_ & _ & M3).
  rewrite (proj2 (putrout_fields f s4)) in M1. subst s4.
  rewrite (proj2 (putroutraw_fields str _)) in M1.
  injection M1 as A1 A2. injection M3 as B1 B2. injection M0 as C1 C2.
  cbn in A1, A2. split; congruence.
Qed.

(** X11.  A client that attaches is told the screen in use.  After the
    terminal output [ESC [ ? 47 h], [ESC [ ? 1047 h] or [ESC [ ? 1049 h],
    from any state, [altscren] is set and [recount_state] writes the
    signal backslash-[s2]; after the same sequences with [l] (or another
    lower-case final byte) it is clear and the signal is
    backslash-[s1].  The cursor key mode is not touched. *)
Theorem screen_recounted fd e f s :
  length (escbuf s) = 1024%nat ->
  In e [27 :: bytes_of "[?47"; 27 :: bytes_of "[?1047";
        27 :: bytes_of "[?1049"] ->
  is_lower f ->
  exists s1,
    process_tty_out (e ++ [f]) s = Done s1
    /\ altscren s1 = (f =? 104) /\ appcursor s1 = appcursor s
    /\ added s1 (Done (recount_state fd s1))
       = [Write fd (bytes_of (if f =? 104 then "\s2" else "\s1"))].
Proof.
  intros El Hin Hf.
  assert (Hset : exists s1,
    process_tty_out (e ++ [f]) s = Done s1
    /\ altscren s1 = (f =? 104) /\ appcursor s1 = appcursor s).
  { cbn [In] in Hin. destruct Hin as [<- | [<- | [<- | []]]].
    - apply (altscreen_set [63; 52; 55] f
               (bytes_of (if f =? 104 then "\s2" else "\s1"))); auto.
      + apply not_letters. reflexivity.
      + cbn. lia.
      + intros s3 H3. apply (model_altscreen f _ s3 H3); auto.
    - apply (altscreen_set [63; 49; 48; 52; 55] f
               (bytes_of (if f =? 104 then "\s2" else "\s1"))); auto.
      + apply not_letters. reflexivity.
      + cbn. lia.
      + intros s3 H3. apply (model_altscreen f _ s3 H3); auto.
    - apply (altscreen_set [63; 49; 48; 52; 57] f
               (bytes_of (if f =? 104 then "\ss\s2\cl" else "\s1\rs"))); auto.
      + apply not_letters. reflexivity.
      + cbn. lia.
      + intros s3 H3. apply (model_altscreen_saved f s3 H3); auto. }
  destruct Hset as (s1 & E1 & A1 & A2).
  exists s1. split; [exact E1 |]. split; [exact A1 |]. split; [exact A2 |].
  unfold added, recount_state, fullwrite, emit. cbn [state_of trace set_trace].
  rewrite drop_app_length, A1. destruct (f =? 104); reflexivity.
Qed.

Lemma screen_recounted_witness :
  exists s1,
    process_tty_out ((27 :: bytes_of "[?1049") ++ [104]) wts0 = Done s1
    /\ altscren s1 = true /\ appcursor s1 = false
    /\ added s1 (Done (recount_state 5 s1)) = [Write 5 (bytes_of "\s2")].
Proof.
  apply (screen_recounted 5 (27 :: bytes_of "[?1049") 104 wts0).
  - reflexivity.
  - cbn. auto.
  - unfold is_lower. lia.
Defined.
End TtyModes.

Module TtyStream.
Import Session Keys Tty TtySteps.

(** ** The stream for the client *)

(** *** Reading the stream *)

Lemma client_bytes_fuel f1 : forall f2 l,
  (length l < f1)%nat -> (length l < f2)%nat ->
  client_bytes f1 l = client_bytes f2 l.
Proof.
  induction f1 as [| f1 IH]; intros f2 l H1 H2; [lia |].
  destruct f2 as [| f2]; [lia |].
  cbn [client_bytes]. destruct l as [| c r]; [reflexivity |].
  cbn [length] in H1, H2.
  destruct (c =? 10); [reflexivity |].
  destruct (c =? 92).
  - destruct r as [| h [| d r']]; try reflexivity.
    cbn [length] in H1, H2.
    destruct (hexval h), (hexval d); [f_equal | | |]; apply IH; lia.
  - f_equal. apply IH; lia.
Qed.

Lemma client_bytes_S n c r :
  client_bytes (S n) (c :: r)
  = if c =? 10 then []
    else if c =? 92 then
      match r with
      | h :: d :: r' =>
          match hexval h, hexval d with
          | Some x, Some y => 16 * x + y :: client_bytes n r'
          | _, _ => client_bytes n r'
          end
      | _ => []
      end
    else c :: client_bytes n r.
Proof. reflexivity. Qed.

Lemma reads_cons c r :
  client_reads (c :: r)
  = if c =? 10 then []
    else if c =? 92 then
      match r with
      | h :: d :: r' =>
          match hexval h, hexval d with
          | Some x, Some y => 16 * x + y :: client_reads r'
          | _, _ => client_reads r'
          end
      | _ => []
      end
    else c :: client_reads r.
Proof.
  unfold client_reads. rewrite client_bytes_S.
  destruct (c =? 10); [reflexivity |].
  destruct (c =? 92).
  - destruct r as [| h [| d r']]; try reflexivity.
    destruct (hexval h), (hexval d); [f_equal | | |];
      apply client_bytes_fuel; cbn [length]; lia.
  - reflexivity.
Qed.

Lemma decodes_nil : decodes_to [] [].
Proof. intros rest. reflexivity. Qed.

Lemma decodes_app a b x y :
  decodes_to a x -> decodes_to b y -> decodes_to (a ++ b) (x ++ y).
Proof.
  intros Ha Hb rest. rewrite <- !app_assoc, Ha, Hb. reflexivity.
Qed.

Lemma hexval_hexchar d : 0 <= d < 16 -> hexval (hexchar d) = Some d.
Proof.
  intros Hd.
  assert (Hcases : d = 0 \/ d = 1 \/ d = 2 \/ d = 3 \/ d = 4 \/ d = 5
                   \/ d = 6 \/ d = 7 \/ d = 8 \/ d = 9 \/ d = 10
                   \/ d = 11 \/ d = 12 \/ d = 13 \/ d = 14 \/ d = 15)
    by lia.
  repeat (destruct Hcases as [-> | Hcases]; [reflexivity |]).
  subst d. reflexivity.
Qed.

Lemma decodes_enc b : 0 <= b < 256 -> decodes_to (enc b) [b].
Proof.
  intros Hb rest. unfold enc.
  destruct ((b =? 92) || (b <? 32) || (b >? 126)) eqn:E.
  - cbn [app]. rewrite reads_cons. cbn [Z.eqb Pos.eqb].
    rewrite !hexval_hexchar.
    + f_equal. pose proof (Z.div_mod b 16 ltac:(lia)). lia.
    + apply Z.mod_pos_bound. lia.
    + split; [apply Z.div_pos; lia | apply Z.div_lt_upper_bound; lia].
  - cbn [app]. rewrite reads_cons.
    replace (b =? 10) with false by lia. replace (b =? 92) with false by lia.
    reflexivity.
Qed.

Lemma decodes_signal str : In str screen_signals -> decodes_to str [].
Proof.
  intros Hin rest. unfold screen_signals in Hin. cbn [In] in Hin.
  destruct Hin as [<- | [<- | [<- | [<- | []]]]].
  - change (bytes_of "\s2" ++ rest) with (92 :: 115 :: 50 :: rest).
    rewrite reads_cons. reflexivity.
  - change (bytes_of "\s1" ++ rest) with (92 :: 115 :: 49 :: rest).
    rewrite reads_cons. reflexivity.
  - change (bytes_of "\ss\s2\cl" ++ rest)
      with (92 :: 115 :: 115 :: 92 :: 115 :: 50 :: 92 :: 99 :: 108 :: rest).
    rewrite reads_cons. cbn [Z.eqb Pos.eqb hexval Z.leb Z.compare
      Pos.compare Pos.compare_cont andb].
    rewrite reads_cons. cbn [Z.eqb Pos.eqb hexval Z.leb Z.compare
      Pos.compare Pos.compare_cont andb].
    rewrite reads_cons. reflexivity.
  - change (bytes_of "\s1\rs" ++ rest)
      with (92 :: 115 :: 49 :: 92 :: 114 :: 115 :: rest).
    rewrite reads_cons. cbn [Z.eqb Pos.eqb hexval Z.leb Z.compare
      Pos.compare Pos.compare_cont andb].
    rewrite reads_cons. reflexivity.
Qed.

Lemma reads_end rest : client_reads (10 :: rest) = [].
Proof. rewrite reads_cons. reflexivity. Qed.

(** *** Writing the stream *)

Lemma rtriple_rout s1 s2 :
  rtriple s1 = rtriple s2 ->
  rout s1 = rout s2 /\ rwoutlen s1 = rwoutlen s2 /\ rwoutsz s1 = rwoutsz s2
  /\ (forall B, rout_within B s2 -> rout_within B s1).
Proof.
  intros H. injection H as H1 H2 H3.
  unfold rout, rout_within, rout_ok. rewrite H1, H2, H3. auto.
Qed.

Lemma putroutraw_spec B str s :
  rout_within B s -> B < 2 ^ 61 ->
  rwoutlen s + Z.of_nat (length str) < 2 ^ 59 ->
  rout_within B (putroutraw str s)
  /\ rout (putroutraw str s) = rout s ++ str
  /\ rwoutlen (putroutraw str s) = rwoutlen s + Z.of_nat (length str).
Proof.
  intros (Hok & Hsz) HB Hlen. pose proof Hok as (Hl & Hb).
  unfold putroutraw.
  destruct (SessionFacts.verifyroutcap_spec (Z.of_nat (length str)) s)
    as (Hok' & Hl' & Hr' & Hroom & Hcap); auto; try lia.
  set (s1 := verifyroutcap (Z.of_nat (length str)) s) in *. clearbody s1.
  assert (Hgen : forall l s2,
    rout_ok s2 -> rwoutlen s2 + Z.of_nat (length l) <= rwoutsz s2 ->
    rwoutsz s2 < 2 ^ 64 ->
    let s3 := fold_left (fun s c => rout_push c s) l s2 in
    rout_ok s3 /\ rout s3 = rout s2 ++ l
    /\ rwoutlen s3 = rwoutlen s2 + Z.of_nat (length l)
    /\ rwoutsz s3 = rwoutsz s2).
  { induction l as [| c l IH]; intros s2 Ho Hr Hs; cbn [fold_left].
    - cbn. rewrite app_nil_r. repeat split; auto; try apply Ho; lia.
    - cbn [length] in Hr.
      destruct (SessionFacts.rout_push_spec c s2) as (O1 & L1 & Z1 & R1);
        auto; try lia.
      destruct (IH (rout_push c s2)) as (O2 & R2 & L2 & Z2); auto; try lia.
      cbv zeta. split; [exact O2 |].
      split; [rewrite R2, R1, <- app_assoc; reflexivity |].
      split; [rewrite L2, L1; cbn [length]; lia | congruence]. }
  destruct (Hgen str s1) as (O & R & L & Z); auto; try lia.
  cbv zeta in *. split; [| split; [congruence | congruence]].
  split; [exact O |]. rewrite Z, L, Hl'. lia.
Qed.

Lemma putrout_spec B b s :
  rout_within B s -> B < 2 ^ 61 -> rwoutlen s + 3 < 2 ^ 59 ->
  0 <= b < 256 ->
  rout_within B (putrout b s)
  /\ rout (putrout b s) = rout s ++ enc b
  /\ rwoutlen s < rwoutlen (putrout b s) <= rwoutlen s + 3.
Proof.
  intros (Hok & Hsz) HB Hlen Hb. pose proof Hok as (Hl & Hbuf).
  destruct (SessionFacts.verifyroutcap_spec 3 s)
    as (Hok' & Hl' & Hr' & Hroom & Hcap); auto; try lia.
  unfold putrout. rewrite (SessionFacts.land_255 b Hb). unfold enc.
  set (s1 := verifyroutcap 3 s) in *. clearbody s1.
  destruct ((b =? 92) || (b <? 32) || (b >? 126)).
  - destruct (SessionFacts.rout_push_spec 92 s1) as (O1 & L1 & Z1 & R1);
      auto; try lia.
    destruct (SessionFacts.rout_push_spec (hexdig (Z.shiftr b 4))
                (rout_push 92 s1)) as (O2 & L2 & Z2 & R2); auto; try lia.
    destruct (SessionFacts.rout_push_spec (hexdig b)
                (rout_push (hexdig (Z.shiftr b 4)) (rout_push 92 s1)))
      as (O3 & L3 & Z3 & R3); auto; try lia.
    split; [split; [exact O3 | lia] |].
    split; [| lia].
    rewrite R3, R2, R1, Hr', <- !app_assoc. cbn [app].
    rewrite !SessionFacts.hexdig_hexchar
      by (try apply Z.shiftr_nonneg; lia).
    rewrite Z.shiftr_div_pow2 by lia. change (2 ^ 4) with 16.
    rewrite (Z.mod_small (b / 16)); [reflexivity |].
    split; [apply Z.div_pos; lia | apply Z.div_lt_upper_bound; lia].
  - destruct (SessionFacts.rout_push_spec b s1) as (O1 & L1 & Z1 & R1);
      auto; try lia.
    split; [split; [exact O1 | lia] |].
    split; [congruence | lia].
Qed.

(** *** What the filter does to the buffer *)

Lemma rstep_same s s1 : rtriple s1 = rtriple s -> rstep s s1.
Proof. intros H. left. exact H. Qed.

Lemma rstep_pre s s0 s1 : rtriple s0 = rtriple s -> rstep s0 s1 -> rstep s s1.
Proof.
  intros H [E | (str & x & Hin & Hx & E)]; [left; congruence |].
  right. exists str, x. split; [exact Hin |]. split; congruence.
Qed.

Ltac rleaf := apply rstep_same; reflexivity.

Lemma CONSUMEESC_rframes p s yes no :
  rframes yes -> rframes no -> rstep s (state_of (CONSUMEESC p s yes no)).
Proof.
  intros Hy Hn. unfold CONSUMEESC.
  destruct (1024 <? _); [rleaf |].
  destruct (negb (escsz s =? _)); [apply Hn |].
  destruct (negb (bytes_eqb _ _)); [apply Hn |].
  apply (rstep_pre s (set_escsz 0 s)); [reflexivity | apply Hy].
Qed.

Lemma line_put_rframes b : rframes (line_put b).
Proof.
  intros s. unfold line_put. cbv zeta. TtyFrame.split_ifs; rleaf.
Qed.

Lemma deletechrahead_rframes s :
  rtriple (state_of (deletechrahead s)) = rtriple s.
Proof.
  unfold deletechrahead. cbv zeta. TtyFrame.split_ifs; reflexivity.
Qed.

Lemma csi_lower_rframes b k : rframes k -> rframes (fun s => csi_lower b s k).
Proof.
  intros Hk s. unfold csi_lower. cbv zeta.
  assert (Halt : forall str, In str screen_signals -> rframes (fun s =>
            Done (putroutraw str (set_altscren (b =? 104) s)))).
  { intros str Hin s1. cbn [state_of]. right.
    exists str, (set_altscren (b =? 104) s1). auto. }
  assert (H12 : In (bytes_of (if b =? 104 then "\s2" else "\s1"))
                  screen_signals)
    by (destruct (b =? 104); cbn; auto).
  assert (H49 : In (bytes_of (if b =? 104 then "\ss\s2\cl" else "\s1\rs"))
                  screen_signals)
    by (destruct (b =? 104); cbn; auto).
  apply CONSUMEESC_rframes; [intros s1; rleaf |].
  intros s1. apply CONSUMEESC_rframes; [apply Halt; exact H12 |].
  intros s2. apply CONSUMEESC_rframes; [apply Halt; exact H12 |].
  intros s3. apply CONSUMEESC_rframes; [apply Halt; exact H49 |].
  intros s4. destruct (_ && _); [rleaf | apply Hk].
Qed.

Lemma line_model_rframes b : rframes (line_model b).
Proof.
  intros s. unfold line_model.
  destruct (b =? 13); [TtyFrame.split_ifs; rleaf |].
  destruct (b =? 8); [TtyFrame.split_ifs; rleaf |].
  set (s1 := if b =? 7 then set_escsz 0 s else s).
  assert (H1 : rtriple s1 = rtriple s) by (subst s1; destruct (b =? 7); reflexivity).
  clearbody s1. cbv zeta.
  assert (Hlower : rframes (fun s =>
    if (b =? 27) || negb (escsz s =? 0) then
      let s0 := if b =? 27 then set_escsz 0 s else s in
      Done (set_escsz ((escsz s0 + 1) mod U32)
              (set_escbuf (wr (escbuf s0) (SAFEPTR 1024 (escsz s0) 1) b) s0))
    else line_put b s)).
  { intros s2. destruct (_ || _); [| apply line_put_rframes].
    cbv zeta. TtyFrame.split_ifs; rleaf. }
  assert (Hrest : rframes (fun s =>
    if (97 <=? b) && (b <=? 122) then
      csi_lower b s (fun s =>
        if (b =? 27) || negb (escsz s =? 0) then
          let s0 := if b =? 27 then set_escsz 0 s else s in
          Done (set_escsz ((escsz s0 + 1) mod U32)
                  (set_escbuf (wr (escbuf s0) (SAFEPTR 1024 (escsz s0) 1) b)
                     s0))
        else line_put b s)
    else
      (if (b =? 27) || negb (escsz s =? 0) then
         let s0 := if b =? 27 then set_escsz 0 s else s in
         Done (set_escsz ((escsz s0 + 1) mod U32)
                 (set_escbuf (wr (escbuf s0) (SAFEPTR 1024 (escsz s0) 1) b)
                    s0))
       else line_put b s))).
  { intros s2. destruct ((97 <=? b) && (b <=? 122)); [| apply Hlower].
    apply (csi_lower_rframes b _ Hlower). }
  apply (rstep_pre s s1 _ H1).
  destruct ((65 <=? b) && (b <=? 90)); [| apply Hrest].
  apply CONSUMEESC_rframes; [| exact Hrest].
  intros s2. unfold csi_upper. TtyFrame.split_ifs; rleaf.
Qed.

Lemma rstep_spec B s s1 :
  rstep s s1 -> rout_within B s -> B < 2 ^ 61 -> rwoutlen s + 9 < 2 ^ 59 ->
  exists sg, signal_or_none sg
    /\ rout s1 = rout s ++ sg
    /\ rout_within B s1
    /\ rwoutlen s1 <= rwoutlen s + 9.
Proof.
  intros [E | (str & s0 & Hin & E0 & E1)] Hw HB Hlen.
  - destruct (rtriple_rout _ _ E) as (R & L & Z & W).
    exists []. split; [left; reflexivity |].
    rewrite app_nil_r. split; [exact R |]. split; [apply W, Hw | lia].
  - destruct (rtriple_rout _ _ E0) as (R0 & L0 & Z0 & W0).
    destruct (rtriple_rout _ _ E1) as (R1 & L1 & Z1 & W1).
    assert (Hstr : (length str <= 9)%nat).
    { unfold screen_signals in Hin. cbn [In] in Hin.
      destruct Hin as [<- | [<- | [<- | [<- | []]]]]; cbn; lia. }
    destruct (putroutraw_spec B str s0) as (P1 & P2 & P3);
      [apply W0, Hw | exact HB | lia |].
    exists str. split; [right; exact Hin |].
    split; [congruence |]. split; [apply W1, P1 | lia].
Qed.

Lemma byte_stream B b s s' :
  rout_within B s -> B < 2 ^ 61 -> rwoutlen s + 12 < 2 ^ 59 ->
  0 <= b < 256 ->
  tty_byte b s = Done s' ->
  exists sg, signal_or_none sg
    /\ rout s' = rout s ++ sg ++ enc b
    /\ rout_within B s'
    /\ rwoutlen s' <= rwoutlen s + 12.
Proof.
  intros Hw HB Hlen Hb E. unfold tty_byte in E.
  pose proof (line_model_rframes b s) as H1.
  destruct (line_model b s) as [s1 | s1 | s1]; cbn [bind state_of] in *;
    try discriminate.
  pose proof (deletechrahead_rframes s1) as H2.
  destruct (deletechrahead s1) as [s2 | s2 | s2]; cbn [bind state_of] in *;
    try discriminate.
  injection E as <-.
  destruct (rstep_spec B s s1 H1 Hw HB) as (sg & Hsg & R1 & W1 & L1);
    [lia |].
  destruct (rtriple_rout _ _ H2) as (R2 & L2 & Z2 & W2).
  destruct (putrout_spec B b s2) as (P1 & P2 & P3);
    [apply W2, W1 | exact HB | lia | exact Hb |].
  exists sg. split; [exact Hsg |].
  split; [rewrite P2, R2, R1, <- app_assoc; reflexivity |].
  split; [exact P1 | lia].
Qed.

Lemma bytes_stream B buf : forall s s',
  rout_within B s -> B < 2 ^ 61 ->
  rwoutlen s + 12 * Z.of_nat (length buf) < 2 ^ 59 ->
  Forall (fun b => 0 <= b < 256) buf ->
  tty_bytes buf s = Done s' ->
  exists sigs, length sigs = length buf
    /\ Forall signal_or_none sigs
    /\ rout s' = rout s ++ stream sigs buf
    /\ rout_within B s'
    /\ rwoutlen s' <= rwoutlen s + 12 * Z.of_nat (length buf).
Proof.
  induction buf as [| b buf IH]; intros s s' Hw HB Hlen Hall E.
  - cbn in E. injection E as <-. exists []. cbn.
    rewrite app_nil_r. repeat split; auto; try apply Hw. lia.
  - cbn [tty_bytes] in E. cbn [length] in Hlen.
    apply Forall_cons_1 in Hall as (Hb & Hall).
    destruct (tty_byte b s) as [s1 | s1 | s1] eqn:E1; cbn [bind] in E;
      try discriminate.
    destruct (byte_stream B b s s1) as (sg & Hsg & R1 & W1 & L1); auto;
      try lia.
    destruct (IH s1 s' W1 HB) as (sigs & Hn & Hs & R & W & L); auto;
      try lia.
    exists (sg :: sigs). cbn [length stream].
    split; [congruence |]. split; [constructor; auto |].
    split; [rewrite R, R1, <- !app_assoc; reflexivity |].
    split; [exact W | lia].
Qed.

Lemma call_stream buf s s' :
  Forall (fun b => 0 <= b < 256) buf ->
  rout_ok s -> rwoutsz s < 2 ^ 61 -> Z.of_nat (length buf) < 2 ^ 55 ->
  process_tty_out buf s = Done s' ->
  exists sigs, length sigs = length buf
    /\ Forall signal_or_none sigs
    /\ rout s' = stream sigs buf ++ [10].
Proof.
  intros Hall (Hl & Hb) Hsz Hn E. unfold process_tty_out in E.
  cbv zeta in E.
  set (s0 := if rawlogfd (set_rwoutlen 0 s) =? 0 then set_rwoutlen 0 s
             else fullwrite (rawlogfd (set_rwoutlen 0 s)) buf
                    (set_rwoutlen 0 s)) in E.
  assert (H0 : rtriple s0 = rtriple (set_rwoutlen 0 s))
    by (subst s0; destruct (_ =? 0); reflexivity).
  destruct (rtriple_rout _ _ H0) as (R0 & L0 & Z0 & W0).
  assert (Hw : rout_within (rwoutsz s) s0).
  { apply W0. split; [split; cbn; [lia | exact Hb] | cbn; lia]. }
  change (rwoutlen (set_rwoutlen 0 s)) with 0 in L0.
  assert (Hr0 : rout s0 = []) by (rewrite R0; reflexivity).
  clearbody s0.
  destruct (tty_bytes buf s0) as [s1 | s1 | s1] eqn:E1; cbn [bind] in E;
    try discriminate.
  destruct (bytes_stream (rwoutsz s) buf s0 s1)
    as (sigs & Hlen & Hs & R & W & L); auto; try lia.
  destruct (putroutraw_spec (rwoutsz s) [10] s1) as (P1 & P2 & P3); auto;
    [cbn [length]; lia |].
  exists sigs. split; [exact Hlen |]. split; [exact Hs |].
  injection E as <-.
  transitivity (rout (putroutraw [10] s1));
    [destruct (rwout _); reflexivity |].
  rewrite P2, R, Hr0. reflexivity.
Qed.

Lemma stream_decodes sigs : forall buf,
  length sigs = length buf -> Forall signal_or_none sigs ->
  Forall (fun b => 0 <= b < 256) buf ->
  decodes_to (stream sigs buf) buf.
Proof.
  induction sigs as [| sg sigs IH]; intros [| b buf] Hn Hs Hb;
    try discriminate; cbn [stream].
  - apply decodes_nil.
  - apply Forall_cons_1 in Hs as (Hsg & Hs).
    apply Forall_cons_1 in Hb as (Hb1 & Hb).
    change (b :: buf) with ([] ++ [b] ++ buf).
    apply decodes_app.
    + destruct Hsg as [-> | Hin]; [apply decodes_nil |].
      apply decodes_signal, Hin.
    + apply decodes_app; [apply decodes_enc, Hb1 |].
      apply IH; auto.
Qed.

(** X12. What a call of [process_tty_out] that returns leaves for the
    attached client (the buffer that [get_rout_for_attached] hands out)
    is, for each byte of the input in order, the encoding that [putrout]
    gives the byte, preceded by at most one screen signal, and closed by
    one line feed: nothing of an earlier call remains in it and nothing
    else is put into it. *)
Theorem client_stream_shape buf s s' :
  Forall (fun b => 0 <= b < 256) buf ->
  rout_ok s -> rwoutsz s < 2 ^ 61 -> Z.of_nat (length buf) < 2 ^ 55 ->
  process_tty_out buf s = Done s' ->
  exists sigs, length sigs = length buf
    /\ Forall signal_or_none sigs
    /\ rout s' = stream sigs buf ++ [10].
Proof.
  intros Hall Hok Hsz Hn E. exact (call_stream buf s s' Hall Hok Hsz Hn E).
Qed.

Lemma client_stream_shape_witness :
  exists sigs, length sigs = 11%nat
    /\ Forall signal_or_none sigs
    /\ rout (state_of (process_tty_out
               ([97] ++ (27 :: bytes_of "[?1049h") ++ [200; 10]) wts0))
       = stream sigs ([97] ++ (27 :: bytes_of "[?1049h") ++ [200; 10])
         ++ [10].
Proof.
  apply (client_stream_shape
           ([97] ++ (27 :: bytes_of "[?1049h") ++ [200; 10]) wts0).
  - apply List.Forall_forall. intros x Hx. cbv in Hx. intuition lia.
  - split; [cbn; lia | reflexivity].
  - cbn. lia.
  - cbn. lia.
  - vm_compute. reflexivity.
Defined.

(** X13. The stream can be read back: a reader that takes a backslash
    with two hexadecimal digits for the byte they spell, passes over
    every other backslash token of three bytes, takes any other byte
    for itself and stops at the line feed, gets from the buffer of a
    call of [process_tty_out] exactly the bytes the call was given, the
    control bytes, the backslashes and the line feeds among them. *)
Theorem client_stream_decodes buf s s' :
  Forall (fun b => 0 <= b < 256) buf ->
  rout_ok s -> rwoutsz s < 2 ^ 61 -> Z.of_nat (length buf) < 2 ^ 55 ->
  process_tty_out buf s = Done s' ->
  client_reads (rout s') = buf.
Proof.
  intros Hall Hok Hsz Hn E.
  destruct (call_stream buf s s' Hall Hok Hsz Hn E) as (sigs & Hl & Hs & R).
  rewrite R, (stream_decodes sigs buf Hl Hs Hall [10]), reads_end.
  apply app_nil_r.
Qed.

Lemma client_stream_decodes_witness :
  client_reads (rout (state_of (process_tty_out
                  ([92; 10] ++ (27 :: bytes_of "[?47l") ++ [255]) wts0)))
  = [92; 10] ++ (27 :: bytes_of "[?47l") ++ [255].
Proof.
  apply (client_stream_decodes
           ([92; 10] ++ (27 :: bytes_of "[?47l") ++ [255]) wts0).
  - apply List.Forall_forall. intros x Hx. cbv in Hx. intuition lia.
  - split; [cbn; lia | reflexivity].
  - cbn. lia.
  - cbn. lia.
  - vm_compute. reflexivity.
Defined.
End TtyStream.

(** * The decoder on any stream of bytes *)

Module DecoderFacts.
Import Session Inbound InboundFacts Decoder.

Lemma world_ext a b :
  buf a = buf b -> mask a = mask b -> bfi a = bfi b -> bfsz a = bfsz b ->
  datalen a = datalen b -> unmaskof a = unmaskof b -> state a = state b ->
  datpart a = datpart b -> src a = src b -> dest a = dest b ->
  stdout a = stdout b -> a = b.
Proof. destruct a, b. cbn. intros. f_equal; assumption. Qed.

Lemma regs_ext w w' :
  mask w' = mask w -> datalen w' = datalen w -> unmaskof w' = unmaskof w ->
  state w' = state w -> datpart w' = datpart w -> dest w' = dest w ->
  stdout w' = stdout w -> regs w' = regs w.
Proof.
  intros. unfold regs, set_src, set_bfsz, set_bfi, set_buf. cbn.
  f_equal; assumption.
Qed.

Lemma regs_same w w' : same_regs w w' -> regs w' = regs w.
Proof.
  intros (Hm & Hd & Hu & Hs & Hp & Hde & Hso). apply regs_ext; assumption.
Qed.

Lemma dsane_same w w' : same_regs w w' -> dsane w -> dsane w'.
Proof.
  intros (Hm & Hd & Hu & Hs & Hp & Hde & Hso). unfold dsane.
  rewrite Hd, Hu, Hs, Hp. auto.
Qed.

Lemma regs_enter_data w : regs (enter_data w) = enter_data (regs w).
Proof.
  unfold enter_data. change (datalen (regs w)) with (datalen w).
  destruct (datalen w =? 0); reflexivity.
Qed.

Lemma dsane_enter_data w :
  0 <= unmaskof w < 4 -> dsane (enter_data w).
Proof.
  intros Hu. unfold enter_data, dsane.
  destruct (Z.eqb_spec (datalen w) 0) as [E | E]; cbn.
  - split; [exact Hu |]. split; [auto |]. tags. discriminate.
  - split; [exact Hu |]. split; [auto 10 |]. auto.
Qed.

Lemma druns_one a inp a1 inp1 :
  dstep a inp = DNext a1 inp1 -> druns a inp a1 inp1.
Proof. intros H. eapply druns_step; [exact H | apply druns_refl]. Qed.

Lemma druns_trans a inp a1 inp1 a2 inp2 :
  druns a inp a1 inp1 -> druns a1 inp1 a2 inp2 -> druns a inp a2 inp2.
Proof.
  induction 1 as [| a inp b inpb c inpc E _ IH]; intros H2; [exact H2 |].
  eapply druns_step; [exact E | apply IH, H2].
Qed.

Lemma dtake_hit c inp k :
  (Z.to_nat c <= length inp)%nat -> 0 <= c ->
  dtake c inp k = k (take (Z.to_nat c) inp) (drop (Z.to_nat c) inp).
Proof.
  intros H Hc. unfold dtake.
  replace (Z.of_nat (length inp) <? c) with false by lia. reflexivity.
Qed.

Lemma dtake_miss c inp k :
  Z.of_nat (length inp) < c -> dtake c inp k = DWait.
Proof.
  intros H. unfold dtake.
  replace (Z.of_nat (length inp) <? c) with true by lia. reflexivity.
Qed.

(** ** One pass of the loop against one pass on the stream *)

Lemma force_sim fuel c w k kd :
  in_call w -> (weight (src w) < fuel)%nat -> 0 < c <= 512 ->
  need w = c -> state w <> sP ->
  (forall inp, dstep (regs w) inp = dtake c inp (kd (regs w))) ->
  (forall w',
     buf_ok w' -> same_regs w w' -> 0 <= bfi w' - c ->
     slice (buf w') (bfi w' - c) c = take (Z.to_nat c) (pending w) ->
     (Z.to_nat c <= length (pending w))%nat ->
     match k (bfi w' - c) w' with
     | Next w'' =>
         buf_ok w'' /\ live w'' = live w' /\ src w'' = src w' /\ dsane w''
         /\ kd (regs w') (take (Z.to_nat c) (pending w))
              (drop (Z.to_nat c) (pending w))
            = DNext (regs w'') (drop (Z.to_nat c) (pending w))
     | Abort w'' =>
         kd (regs w') (take (Z.to_nat c) (pending w))
           (drop (Z.to_nat c) (pending w))
         = DAbort (regs w'')
     | Ret _ => False
     end) ->
  pass_ok w (forceinby fuel c (set_state (state w) w) k).
Proof.
  intros (Hok & Hch & Hsane) Hfuel Hc Hneed HnP Hd Hk.
  pose proof (same_regs_state w) as Hst.
  destruct (forceinby_spec fuel c (set_state (state w) w) k)
    as [(w' & E & Hok' & Hch' & Hregs & Hpend & Hlen & Hsrc & Hwork)
       | (w' & E & Hok' & Hch' & Hregs & Hbfc & Hsl & Hlen & Hpend & Hlive
          & Hwork & Hsrc)];
    [exact Hfuel | exact Hok | exact Hch | lia | |];
    pose proof (same_regs_trans _ _ _ Hst Hregs) as Hr;
    change (pending (set_state (state w) w)) with (pending w) in *;
    change (src (set_state (state w) w)) with (src w) in *;
    change (work (set_state (state w) w)) with (work w) in *.
  - right. left. exists w'.
    split; [exact E |].
    split; [split; [exact Hok' |]; split; [exact Hch' |];
            apply (dsane_same w w' Hr Hsane) |].
    split; [rewrite (regs_same w w' Hr), Hpend; apply druns_refl |].
    split; [unfold blocked; rewrite (need_regs w w' Hr), Hneed; exact Hlen |].
    split; [destruct Hr as (_ & _ & _ & Hs & _); congruence |].
    split; [exact Hsrc | exact Hwork].
  - specialize (Hk w' Hok' Hr Hbfc Hsl Hlen).
    rewrite (regs_same w w' Hr) in Hk.
    destruct (k (bfi w' - c) w') as [w'' | w'' | w''] eqn:Ek;
      [| contradiction |].
    + destruct Hk as (Hok'' & Hl'' & Hs'' & Hsane'' & Hkd).
      left. exists w''. split; [exact E |].
      split; [split; [exact Hok'' |]; split; [rewrite Hs''; exact Hch' |];
              exact Hsane'' |].
      assert (Hp'' : pending w'' = drop (Z.to_nat c) (pending w)).
      { unfold pending in *. rewrite Hl'', Hs''. exact Hpend. }
      split.
      { apply druns_one. rewrite Hd, dtake_hit, Hp'' by lia. exact Hkd. }
      split; [unfold work in *; rewrite Hl'', Hs''; lia |].
      rewrite Hs''. exact Hsrc.
    + right. right. exists w'', (regs w), (pending w).
      split; [exact E |]. split; [apply druns_refl |].
      rewrite Hd, dtake_hit by lia. exact Hk.
Qed.

(** ** The states, one by one *)

Lemma first_byte a i c l :
  slice a i c = take (Z.to_nat c) l -> (Z.to_nat c <= length l)%nat ->
  0 < c -> 0 <= i ->
  rd a i = nth 0 (take (Z.to_nat c) l) 0.
Proof.
  intros H Hl Hc Hi. destruct l as [| x rest]; [cbn in Hl; lia |].
  rewrite (rd_first a i c x rest H Hc Hi).
  replace (Z.to_nat c) with (S (Z.to_nat (c - 1))) by lia. reflexivity.
Qed.

Lemma pass_header fuel w :
  in_call w -> state w = sH -> (weight (src w) < fuel)%nat ->
  pass_ok w (do_header fuel w).
Proof.
  intros Hin Hst Hfuel. unfold do_header. rewrite <- Hst at 1.
  apply (force_sim fuel 1 w _
           (fun a bs rest =>
              let b := Z.land (nth 0 bs 0) 127 in
              DNext (set_state
                       (if (b =? 0) || (b =? 1) || (b =? 2) then sL
                        else if b =? 9 then sP else sH) a) rest));
    auto; try lia.
  - unfold need. rewrite Hst. reflexivity.
  - rewrite Hst. tags. discriminate.
  - intros inp. unfold dstep. change (state (regs w)) with (state w).
    rewrite Hst. reflexivity.
  - intros w' Hok' Hr Hbfc Hsl Hlen.
    rewrite (first_byte _ _ _ _ Hsl Hlen) by lia.
    set (b := Z.land (nth 0 (take (Z.to_nat 1) (pending w)) 0) 127).
    destruct (live_wr_below w' (bfi w' - 1) b Hok') as [Hok2 Hlive2]; [lia |].
    split; [exact Hok2 |]. split; [exact Hlive2 |].
    split; [reflexivity |].
    split; [| reflexivity].
    destruct Hin as (_ & _ & (Hu & _ & _)).
    destruct Hr as (_ & _ & Hu' & _).
    unfold dsane. cbn [unmaskof state set_state set_buf].
    rewrite Hu'. split; [exact Hu |].
    split; [destruct ((b =? 0) || (b =? 1) || (b =? 2));
            [| destruct (b =? 9)]; auto |].
    intros E. destruct ((b =? 0) || (b =? 1) || (b =? 2));
      [| destruct (b =? 9)]; tags; discriminate.
Qed.

Lemma pass_pong fuel w :
  in_call w -> state w = sP -> (weight (src w) < fuel)%nat ->
  pass_ok w (do_header fuel (full_write pongmsg w)).
Proof.
  intros (Hok & Hch & (Hu & _ & _)) Hst Hfuel.
  set (w0 := set_state sH (full_write pongmsg w)).
  assert (Hin0 : in_call w0).
  { split; [exact Hok |]. split; [exact Hch |].
    split; [exact Hu |]. split; [cbn; auto |]. cbn. tags. discriminate. }
  assert (H0 : druns (regs w) (pending w) (regs w0) (pending w0)).
  { apply druns_one. unfold dstep. change (state (regs w)) with (state w).
    rewrite Hst. reflexivity. }
  change (do_header fuel (full_write pongmsg w)) with (do_header fuel w0).
  destruct (pass_header fuel w0 Hin0 eq_refl Hfuel)
    as [(w' & E & Hin' & Hd & Hw & Ha)
       | [(w' & E & Hin' & Hd & Hb & Hp & Hs & Hw)
         | (w' & a1 & inp1 & E & Hd & Ha)]].
  - left. exists w'. split; [exact E |]. split; [exact Hin' |].
    split; [exact (druns_trans _ _ _ _ _ _ H0 Hd) |]. auto.
  - right. left. exists w'. split; [exact E |]. split; [exact Hin' |].
    split; [exact (druns_trans _ _ _ _ _ _ H0 Hd) |]. auto.
  - right. right. exists w', a1, inp1. split; [exact E |].
    split; [exact (druns_trans _ _ _ _ _ _ H0 Hd) | exact Ha].
Qed.

Lemma pass_len fuel w :
  in_call w -> state w = sL -> (weight (src w) < fuel)%nat ->
  pass_ok w (step fuel w).
Proof.
  intros Hin Hst Hfuel. unfold step. rewrite Hst. tags.
  rewrite <- Hst at 1.
  apply (force_sim fuel 1 w _
           (fun a bs rest =>
              let b := nth 0 bs 0 in
              let a := set_datalen (Z.land b 127) a in
              if Z.land b 128 =? 0 then DAbort a
              else if datalen a =? 126 then DNext (set_state sX a) rest
              else if datalen a =? 127 then DNext (set_state sY a) rest
              else DNext (set_state sM a) rest));
    auto; try lia.
  - unfold need. rewrite Hst. reflexivity.
  - rewrite Hst. discriminate.
  - intros inp. unfold dstep. change (state (regs w)) with (state w).
    rewrite Hst. reflexivity.
  - intros w' Hok' Hr Hbfc Hsl Hlen.
    rewrite (first_byte _ _ _ _ Hsl Hlen) by lia.
    set (b := nth 0 (take (Z.to_nat 1) (pending w)) 0).
    cbv zeta. cbn [datalen set_datalen].
    destruct Hin as (_ & _ & (Hu & _ & _)).
    destruct Hr as (_ & _ & Hu' & _).
    destruct (Z.land b 128 =? 0); [reflexivity |].
    destruct (Z.land b 127 =? 126); [| destruct (Z.land b 127 =? 127)];
      (split; [exact Hok' |]; split; [reflexivity |];
       split; [reflexivity |]; split; [| reflexivity]);
      unfold dsane; cbn; rewrite Hu'; (split; [exact Hu |]);
      (split; [auto 10 | discriminate]).
Qed.

Lemma pass_ext16 fuel w :
  in_call w -> state w = sX -> (weight (src w) < fuel)%nat ->
  pass_ok w (step fuel w).
Proof.
  intros Hin Hst Hfuel. unfold step. rewrite Hst. tags.
  rewrite <- Hst at 1.
  apply (force_sim fuel 2 w _
           (fun a bs rest =>
              DNext (set_state sM (set_datalen (ntoh bs) a)) rest));
    auto; try lia.
  - unfold need. rewrite Hst. reflexivity.
  - rewrite Hst. discriminate.
  - intros inp. unfold dstep. change (state (regs w)) with (state w).
    rewrite Hst. reflexivity.
  - intros w' Hok' Hr Hbfc Hsl Hlen. rewrite Hsl.
    destruct Hin as (_ & _ & (Hu & _ & _)).
    destruct Hr as (_ & _ & Hu' & _).
    split; [exact Hok' |]. split; [reflexivity |].
    split; [reflexivity |]. split; [| reflexivity].
    unfold dsane. cbn. rewrite Hu'. split; [exact Hu |].
    split; [auto 10 | discriminate].
Qed.

Lemma pass_ext64 fuel w :
  in_call w -> state w = sY -> (weight (src w) < fuel)%nat ->
  pass_ok w (step fuel w).
Proof.
  intros Hin Hst Hfuel. unfold step. rewrite Hst. tags.
  rewrite <- Hst at 1.
  apply (force_sim fuel 8 w _
           (fun a bs rest =>
              let hi := (ntoh (take 4 bs) * 2 ^ 32) mod U64 in
              let lo := ntoh (drop 4 bs) in
              DNext (set_state sM (set_datalen (Z.lor hi lo) a)) rest));
    auto; try lia.
  - unfold need. rewrite Hst. reflexivity.
  - rewrite Hst. discriminate.
  - intros inp. unfold dstep. change (state (regs w)) with (state w).
    rewrite Hst. reflexivity.
  - intros w' Hok' Hr Hbfc Hsl Hlen.
    rewrite (slice_take _ _ 4 4), (slice_drop _ _ 4 4) by lia.
    change (4 + 4) with 8. rewrite Hsl.
    destruct Hin as (_ & _ & (Hu & _ & _)).
    destruct Hr as (_ & _ & Hu' & _).
    split; [exact Hok' |]. split; [reflexivity |].
    split; [reflexivity |]. split; [| reflexivity].
    unfold dsane. cbn. rewrite Hu'. split; [exact Hu |].
    split; [auto 10 | discriminate].
Qed.

Lemma pass_mask fuel w :
  in_call w -> state w = sM -> (weight (src w) < fuel)%nat ->
  pass_ok w (step fuel w).
Proof.
  intros Hin Hst Hfuel. unfold step. rewrite Hst. tags.
  rewrite <- Hst at 1.
  apply (force_sim fuel 4 w _
           (fun a bs rest =>
              DNext (enter_data (set_unmaskof 0 (set_mask bs a))) rest));
    auto; try lia.
  - unfold need. rewrite Hst. reflexivity.
  - rewrite Hst. discriminate.
  - intros inp. unfold dstep. change (state (regs w)) with (state w).
    rewrite Hst. reflexivity.
  - intros w' Hok' Hr Hbfc Hsl Hlen. rewrite Hsl.
    set (w1 := set_unmaskof 0 (set_mask (take (Z.to_nat 4) (pending w)) w')).
    split; [unfold enter_data; destruct (datalen w1 =? 0); exact Hok' |].
    split; [unfold enter_data; destruct (datalen w1 =? 0); reflexivity |].
    split; [unfold enter_data; destruct (datalen w1 =? 0); reflexivity |].
    split; [apply dsane_enter_data; cbn; lia |].
    rewrite regs_enter_data. reflexivity.
Qed.

Lemma pass_data fuel w :
  in_call w -> state w = sD -> (weight (src w) < fuel)%nat ->
  pass_ok w (step fuel w).
Proof.
  intros Hin Hst Hfuel. unfold step. rewrite Hst. tags.
  pose proof Hin as (Hok & Hch & (Hu & _ & HD)).
  destruct (HD Hst) as (Hdl & Hdp).
  destruct (Z.ltb_spec (datpart w) 0) as [Hneg | Hpos].
  { (* a length that [int datpart] cannot hold *)
    right. right. exists (set_state 68 w), (regs w), (pending w).
    split.
    - unfold forceinby, mkeaval. cbn [bfsz bfi set_state].
      replace ((datpart w <? 0) || (512 <? datpart w)) with true by lia.
      reflexivity.
    - split; [apply druns_refl |].
      unfold dstep. change (state (regs w)) with (state w).
      change (datpart (regs w)) with (datpart w). rewrite Hst. tags.
      replace ((datpart w <? 0) || (512 <? datpart w)) with true by lia.
      f_equal. symmetry. apply regs_same. rewrite <- Hst.
      apply same_regs_state. }
  set (c := datpart w) in *.
  assert (Hc : 0 < c <= 512) by lia.
  rewrite <- Hst at 1.
  apply (force_sim fuel c w _
           (fun a bs rest =>
              let out := unmask_from (mask a) (unmaskof a) bs in
              let a := set_unmaskof ((unmaskof a + datpart a) mod 4) a in
              let a := fdb_apnd out a in
              DNext (enter_data
                       (set_datalen ((datalen a - datpart a) mod U64) a))
                rest));
    auto; try lia.
  - unfold need. rewrite Hst. reflexivity.
  - rewrite Hst. discriminate.
  - intros inp. unfold dstep. change (state (regs w)) with (state w).
    change (datpart (regs w)) with c. rewrite Hst. tags.
    replace ((c <? 0) || (512 <? c)) with false by lia. reflexivity.
  - intros w' Hok' Hr Hbfc Hsl Hlen.
    pose proof Hr as (Hm' & Hdl' & Hk' & Hst' & Hdp' & Hd' & Hso').
    pose proof Hok' as (Hl' & Hi' & Hs').
    fold c in Hdp'. cbv zeta. rewrite Hdp'.
    set (bfc := bfi w' - c) in *.
    destruct (unmask_spec (Z.to_nat c) bfc 0 w')
      as (Hbuf & Hun & Hm1 & Hbfi1 & Hbfsz1 & Hdl1 & Hst1 & Hdp1 & Hsrc1
          & Hdest1 & Hso1); try lia.
    set (w1 := unmask (Z.to_nat c) bfc 0 w') in *.
    rewrite Z.add_0_r, Z2Nat.id in Hbuf by lia. rewrite Hsl in Hbuf.
    set (U := unmask_from (mask w') (unmaskof w')
                (take (Z.to_nat c) (pending w))) in *.
    assert (HlenU : length U = Z.to_nat c).
    { unfold U. rewrite length_unmask_from, length_take. lia. }
    assert (Hslice1 : slice (buf w1) bfc c = U).
    { unfold slice. rewrite Hbuf.
      rewrite drop_app_length' by (rewrite length_take; lia).
      apply take_app_length'. auto. }
    assert (Hlive1 : live w1 = live w').
    { unfold live, slice. rewrite Hbfi1, Hbfsz1, Hbuf.
      replace (Z.to_nat (bfi w')) with (Z.to_nat bfc + Z.to_nat c)%nat
        by (unfold bfc; lia).
      rewrite app_assoc, drop_app_length'; [reflexivity |].
      rewrite length_app, length_take, HlenU. lia. }
    assert (Hok1 : buf_ok w1).
    { unfold buf_ok. rewrite Hbfi1, Hbfsz1, Hbuf.
      rewrite !length_app, length_take, length_drop, HlenU.
      split; [unfold bfc; lia | lia]. }
    rewrite Hdp1, Hdp'. unfold fdb_apnd at 1 2. rewrite Hslice1.
    cbn [datalen datpart set_dest]. rewrite Hdl1, Hdp1, Hdp'.
    set (w2 := set_datalen ((datalen w' - c) mod U64)
                 (set_dest (dest w1 ++ U) w1)).
    assert (Hu2 : 0 <= unmaskof w2 < 4).
    { change (unmaskof w2) with (unmaskof w1). rewrite Hun.
      apply Z.mod_pos_bound. lia. }
    split; [unfold enter_data; destruct (_ =? 0); exact Hok1 |].
    split; [unfold enter_data; destruct (_ =? 0); exact Hlive1 |].
    split; [unfold enter_data; destruct (_ =? 0); exact Hsrc1 |].
    split; [apply dsane_enter_data; exact Hu2 |].
    rewrite regs_enter_data. do 2 f_equal.
    change (datpart (regs w')) with (datpart w'). rewrite Hdp'.
    unfold fdb_apnd. apply world_ext; cbn; auto.
    + rewrite Hdl1, Hdp1. reflexivity.
    + rewrite Hun. f_equal. lia.
    + rewrite Hdest1. reflexivity.
Qed.

Lemma pass_sim fuel w :
  in_call w -> (weight (src w) < fuel)%nat -> pass_ok w (step fuel w).
Proof.
  intros Hin Hfuel. pose proof Hin as (_ & _ & (_ & Htag & _)).
  destruct Htag as [E | [E | [E | [E | [E | [E | E]]]]]].
  - unfold step. rewrite E. tags. apply pass_pong; auto.
  - unfold step. rewrite E. tags. apply pass_header; auto.
  - apply pass_len; auto.
  - apply pass_ext16; auto.
  - apply pass_ext64; auto.
  - apply pass_mask; auto.
  - apply pass_data; auto.
Qed.

(** ** The loop, a call, the calls *)

Lemma loop_sim fuel : forall w,
  in_call w -> (work w + 1 < fuel)%nat ->
  (exists w',
     loop fuel w = Some (Done w') /\ in_call w'
     /\ druns (regs w) (pending w) (regs w') (pending w')
     /\ blocked w' /\ state w' <> sP
     /\ src w' = after_again (src w) /\ (work w' <= work w)%nat)
  \/ (exists w' a1 inp1,
        loop fuel w = Some (Exit w')
        /\ druns (regs w) (pending w) a1 inp1
        /\ dstep a1 inp1 = DAbort (regs w')).
Proof.
  induction fuel as [| fuel IH]; intros w Hin Hfuel; [lia |].
  cbn [loop]. pose proof (weight_le_work w) as Hw.
  destruct (pass_sim fuel w Hin)
    as [(w1 & E & Hin1 & Hd & Hwork & Hsrc)
       | [(w1 & E & Hin1 & Hd & Hb & Hp & Hsrc & Hwork)
         | (w1 & a1 & inp1 & E & Hd & Ha)]]; [lia | | |]; rewrite E.
  - destruct (IH w1 Hin1)
      as [(w' & E' & Hin' & Hd' & Hb' & Hp' & Hsrc' & Hwork')
         | (w' & a1 & inp1 & E' & Hd' & Ha')]; [lia | |].
    + left. exists w'. split; [exact E' |]. split; [exact Hin' |].
      split; [exact (druns_trans _ _ _ _ _ _ Hd Hd') |].
      split; [exact Hb' |]. split; [exact Hp' |].
      split; [congruence | lia].
    + right. exists w', a1, inp1. split; [exact E' |].
      split; [exact (druns_trans _ _ _ _ _ _ Hd Hd') | exact Ha'].
  - left. exists w1. auto 10.
  - right. exists w1, a1, inp1. auto.
Qed.

Lemma call_sim fuel w :
  between_calls w -> (work w + 1 < fuel)%nat ->
  (exists w',
     fwrd_inbound_frames fuel w = Some (Done w') /\ between_calls w'
     /\ druns (regs w) (pending w) (regs w') (pending w')
     /\ blocked w'
     /\ src w' = after_again (src w) /\ (work w' <= work w)%nat)
  \/ (exists w' a1 inp1,
        fwrd_inbound_frames fuel w = Some (Exit w')
        /\ druns (regs w) (pending w) a1 inp1
        /\ dstep a1 inp1 = DAbort (regs w')).
Proof.
  intros (Hok & Hch & Hsane & Hrest & HnP) Hfuel.
  unfold fwrd_inbound_frames.
  replace ((state w =? 0) && negb (bfi w =? bfsz w)) with false.
  2:{ destruct (Z.eqb_spec (state w) 0) as [Hz | Hnz]; [| reflexivity].
      rewrite (Hrest Hz), Z.eqb_refl. reflexivity. }
  destruct (loop_sim fuel w (conj Hok (conj Hch Hsane)) Hfuel)
    as [(w' & E & Hin' & Hd & Hb & Hp & Hsrc & Hwork) | H];
    [left | right; exact H].
  exists w'. split; [exact E |].
  split; [| auto].
  destruct Hin' as (Hok' & Hch' & Hsane').
  split; [exact Hok' |]. split; [exact Hch' |]. split; [exact Hsane' |].
  split; [apply blocked_resting; assumption | exact Hp].
Qed.

Lemma attach_sim fuel calls : forall w,
  between_calls w -> (work w + 1 < fuel)%nat ->
  (exists w',
     attach calls fuel w = Some (Done w') /\ between_calls w'
     /\ druns (regs w) (pending w) (regs w') (pending w')
     /\ (0 < calls -> blocked w')%nat
     /\ src w' = after_calls calls (src w))
  \/ (exists w' a1 inp1,
        attach calls fuel w = Some (Exit w')
        /\ druns (regs w) (pending w) a1 inp1
        /\ dstep a1 inp1 = DAbort (regs w')).
Proof.
  induction calls as [| calls IH]; intros w Hbw Hfuel.
  - left. exists w. cbn. split; [reflexivity |]. split; [exact Hbw |].
    split; [apply druns_refl |]. split; [lia | reflexivity].
  - cbn [attach after_calls].
    destruct (call_sim fuel w Hbw Hfuel)
      as [(w1 & E & Hbw1 & Hd & Hb & Hsrc & Hwork)
         | (w1 & a1 & inp1 & E & Hd & Ha)]; rewrite E.
    + destruct (IH w1 Hbw1)
        as [(w' & E' & Hbw' & Hd' & Hb' & Hsrc')
           | (w' & a1 & inp1 & E' & Hd' & Ha')]; [lia | |].
      * left. exists w'. split; [exact E' |]. split; [exact Hbw' |].
        split; [exact (druns_trans _ _ _ _ _ _ Hd Hd') |].
        split; [| congruence].
        intros _. destruct calls as [| calls'].
        -- cbn in E'. inversion E'. subst w'. exact Hb.
        -- apply Hb'. lia.
      * right. exists w', a1, inp1. split; [exact E' |].
        split; [exact (druns_trans _ _ _ _ _ _ Hd Hd') | exact Ha'].
    + right. exists w1, a1, inp1. auto.
Qed.

(** A decoder that returned with no input left waits on the stream
    too. *)
Lemma blocked_waits w :
  between_calls w -> blocked w -> src w = [] ->
  dstep (regs w) (pending w) = DWait.
Proof.
  intros (Hok & _ & (Hu & Htag & HD) & _ & HnP) Hb Hsrc.
  unfold pending. rewrite Hsrc. cbn [data_of]. rewrite app_nil_r.
  unfold blocked, need in Hb. unfold dstep.
  change (state (regs w)) with (state w).
  change (datpart (regs w)) with (datpart w).
  destruct Htag as [E | [E | [E | [E | [E | [E | E]]]]]];
    try contradiction; rewrite E in *; tags;
    try (apply dtake_miss; exact Hb).
  destruct (HD eq_refl) as (Hdl & Hdp).
  replace ((datpart w <? 0) || (512 <? datpart w)) with false by lia.
  apply dtake_miss; exact Hb.
Qed.

Lemma druns_end a inp a1 inp1 a2 inp2 :
  druns a inp a1 inp1 -> druns a inp a2 inp2 ->
  (forall b i, dstep a1 inp1 <> DNext b i) ->
  (forall b i, dstep a2 inp2 <> DNext b i) ->
  a1 = a2 /\ inp1 = inp2.
Proof.
  intros H1. revert a2 inp2.
  induction H1 as [a inp | a inp b inpb c inpc E _ IH];
    intros a2 inp2 H2 T1 T2.
  - inversion H2 as [| ? ? b inpb ? ? E _]; subst; [auto |].
    exfalso. exact (T1 _ _ E).
  - inversion H2 as [| ? ? b' inpb' ? ? E' H2']; subst.
    + exfalso. exact (T2 _ _ E).
    + rewrite E in E'. injection E' as <- <-. apply IH; assumption.
Qed.

Lemma dends_unique a inp r1 r2 :
  dends a inp r1 -> dends a inp r2 -> r1 = r2.
Proof.
  intros (a1 & i1 & H1 & T1) (a2 & i2 & H2 & T2).
  assert (N1 : forall b i, dstep a1 i1 <> DNext b i).
  { intros b i E. destruct r1; [destruct T1 as (_ & T1) | |];
      congruence || contradiction. }
  assert (N2 : forall b i, dstep a2 i2 <> DNext b i).
  { intros b i E. destruct r2; [destruct T2 as (_ & T2) | |];
      congruence || contradiction. }
  destruct (druns_end _ _ _ _ _ _ H1 H2 N1 N2) as (<- & <-).
  destruct r1, r2; try contradiction;
    try (destruct T1 as (? & T1)); try (destruct T2 as (? & T2));
    congruence.
Qed.

(** The calls of [attach] end as the decoder on the stream ends. *)
Lemma attach_ends fuel calls w :
  between_calls w -> (work w + 1 < fuel)%nat ->
  (agains (src w) < calls)%nat ->
  exists r,
    attach calls fuel w = Some r
    /\ dends (regs w) (pending w) (regs_of r)
    /\ match r with
       | Done w' => between_calls w' /\ src w' = []
       | _ => True
       end.
Proof.
  intros Hbw Hfuel Hcalls.
  destruct (attach_sim fuel calls w Hbw Hfuel)
    as [(w' & E & Hbw' & Hd & Hb & Hsrc)
       | (w' & a1 & inp1 & E & Hd & Ha)].
  - exists (Done w'). split; [exact E |].
    rewrite after_calls_all in Hsrc by exact Hcalls.
    split; [| auto].
    exists (regs w'), (pending w'). split; [exact Hd |].
    split; [reflexivity |].
    apply blocked_waits; auto. apply Hb. lia.
  - exists (Exit w'). split; [exact E |]. split; [| exact I].
    exists a1, inp1. auto.
Qed.

Lemma between_calls_init evs :
  chunking evs -> between_calls (init evs)
  /\ pending (init evs) = data_of evs /\ work (init evs) = weight evs.
Proof.
  intros Hch. split; [| split; reflexivity].
  split; [split; [reflexivity | cbn; lia] |].
  split; [exact Hch |].
  split; [unfold dsane; cbn; split; [lia |]; split; [auto |];
          tags; discriminate |].
  split; [intros _; reflexivity | cbn; tags; discriminate].
Qed.

(** ** Frames and control bytes on the stream *)

Lemma dtake_app c bs t k :
  length bs = Z.to_nat c -> 0 <= c -> dtake c (bs ++ t) k = k bs t.
Proof.
  intros Hl Hc. rewrite dtake_hit by (rewrite ?length_app; lia).
  rewrite take_app_length', drop_app_length' by (symmetry; exact Hl).
  reflexivity.
Qed.

Lemma data_run n : forall rem a t,
  (length rem <= n)%nat -> state a = sD ->
  datalen a = Z.of_nat (length rem) -> 0 < datalen a < 2 ^ 64 ->
  datpart a = Z.min 512 (datalen a) -> 0 <= unmaskof a < 4 ->
  exists a',
    druns a (rem ++ t) a' t /\ state a' = sH
    /\ dest a' = dest a ++ unmask_from (mask a) (unmaskof a) rem
    /\ stdout a' = stdout a /\ 0 <= unmaskof a' < 4.
Proof.
  induction n as [| n IH]; intros rem a t Hn Hst Hdl Hpos Hdp Hu; [lia |].
  set (c := datpart a) in *.
  assert (Hc : 0 < c <= 512) by lia.
  assert (Hcl : (Z.to_nat c <= length rem)%nat) by lia.
  set (out := unmask_from (mask a) (unmaskof a) (take (Z.to_nat c) rem)).
  set (a0 := set_datalen ((datalen a - c) mod U64)
               (fdb_apnd out (set_unmaskof ((unmaskof a + c) mod 4) a))).
  assert (E : dstep a (rem ++ t)
              = DNext (enter_data a0) (drop (Z.to_nat c) rem ++ t)).
  { unfold dstep. rewrite Hst. tags. fold c.
    replace ((c <? 0) || (512 <? c)) with false by lia.
    rewrite <- (take_drop (Z.to_nat c) rem) at 1. rewrite <- app_assoc.
    rewrite dtake_app by (rewrite ?length_take; lia). reflexivity. }
  assert (Hd0 : datalen a0 = Z.of_nat (length (drop (Z.to_nat c) rem))).
  { unfold a0, U64. cbn. rewrite length_drop, Z.mod_small; lia. }
  assert (Hu0 : 0 <= unmaskof a0 < 4)
    by (unfold a0; cbn; apply Z.mod_pos_bound; lia).
  destruct (Z.eq_dec (datalen a0) 0) as [Hz | Hnz].
  - (* the last slice *)
    exists (set_state sH a0).
    assert (Hnil : drop (Z.to_nat c) rem = []).
    { apply length_zero_iff_nil. lia. }
    assert (Hall : take (Z.to_nat c) rem = rem).
    { rewrite <- (take_drop (Z.to_nat c) rem) at 2.
      rewrite Hnil, app_nil_r. reflexivity. }
    split.
    { apply druns_one. rewrite E, Hnil. unfold enter_data.
      rewrite Hz. reflexivity. }
    split; [reflexivity |].
    split; [unfold a0, out; cbn; rewrite Hall; reflexivity |].
    split; [reflexivity | exact Hu0].
  - set (a1 := set_state sD (set_datpart (Z.min 512 (datalen a0)) a0)).
    destruct (IH (drop (Z.to_nat c) rem) a1 t)
      as (a' & Hr & Hs' & Hd' & Ho' & Hu'); auto.
    + rewrite length_drop. lia.
    + change (datalen a1) with (datalen a0).
      rewrite length_drop in Hd0. lia.
    + exists a'. split.
      { eapply druns_step; [| exact Hr]. rewrite E. unfold enter_data.
        replace (datalen a0 =? 0) with false by lia. reflexivity. }
      split; [exact Hs' |].
      split; [| split; [exact Ho' | exact Hu']].
      rewrite Hd'. unfold a1, a0, out. cbn.
      rewrite <- (take_drop (Z.to_nat c) rem) at 3.
      rewrite unmask_from_app, length_take, <- app_assoc.
      rewrite unmask_from_mod. do 3 f_equal. lia.
Qed.

Lemma frame_run f a t :
  data_frame f -> state a = sH -> 0 <= unmaskof a < 4 ->
  exists a',
    druns a (wire f ++ t) a' t /\ state a' = sH
    /\ dest a' = dest a ++ payload f
    /\ stdout a' = stdout a /\ 0 <= unmaskof a' < 4.
Proof.
  intros Hf Hst Hu.
  pose proof (data_frame_length f Hf) as Hn.
  destruct Hf as (Hb & Hop & Hform & Hml & Hmb & Hdb).
  set (n := Z.of_nat (length (fdata f))) in *.
  (* the header byte *)
  set (a1 := set_state sL a).
  assert (E1 : dstep a (wire f ++ t)
               = DNext a1 ((lenbytes f ++ fmask f ++ fdata f) ++ t)).
  { unfold dstep. rewrite Hst. tags. unfold wire.
    change ((fhdr f :: ?l) ++ t) with ([fhdr f] ++ (l ++ t)).
    rewrite dtake_app by (cbn; lia). cbn [nth]. cbv zeta.
    replace ((Z.land (fhdr f) 127 =? 0) || (Z.land (fhdr f) 127 =? 1)
             || (Z.land (fhdr f) 127 =? 2)) with true by lia.
    reflexivity. }
  (* the length *)
  set (a2 := set_state sM (set_datalen n a1)).
  assert (E2 : exists a2', druns a1 ((lenbytes f ++ fmask f ++ fdata f) ++ t)
                 a2' (fmask f ++ fdata f ++ t)
               /\ a2' = set_state sM (set_datalen n a2')
               /\ datalen a2' = n /\ dest a2' = dest a
               /\ stdout a2' = stdout a /\ state a2' = sM).
  { rewrite <- !app_assoc. unfold lenbytes. fold n.
    destruct (fform f).
    - (* 7 bits *)
      destruct (len7_bits n) as (L1 & L2); [lia |].
      exists a2. split; [| repeat split].
      apply druns_one. unfold dstep. change (state a1) with sL. tags.
      change ([128 + n] ++ ?l) with ([128 + n] ++ l).
      rewrite dtake_app by (cbn; lia). cbn [nth]. cbv zeta.
      cbn [datalen set_datalen]. rewrite L1, L2.
      change (128 =? 0) with false. cbv iota.
      replace (n =? 126) with false by lia.
      replace (n =? 127) with false by lia. reflexivity.
    - (* 16 bits *)
      exists a2. split; [| repeat split].
      eapply druns_step.
      + unfold dstep. change (state a1) with sL. tags.
        change ((254 :: be 2 n) ++ ?l) with ([254] ++ (be 2 n ++ l)).
        rewrite dtake_app by (cbn; lia). reflexivity.
      + apply druns_one. unfold dstep. cbn [state set_state]. tags.
        rewrite dtake_app by first [rewrite length_be; reflexivity | lia].
        rewrite ntoh_be by lia. change (256 ^ Z.of_nat 2) with (2 ^ 16).
        rewrite Z.mod_small by lia. reflexivity.
    - (* 64 bits *)
      exists a2. split; [| repeat split].
      eapply druns_step.
      + unfold dstep. change (state a1) with sL. tags.
        change ((255 :: be 8 n) ++ ?l) with ([255] ++ (be 8 n ++ l)).
        rewrite dtake_app by (cbn; lia). reflexivity.
      + apply druns_one. unfold dstep. cbn [state set_state]. tags.
        rewrite dtake_app by first [rewrite length_be; reflexivity | lia].
        cbv zeta.
        change (be 8 n) with (be (4 + 4) n). rewrite (be_split 4 4 n).
        change (256 ^ Z.of_nat 4) with (2 ^ 32).
        rewrite take_app_length', drop_app_length'
          by (rewrite length_be; reflexivity).
        assert (Hdiv : 0 <= n / 2 ^ 32 < 2 ^ 32).
        { split; [apply Z.div_pos; lia | apply Z.div_lt_upper_bound; lia]. }
        rewrite !ntoh_be by lia.
        change (256 ^ Z.of_nat 4) with (2 ^ 32).
        rewrite (Z.mod_small (n / 2 ^ 32)) by lia.
        rewrite lor_halves by lia. reflexivity. }
  destruct E2 as (a2' & R2 & _ & Hdl2 & Hd2 & Ho2 & Hs2).
  (* the mask *)
  set (a3 := set_unmaskof 0 (set_mask (fmask f) a2')).
  assert (E3 : dstep a2' (fmask f ++ fdata f ++ t)
               = DNext (enter_data a3) (fdata f ++ t)).
  { unfold dstep. rewrite Hs2. tags.
    rewrite dtake_app by first [rewrite Hml; reflexivity | lia]. reflexivity. }
  destruct (Z.eq_dec n 0) as [Hz | Hnz].
  - assert (Hnil : fdata f = []) by (apply length_zero_iff_nil; lia).
    exists (set_state sH a3). split.
    { eapply druns_step; [exact E1 |].
      eapply druns_trans; [exact R2 |].
      apply druns_one. rewrite E3. unfold enter_data.
      change (datalen a3) with (datalen a2'). rewrite Hdl2, Hz, Hnil.
      reflexivity. }
    split; [reflexivity |].
    split; [unfold payload; rewrite Hnil; cbn; rewrite app_nil_r; exact Hd2 |].
    split; [exact Ho2 | cbn; lia].
  - set (a4 := set_state sD (set_datpart (Z.min 512 (datalen a3)) a3)).
    destruct (data_run (length (fdata f)) (fdata f) a4 t)
      as (a' & Hr & Hs' & Hd' & Ho' & Hu'); auto.
    + change (datalen a4) with (datalen a2'). rewrite Hdl2. lia.
    + cbn. lia.
    + exists a'. split.
      { eapply druns_step; [exact E1 |].
        eapply druns_trans; [exact R2 |].
        eapply druns_step; [| exact Hr]. rewrite E3. unfold enter_data.
        replace (datalen a3 =? 0) with false
          by (change (datalen a3) with (datalen a2'); lia).
        reflexivity. }
      split; [exact Hs' |].
      split; [rewrite Hd'; cbn; rewrite Hd2; reflexivity |].
      split; [rewrite Ho'; exact Ho2 | exact Hu'].
Qed.

Lemma ctl_run b a t :
  item_ok (Ctl b) -> state a = sH -> 0 <= unmaskof a < 4 ->
  exists a',
    druns a (b :: t) a' t /\ state a' = sH
    /\ dest a' = dest a
    /\ stdout a' = stdout a ++ answered (Ctl b) /\ 0 <= unmaskof a' < 4.
Proof.
  intros (Hb & H0 & H1 & H2) Hst Hu. unfold opcode in *.
  assert (E : dstep a (b :: t)
              = DNext (set_state (if Z.land b 127 =? 9 then sP else sH) a) t).
  { unfold dstep. rewrite Hst. tags. change (b :: t) with ([b] ++ t).
    rewrite dtake_app by (cbn; lia). cbn [nth]. cbv zeta.
    replace ((Z.land b 127 =? 0) || (Z.land b 127 =? 1)
             || (Z.land b 127 =? 2)) with false by lia.
    reflexivity. }
  cbn [answered]. unfold opcode.
  destruct (Z.land b 127 =? 9).
  - exists (set_state sH (full_write pongmsg (set_state sP a))). split.
    { eapply druns_step; [exact E |]. apply druns_one. reflexivity. }
    cbn. auto.
  - exists (set_state sH a). split; [apply druns_one; exact E |].
    cbn. rewrite app_nil_r. auto.
Qed.

Lemma items_run items : forall a t,
  Forall item_ok items -> state a = sH -> 0 <= unmaskof a < 4 ->
  exists a',
    druns a (concat (map wire_item items) ++ t) a' t /\ state a' = sH
    /\ dest a' = dest a ++ concat (map sunk items)
    /\ stdout a' = stdout a ++ concat (map answered items)
    /\ 0 <= unmaskof a' < 4.
Proof.
  induction items as [| i items IH]; intros a t Hall Hst Hu.
  - exists a. cbn. rewrite !app_nil_r.
    split; [apply druns_refl | auto].
  - apply Forall_cons_1 in Hall as (Hi & Hall).
    cbn [map concat]. rewrite <- app_assoc.
    assert (H1 : exists a1,
      druns a (wire_item i ++ concat (map wire_item items) ++ t) a1
        (concat (map wire_item items) ++ t)
      /\ state a1 = sH /\ dest a1 = dest a ++ sunk i
      /\ stdout a1 = stdout a ++ answered i /\ 0 <= unmaskof a1 < 4).
    { destruct i as [f | b].
      - destruct (frame_run f a (concat (map wire_item items) ++ t))
          as (a1 & R & S1 & D1 & O1 & U1); auto.
        exists a1. cbn [wire_item sunk answered]. rewrite app_nil_r. auto.
      - destruct (ctl_run b a (concat (map wire_item items) ++ t))
          as (a1 & R & S1 & D1 & O1 & U1); auto.
        exists a1. cbn [wire_item sunk]. rewrite app_nil_r. auto. }
    destruct H1 as (a1 & R1 & S1 & D1 & O1 & U1).
    destruct (IH a1 t Hall S1 U1) as (a' & R & S' & D' & O' & U').
    exists a'. split; [exact (druns_trans _ _ _ _ _ _ R1 R) |].
    split; [exact S' |].
    split; [rewrite D', D1, <- app_assoc; reflexivity |].
    split; [rewrite O', O1, <- app_assoc; reflexivity | exact U'].
Qed.

Lemma regs_of_fields r1 r2 :
  regs_of r1 = regs_of r2 ->
  is_done r1 = is_done r2
  /\ dest (state_of r1) = dest (state_of r2)
  /\ stdout (state_of r1) = stdout (state_of r2)
  /\ state (state_of r1) = state (state_of r2).
Proof.
  intros H.
  destruct r1 as [w1 | w1 | w1], r2 as [w2 | w2 | w2]; try discriminate;
    apply (f_equal state_of) in H; cbn [state_of regs_of is_done] in *;
    (split; [reflexivity |]);
    (split; [exact (f_equal dest H) |]);
    (split; [exact (f_equal stdout H) | exact (f_equal state H)]).
Qed.

(** X14. How the bytes of the client are cut into reads, and where the
    reads would block, does not matter to [fwrd_inbound_frames], for any
    bytes at all, frames or not: two splits of the same byte stream end
    with the same verdict (returned, or aborted), the same bytes in the
    sink, the same pongs on standard output and the same decoder
    registers, once each has been called until its input is used up. *)
Theorem chunking_immaterial evs1 evs2 calls1 calls2 fuel1 fuel2 :
  chunking evs1 -> chunking evs2 -> data_of evs1 = data_of evs2 ->
  (agains evs1 < calls1)%nat -> (agains evs2 < calls2)%nat ->
  (weight evs1 + 1 < fuel1)%nat -> (weight evs2 + 1 < fuel2)%nat ->
  exists r1 r2,
    attach calls1 fuel1 (init evs1) = Some r1
    /\ attach calls2 fuel2 (init evs2) = Some r2
    /\ regs_of r1 = regs_of r2
    /\ is_done r1 = is_done r2
    /\ dest (state_of r1) = dest (state_of r2)
    /\ stdout (state_of r1) = stdout (state_of r2).
Proof.
  intros Hc1 Hc2 Hdata Ha1 Ha2 Hf1 Hf2.
  destruct (between_calls_init evs1 Hc1) as (B1 & P1 & W1).
  destruct (between_calls_init evs2 Hc2) as (B2 & P2 & W2).
  destruct (attach_ends fuel1 calls1 (init evs1) B1) as (r1 & E1 & D1 & _);
    [rewrite W1; exact Hf1 | exact Ha1 |].
  destruct (attach_ends fuel2 calls2 (init evs2) B2) as (r2 & E2 & D2 & _);
    [rewrite W2; exact Hf2 | exact Ha2 |].
  rewrite P1 in D1. rewrite P2, <- Hdata in D2.
  change (regs (init evs2)) with (regs (init evs1)) in D2.
  pose proof (dends_unique _ _ _ _ D1 D2) as Heq.
  destruct (regs_of_fields r1 r2 Heq) as (Hv & Hd & Ho & _).
  exists r1, r2. auto 10.
Qed.

Lemma chunking_immaterial_witness :
  exists r1 r2,
    attach 3 40 (init [Data [9; 130; 129]; Again; Data [1; 2; 3; 4; 98];
                       Again; Data [98; 1; 5]]) = Some r1
    /\ attach 1 40 (init [Data [9; 130; 129; 1; 2; 3; 4; 98; 98; 1; 5]])
       = Some r2
    /\ regs_of r1 = regs_of r2
    /\ is_done r1 = is_done r2
    /\ dest (state_of r1) = dest (state_of r2)
    /\ stdout (state_of r1) = stdout (state_of r2).
Proof.
  apply chunking_immaterial.
  - cbn. repeat split; discriminate.
  - cbn. repeat split; discriminate.
  - reflexivity.
  - cbn. lia.
  - cbn. lia.
  - cbn. lia.
  - cbn. lia.
Defined.

(** X15. A client may put single bytes with an opcode other than 0, 1
    and 2 between its data frames: [fwrd_inbound_frames] takes such a
    byte for a whole control frame.  For opcode 9 it writes the two
    bytes of a pong to standard output, the others it drops; the
    payloads of the data frames reach the sink complete and in order,
    however the stream is cut into reads. *)
Theorem control_bytes_between_frames items evs calls fuel :
  Forall item_ok items -> chunking evs ->
  data_of evs = concat (map wire_item items) ->
  (agains evs < calls)%nat -> (weight evs + 1 < fuel)%nat ->
  exists w',
    attach calls fuel (init evs) = Some (Done w')
    /\ dest w' = concat (map sunk items)
    /\ stdout w' = concat (map answered items)
    /\ state w' = sH /\ src w' = [].
Proof.
  intros Hall Hch Hdata Hcalls Hfuel.
  destruct (between_calls_init evs Hch) as (B & P & W).
  destruct (attach_ends fuel calls (init evs) B) as (r & E & D & Hr);
    [rewrite W; exact Hfuel | exact Hcalls |].
  rewrite P, Hdata in D.
  destruct (items_run items (regs (init evs)) [] Hall)
    as (a' & R & S' & D' & O' & U'); [reflexivity | cbn; lia |].
  rewrite app_nil_r in R.
  assert (Hend : dends (regs (init evs)) (concat (map wire_item items))
                   (Done a')).
  { exists a', []. split; [exact R |]. split; [reflexivity |].
    unfold dstep. rewrite S'. tags. apply dtake_miss. cbn. lia. }
  pose proof (dends_unique _ _ _ _ D Hend) as Heq.
  destruct r as [w' | w' | w']; try discriminate.
  apply (f_equal state_of) in Heq. cbn [state_of regs_of] in Heq.
  exists w'. split; [exact E |].
  change (dest w') with (dest (regs w')).
  change (stdout w') with (stdout (regs w')).
  change (state w') with (state (regs w')).
  rewrite Heq. split; [exact D' |]. split; [exact O' |].
  split; [exact S' | apply Hr].
Qed.

Lemma control_bytes_between_frames_witness :
  let f := {| fhdr := 129; fform := Len7; fmask := [1; 2; 3; 4];
              fdata := [105; 103] |} in
  exists w',
    attach 2 40 (init [Data [137; 129]; Again; Data [130; 1; 2; 3; 4; 105];
                       Data [103; 10]]) = Some (Done w')
    /\ dest w' = concat (map sunk [Ctl 137; Frame f; Ctl 10])
    /\ stdout w' = concat (map answered [Ctl 137; Frame f; Ctl 10])
    /\ state w' = sH /\ src w' = [].
Proof.
  intros f.
  apply (control_bytes_between_frames [Ctl 137; Frame f; Ctl 10]).
  - apply Forall_cons_2;
      [unfold item_ok, opcode, is_byte; vm_compute; intuition congruence |].
    apply Forall_cons_2; [unfold item_ok, f; frames_ok |].
    apply Forall_cons_2;
      [unfold item_ok, opcode, is_byte; vm_compute; intuition congruence
      | apply Forall_nil_2].
  - cbn. repeat split; discriminate.
  - reflexivity.
  - cbn. lia.
  - cbn. lia.
Defined.

(** X16. A frame whose length byte has the mask bit clear is fatal:
    after the data frames and control bytes before it, whose payloads
    reach the sink, [fwrd_inbound_frames] aborts at the length byte,
    with nothing more delivered, however the stream is cut into reads
    and whatever follows the byte. *)
Theorem unmasked_frame_aborts items h l rest evs calls fuel :
  Forall item_ok items ->
  opcode h = 0 \/ opcode h = 1 \/ opcode h = 2 -> Z.land l 128 = 0 ->
  chunking evs ->
  data_of evs = concat (map wire_item items) ++ h :: l :: rest ->
  (agains evs < calls)%nat -> (weight evs + 1 < fuel)%nat ->
  exists w',
    attach calls fuel (init evs) = Some (Exit w')
    /\ dest w' = concat (map sunk items)
    /\ stdout w' = concat (map answered items)
    /\ state w' = sL.
Proof.
  intros Hall Hop Hl Hch Hdata Hcalls Hfuel.
  destruct (between_calls_init evs Hch) as (B & P & W).
  destruct (attach_ends fuel calls (init evs) B) as (r & E & D & Hr);
    [rewrite W; exact Hfuel | exact Hcalls |].
  rewrite P, Hdata in D.
  destruct (items_run items (regs (init evs)) (h :: l :: rest) Hall)
    as (a' & R & S' & D' & O' & U'); [reflexivity | cbn; lia |].
  set (a1 := set_state sL a').
  set (a2 := set_datalen (Z.land l 127) a1).
  assert (E1 : dstep a' (h :: l :: rest) = DNext a1 (l :: rest)).
  { unfold dstep. rewrite S'. tags.
    change (h :: l :: rest) with ([h] ++ l :: rest).
    rewrite dtake_app by (cbn; lia). cbn [nth]. cbv zeta.
    unfold opcode in Hop.
    replace ((Z.land h 127 =? 0) || (Z.land h 127 =? 1)
             || (Z.land h 127 =? 2)) with true by lia.
    reflexivity. }
  assert (E2 : dstep a1 (l :: rest) = DAbort a2).
  { unfold dstep. change (state a1) with sL. tags.
    change (l :: rest) with ([l] ++ rest).
    rewrite dtake_app by (cbn; lia). cbn [nth]. cbv zeta.
    rewrite Hl. reflexivity. }
  assert (Hend : dends (regs (init evs))
                   (concat (map wire_item items) ++ h :: l :: rest)
                   (Exit a2)).
  { exists a1, (l :: rest). split; [| exact E2].
    eapply druns_trans; [exact R |]. apply druns_one. exact E1. }
  pose proof (dends_unique _ _ _ _ D Hend) as Heq.
  destruct r as [w' | w' | w']; try discriminate.
  apply (f_equal state_of) in Heq. cbn [state_of regs_of] in Heq.
  exists w'. split; [exact E |].
  change (dest w') with (dest (regs w')).
  change (stdout w') with (stdout (regs w')).
  change (state w') with (state (regs w')).
  rewrite Heq. split; [exact D' |]. split; [exact O' | reflexivity].
Qed.

Lemma unmasked_frame_aborts_witness :
  let f := {| fhdr := 129; fform := Len7; fmask := [1; 2; 3; 4];
              fdata := [105; 103] |} in
  exists w',
    attach 2 40 (init [Data [129; 130; 1; 2]; Again;
                       Data [3; 4; 105; 103; 130; 3; 97; 98; 99]])
    = Some (Exit w')
    /\ dest w' = concat (map sunk [Frame f])
    /\ stdout w' = concat (map answered [Frame f])
    /\ state w' = sL.
Proof.
  intros f.
  apply (unmasked_frame_aborts [Frame f] 130 3 [97; 98; 99]).
  - apply Forall_cons_2; [unfold item_ok, f; frames_ok | apply Forall_nil_2].
  - right. right. reflexivity.
  - reflexivity.
  - cbn. repeat split; discriminate.
  - reflexivity.
  - cbn. lia.
  - cbn. lia.
Defined.
End DecoderFacts.

(** * Deleting characters ahead of the cursor *)

Module TtyDelete.
Import Session Keys Tty TtySteps TtyLog.

Ltac zb :=
  symmetry;
  first [apply Z.eqb_eq | apply Z.eqb_neq | apply Z.ltb_lt | apply Z.ltb_ge
        | apply Z.leb_le | apply Z.leb_gt]; lia.

Lemma scan_digits_spec ds : forall c r acc n,
  Forall digit ds -> isdigit c = false ->
  scan_digits (map (fun d => 48 + d) ds ++ c :: r) acc n
  = (fold_left (fun a d => a * 10 + d) ds acc, n + Z.of_nat (length ds)).
Proof.
  induction ds as [| d ds IH]; intros c r acc n Hds Hc.
  - cbn. rewrite Hc, Z.add_0_r. reflexivity.
  - apply Forall_cons_1 in Hds as (Hd & Hds). unfold digit in Hd.
    cbn [map app scan_digits]. unfold isdigit at 1.
    replace ((48 <=? 48 + d) && (48 + d <=? 57)) with true by lia.
    rewrite (IH c r) by assumption. cbn [fold_left length].
    f_equal; [f_equal; lia | lia].
Qed.

Lemma number_bound ds :
  Forall digit ds -> 0 <= number ds < 10 ^ Z.of_nat (length ds).
Proof.
  unfold number. intros Hds.
  assert (H : forall acc, 0 <= acc ->
            0 <= fold_left (fun a d => a * 10 + d) ds acc
            < (acc + 1) * 10 ^ Z.of_nat (length ds)).
  { induction Hds as [| d ds Hd Hds IH]; intros acc Hacc.
    - cbn. lia.
    - cbn [fold_left length]. unfold digit in Hd.
      destruct (IH (acc * 10 + d)) as [H1 H2]; [lia |].
      split; [exact H1 |].
      rewrite Nat2Z.inj_succ, Z.pow_succ_r by lia.
      assert (0 < 10 ^ Z.of_nat (length ds))
        by (apply Z.pow_pos_nonneg; lia).
      nia. }
  specialize (H 0 ltac:(lia)). lia.
Qed.

Lemma strtoul_digits ds c r :
  Forall digit ds -> ds <> [] -> (length ds <= 9)%nat ->
  isdigit c = false ->
  strtoul (map (fun d => 48 + d) ds ++ c :: r)
  = (number ds, Z.of_nat (length ds)).
Proof.
  intros Hds Hne Hlen Hc.
  pose proof (number_bound ds Hds) as Hn.
  assert (H9 : 10 ^ Z.of_nat (length ds) <= 10 ^ 9)
    by (apply Z.pow_le_mono_r; lia).
  destruct ds as [| d ds]; [congruence |].
  pose proof Hds as Hds'. apply Forall_cons_1 in Hds' as (Hd & _).
  unfold digit in Hd. unfold strtoul.
  cbn [map app skip_space]. unfold isspace.
  replace ((48 + d =? 32) || (9 <=? 48 + d) && (48 + d <=? 13))
    with false by lia.
  replace (48 + d =? 45) with false by lia.
  replace (48 + d =? 43) with false by lia.
  change (48 + d :: map (fun d0 => 48 + d0) ds ++ c :: r)
    with (map (fun d0 => 48 + d0) (d :: ds) ++ c :: r).
  rewrite scan_digits_spec by assumption.
  fold (number (d :: ds)).
  replace (0 + Z.of_nat (length (d :: ds)) =? 0) with false
    by (symmetry; apply Z.eqb_neq; cbn [length]; lia).
  unfold U64. replace (2 ^ 64 <=? number (d :: ds)) with false by lia.
  reflexivity.
Qed.

(** An upper-case letter after parameters does not end the sequence: it
    is taken into the escape buffer like any other byte. *)
Lemma model_push_upper b e s :
  in_escape e s -> (3 <= length e)%nat -> Z.of_nat (length e) < 1024 ->
  is_upper b ->
  line_model b s
  = Done (set_escsz (Z.of_nat (length e) + 1)
            (set_escbuf (wr (escbuf s) (Z.of_nat (length e)) b) s)).
Proof.
  intros He H3 Hlen Hb. pose proof He as (Hl & Hz & Ht).
  unfold is_upper in Hb. unfold line_model.
  replace (b =? 13) with false by lia. replace (b =? 8) with false by lia.
  replace (b =? 7) with false by lia. cbv zeta.
  replace ((65 <=? b) && (b <=? 90)) with true by lia.
  replace ((97 <=? b) && (b <=? 122)) with false by lia.
  rewrite (consume_miss _ e s)
    by first [assumption | intros ->; cbn in H3; lia | cbn; lia].
  replace (b =? 27) with false by lia. cbn [orb].
  rewrite Hz. replace (Z.of_nat (length e) =? 0) with false by lia.
  cbn [negb]. unfold SAFEPTR, U32.
  change (1024 - 1 + 1) with 1024. rewrite !Z.mod_small by lia.
  reflexivity.
Qed.

(** [deletechrahead] at the end of [ESC [ <digits> P]. *)
Lemma delete_ahead ds L p s :
  in_escape (delete_seq ds) s -> line_is L p s ->
  Forall digit ds -> ds <> [] -> (length ds <= 9)%nat ->
  0 <= p < 2 ^ 32 -> Z.of_nat (length L) <= 1024 ->
  exists s',
    deletechrahead s = Done s'
    /\ line_is (if p + number ds <? Z.of_nat (length L)
                then take (Z.to_nat p) L ++ drop (Z.to_nat (p + number ds)) L
                else L) p s'
    /\ escbuf s' = escbuf s /\ escsz s' = escsz s
    /\ trace s' = trace s /\ modes s' = modes s /\ swcol s' = swcol s
    /\ logfd s' = logfd s.
Proof.
  intros He Hline Hds Hne Hlen Hp HL.
  pose proof He as (El & Ez & Et).
  pose proof Hline as (Ll & Lz & Lp & Lt).
  pose proof (number_bound ds Hds) as Hn.
  assert (H9 : 10 ^ Z.of_nat (length ds) <= 10 ^ 9)
    by (apply Z.pow_le_mono_r; lia).
  set (n := number ds) in *.
  assert (Hlen_e : length (delete_seq ds) = (length ds + 3)%nat).
  { unfold delete_seq. cbn [length]. rewrite length_app, length_map.
    cbn. lia. }
  rewrite Hlen_e in Ez.
  assert (Hdrop : drop 2 (escbuf s)
                  = map (fun d => 48 + d) ds
                      ++ 80 :: drop (length ds + 3) (escbuf s)).
  { rewrite <- (take_drop (length ds + 3) (escbuf s)) at 1.
    rewrite <- Hlen_e, Et. unfold delete_seq.
    change (drop 2 ((27 :: 91 :: ?l) ++ ?r)) with (l ++ r).
    rewrite <- app_assoc. fold (delete_seq ds). rewrite Hlen_e.
    reflexivity. }
  unfold deletechrahead.
  replace (escsz s <? 4) with false
    by (destruct ds; [congruence | cbn [length] in *; zb]).
  replace (1024 <? escsz s) with false by zb.
  replace (escsz s - 1) with (Z.of_nat (length ds + 2)) by lia.
  change 1 with (Z.of_nat 1) at 1.
  rewrite !(rd_escape _ s _ He) by (rewrite Hlen_e; lia).
  replace (nth (length ds + 2) (delete_seq ds) 0) with 80.
  2:{ unfold delete_seq.
      change (27 :: 91 :: ?l) with ([27; 91] ++ l).
      rewrite app_nth2 by (cbn; lia). cbn [length].
      rewrite app_nth2 by (rewrite length_map; lia).
      rewrite length_map.
      replace (length ds + 2 - 2 - length ds)%nat with 0%nat by lia.
      reflexivity. }
  change (nth 1 (delete_seq ds) 0) with 91.
  cbn [Z.eqb Pos.eqb negb orb].
  rewrite Hdrop, strtoul_digits by (auto; reflexivity). fold n.
  replace (2 + Z.of_nat (length ds) =? Z.of_nat (length ds + 2)) with true
    by zb.
  cbn [negb]. rewrite Lz, Lp. unfold U64, U32.
  rewrite (Z.mod_small (p + n)) by lia.
  destruct (Z.ltb_spec (p + n) (Z.of_nat (length L))) as [Hlt | Hge].
  - replace (Z.of_nat (length L) <=? p + n) with false by zb.
    rewrite (Z.mod_small (Z.of_nat (length L) - n)) by lia.
    cbn [linepos set_linesz]. rewrite Lp.
    rewrite (Z.mod_small (Z.of_nat (length L) - n - p)) by lia.
    replace (1024 <? p + n + (Z.of_nat (length L) - n - p)) with false
      by zb.
    eexists. split; [reflexivity |].
    split; [| cbn; auto 10].
    unfold line_is, memmove. cbn [linebuf linesz linepos set_linebuf
                                   set_linesz].
    assert (Hbuf : linebuf s = L ++ drop (length L) (linebuf s)).
    { rewrite <- Lt at 1. rewrite take_drop. reflexivity. }
    assert (Hmid : take (Z.to_nat (Z.of_nat (length L) - n - p))
                     (drop (Z.to_nat (p + n)) (linebuf s))
                   = drop (Z.to_nat (p + n)) L).
    { rewrite Hbuf, drop_app_le by lia.
      apply take_app_length'. rewrite length_drop. lia. }
    assert (Hpre : take (Z.to_nat p) (linebuf s) = take (Z.to_nat p) L).
    { rewrite Hbuf at 1. apply take_app_le. lia. }
    rewrite Hmid, Hpre.
    split.
    { rewrite !length_app, length_take, !length_drop. lia. }
    split; [rewrite length_app, length_take, length_drop; lia |].
    split; [exact Lp |].
    rewrite app_assoc. apply take_app_length.
  - replace (Z.of_nat (length L) <=? p + n) with true by zb.
    eexists. split; [reflexivity |]. split; [exact Hline | auto 10].
Qed.

Lemma digits_passive ds :
  Forall digit ds -> Forall (passive [27; 91]) (map (fun d => 48 + d) ds).
Proof.
  intros Hds. apply Forall_map. apply (Forall_impl _ _ _ Hds).
  intros d Hd. unfold digit in Hd. unfold passive, is_upper, is_lower.
  cbn. repeat split; try lia.
Qed.

(** The whole sequence [ESC [ <digits> P] at the cursor. *)
Lemma steps_delete ds L p s :
  at_line L p s -> Forall digit ds -> ds <> [] -> (length ds <= 9)%nat ->
  0 <= p < 2 ^ 32 -> Z.of_nat (length L) <= 1024 ->
  exists s',
    tty_bytes (delete_seq ds) s = Done s'
    /\ line_is (if p + number ds <? Z.of_nat (length L)
                then take (Z.to_nat p) L ++ drop (Z.to_nat (p + number ds)) L
                else L) p s'
    /\ length (escbuf s') = 1024%nat
    /\ trace s' = trace s /\ modes s' = modes s /\ swcol s' = swcol s.
Proof.
  intros (Hline & He) Hds Hne Hlen Hp HL.
  destruct (step_esc s) as (s1 & E1 & A1 & Q1); [apply He |].
  destruct (step_push 91 [27] s1 A1) as (s2 & E2 & A2 & Q2);
    [discriminate | cbn; lia | apply passive_bracket |].
  destruct (steps_push (map (fun d => 48 + d) ds) [27; 91] s2 A2)
    as (s3 & E3 & A3 & Q3);
    [cbn; lia | rewrite length_map; cbn; lia | apply digits_passive; auto |].
  pose proof (quiet_trans _ _ _ (quiet_trans _ _ _ Q1 Q2) Q3) as Q.
  pose proof (quiet_line L p s s3 Q Hline) as Hline3.
  set (e := [27; 91] ++ map (fun d => 48 + d) ds) in *.
  assert (Hle : length e = (length ds + 2)%nat)
    by (unfold e; rewrite length_app, length_map; cbn; lia).
  set (s4 := set_escsz (Z.of_nat (length e) + 1)
               (set_escbuf (wr (escbuf s3) (Z.of_nat (length e)) 80) s3)).
  assert (M4 : line_model 80 s3 = Done s4).
  { apply model_push_upper; auto; [| lia | unfold is_upper; lia].
    destruct ds; [congruence | cbn [length] in Hle; lia]. }
  assert (A4 : in_escape (delete_seq ds) s4).
  { change (delete_seq ds) with (e ++ [80]).
    apply escape_pushed; [exact A3 | lia]. }
  assert (Hline4 : line_is L p s4) by exact Hline3.
  destruct (delete_ahead ds L p s4 A4 Hline4)
    as (s5 & E5 & Hline5 & Eb5 & Ez5 & T5 & M5 & W5 & _); auto.
  assert (E : tty_bytes (delete_seq ds) s = Done (putrout 80 s5)).
  { change (delete_seq ds) with ([27] ++ [91] ++ map (fun d => 48 + d) ds
                                   ++ [80]).
    rewrite tty_bytes_app. cbn [tty_bytes]. rewrite E1. cbn [bind].
    rewrite tty_bytes_app. cbn [tty_bytes]. rewrite E2. cbn [bind].
    rewrite tty_bytes_app, E3. cbn [bind tty_bytes].
    unfold tty_byte. rewrite M4. cbn [bind]. rewrite E5. reflexivity. }
  assert (A5 : in_escape (delete_seq ds) s5).
  { destruct A4 as (Hl4 & Hz4 & Ht4). unfold in_escape.
    rewrite Eb5, Ez5. auto. }
  exists (putrout 80 s5). split; [exact E |].
  split; [apply putrout_line; exact Hline5 |].
  destruct (putrout_fields 80 s5) as (Tp & Mp).
  destruct Q as (Qp & Qt & Qm).
  split; [apply (putrout_escape _ 80 s5 A5) |].
  split; [rewrite Tp, T5; exact Qt |].
  split; [rewrite Mp, M5; exact Qm |].
  apply (frame_logfd _ _ _ E).
Qed.

(** A call that ends a line while an escape sequence may be
    unfinished: the carriage return drops the sequence. *)
Lemma line_call_open body L p s :
  at_line [] 0 s ->
  (forall s0, at_line [] 0 s0 -> swcol s0 = swcol s ->
     exists s1, tty_bytes body s0 = Done s1 /\ line_is L p s1
                /\ length (escbuf s1) = 1024%nat /\ trace s1 = trace s0) ->
  Z.of_nat (length L) < 1024 ->
  logfd s <> 0 -> rawlogfd s <> logfd s -> logfd s <> 1 ->
  exists s',
    process_tty_out (body ++ [13; 10]) s = Done s'
    /\ written (logfd s) (added s (Done s')) = L ++ [10]
    /\ at_line [] 0 s'.
Proof.
  intros Hs Hbody Hlen Hfd Hraw H1.
  destruct (call_start (body ++ [13; 10]) s) as (A0 & M0 & L0 & W0 & _).
  set (s0 := if rawlogfd s =? 0 then _ else _) in *.
  destruct (Hbody s0 (A0 _ _ Hs) W0) as (s1 & E1 & A1 & El1 & T1).
  destruct (frame_logfd body s0 s1 E1) as (Lg1 & _).
  destruct (step_cr L p s1 A1 El1) as (s2 & E2 & A2 & T2 & M2).
  destruct (step_lf L _ s2 A2 Hlen) as (s3 & E3 & A3 & T3 & M3).
  destruct (frame_logfd1 13 s1 s2 E2) as (Lg2 & _).
  assert (Hl2 : logfd s2 = logfd s) by congruence.
  rewrite Hl2 in T3. replace (logfd s =? 0) with false in T3 by lia.
  destruct (call_log (body ++ [13; 10]) s s3 [Write (logfd s) (L ++ [10])])
    as (s' & E' & W' & A' & M'); auto.
  { fold s0. rewrite tty_bytes_app, E1. cbn [bind tty_bytes].
    rewrite E2. cbn [bind]. rewrite E3. reflexivity. }
  { fold s0. rewrite T3, T2, T1. reflexivity. }
  exists s'. split; [exact E' |]. split; [| apply A'; exact A3].
  rewrite W'. cbn [written]. rewrite Z.eqb_refl, app_nil_r. reflexivity.
Qed.

(** X17.  [ESC [ n P] deletes [n] characters ahead of the cursor from
    the line that goes to the text log.  With the cursor brought to
    column [k] of a typed text (carriage return, then [k] times cursor
    right), the line logged is the text without the [n] bytes from
    column [k] on, as long as text remains beyond them; a count that
    reaches the end of the line or goes past it deletes nothing. *)
Theorem deleted_ahead_not_logged text k ds s :
  at_line [] 0 s -> swcol s = 0 ->
  Forall is_text text -> Z.of_nat (length text) < 1024 ->
  Forall digit ds -> ds <> [] -> (length ds <= 9)%nat ->
  Z.of_nat k < 2 ^ 31 ->
  logfd s <> 0 -> rawlogfd s <> logfd s -> logfd s <> 1 ->
  exists s',
    process_tty_out
      ((text ++ [13] ++ concat (repeat [27; 91; 67] k) ++ delete_seq ds)
         ++ [13; 10]) s = Done s'
    /\ written (logfd s) (added s (Done s'))
       = (if Z.of_nat k + number ds <? Z.of_nat (length text)
          then take k text ++ drop (k + Z.to_nat (number ds)) text
          else text) ++ [10]
    /\ at_line [] 0 s'.
Proof.
  intros Hs Hsw Ht Hlen Hds Hne Hl9 Hk Hfd Hraw H1.
  pose proof (number_bound ds Hds) as Hn.
  apply (line_call_open _ _ (Z.of_nat k)); auto.
  2:{ destruct (_ <? _); [| exact Hlen].
      rewrite length_app, length_take, length_drop. lia. }
  intros s0 H0 Hsw0.
  destruct (typed text s0 H0 Ht Hlen) as (s1 & E1 & A1 & C1).
  destruct (frame_logfd text s0 s1 E1) as (_ & W1).
  destruct A1 as (A1 & A1e).
  destruct (step_cr text _ s1 A1) as (s2 & E2 & A2 & C2); [apply A1e |].
  rewrite W1, Hsw0, Hsw in A2. change (0 =? 0) with true in A2. cbv iota in A2.
  destruct (frame_logfd1 13 s1 s2 E2) as (_ & W2).
  destruct (steps_right k text 0 s2 A2) as (s3 & E3 & A3 & C3); [lia | lia |].
  rewrite Z.add_0_l in A3.
  destruct (steps_delete ds text (Z.of_nat k) s3 A3)
    as (s4 & E4 & A4 & El4 & T4 & M4 & W4); auto; try lia.
  assert (E2' : tty_bytes [13] s1 = Done s2)
    by (cbn [tty_bytes]; rewrite E2; reflexivity).
  exists s4. rewrite tty_bytes_app, E1. cbn [bind].
  rewrite tty_bytes_app, E2'. cbn [bind].
  rewrite tty_bytes_app, E3. cbn [bind].
  split; [exact E4 |].
  split.
  { rewrite Nat2Z.id in A4.
    replace (Z.to_nat (Z.of_nat k + number ds))
      with (k + Z.to_nat (number ds))%nat in A4 by lia.
    exact A4. }
  split; [exact El4 |].
  destruct C1 as (T1 & _). destruct C2 as (T2 & _). destruct C3 as (T3 & _).
  congruence.
Qed.

Lemma deleted_ahead_not_logged_witness :
  exists s',
    process_tty_out
      ((bytes_of "$ asdfasdfasdf # asdfasdfasdf" ++ [13]
          ++ concat (repeat [27; 91; 67] 2) ++ delete_seq [1; 2])
         ++ [13; 10]) (set_logfd 6 wts0) = Done s'
    /\ written 6 (added (set_logfd 6 wts0) (Done s'))
       = (if Z.of_nat 2 + number [1; 2]
             <? Z.of_nat (length (bytes_of "$ asdfasdfasdf # asdfasdfasdf"))
          then take 2 (bytes_of "$ asdfasdfasdf # asdfasdfasdf")
                 ++ drop (2 + Z.to_nat (number [1; 2]))
                      (bytes_of "$ asdfasdfasdf # asdfasdfasdf")
          else bytes_of "$ asdfasdfasdf # asdfasdfasdf") ++ [10]
    /\ at_line [] 0 s'.
Proof.
  apply (deleted_ahead_not_logged (bytes_of "$ asdfasdfasdf # asdfasdfasdf")
           2 [1; 2] (set_logfd 6 wts0)).
  - unfold at_line, line_is, in_escape. cbn. auto 10.
  - reflexivity.
  - apply List.Forall_forall. intros x Hx. cbv in Hx. unfold is_text.
    intuition lia.
  - cbn. lia.
  - apply List.Forall_forall. intros x Hx. cbv in Hx. unfold digit.
    intuition lia.
  - discriminate.
  - cbn. lia.
  - cbn. lia.
  - cbn. lia.
  - cbn. lia.
  - cbn. lia.
Defined.
End TtyDelete.

(** * The terminal filter across calls *)

Module TtySplit.
Import Session Keys Tty TtySteps.

(** From one run against its own core to any two runs with the same
    core. *)
Lemma core_fn_intro k :
  (forall s, alike s (tty_core s) (k s) (k (tty_core s))) -> core_fn k.
Proof.
  intros H x y Hxy.
  destruct (H x) as (C1 & n1 & T1 & U1).
  destruct (H y) as (C2 & n2 & T2 & U2).
  rewrite Hxy in C1, U1. split; [congruence |].
  exists n1. split; [exact T1 |].
  change (trace (tty_core y) ++ n1) with n1 in U1.
  change (trace (tty_core y) ++ n2) with n2 in U2.
  rewrite T2. congruence.
Qed.

(** Close [alike s (tty_core s) (Done X) (Done X0)] for states written
    with setters and [emit]. *)
Ltac core_leaf :=
  match goal with
  | |- alike _ _ ?r1 ?r2 =>
      split; [reflexivity |];
      exists (trace (state_of r2)); split; [| reflexivity];
      unfold fullwrite, dump, emit, tty_core, no_rout;
      cbn [state_of trace
           set_sendsigwin set_swrow set_swcol set_wsi set_winsize set_escp
           set_linebuf set_escbuf set_linesz set_linepos set_escsz
           set_altscren set_appcursor set_rwout set_rwoutbuf set_rwoutsz
           set_rwoutlen set_logfd set_rawlogfd set_kbufsz set_kbuf set_dimp
           set_trace app];
      rewrite <- ?app_assoc;
      first [reflexivity | symmetry; apply app_nil_r]
  end.

(** Bring the tests on the core of [s] to the tests on [s]. *)
Ltac core_tests :=
  unfold tty_core, no_rout;
  cbn [sendsigwin swrow swcol wsi winsize escp linebuf escbuf linesz
       linepos escsz altscren appcursor rwout logfd rawlogfd kbufsz kbuf
       dimp
       set_sendsigwin set_swrow set_swcol set_wsi set_winsize set_escp
       set_linebuf set_escbuf set_linesz set_linepos set_escsz
       set_altscren set_appcursor set_rwout set_rwoutbuf set_rwoutsz
       set_rwoutlen set_logfd set_rawlogfd set_kbufsz set_kbuf set_dimp
       set_trace].

(** Take the tests one by one, innermost first, on both runs at
    once. *)
Ltac core_ifs :=
  core_tests;
  repeat (match goal with
          | |- context [if ?c then _ else _] =>
              lazymatch c with
              | context [if _ then _ else _] => fail
              | _ => destruct c
              end
          | |- context [let '(_, _) := ?p in _] => destruct p
          end; core_tests).

Lemma tty_core_putrout b s : tty_core (putrout b s) = tty_core s.
Proof.
  unfold tty_core. rewrite no_rout_putrout. reflexivity.
Qed.

Lemma tty_core_putroutraw str s : tty_core (putroutraw str s) = tty_core s.
Proof.
  unfold tty_core. rewrite no_rout_putroutraw. reflexivity.
Qed.

Lemma core_fn_rout (f : session -> session) :
  (forall s, tty_core (f s) = tty_core s) ->
  (forall s, trace (f s) = trace s) ->
  core_fn (fun s => Done (f s)).
Proof.
  intros Hc Ht x y Hxy. split.
  - cbn [core_of]. rewrite !Hc, Hxy. reflexivity.
  - exists []. cbn [state_of]. rewrite !Ht, !app_nil_r. auto.
Qed.

Lemma putrout_core b : core_fn (fun s => Done (putrout b s)).
Proof.
  apply core_fn_rout; [apply tty_core_putrout |].
  intros s. apply (putrout_fields b s).
Qed.

Lemma core_fn_pre (f : session -> session) k :
  (forall s, tty_core (f s) = f (tty_core s)) ->
  (forall s, trace (f s) = trace s) ->
  core_fn k -> core_fn (fun s => k (f s)).
Proof.
  intros Hc Ht Hk x y Hxy.
  destruct (Hk (f x) (f y)) as (C & n & T & U).
  { rewrite !Hc, Hxy. reflexivity. }
  split; [exact C |]. exists n. rewrite (Ht x) in T. rewrite (Ht y) in U.
  auto.
Qed.

Lemma alt_core str h :
  core_fn (fun s => Done (putroutraw str (set_altscren h s))).
Proof.
  apply (core_fn_pre (set_altscren h)
           (fun s => Done (putroutraw str s))); try reflexivity.
  apply core_fn_rout; [apply tty_core_putroutraw |].
  intros s. apply (putroutraw_fields str s).
Qed.

Lemma core_fn_self k s :
  core_fn k -> alike s (tty_core s) (k s) (k (tty_core s)).
Proof. intros Hk. apply (Hk s (tty_core s)). reflexivity. Qed.

Lemma CONSUMEESC_core p yes no s :
  core_fn yes -> core_fn no ->
  alike s (tty_core s) (CONSUMEESC p s yes no)
    (CONSUMEESC p (tty_core s) yes no).
Proof.
  intros Hy Hn. unfold CONSUMEESC.
  change (escsz (tty_core s)) with (escsz s).
  change (escbuf (tty_core s)) with (escbuf s).
  destruct (1024 <? _); [core_leaf |].
  destruct (negb (escsz s =? _)); [apply core_fn_self, Hn |].
  destruct (negb (bytes_eqb _ _)); [apply core_fn_self, Hn |].
  apply (Hy (set_escsz 0 s) (set_escsz 0 (tty_core s))). reflexivity.
Qed.

Lemma line_put_core b : core_fn (line_put b).
Proof.
  apply core_fn_intro. intros s. unfold line_put. cbv zeta.
  core_ifs; core_leaf.
Qed.

Lemma deletechrahead_core : core_fn deletechrahead.
Proof.
  apply core_fn_intro. intros s. unfold deletechrahead. cbv zeta.
  core_ifs; core_leaf.
Qed.

Lemma csi_lower_core b k :
  core_fn k -> core_fn (fun s => csi_lower b s k).
Proof.
  intros Hk. apply core_fn_intro. intros s. unfold csi_lower. cbv zeta.
  apply CONSUMEESC_core;
    [apply core_fn_intro; intros s1; core_leaf |].
  apply core_fn_intro. intros s1.
  apply CONSUMEESC_core; [apply alt_core |].
  apply core_fn_intro. intros s2.
  apply CONSUMEESC_core; [apply alt_core |].
  apply core_fn_intro. intros s3.
  apply CONSUMEESC_core; [apply alt_core |].
  apply core_fn_intro. intros s4.
  change (escsz (tty_core s4)) with (escsz s4).
  change (escbuf (tty_core s4)) with (escbuf s4).
  destruct (_ && _); [core_leaf | apply core_fn_self, Hk].
Qed.

Lemma line_model_core b : core_fn (line_model b).
Proof.
  assert (Hlower : core_fn (fun s =>
    if (b =? 27) || negb (escsz s =? 0) then
      let s0 := if b =? 27 then set_escsz 0 s else s in
      Done (set_escsz ((escsz s0 + 1) mod U32)
              (set_escbuf (wr (escbuf s0) (SAFEPTR 1024 (escsz s0) 1) b) s0))
    else line_put b s)).
  { apply core_fn_intro. intros s.
    change (escsz (tty_core s)) with (escsz s).
    destruct (_ || _); [| apply core_fn_self, line_put_core].
    cbv zeta. core_ifs; core_leaf. }
  assert (Hrest : core_fn (fun s =>
    if (97 <=? b) && (b <=? 122) then
      csi_lower b s (fun s =>
        if (b =? 27) || negb (escsz s =? 0) then
          let s0 := if b =? 27 then set_escsz 0 s else s in
          Done (set_escsz ((escsz s0 + 1) mod U32)
                  (set_escbuf (wr (escbuf s0) (SAFEPTR 1024 (escsz s0) 1) b)
                     s0))
        else line_put b s)
    else
      (if (b =? 27) || negb (escsz s =? 0) then
         let s0 := if b =? 27 then set_escsz 0 s else s in
         Done (set_escsz ((escsz s0 + 1) mod U32)
                 (set_escbuf (wr (escbuf s0) (SAFEPTR 1024 (escsz s0) 1) b)
                    s0))
       else line_put b s))).
  { destruct ((97 <=? b) && (b <=? 122)); [| exact Hlower].
    apply (csi_lower_core b _ Hlower). }
  apply core_fn_intro. intros s. unfold line_model.
  destruct (b =? 13); [core_ifs; core_leaf |].
  destruct (b =? 8); [core_ifs; core_leaf |].
  cbv zeta.
  destruct ((65 <=? b) && (b <=? 90)).
  - destruct (b =? 7).
    + apply (CONSUMEESC_core _ _ _ (set_escsz 0 s)); [| exact Hrest].
      apply core_fn_intro. intros s2. unfold csi_upper.
      core_ifs; core_leaf.
    + apply CONSUMEESC_core; [| exact Hrest].
      apply core_fn_intro. intros s2. unfold csi_upper.
      core_ifs; core_leaf.
  - destruct (b =? 7).
    + exact (Hrest (set_escsz 0 s) (set_escsz 0 (tty_core s)) eq_refl).
    + exact (Hrest s (tty_core s) eq_refl).
Qed.

Lemma bind_core (f g : session -> outcome session) :
  core_fn f -> core_fn g -> core_fn (fun s => bind (f s) g).
Proof.
  intros Hf Hg x y Hxy.
  destruct (Hf x y Hxy) as (C & n & T & U).
  destruct (f x) as [a | a | a], (f y) as [c | c | c]; try discriminate;
    cbn [bind state_of] in *.
  - destruct (Hg a c (f_equal state_of C)) as (C2 & n2 & T2 & U2).
    split; [exact C2 |]. exists (n ++ n2).
    rewrite T2, U2, T, U, !app_assoc. auto.
  - split; [exact C |]. exists n. auto.
  - split; [exact C |]. exists n. auto.
Qed.

Lemma tty_byte_core b : core_fn (tty_byte b).
Proof.
  unfold tty_byte.
  apply (bind_core (fun s => bind (line_model b s) deletechrahead)).
  - apply bind_core; [apply line_model_core | apply deletechrahead_core].
  - apply putrout_core.
Qed.

Lemma tty_bytes_core buf : core_fn (tty_bytes buf).
Proof.
  induction buf as [| b buf IH]; cbn [tty_bytes].
  - intros x y Hxy. split; [cbn; congruence |].
    exists []. rewrite !app_nil_r. auto.
  - apply (bind_core (tty_byte b) (tty_bytes buf));
      [apply tty_byte_core | exact IH].
Qed.

(** ** A call, and calls one after the other *)

Lemma core_field s t :
  tty_core s = tty_core t ->
  rawlogfd s = rawlogfd t /\ logfd s = logfd t /\ rwout s = rwout t.
Proof.
  intros H. split; [exact (f_equal rawlogfd H) |].
  split; [exact (f_equal logfd H) | exact (f_equal rwout H)].
Qed.

Lemma call_shape buf s :
  exists s0 (fin : session -> session),
    process_tty_out buf s = bind (tty_bytes buf s0) (fun s1 => Done (fin s1))
    /\ tty_core s0 = tty_core s
    /\ trace s0 = trace s ++ (if rawlogfd s =? 0 then []
                              else [Write (rawlogfd s) buf])
    /\ forall s1, tty_core (fin s1) = tty_core s1
         /\ exists o, trace (fin s1) = trace s1 ++ o
              /\ forall fd, fd <> 1 -> written fd o = [].
Proof.
  exists (if rawlogfd s =? 0 then set_rwoutlen 0 s
          else fullwrite (rawlogfd s) buf (set_rwoutlen 0 s)),
         (fun s1 => if rwout (putroutraw [10] s1)
                    then fullwrite 1 (rout (putroutraw [10] s1))
                           (putroutraw [10] s1)
                    else putroutraw [10] s1).
  split; [reflexivity |].
  split; [destruct (rawlogfd s =? 0); reflexivity |].
  split; [destruct (rawlogfd s =? 0); [symmetry; apply app_nil_r
                                      | reflexivity] |].
  intros s1. destruct (putroutraw_fields [10] s1) as (T & _).
  pose proof (tty_core_putroutraw [10] s1) as C.
  destruct (rwout (putroutraw [10] s1)).
  - split; [exact C |].
    exists [Write 1 (rout (putroutraw [10] s1))].
    split; [unfold fullwrite, emit; cbn [trace set_trace]; rewrite T;
            reflexivity |].
    intros fd Hfd. cbn [written].
    destruct (Z.eqb_spec 1 fd); [congruence | reflexivity].
  - split; [exact C |]. exists []. rewrite app_nil_r. auto.
Qed.

Lemma rawpart_nil fd s : rawpart fd s [] = [].
Proof.
  unfold rawpart. destruct (rawlogfd s =? 0), (rawlogfd s =? fd); reflexivity.
Qed.

Lemma rawpart_same fd s t bs :
  rawlogfd s = rawlogfd t -> rawpart fd s bs = rawpart fd t bs.
Proof. unfold rawpart. intros ->. reflexivity. Qed.

Lemma written_raw fd s bs :
  written fd (if rawlogfd s =? 0 then [] else [Write (rawlogfd s) bs])
  = rawpart fd s bs.
Proof.
  unfold rawpart. destruct (rawlogfd s =? 0); [reflexivity |].
  cbn. destruct (rawlogfd s =? fd); [apply app_nil_r | reflexivity].
Qed.

Lemma calls_bytes bufs : forall s t,
  tty_core s = tty_core t -> rawlogfd s = 0 \/ rawlogfd s <> logfd s ->
  is_done (tty_calls bufs s) = is_done (tty_bytes (concat bufs) t)
  /\ forall s' t',
       tty_calls bufs s = Done s' -> tty_bytes (concat bufs) t = Done t' ->
       tty_core s' = tty_core t'
       /\ exists M N, trace s' = trace s ++ M /\ trace t' = trace t ++ N
            /\ forall fd, fd <> 1 ->
                 written fd M = rawpart fd s (concat bufs) ++ written fd N.
Proof.
  induction bufs as [| a r IH]; intros s t Hst Hfd.
  - cbn. split; [reflexivity |]. intros s' t' E1 E2.
    injection E1 as <-. injection E2 as <-. split; [exact Hst |].
    exists [], []. rewrite !app_nil_r. split; [reflexivity |].
    split; [reflexivity |]. intros fd _. rewrite rawpart_nil. reflexivity.
  - cbn [tty_calls concat]. rewrite tty_bytes_app.
    destruct (call_shape a s) as (s0 & fin & EP & C0 & T0 & Hfin).
    rewrite EP.
    destruct (tty_bytes_core a s0 t) as (C & n & T & U); [congruence |].
    pose proof (TtyFrame.tty_bytes_frames a t) as (_ & Lg & Rg & _ & n' & Tn & Qn).
    destruct (tty_bytes a s0) as [u1 | u1 | u1],
             (tty_bytes a t) as [t1 | t1 | t1]; try discriminate;
      cbn [bind state_of is_done] in *;
      try (split; [reflexivity | intros ? ? ?; discriminate]).
    assert (Hn : n' = n) by (rewrite U in Tn; apply app_inv_head in Tn; auto).
    subst n'.
    destruct (Hfin u1) as (Cf & o & To & Qo).
    assert (Cv : tty_core (fin u1) = tty_core t1).
    { rewrite Cf. exact (f_equal state_of C). }
    destruct (core_field _ _ Cv) as (R1 & L1 & _).
    destruct (core_field _ _ Hst) as (R0 & L0 & _).
    assert (Rv : rawlogfd (fin u1) = rawlogfd s) by congruence.
    destruct (IH (fin u1) t1 Cv) as (Hd & Hrest).
    { rewrite Rv, L1, Lg, <- L0. exact Hfd. }
    split; [exact Hd |]. intros s' t' E1 E2.
    destruct (Hrest s' t' E1 E2) as (Cs & M2 & N2 & TM & TN & HW).
    split; [exact Cs |].
    exists ((if rawlogfd s =? 0 then [] else [Write (rawlogfd s) a])
              ++ n ++ o ++ M2), (n ++ N2).
    split; [rewrite TM, To, T, T0, <- !app_assoc; reflexivity |].
    split; [rewrite TN, U, <- app_assoc; reflexivity |].
    intros fd Hfd1.
    rewrite !KbdFunction.written_app, written_raw, (Qo fd Hfd1),
      (HW fd Hfd1), (rawpart_same fd (fin u1) s _ Rv).
    cbn [app]. unfold rawpart.
    destruct (Z.eqb_spec (rawlogfd s) 0) as [Ez | Ez]; [reflexivity |].
    destruct (Z.eqb_spec (rawlogfd s) fd) as [Ef | Ef]; [| reflexivity].
    rewrite (Qn fd), <- app_assoc; [reflexivity |].
    destruct Hfd as [Hz | Hne]; [congruence |]. congruence.
Qed.

(** X18.  How the output of the terminal is cut into calls of
    [process_tty_out] does not matter to the filter: calls on the pieces,
    one after the other, end as one call on the whole output does, and
    when they return they leave the same state of the filter (line,
    cursor, unfinished escape sequence, modes) and have written the same
    bytes to every descriptor but standard output, to the text log and
    the raw log above all.  The raw log must be off or differ from the
    text log. *)
Theorem calls_immaterial bufs s :
  rawlogfd s = 0 \/ rawlogfd s <> logfd s ->
  is_done (tty_calls bufs s) = is_done (process_tty_out (concat bufs) s)
  /\ forall s1 s2,
       tty_calls bufs s = Done s1 ->
       process_tty_out (concat bufs) s = Done s2 ->
       tty_core s1 = tty_core s2
       /\ forall fd, fd <> 1 ->
            written fd (added s (Done s1)) = written fd (added s (Done s2)).
Proof.
  intros Hfd.
  destruct (call_shape (concat bufs) s) as (s0 & fin & EP & C0 & T0 & Hfin).
  destruct (calls_bytes bufs s s0 (eq_sym C0) Hfd) as (Hd & Hrest).
  rewrite EP. split.
  - rewrite Hd. destruct (tty_bytes (concat bufs) s0); reflexivity.
  - intros s1 s2 E1 E2.
    destruct (tty_bytes (concat bufs) s0) as [t' | t' | t'] eqn:Et;
      try discriminate.
    cbn [bind] in E2. injection E2 as <-.
    destruct (Hrest s1 t' E1 eq_refl) as (Cs & M & N & TM & TN & HW).
    destruct (Hfin t') as (Cf & o & To & Qo).
    split; [congruence |].
    intros fd Hfd1. unfold added. cbn [state_of].
    rewrite TM, To, TN, T0, <- !app_assoc, !drop_app_length.
    rewrite !KbdFunction.written_app, written_raw, (Qo fd Hfd1),
      (HW fd Hfd1), app_nil_r.
    reflexivity.
Qed.

Lemma calls_immaterial_witness :
  let s := set_rawlogfd 7 (set_logfd 6 wts0) in
  let bufs := [bytes_of "123 UIO" ++ [8; 8; 8; 27; 91]; [67; 27];
               [91; 67]; [27; 91; 75]; [13; 10]] in
  exists s1 s2,
    tty_calls bufs s = Done s1
    /\ process_tty_out (concat bufs) s = Done s2
    /\ tty_core s1 = tty_core s2
    /\ forall fd, fd <> 1 ->
         written fd (added s (Done s1)) = written fd (added s (Done s2)).
Proof.
  intros s bufs.
  exists (state_of (tty_calls bufs s)),
         (state_of (process_tty_out (concat bufs) s)).
  assert (E1 : tty_calls bufs s = Done (state_of (tty_calls bufs s)))
    by (vm_compute; reflexivity).
  assert (E2 : process_tty_out (concat bufs) s
               = Done (state_of (process_tty_out (concat bufs) s)))
    by (vm_compute; reflexivity).
  split; [exact E1 |]. split; [exact E2 |].
  assert (Hfd : rawlogfd s = 0 \/ rawlogfd s <> logfd s)
    by (right; cbn; lia).
  exact (proj2 (calls_immaterial bufs s Hfd) _ _ E1 E2).
Defined.
End TtySplit.

(** * The query string *)

Module QueryFacts.
Import Session Query.

Ltac zb :=
  symmetry;
  first [apply Z.eqb_eq | apply Z.eqb_neq | apply Z.ltb_lt | apply Z.ltb_ge
        | apply Z.leb_le | apply Z.leb_gt]; lia.

(** ** The conversion *)

Lemma xdigit_range c :
  isxdigit c = true ->
  48 <= c <= 102 /\ isspace c = false /\ c <> 38 /\ c <> 37 /\ c <> 45
  /\ c <> 43 /\ 0 <= xval c < 16.
Proof.
  unfold isxdigit, isspace, xval, isdigit.
  destruct (Z.leb_spec 48 c), (Z.leb_spec c 57), (Z.leb_spec 97 c),
    (Z.leb_spec c 102), (Z.leb_spec 65 c), (Z.leb_spec c 70);
    cbn [andb orb]; intros Hx; try discriminate;
    (split; [lia |]);
    (split; [destruct (Z.eqb_spec c 32), (Z.leb_spec 9 c), (Z.leb_spec c 13);
             cbn [andb orb]; first [reflexivity | lia] |]);
    lia.
Qed.

Lemma skip_space_app x : forall n more,
  no_amp x ->
  skip_space (x ++ 38 :: more) n
  = (fst (skip_space x n) ++ 38 :: more, snd (skip_space x n)).
Proof.
  induction x as [| c x IH]; intros n more Hx; [reflexivity |].
  apply Forall_cons_1 in Hx as (Hc & Hx).
  cbn [app skip_space]. destruct (isspace c); [apply IH; exact Hx |].
  reflexivity.
Qed.

Lemma skip_space_count x : forall n,
  0 <= snd (skip_space x n) - n
  /\ Z.of_nat (length x)
     = snd (skip_space x n) - n + Z.of_nat (length (fst (skip_space x n)))
  /\ Forall (fun c => c <> 38) (fst (skip_space x n)) \/ ~ no_amp x.
Proof.
  induction x as [| c x IH]; intros n; cbn [skip_space].
  - left. cbn. repeat split; try lia. constructor.
  - destruct (isspace c).
    + destruct (IH (n + 1)) as [(H1 & H2 & H3) | H]; [left | right].
      * cbn [length]. repeat split; try lia. exact H3.
      * intros Hx. apply H. apply Forall_cons_1 in Hx. apply Hx.
    + destruct (decide (no_amp (c :: x))) as [Hx | Hx]; [left | right; auto].
      cbn. repeat split; try lia. exact Hx.
Qed.

Lemma scan_field_app lc s1 k more :
  no_amp s1 -> scan_field lc (s1 ++ 38 :: more) k = scan_field lc s1 k.
Proof.
  intros Hs. destruct s1 as [| c1 [| c2 r]]; cbn [app scan_field].
  - reflexivity.
  - change (isxdigit 38) with false.
    change ((38 =? 120) || (38 =? 88)) with false.
    rewrite andb_false_r. reflexivity.
  - reflexivity.
Qed.

Lemma sscanf_app lc x more :
  no_amp x -> sscanf_2x lc (x ++ 38 :: more) = sscanf_2x lc x.
Proof.
  intros Hx. unfold sscanf_2x. rewrite skip_space_app by exact Hx.
  destruct (skip_space_count x 0) as [(_ & _ & H) | H]; [| contradiction].
  destruct (skip_space x 0) as [s1 k]. cbn [fst snd] in *.
  apply scan_field_app. exact H.
Qed.

Lemma scan_field_count lc s1 k v cnt :
  scan_field lc s1 k = Some (v, cnt) ->
  0 <= v < U32
  /\ (cnt = k + 1 /\ (1 <= length s1)%nat
      \/ cnt = k + 2 /\ (2 <= length s1)%nat).
Proof.
  unfold scan_field, U32.
  destruct s1 as [| c1 [| c2 r]]; [discriminate | |].
  - destruct ((c1 =? 45) || (c1 =? 43)); [discriminate |].
    destruct (isxdigit c1) eqn:X1; [| discriminate].
    intros E. injection E as <- <-.
    pose proof (xdigit_range c1 X1). cbn [length]. split; [lia |].
    left. split; [reflexivity | lia].
  - destruct ((c1 =? 45) || (c1 =? 43)).
    + destruct (isxdigit c2) eqn:X2; [| discriminate].
      intros E. injection E as <- <-.
      pose proof (xdigit_range c2 X2). cbn [length].
      split; [| right; split; [reflexivity | lia]].
      destruct (c1 =? 45); [apply Z.mod_pos_bound; lia | lia].
    + destruct (isxdigit c1) eqn:X1; [| discriminate].
      pose proof (xdigit_range c1 X1).
      destruct (isxdigit c2) eqn:X2.
      * intros E. injection E as <- <-.
        pose proof (xdigit_range c2 X2). cbn [length].
        split; [lia |]. right. split; [reflexivity | lia].
      * destruct ((c1 =? 48) && ((c2 =? 120) || (c2 =? 88)));
          [destruct lc; [discriminate | |] |];
          intros E; injection E as <- <-; cbn [length];
          (split; [lia |]);
          first [left; split; [reflexivity | lia]
                | right; split; [reflexivity | lia]].
Qed.

(** A conversion that reports two bytes has read two bytes of the
    string, and neither is [&]. *)
Lemma sscanf_two lc x v :
  no_amp x -> sscanf_2x lc x = Some (v, 2) -> (2 <= length x)%nat.
Proof.
  intros Hx. unfold sscanf_2x.
  destruct (skip_space_count x 0) as [(H1 & H2 & _) | H]; [| contradiction].
  destruct (skip_space x 0) as [s1 k]. cbn [fst snd] in *.
  intros E. destruct (scan_field_count lc s1 k v 2 E) as (_ & [H | H]); lia.
Qed.

Lemma sscanf_hex2 lc h l r :
  isxdigit h = true -> isxdigit l = true ->
  sscanf_2x lc (h :: l :: r) = Some (16 * xval h + xval l, 2).
Proof.
  intros Hh Hl. pose proof (xdigit_range h Hh) as (R & Sp & _ & _ & M & P & _).
  unfold sscanf_2x. cbn [skip_space]. rewrite Sp. cbn [scan_field].
  replace ((h =? 45) || (h =? 43)) with false by lia.
  rewrite Hh, Hl. reflexivity.
Qed.

(** ** The loop of [extract_query_arg] *)

Lemma sscanf_rest lc r rest :
  no_amp r -> arg_end rest -> sscanf_2x lc (r ++ rest) = sscanf_2x lc r.
Proof.
  intros Hr [-> | (more & ->)]; [rewrite app_nil_r; reflexivity |].
  apply sscanf_app. exact Hr.
Qed.

Lemma arg_loop_spec lc n : forall x,
  (length x <= n)%nat -> no_amp x ->
  exists buf,
    (length buf <= length x)%nat
    /\ forall fuel rest,
         arg_end rest -> (length x < fuel)%nat ->
         arg_loop lc fuel (Z.of_nat (length x)) (x ++ rest)
         = Some (buf, rest).
Proof.
  induction n as [| n IH]; intros x Hn Hx.
  - destruct x; [| cbn in Hn; lia]. exists []. split; [lia |].
    intros [| fuel] rest _ Hf; [cbn in Hf; lia | reflexivity].
  - destruct x as [| c r].
    { exists []. split; [cbn; lia |].
      intros [| fuel] rest _ Hf; [cbn in Hf; lia | reflexivity]. }
    pose proof Hx as Hx'. apply Forall_cons_1 in Hx' as (Hc & Hr).
    cbn [length] in Hn.
    assert (Hn0 : (Z.of_nat (length (c :: r)) =? 0) = false)
      by (apply Z.eqb_neq; cbn [length]; lia).
    destruct (IH r ltac:(lia) Hr) as (buf1 & Hl1 & H1).
    (* the byte is taken as it is, or as the conversion left it *)
    assert (Hplain : forall byte,
      exists buf,
        (length buf <= length (c :: r))%nat
        /\ forall fuel rest, arg_end rest -> (length (c :: r) < fuel)%nat ->
             match arg_loop lc (pred fuel) (Z.of_nat (length (c :: r)) - 1)
                     (r ++ rest) with
             | Some (out, rest0) => Some (byte :: out, rest0)
             | None => None
             end = Some (buf, rest)).
    { intros byte. exists (byte :: buf1). split; [cbn [length]; lia |].
      intros fuel rest Hrest Hf.
      replace (Z.of_nat (length (c :: r)) - 1) with (Z.of_nat (length r))
        by (cbn [length]; lia).
      rewrite H1 by (auto; cbn [length] in Hf; lia). reflexivity. }
    destruct (Z.eqb_spec c 37) as [E37 | N37].
    + destruct (sscanf_2x lc r) as [[v cnt] |] eqn:Es.
      * destruct (Z.eqb_spec cnt 2) as [E2 | N2].
        -- subst cnt. pose proof (sscanf_two lc r v Hr Es) as H2.
           destruct (IH (drop 2 r)) as (buf2 & Hl2 & H2').
           { rewrite length_drop. lia. }
           { apply Forall_drop. exact Hr. }
           exists (v mod 256 :: buf2). split.
           { cbn [length]. rewrite length_drop in Hl2. lia. }
           intros [| fuel] rest Hrest Hf; [lia |].
           cbn [arg_loop app]. rewrite Hn0.
           replace (c =? 37) with true by zb.
           rewrite (sscanf_rest lc r rest Hr Hrest), Es.
           change (2 =? 2) with true. cbv iota.
           rewrite drop_app_le by lia.
           replace (Z.of_nat (length (c :: r)) - 3)
             with (Z.of_nat (length (drop 2 r)))
             by (cbn [length]; rewrite length_drop; lia).
           rewrite H2'; [reflexivity | exact Hrest |].
           rewrite length_drop. cbn [length] in Hf. lia.
        -- destruct (Hplain (v mod 256)) as (buf & Hl & H).
           exists buf. split; [exact Hl |].
           intros [| fuel] rest Hrest Hf; [lia |].
           cbn [arg_loop app]. rewrite Hn0.
           replace (c =? 37) with true by zb.
           rewrite (sscanf_rest lc r rest Hr Hrest), Es.
           replace (cnt =? 2) with false by zb.
           apply (H (S fuel) rest Hrest Hf).
      * destruct (Hplain c) as (buf & Hl & H).
        exists buf. split; [exact Hl |].
        intros [| fuel] rest Hrest Hf; [lia |].
        cbn [arg_loop app]. rewrite Hn0.
        replace (c =? 37) with true by zb.
        rewrite (sscanf_rest lc r rest Hr Hrest), Es.
        apply (H (S fuel) rest Hrest Hf).
    + destruct (Hplain c) as (buf & Hl & H).
      exists buf. split; [exact Hl |].
      intros [| fuel] rest Hrest Hf; [lia |].
      cbn [arg_loop app]. rewrite Hn0.
      replace (c =? 37) with false by zb.
      apply (H (S fuel) rest Hrest Hf).
Qed.

Lemma strchrnul_app x rest :
  no_amp x -> arg_end rest -> strchrnul 38 (x ++ rest) = length x.
Proof.
  intros Hx Hrest. induction Hx as [| c x Hc Hx IH]; cbn [app strchrnul length].
  - destruct Hrest as [-> | (more & ->)]; reflexivity.
  - replace (c =? 38) with false by zb. rewrite IH. reflexivity.
Qed.

Lemma strchrnul_split l :
  exists x rest, l = x ++ rest /\ no_amp x /\ arg_end rest.
Proof.
  induction l as [| c l (x & rest & E & Hx & Hrest)].
  - exists [], []. split; [reflexivity |]. split; [constructor | left; auto].
  - destruct (Z.eq_dec c 38) as [-> | Hc].
    + exists [], (38 :: l). split; [reflexivity |].
      split; [constructor | right; eauto].
    + exists (c :: x), rest. rewrite E. split; [reflexivity |].
      split; [constructor; auto | exact Hrest].
Qed.

(** The prefix test. *)
Lemma prefix_test p l :
  bytes_eqb p (take (length p) l) = true <-> exists l', l = p ++ l'.
Proof.
  rewrite TtySteps.bytes_eqb_eq. split.
  - intros E. exists (drop (length p) l). rewrite E at 1.
    symmetry. apply take_drop.
  - intros (l' & ->). symmetry. apply take_app_length.
Qed.

Lemma extract_val lc pref x rest :
  no_amp x -> arg_end rest ->
  exists buf,
    (length buf <= length x)%nat
    /\ extract_query_arg lc (pref ++ x ++ rest) pref = Val buf rest
    /\ extract_query_arg lc (pref ++ x) pref = Val buf [].
Proof.
  intros Hx Hrest.
  destruct (arg_loop_spec lc (length x) x (le_n _) Hx) as (buf & Hl & H).
  exists buf. split; [exact Hl |].
  assert (Hp : forall l, bytes_eqb pref (take (length pref) (pref ++ l))
                         = true).
  { intros l. apply prefix_test. eauto. }
  split.
  - unfold extract_query_arg. rewrite Hp. cbn [negb].
    rewrite drop_app_length, strchrnul_app by assumption.
    rewrite H; [reflexivity | exact Hrest |].
    rewrite length_app. lia.
  - unfold extract_query_arg. rewrite Hp. cbn [negb].
    rewrite drop_app_length.
    rewrite <- (app_nil_r x) at 2 3.
    rewrite strchrnul_app by (auto; left; reflexivity).
    rewrite H; [reflexivity | left; reflexivity |].
    rewrite ?length_app. cbn. lia.
Qed.

(** X19.  [extract_query_arg] stays inside its argument, whatever bytes
    the query string holds: it returns [NULL] exactly when the string
    does not start with the prefix, and otherwise it stops at the first
    [&] after the prefix, or at the end of the string, having put into
    its buffer at most as many bytes as the argument has, so that the
    buffer of that size (and the terminator) is enough; [%] and the two
    bytes that [sscanf] reads after it never take it past the [&]. *)
Theorem query_arg_within lc qs pref :
  match extract_query_arg lc qs pref with
  | Null => ~ exists l, qs = pref ++ l
  | Val buf qs' =>
      exists x, qs = pref ++ x ++ qs' /\ no_amp x /\ arg_end qs'
                /\ (length buf <= length x)%nat
  | Overrun => False
  end.
Proof.
  destruct (bytes_eqb pref (take (length pref) qs)) eqn:E.
  - apply prefix_test in E as (l & ->).
    destruct (strchrnul_split l) as (x & rest & -> & Hx & Hrest).
    destruct (extract_val lc pref x rest Hx Hrest) as (buf & Hl & -> & _).
    exists x. auto.
  - unfold extract_query_arg. rewrite E. cbn [negb].
    intros H. apply prefix_test in H. congruence.
Qed.

Lemma toks_no_amp toks :
  Forall qtok_ok toks -> no_amp (flat_map qtok_bytes toks).
Proof.
  induction 1 as [| t toks Ht _ IH]; [constructor |].
  cbn [flat_map]. apply Forall_app. split; [| exact IH].
  destruct t as [b | h l]; cbn in *.
  - constructor; [lia | constructor].
  - destruct Ht as (Hh & Hl).
    pose proof (xdigit_range h Hh). pose proof (xdigit_range l Hl).
    repeat (constructor; [lia |]). constructor.
Qed.

Lemma toks_loop lc toks :
  Forall qtok_ok toks ->
  forall fuel rest,
    arg_end rest -> (length (flat_map qtok_bytes toks) < fuel)%nat ->
    arg_loop lc fuel (Z.of_nat (length (flat_map qtok_bytes toks)))
      (flat_map qtok_bytes toks ++ rest)
    = Some (map qtok_val toks, rest).
Proof.
  induction 1 as [| t toks Ht Hts IH]; intros fuel rest Hrest Hf.
  - destruct fuel; [cbn in Hf; lia | reflexivity].
  - cbn [flat_map map] in *. rewrite length_app in *.
    set (enc := flat_map qtok_bytes toks) in *.
    destruct fuel as [| fuel]; [lia |].
    destruct t as [b | h l]; cbn [qtok_bytes qtok_val app length] in *.
    + destruct Ht as (Hb & H37 & H38).
      cbn [arg_loop].
      replace (Z.of_nat (1 + length enc) =? 0) with false by zb.
      replace (b =? 37) with false by zb.
      replace (Z.of_nat (1 + length enc) - 1) with (Z.of_nat (length enc))
        by lia.
      rewrite IH by (auto; lia). reflexivity.
    + destruct Ht as (Hh & Hl).
      pose proof (xdigit_range h Hh) as (_ & _ & _ & _ & _ & _ & Vh).
      pose proof (xdigit_range l Hl) as (_ & _ & _ & _ & _ & _ & Vl).
      cbn [arg_loop].
      replace (Z.of_nat (3 + length enc) =? 0) with false by zb.
      change (37 =? 37) with true. cbv iota.
      rewrite sscanf_hex2 by assumption.
      change (2 =? 2) with true. cbv iota.
      change (drop 2 (h :: l :: enc ++ rest)) with (enc ++ rest).
      replace (Z.of_nat (3 + length enc) - 3) with (Z.of_nat (length enc))
        by lia.
      rewrite IH by (auto; lia).
      rewrite Z.mod_small by lia. reflexivity.
Qed.

(** X20.  An argument value is read as a client writes it: after the
    prefix, every [%] with two hexadecimal digits (of either case)
    gives the byte they spell, every other byte but [%] and [&] stands
    for itself, and the value ends at the [&] or at the end of the
    string, where [*qs] is left. *)
Theorem query_arg_decoded lc pref toks rest :
  Forall qtok_ok toks -> arg_end rest ->
  extract_query_arg lc (pref ++ flat_map qtok_bytes toks ++ rest) pref
  = Val (map qtok_val toks) rest.
Proof.
  intros Ht Hrest. unfold extract_query_arg.
  replace (bytes_eqb pref
             (take (length pref)
                (pref ++ flat_map qtok_bytes toks ++ rest))) with true
    by (symmetry; apply prefix_test; eauto).
  cbn [negb]. rewrite drop_app_length.
  rewrite strchrnul_app by (auto using toks_no_amp).
  rewrite toks_loop; auto. rewrite length_app. lia.
Qed.

Lemma query_arg_decoded_witness :
  extract_query_arg Rejects
    (bytes_of "pream=" ++ flat_map qtok_bytes
       [QLit 108; QLit 115; QPct 50 48; QLit 45; QLit 108; QPct 48 65]
       ++ bytes_of "&termid=x") (bytes_of "pream=")
  = Val (map qtok_val
           [QLit 108; QLit 115; QPct 50 48; QLit 45; QLit 108; QPct 48 65])
      (bytes_of "&termid=x").
Proof.
  apply (query_arg_decoded Rejects (bytes_of "pream=")).
  - repeat (constructor; [cbn; first [lia | auto] |]). constructor.
  - right. eexists. reflexivity.
Defined.

(** ** The loop of [parse_query] *)

Lemma prefix_embedded pref a rest l :
  no_amp pref -> no_amp a -> arg_end rest ->
  a ++ rest = pref ++ l -> exists l', a = pref ++ l'.
Proof.
  intros Hp Ha Hrest E.
  destruct (Nat.le_gt_cases (length pref) (length a)) as [Hle | Hgt].
  - exists (drop (length pref) a).
    rewrite <- (take_drop (length pref) a) at 1. f_equal.
    apply (f_equal (take (length pref))) in E.
    rewrite take_app_le, take_app_length in E by lia. exact E.
  - destruct Hrest as [-> | (more & ->)].
    + rewrite app_nil_r in E. apply (f_equal length) in E.
      rewrite length_app in E. lia.
    + exfalso.
      assert (H1 : (a ++ 38 :: more) !! length a = Some 38)
        by (apply list_lookup_middle; reflexivity).
      rewrite E, lookup_app_l in H1 by lia.
      unfold no_amp in Hp. rewrite Forall_lookup in Hp.
      exact (Hp _ _ H1 eq_refl).
Qed.

Lemma extract_embedded lc pref a rest :
  no_amp pref -> no_amp a -> arg_end rest ->
  match extract_query_arg lc a pref with
  | Val v _ => extract_query_arg lc (a ++ rest) pref = Val v rest
  | Null => extract_query_arg lc (a ++ rest) pref = Null
  | Overrun => False
  end.
Proof.
  intros Hp Ha Hrest.
  destruct (bytes_eqb pref (take (length pref) a)) eqn:E.
  - apply prefix_test in E as (x & ->).
    apply Forall_app in Ha as (_ & Hx).
    destruct (extract_val lc pref x rest Hx Hrest) as (buf & _ & E1 & E2).
    rewrite E2, <- app_assoc. exact E1.
  - unfold extract_query_arg at 1. rewrite E. cbn [negb].
    unfold extract_query_arg.
    destruct (bytes_eqb pref (take (length pref) (a ++ rest))) eqn:E';
      [| reflexivity].
    apply prefix_test in E' as (l & E').
    destruct (prefix_embedded pref a rest l Hp Ha Hrest E') as (l' & H).
    assert (bytes_eqb pref (take (length pref) a) = true)
      by (apply prefix_test; eauto).
    congruence.
Qed.

Lemma join_rest a r : join_args (a :: r) = a ++ rest_of r.
Proof. destruct r; [symmetry; apply app_nil_r | reflexivity]. Qed.

Lemma rest_of_end r : arg_end (rest_of r).
Proof. destruct r; [left; reflexivity | right; eexists; reflexivity]. Qed.

Lemma keys_no_amp :
  no_amp (bytes_of "termid=") /\ no_amp (bytes_of "pream=").
Proof.
  split; apply List.Forall_forall; intros x Hx; cbv in Hx; intuition lia.
Qed.

(** One pass of the loop over an argument that is not empty, entered at
    the argument or at the [&] before it. *)
Lemma one_arg lc c a rest fuel q qs0 :
  no_amp (c :: a) -> arg_end rest ->
  qs0 = (c :: a) ++ rest \/ qs0 = 38 :: (c :: a) ++ rest ->
  parse_loop lc (S fuel) qs0 q
  = parse_loop lc fuel rest (apply_arg lc q (c :: a)).
Proof.
  intros Ha Hrest Hqs.
  pose proof Ha as Ha'. apply Forall_cons_1 in Ha' as (Hc & _).
  destruct keys_no_amp as (Kt & Kp).
  assert (Hskip : (match qs0 with
                   | c0 :: r => if c0 =? 38 then r else qs0
                   | [] => qs0
                   end) = (c :: a) ++ rest).
  { destruct Hqs as [-> | ->]; cbn [app].
    - replace (c =? 38) with false by zb. reflexivity.
    - reflexivity. }
  cbn [parse_loop]. rewrite Hskip. cbn [app].
  change (c :: a ++ rest) with ((c :: a) ++ rest).
  pose proof (extract_embedded lc (bytes_of "termid=") (c :: a) rest
                Kt Ha Hrest) as Ht.
  pose proof (extract_embedded lc (bytes_of "pream=") (c :: a) rest
                Kp Ha Hrest) as Hp.
  unfold apply_arg.
  destruct (extract_query_arg lc (c :: a) (bytes_of "termid="))
    as [| v qs' |]; [| rewrite Ht; reflexivity | contradiction].
  rewrite Ht.
  destruct (extract_query_arg lc (c :: a) (bytes_of "pream="))
    as [| v qs' |]; [| rewrite Hp; reflexivity | contradiction].
  rewrite Hp, strchrnul_app, drop_app_length by assumption.
  reflexivity.
Qed.

Lemma apply_arg_nil lc q : apply_arg lc q [] = q.
Proof. reflexivity. Qed.

Lemma parse_args lc args :
  Forall no_amp args ->
  forall q fuel,
    ((length (join_args args) < fuel)%nat ->
     parse_loop lc fuel (join_args args) q
     = Some (fold_left (apply_arg lc) args q))
    /\ ((length (join_args args) + 1 < fuel)%nat ->
        parse_loop lc fuel (38 :: join_args args) q
        = Some (fold_left (apply_arg lc) args q)).
Proof.
  induction 1 as [| a r Ha Hr IH]; intros q fuel.
  - split; intros Hf; (destruct fuel; [cbn in Hf; lia | reflexivity]).
  - rewrite join_rest. cbn [fold_left].
    pose proof (rest_of_end r) as Hrest.
    assert (Hnext : forall q' f,
      (length (rest_of r) < f)%nat ->
      parse_loop lc f (rest_of r) q'
      = Some (fold_left (apply_arg lc) r q')).
    { intros q' f Hf. destruct r as [| b r'].
      - destruct f; [cbn in Hf; lia | reflexivity].
      - apply (proj2 (IH q' f)). cbn [rest_of length] in Hf. lia. }
    destruct a as [| c a].
    + rewrite apply_arg_nil. cbn [app length]. split; intros Hf.
      * apply Hnext. exact Hf.
      * destruct fuel as [| fuel]; [lia |].
        destruct r as [| b r'].
        -- reflexivity.
        -- cbn [rest_of] in *. cbn [parse_loop].
           change (38 =? 38) with true. cbv iota.
           change (extract_query_arg lc (38 :: join_args (b :: r'))
                     (bytes_of "termid=")) with Null.
           change (extract_query_arg lc (38 :: join_args (b :: r'))
                     (bytes_of "pream=")) with Null.
           cbn [strchrnul]. change (38 =? 38) with true. cbv iota.
           rewrite drop_0.
           apply (proj2 (IH q fuel)). cbn [length] in Hf. lia.
    + split; intros Hf; (destruct fuel as [| fuel]; [lia |]).
      * rewrite (one_arg lc c a (rest_of r) fuel q) by auto.
        apply Hnext. rewrite length_app in Hf. cbn [length] in Hf. lia.
      * rewrite (one_arg lc c a (rest_of r) fuel q) by auto.
        apply Hnext. rewrite length_app in Hf. cbn [length] in Hf. lia.
Qed.

(** X21.  [parse_query] handles the arguments of the query string one by
    one, each on its own: the settings are those that the arguments
    give in turn, a later [termid=] or [pream=] replacing an earlier
    one, [termid] being cut at a zero byte as [strdup] does; arguments
    with another name, and empty ones, change nothing, and no argument
    reads into the next one. *)
Theorem query_args_apart lc args q :
  Forall no_amp args ->
  parse_query lc (Some (join_args args)) q
  = Some (fold_left (apply_arg lc) args q).
Proof.
  intros Hargs. unfold parse_query.
  apply (proj1 (parse_args lc args Hargs q _)). lia.
Qed.

Lemma query_args_apart_witness :
  parse_query Reads0x
    (Some (join_args [bytes_of "termid=a%2"; bytes_of "x=1"; [];
                      bytes_of "pream=ls%0a"; bytes_of "termid=b%00c"]))
    {| termid := None; pream := None |}
  = Some {| termid := Some (bytes_of "b");
            pream := Some (bytes_of "ls" ++ [10]) |}.
Proof.
  apply (query_args_apart Reads0x
           [bytes_of "termid=a%2"; bytes_of "x=1"; [];
            bytes_of "pream=ls%0a"; bytes_of "termid=b%00c"]).
  repeat (constructor;
          [apply List.Forall_forall; intros x Hx; cbv in Hx; intuition lia |]).
  constructor.
Defined.
End QueryFacts.
